(** * UserState: a shallow embedding of the Unirep user-state engine

    The development follows [packages/circuits/src/index.ts] (the [UserState]
    class).  Integers of the program ([number], [bigint], [BigNumber]) are
    unbounded [Z], except where the program converts a reputation with
    [Number(...)] and computes with the result: those values are doubles
    ([Number.t]).  JavaScript arrays are lists, with [push] written as
    appending at the end; objects used as dictionaries are finite maps or
    insertion-ordered association lists where the enumeration order matters.

    The leaves of the user state ([IUserStateLeaf]) are JavaScript objects
    that several arrays may reference at once, so they live in an explicit
    store ([heap]) and the arrays hold locations. *)

From Stdlib Require Import ZArith List Lia Bool Permutation Sorted SpecFloat.
From stdpp Require Import base option list gmap.

Local Open Scope Z_scope.

(** ** Reputation and attestations *)

Module Reputation.

(** Modelled from the spec: the [Reputation] class ([./Reputation]) is
    imported by the sources but its file is missing.  The spec's data model gives a
    reputation record as the accumulated (posRep, negRep, graffiti, signUp)
    of one attester, with posRep/negRep additive, graffiti replaced
    wholesale when overwritten (this version of [update] has no separate
    flag: a non-zero graffiti overwrites, as the [overwrite_graffities]
    input of [genUserStateTransitionProofs] shows) and signUp a monotonic
    OR. *)
Record t : Type := mk { posRep : Z; negRep : Z; graffiti : Z; signUp : Z }.

Definition default : t := mk 0 0 0 0.

Definition update (r : t) (p n g s : Z) : t :=
  mk (posRep r + p) (negRep r + n)
     (if g =? 0 then graffiti r else g)
     (Z.lor (signUp r) s).

(** Modelled from the spec: the serialized Reputation of the persisted
    shape, as [JSON.parse] reads it back: the four values of the record. *)
Record JSON : Type :=
  mkJSON { j_posRep : Z; j_negRep : Z; j_graffiti : Z; j_signUp : Z }.

Definition toJSON (r : t) : JSON :=
  mkJSON (posRep r) (negRep r) (graffiti r) (signUp r).

End Reputation.

Module Attestation.

(** The [IAttestation] shape, as the sources read it:
    [attesterId], [posRep], [negRep], [graffiti], [signUp]. *)
Record t : Type :=
  mk { attesterId : Z; posRep : Z; negRep : Z; graffiti : Z; signUp : Z }.

(** Modelled from the spec: [JSON.parse(JSON.stringify(a))] of an
    attestation of the staged snapshot: an object with the same five
    values. *)
Record JSON : Type :=
  mkJSON { j_attesterId : Z; j_posRep : Z; j_negRep : Z; j_graffiti : Z;
           j_signUp : Z }.

Definition stringify (a : t) : JSON :=
  mkJSON (attesterId a) (posRep a) (negRep a) (graffiti a) (signUp a).

End Attestation.

(** ** JavaScript objects used as dictionaries

    The keys the program uses are the decimal strings of integers
    ([x.toString()], read back with [BigInt(key)]); a key is modelled by
    that integer.  An object keeps its properties in insertion order, and
    [for (const key in o)] visits the array-index keys (the canonical
    integers from 0 to 2^32 - 2) in ascending order first, then the other
    keys in insertion order. *)
Module JSObject.

Section Obj.

Context {V : Type}.

(** [o[k] = v] *)
Fixpoint set (k : Z) (v : V) (o : list (Z * V)) : list (Z * V) :=
  match o with
  | [] => [(k, v)]
  | (k', v') :: o' =>
      if k' =? k then (k, v) :: o' else (k', v') :: set k v o'
  end.

(** [o[k]] *)
Fixpoint get (k : Z) (o : list (Z * V)) : option V :=
  match o with
  | [] => None
  | (k', v') :: o' => if k' =? k then Some v' else get k o'
  end.

Definition isArrayIndex (kv : Z * V) : bool :=
  (0 <=? fst kv) && (fst kv <? 2 ^ 32 - 1).

Fixpoint insertByKey (kv : Z * V) (l : list (Z * V)) : list (Z * V) :=
  match l with
  | [] => [kv]
  | x :: l' => if fst kv <? fst x then kv :: l else x :: insertByKey kv l'
  end.

Definition sortByKey (l : list (Z * V)) : list (Z * V) :=
  fold_right insertByKey [] l.

(** The properties in the order [for ... in] visits them. *)
Definition entries (o : list (Z * V)) : list (Z * V) :=
  sortByKey (List.filter isArrayIndex o)
  ++ List.filter (fun kv => negb (isArrayIndex kv)) o.

End Obj.

End JSObject.

(** ** JavaScript numbers

    [Number(x)] of an integer, and the sums and differences of such
    numbers, are doubles: integers rounded to 53 significant bits, to the
    nearest double and to the even one of two nearest; an infinity from
    [2 ^ 1024 - 2 ^ 970] on; [NaN] for the difference of two equal
    infinities. *)
Module Number.

Inductive t : Type :=
| Finite (z : Z)
| Infinity
| NegInfinity
| NaN.

(** The double nearest to the integer [z].  [ulp] is the distance between
    the doubles around [z]: 1 below [2 ^ 53], 2 from there to [2 ^ 54],
    and so on. *)
Definition round (z : Z) : t :=
  let m := Z.abs z in
  let ulp := 2 ^ Z.max 0 (Z.log2 m - 52) in
  let q := m / ulp in
  let r := m mod ulp in
  let q' :=
    if (ulp <? 2 * r) || ((ulp =? 2 * r) && Z.odd q) then q + 1 else q in
  let v := q' * ulp in
  if 2 ^ 1024 <=? v then (if z <? 0 then NegInfinity else Infinity)
  else Finite (Z.sgn z * v).

(** [Number(x)] for a [bigint] or a [BigNumber] [x]. *)
Definition ofInteger (x : Z) : t := round x.

Definition opp (x : t) : t :=
  match x with
  | Finite a => Finite (- a)
  | Infinity => NegInfinity
  | NegInfinity => Infinity
  | NaN => NaN
  end.

(** [x + y] *)
Definition add (x y : t) : t :=
  match x, y with
  | NaN, _ | _, NaN => NaN
  | Infinity, NegInfinity | NegInfinity, Infinity => NaN
  | Infinity, _ | _, Infinity => Infinity
  | NegInfinity, _ | _, NegInfinity => NegInfinity
  | Finite a, Finite b => round (a + b)
  end.

(** [x - y] *)
Definition sub (x y : t) : t := add x (opp y).

(** [x < y] *)
Definition ltb (x y : t) : bool :=
  match x, y with
  | NaN, _ | _, NaN => false
  | Finite a, Finite b => a <? b
  | Infinity, _ => false
  | _, Infinity => true
  | _, NegInfinity => false
  | NegInfinity, _ => true
  end.

(** [x <= y] *)
Definition leb (x y : t) : bool :=
  match x, y with
  | NaN, _ | _, NaN => false
  | Finite a, Finite b => a <=? b
  | _, Infinity => true
  | NegInfinity, _ => true
  | Infinity, _ => false
  | _, NegInfinity => false
  end.

(** [n++] for a counter that holds the integer [n]: from [2 ^ 53] on the
    sum [n + 1] is rounded, and at [2 ^ 53] it is rounded back to [n]. *)
Definition succ (n : Z) : Z :=
  match add (Finite n) (Finite 1) with
  | Finite m => m
  | _ => n
  end.

(** The same values in the Standard Library's specification of IEEE 754
    binary64, for comparison. *)
Definition toBinary64 (x : t) : spec_float :=
  match x with
  | Finite z => binary_normalize 53 1024 z 0 false
  | Infinity => S754_infinity false
  | NegInfinity => S754_infinity true
  | NaN => S754_nan
  end.

Definition ofBinary64 (f : spec_float) : t :=
  match f with
  | S754_zero _ => Finite 0
  | S754_infinity false => Infinity
  | S754_infinity true => NegInfinity
  | S754_nan => NaN
  | S754_finite sg m e =>
      Finite ((if sg then -1 else 1)
              * (if e <? 0 then Z.pos m / 2 ^ (- e) else Z.pos m * 2 ^ e))
  end.

Definition eqb (x y : t) : bool :=
  match x, y with
  | Finite a, Finite b => a =? b
  | Infinity, Infinity => true
  | NegInfinity, NegInfinity => true
  | NaN, NaN => true
  | _, _ => false
  end.

End Number.

(** [IUserState]: the object [toJSON] returns and [fromJSON] reads. *)
Module IUserState.

Record t : Type := {
  idNullifier : Z;
  idCommitment : Z;
  hasSignedUp : bool;
  latestTransitionedEpoch : Z;
  latestGSTLeafIndex : Z;
  latestUserStateLeaves : list (Z * Reputation.JSON);
  transitionedFromAttestations : list (Z * list Attestation.JSON)
}.

End IUserState.

(** [IUserStateLeaf]: one attester's reputation. *)
Record IUserStateLeaf : Type :=
  mkLeaf { attesterId : Z; reputation : Reputation.t }.

(** [ZkIdentity]: the secret pair of an identity. *)
Record ZkIdentity : Type := { identityNullifier : Z; trapdoor : Z }.

(** ** Collaborators

    Hashes, Merkle trees and the derivation of keys and nullifiers come from
    [@unirep/crypto] and [./utils]; the development is parametric in them. *)

Class Crypto : Type := {
  (* id.genIdentityCommitment() *)
  genIdentityCommitment : ZkIdentity -> Z;
  hash5 : list Z -> Z;
  hashLeftRight : Z -> Z -> Z;
  (* genEpochKey(identityNullifier, epoch, nonce, epochTreeDepth?) *)
  genEpochKey : Z -> Z -> Z -> option Z -> Z;
  (* genReputationNullifier(identityNullifier, epoch, nonce, attesterId) *)
  genReputationNullifier : Z -> Z -> Z -> Z -> Z;
  reputation_hash : Reputation.t -> Z;
  attestation_hash : Attestation.t -> Z;
  defaultUserStateLeaf : Z;
  MerkleProof : Type;
  SparseMerkleTree : Type;
  genNewSMT : Z -> Z -> SparseMerkleTree;
  smt_update : SparseMerkleTree -> Z -> Z -> SparseMerkleTree;
  smt_root : SparseMerkleTree -> Z;
  smt_createProof : SparseMerkleTree -> Z -> MerkleProof;
  IncrementalMerkleTree : Type;
  newIncrementalMerkleTree : Z -> Z -> IncrementalMerkleTree;
  imt_insert : IncrementalMerkleTree -> Z -> IncrementalMerkleTree;
  imt_root : IncrementalMerkleTree -> Z;
  imt_createProof : IncrementalMerkleTree -> Z -> MerkleProof;
  (* NUM_ATTESTATIONS_PER_PROOF of [@unirep/circuits] *)
  NUM_ATTESTATIONS_PER_PROOF : Z;
  (* the proof object of the external prover *)
  SnarkProof : Type
}.

(** The ways a call can end without a result: one constructor per assertion
    of the class, per check of the [Synchronizer] it extends and per
    exception of the library functions it calls, and one for a call that
    never returns. *)
Inductive Error : Type :=
| UserNotSignedUp            (* 'UserState: User has not signed up yet' *)
| UserAlreadySignedUp        (* 'UserState: User has already signed up' *)
| EpkNonceTooLarge           (* 'epochKeyNonce must be less than max epoch nonce' *)
| InvalidEpoch               (* Synchronizer._checkValidEpoch *)
| InvalidEpochKey            (* Synchronizer._checkEpochKeyRange *)
| InconsistentEpochTree      (* Synchronizer.genEpochTree *)
| SameEpochTransition        (* 'Can not transition to same epoch' *)
| NonceListLength            (* 'Length of nonce list should be ...' *)
| DuplicatedNonce            (* 'cannot submit duplicated nonce ...' *)
| AllNullifiersSpent         (* 'All nullifiers are spent' *)
| NotEnoughReputation        (* 'Not enough reputation to spend' *)
| MissingArgument            (* 'User has signed up but missing ...' *)
| ProvingFailed              (* the external prover *)
| LeafKeyTooLarge            (* SparseMerkleTree: 'leaf key ... exceeds total
                                number of leaves ...' *)
| InvalidArrayLength         (* RangeError of [new Array(n)] *)
| UndefinedValue             (* TypeError of [stringifyBigInts] on undefined *)
| NeverReturns.              (* no exception: a loop of the call has no end *)

Record Settings : Type := {
  numEpochKeyNoncePerEpoch : Z;
  maxReputationBudget : Z;
  epochTreeDepth : Z;
  userStateTreeDepth : Z;
  globalStateTreeDepth : Z
}.

(** The [Synchronizer] base class and its datastore are not part of the
    sources: what [UserState] reads from them is a parameter. *)
Record Synchronizer `{Crypto} : Type := {
  settings : Settings;
  defaultGSTLeaf : Z;
  (* (await this.loadCurrentEpoch()).number *)
  currentEpochNumber : Z;
  (* whether _checkValidEpoch(epoch) passes *)
  validEpoch : Z -> bool;
  (* whether _checkEpochKeyRange(epochKey) passes *)
  epochKeyInRange : Z -> bool;
  (* _db.findMany('GSTLeaf', {epoch}, index asc): the leaf hashes *)
  dbGSTLeaves : Z -> list Z;
  (* _db.count('GSTLeaf', {epoch}) *)
  dbCountGSTLeaves : Z -> Z;
  (* _db.findMany('Attestation', {epochKey, valid: true}) *)
  dbAttestations : Z -> list Attestation.t;
  nullifierExist : Z -> bool;
  genEpochTree : Z -> Error + SparseMerkleTree
}.

(** Whether a call returned. *)
Definition succeeds {A : Type} (x : Error + A) : bool :=
  match x with
  | inl _ => false
  | inr _ => true
  end.

Inductive Completion : Type :=
| Normal
| Throw (e : Error).

Notation "'guard' b 'else' e ; k" :=
  (if b then k else inl e)
  (at level 10, b at level 9, e at level 9, k at level 200, only parsing).

Notation "x <-? c ; k" :=
  (match c with inl e => inl e | inr x => k end)
  (at level 10, c at level 100, k at level 200, only parsing).

(** ** Circuit inputs *)

Module ProveReputation.

(** The [circuitInputs] of [genProveReputationProof]. *)
Record Inputs `{Crypto} : Type := {
  epoch : Z;
  epoch_key_nonce : Z;
  epoch_key : Z;
  identity_nullifier : Z;
  identity_trapdoor : Z;
  user_tree_root : Z;
  GST_path : MerkleProof;          (* pathIndices and siblings *)
  GST_root : Z;
  attester_id : Z;
  pos_rep : Z;
  neg_rep : Z;
  graffiti : Z;
  sign_up : Z;
  UST_path_elements : MerkleProof;
  rep_nullifiers_amount : Z;
  selectors : list Z;
  rep_nonce : list Z;
  min_rep : Z;
  prove_graffiti : Z;
  graffiti_pre_image : Z
}.

(** What [genProveReputationProof] returns: the proof, the public signals
    and the signals picked out of them by position. *)
Record Result `{Crypto} : Type := {
  proof : SnarkProof;
  publicSignals : list Z;
  reputationNullifiers : list Z;
  r_epoch : option Z;
  r_epochKey : option Z;
  globalStatetreeRoot : option Z;
  r_attesterId : option Z;
  proveReputationAmount : option Z;
  r_minRep : option Z;
  proveGraffiti : option Z;
  graffitiPreImage : option Z
}.

End ProveReputation.

Module StartTransition.

Record Inputs `{Crypto} : Type := {
  epoch : Z;
  nonce : Z;
  user_tree_root : Z;
  identity_nullifier : Z;
  identity_trapdoor : Z;
  GST_path : MerkleProof;
  GST_root : Z
}.

(** What [_genStartTransitionCircuitInputs] returns. *)
Record t `{Crypto} : Type := {
  circuitInputs : Inputs;
  blindedUserState : Z;
  blindedHashChain : Z
}.

End StartTransition.

Module ProcessAttestations.

(** An entry of [overwriteGraffities]: the boolean
    [graffiti.toString() != '0'] of a real attestation, or the string
    ['0'] of a padding entry. *)
Inductive Overwrite : Type :=
| OverwriteBool (b : bool)
| OverwriteZero.

(** One position of the per-attestation arrays of
    [genUserStateTransitionProofs] ([oldPosReps], [oldNegReps],
    [oldGraffities], [oldSignUps], [userStateLeafPathElements],
    [selectors], [attesterIds], [posReps], [negReps], [graffities],
    [overwriteGraffities], [signUps]).  The program pushes to the twelve
    arrays together and slices them with the same bounds, so they are kept
    as one array of rows. *)
Record Row `{Crypto} : Type := {
  old_pos_rep : Z;
  old_neg_rep : Z;
  old_graffiti : Z;
  old_sign_up : Z;
  path_elements : MerkleProof;
  selector : Z;
  attester_id : Z;
  pos_rep : Z;
  neg_rep : Z;
  graffiti : Z;
  overwrite_graffiti : Overwrite;
  sign_up : Z
}.

(** The inputs of one batch.  A field read by index from an array is
    [None] where JavaScript gives [undefined]. *)
Record Inputs `{Crypto} : Type := {
  epoch : Z;
  from_nonce : option Z;
  to_nonce : option Z;
  identity_nullifier : Z;
  intermediate_user_state_tree_roots : list Z;
  rows : list Row;
  hash_chain_starter : option Z;
  input_blinded_user_state : option Z
}.

End ProcessAttestations.

Module FinalTransition.

Record Inputs `{Crypto} : Type := {
  epoch : Z;
  blinded_user_state : list Z;
  intermediate_user_state_tree_roots : list Z;
  start_epoch_key_nonce : Z;
  end_epoch_key_nonce : Z;
  identity_nullifier : Z;
  identity_trapdoor : Z;
  GST_path : MerkleProof;
  GST_root : Z;
  epk_path_elements : list MerkleProof;
  hash_chain_results : list Z;
  blinded_hash_chain_results : list Z;
  epoch_tree_root : Z
}.

End FinalTransition.

Module VerifyEpochKey.

(** The [circuitInputs] of [genVerifyEpochKeyProof]. *)
Record Inputs `{Crypto} : Type := {
  GST_path : MerkleProof;          (* pathIndices and siblings *)
  GST_root : Z;
  identity_nullifier : Z;
  identity_trapdoor : Z;
  user_tree_root : Z;
  nonce : Z;
  epoch : Z;
  epoch_key : Z
}.

(** What [genVerifyEpochKeyProof] returns. *)
Record Result `{Crypto} : Type := {
  proof : SnarkProof;
  publicSignals : list Z;
  globalStateTree : option Z;
  r_epoch : option Z;
  r_epochKey : option Z
}.

End VerifyEpochKey.

Module ProveUserSignUp.

(** The [circuitInputs] of [genUserSignUpProof]. *)
Record Inputs `{Crypto} : Type := {
  epoch : Z;
  epoch_key : Z;
  identity_nullifier : Z;
  identity_trapdoor : Z;
  user_tree_root : Z;
  GST_path : MerkleProof;
  GST_root : Z;
  attester_id : Z;
  pos_rep : Z;
  neg_rep : Z;
  graffiti : Z;
  sign_up : Z;
  UST_path_elements : MerkleProof
}.

(** What [genUserSignUpProof] returns. *)
Record Result `{Crypto} : Type := {
  proof : SnarkProof;
  publicSignals : list Z;
  r_epoch : option Z;
  r_epochKey : option Z;
  globalStateTreeRoot : option Z;
  r_attesterId : option Z;
  userHasSignedUp : option Z
}.

(** The ways [genUserSignUpProof] can fail: the two assertions of
    [_checkAttesterId], the [RangeError] of [BigInt(2 ** depth)] when the
    power is not an integer, and the failures of the other calls. *)
Inductive Failure : Type :=
| AttesterIdNotPositive   (* 'UserState: attesterId must be greater than zero' *)
| AttesterIdTooLarge      (* 'UserState: attesterId exceeds total number of attesters' *)
| DepthOutOfRange         (* RangeError of BigInt() *)
| Failed (e : Error).

End ProveUserSignUp.

Module TransitionProofs.

(** [startTransitionProof] *)
Record Start `{Crypto} : Type := {
  s_proof : SnarkProof;
  s_publicSignals : list Z;
  blindedUserState : option Z;
  blindedHashChain : option Z;
  globalStateTreeRoot : option Z
}.

(** One entry of [processAttestationProofs] *)
Record Process `{Crypto} : Type := {
  p_proof : SnarkProof;
  p_publicSignals : list Z;
  outputBlindedUserState : option Z;
  outputBlindedHashChain : option Z;
  inputBlindedUserState : option Z
}.

(** [finalTransitionProof] *)
Record Final `{Crypto} : Type := {
  f_proof : SnarkProof;
  f_publicSignals : list Z;
  newGlobalStateTreeLeaf : option Z;
  epochKeyNullifiers : list Z;
  transitionedFromEpoch : option Z;
  blindedUserStates : list Z;
  fromGSTRoot : option Z;
  blindedHashChains : list Z;
  fromEpochTree : option Z
}.

(** What [genUserStateTransitionProofs] returns. *)
Record t `{Crypto} : Type := {
  startTransitionProof : Start;
  processAttestationProofs : list Process;
  finalTransitionProof : Final
}.

End TransitionProofs.

(** ** The class *)

Module UserState.

(** A location of the store of leaf objects. *)
Abbreviation loc := nat (only parsing).

Record NewUserState : Type :=
  { newGSTLeaf : Z; newUSTLeaves : list loc }.

Record t : Type := mk {
  (* the leaf objects the arrays below refer to *)
  heap : list IUserStateLeaf;
  id : ZkIdentity;
  commitment : Z;
  hasSignedUp : bool;
  latestTransitionedEpoch : Z;
  latestGSTLeafIndex : Z;
  latestUserStateLeaves : list loc;
  transitionedFromAttestations : gmap Z (list Attestation.t);
  newUserState : NewUserState
}.

Definition set_heap (h : list IUserStateLeaf) (s : t) : t :=
  mk h (id s) (commitment s) (hasSignedUp s) (latestTransitionedEpoch s)
     (latestGSTLeafIndex s) (latestUserStateLeaves s)
     (transitionedFromAttestations s) (newUserState s).

Definition set_hasSignedUp (b : bool) (s : t) : t :=
  mk (heap s) (id s) (commitment s) b (latestTransitionedEpoch s)
     (latestGSTLeafIndex s) (latestUserStateLeaves s)
     (transitionedFromAttestations s) (newUserState s).

Definition set_latestTransitionedEpoch (e : Z) (s : t) : t :=
  mk (heap s) (id s) (commitment s) (hasSignedUp s) e
     (latestGSTLeafIndex s) (latestUserStateLeaves s)
     (transitionedFromAttestations s) (newUserState s).

Definition set_latestGSTLeafIndex (i : Z) (s : t) : t :=
  mk (heap s) (id s) (commitment s) (hasSignedUp s)
     (latestTransitionedEpoch s) i (latestUserStateLeaves s)
     (transitionedFromAttestations s) (newUserState s).

Definition set_latestUserStateLeaves (l : list loc) (s : t) : t :=
  mk (heap s) (id s) (commitment s) (hasSignedUp s)
     (latestTransitionedEpoch s) (latestGSTLeafIndex s) l
     (transitionedFromAttestations s) (newUserState s).

Definition set_transitionedFromAttestations
    (m : gmap Z (list Attestation.t)) (s : t) : t :=
  mk (heap s) (id s) (commitment s) (hasSignedUp s)
     (latestTransitionedEpoch s) (latestGSTLeafIndex s)
     (latestUserStateLeaves s) m (newUserState s).

Definition set_newUserState (n : NewUserState) (s : t) : t :=
  mk (heap s) (id s) (commitment s) (hasSignedUp s)
     (latestTransitionedEpoch s) (latestGSTLeafIndex s)
     (latestUserStateLeaves s) (transitionedFromAttestations s) n.

(** The leaves an array of references denotes. *)
Definition deref (h : list IUserStateLeaf) (ls : list loc)
  : list IUserStateLeaf :=
  omap (fun l => h !! l) ls.

(** The committed reputation ledger, read through the store. *)
Definition ledger (s : t) : list IUserStateLeaf :=
  deref (heap s) (latestUserStateLeaves s).

(** The staged leaves, read through the store. *)
Definition stagedLeaves (s : t) : list IUserStateLeaf :=
  deref (heap s) (newUSTLeaves (newUserState s)).

(** [truthy x]: the JavaScript test [if (x)] on an optional number. *)
Definition truthy (x : option Z) : bool :=
  match x with
  | Some v => negb (v =? 0)
  | None => false
  end.

Section WithCollaborators.

Context `{Crypto}.
Variable sync : Synchronizer.

(** The constructor.  The leaves passed in become the objects of the
    store, in order. *)
Definition new (_id : ZkIdentity) (_hasSignedUp : option bool)
    (_latestTransitionedEpoch _latestGSTLeafIndex : option Z)
    (_latestUserStateLeaves : option (list IUserStateLeaf))
    (_transitionedFromAttestations : option (gmap Z (list Attestation.t)))
  : Error + t :=
  let fresh := {| newGSTLeaf := 0; newUSTLeaves := [] |} in
  match _hasSignedUp with
  | Some b =>
      match _latestTransitionedEpoch, _latestGSTLeafIndex with
      | Some e, Some i =>
          let leaves := default [] _latestUserStateLeaves in
          inr (mk leaves _id (genIdentityCommitment _id) b e i
                 (seq 0 (length leaves))
                 (default ∅ _transitionedFromAttestations) fresh)
      | _, _ => inl MissingArgument
      end
  | None =>
      inr (mk [] _id (genIdentityCommitment _id) false 0 0 [] ∅ fresh)
  end.

(** [getNumGSTLeaves(epoch)] *)
Definition getNumGSTLeaves (epoch : Z) : Error + Z :=
  guard (validEpoch sync epoch) else InvalidEpoch;
  inr (dbCountGSTLeaves sync epoch).

(** [getAttestations(epochKey)] *)
Definition getAttestations (epochKey : Z) : Error + list Attestation.t :=
  guard (epochKeyInRange sync epochKey) else InvalidEpochKey;
  inr (dbAttestations sync epochKey).

(** [genGSTree(epoch)] *)
Definition genGSTree (epoch : Z) : Error + IncrementalMerkleTree :=
  guard (validEpoch sync epoch) else InvalidEpoch;
  inr (fold_left imt_insert (dbGSTLeaves sync epoch)
         (newIncrementalMerkleTree
            (globalStateTreeDepth (settings sync)) (defaultGSTLeaf sync))).

(** [getRepByAttester(attesterId)]: the first leaf of the committed
    ledger with that attester, or the default reputation. *)
Definition getRepOf (leaves : list IUserStateLeaf) (a : Z) : Reputation.t :=
  match List.find (fun l => attesterId l =? a) leaves with
  | Some l => reputation l
  | None => Reputation.default
  end.

Definition getRepByAttester (s : t) (a : Z) : Reputation.t :=
  getRepOf (ledger s) a.

(** [signUp(epoch, identityCommitment, attesterId?, airdropAmount?)] *)
Definition signUp (s : t) (epoch identityCommitment : Z)
    (attesterId_ airdropAmount : option Z) : Completion * t :=
  if identityCommitment =? commitment s then
    if hasSignedUp s then (Throw UserAlreadySignedUp, s) else
    let signUpInLeaf := 1 in
    let s1 :=
      if truthy attesterId_ && truthy airdropAmount then
        let stateLeave :=
          mkLeaf (default 0 attesterId_)
            (Reputation.update Reputation.default
               (default 0 airdropAmount) 0 0 signUpInLeaf) in
        set_latestUserStateLeaves [length (heap s)]
          (set_heap (heap s ++ [stateLeave]) s)
      else s in
    let s2 := set_latestTransitionedEpoch epoch s1 in
    match getNumGSTLeaves epoch with
    | inl e => (Throw e, s2)
    | inr n =>
        (Normal, set_hasSignedUp true (set_latestGSTLeafIndex (n - 1) s2))
    end
  else (Normal, s).

(** [_genUserStateTreeFromLeaves(leaves)] *)
Definition _genUserStateTreeFromLeaves (leaves : list IUserStateLeaf)
  : SparseMerkleTree :=
  fold_left
    (fun tree leaf =>
       smt_update tree (attesterId leaf) (reputation_hash (reputation leaf)))
    leaves
    (genNewSMT (userStateTreeDepth (settings sync)) defaultUserStateLeaf).

(** [genUserStateTree()] *)
Definition genUserStateTree (s : t) : SparseMerkleTree :=
  _genUserStateTreeFromLeaves (ledger s).

(** Whether a key is one of the leaves of the user state tree.  The sparse
    tree of [@unirep/crypto] has [2 ** depth] leaves; its [createProof]
    asserts that the key is below their number ('leaf key ... exceeds total
    number of leaves ...'). *)
Definition isLeafKey (leafKey : Z) : bool :=
  leafKey <? 2 ^ userStateTreeDepth (settings sync).

(** [userStateTree.createProof(leafKey)] *)
Definition createProof (tree : SparseMerkleTree) (leafKey : Z)
  : Error + MerkleProof :=
  guard (isLeafKey leafKey) else LeafKeyTooLarge;
  inr (smt_createProof tree leafKey).

(** [new Array(n).fill(v)]: the constructor throws a [RangeError] unless
    [n] is an array length, an integer from 0 to [2 ^ 32 - 1]. *)
Definition Array_fill {A : Type} (n : Z) (v : A) : Error + list A :=
  guard ((0 <=? n) && (n <? 2 ^ 32)) else InvalidArrayLength;
  inr (replicate (Z.to_nat n) v).

(** The [for (const leaf of stateLeaves)] search of
    [_updateUserStateLeaf]: the first referenced leaf of that attester. *)
Fixpoint findLeaf (h : list IUserStateLeaf) (ls : list loc) (a : Z)
  : option loc :=
  match ls with
  | [] => None
  | l :: ls' =>
      match h !! l with
      | Some leaf => if attesterId leaf =? a then Some l else findLeaf h ls' a
      | None => findLeaf h ls' a
      end
  end.

(** [_updateUserStateLeaf(attestation, stateLeaves)].  A matching leaf
    is updated in place, through the reference; otherwise a new leaf
    object is created and pushed. *)
Definition _updateUserStateLeaf (attestation : Attestation.t)
    (hs : list IUserStateLeaf * list loc)
  : list IUserStateLeaf * list loc :=
  let '(h, stateLeaves) := hs in
  let a := Attestation.attesterId attestation in
  match findLeaf h stateLeaves a with
  | Some l =>
      (alter
         (fun leaf =>
            mkLeaf (attesterId leaf)
              (Reputation.update (reputation leaf)
                 (Attestation.posRep attestation)
                 (Attestation.negRep attestation)
                 (Attestation.graffiti attestation)
                 (Attestation.signUp attestation)))
         l h,
       stateLeaves)
  | None =>
      let newLeaf :=
        mkLeaf a
          (Reputation.update Reputation.default
             (Attestation.posRep attestation)
             (Attestation.negRep attestation)
             (Attestation.graffiti attestation)
             (Attestation.signUp attestation)) in
      (h ++ [newLeaf], stateLeaves ++ [length h])
  end.

(** The epoch keys of an epoch, one per nonce. *)
Definition nonces : list Z :=
  seqZ 0 (numEpochKeyNoncePerEpoch (settings sync)).

Definition epochKeyOf (s : t) (epoch nonce : Z) : Z :=
  genEpochKey (identityNullifier (id s)) epoch nonce
    (Some (epochTreeDepth (settings sync))).

(** The loop of [_saveAttestations]. *)
Fixpoint saveAttestationsLoop (fromEpoch : Z) (ns : list Z) (s : t)
  : Completion * t :=
  match ns with
  | [] => (Normal, s)
  | nonce :: ns' =>
      let epochKey := epochKeyOf s fromEpoch nonce in
      match getAttestations epochKey with
      | inl e => (Throw e, s)
      | inr attestations =>
          saveAttestationsLoop fromEpoch ns'
            (set_transitionedFromAttestations
               (<[epochKey :=
                    map (fun attest =>
                           Attestation.mk
                             (Attestation.attesterId attest)
                             (Attestation.posRep attest)
                             (Attestation.negRep attest)
                             (Attestation.graffiti attest)
                             (Attestation.signUp attest))
                        attestations]>
                  (transitionedFromAttestations s))
               s)
      end
  end.

(** [_saveAttestations()] *)
Definition _saveAttestations (s : t) : Completion * t :=
  if negb (hasSignedUp s) then (Throw UserNotSignedUp, s) else
  saveAttestationsLoop (latestTransitionedEpoch s) nonces s.

(** [_genNewUserStateAfterTransition()]: the new staged state, and the
    store after the in-place updates of the run. *)
Definition _genNewUserStateAfterTransition (s : t)
  : Error + (list IUserStateLeaf * NewUserState) :=
  guard (hasSignedUp s) else UserNotSignedUp;
  let fromEpoch := latestTransitionedEpoch s in
  (* stateLeaves = this.latestUserStateLeaves.slice(): a new array of
     the same references *)
  let '(h, stateLeaves) :=
    fold_left
      (fun hs nonce =>
         let epochKey := epochKeyOf s fromEpoch nonce in
         match transitionedFromAttestations s !! epochKey with
         | Some attestations =>
             fold_left (fun hs' a => _updateUserStateLeaf a hs')
               attestations hs
         | None => hs
         end)
      nonces (heap s, latestUserStateLeaves s) in
  let newUserStateTree := _genUserStateTreeFromLeaves (deref h stateLeaves) in
  let newGSTLeaf_ := hashLeftRight (commitment s) (smt_root newUserStateTree) in
  inr (h, {| newGSTLeaf := newGSTLeaf_; newUSTLeaves := stateLeaves |}).

(** [epochTransition(epoch)] *)
Definition epochTransition (s : t) (epoch : Z) : Completion * t :=
  if epoch =? latestTransitionedEpoch s then
    match _saveAttestations s with
    | (Throw e, s1) => (Throw e, s1)
    | (Normal, s1) =>
        match _genNewUserStateAfterTransition s1 with
        | inl e => (Throw e, s1)
        | inr (h, n) => (Normal, set_newUserState n (set_heap h s1))
        end
    end
  else (Normal, s).

(** [_transition(newLeaf)] *)
Definition _transition (s : t) (newLeaf : Z) : Completion * t :=
  if negb (hasSignedUp s) then (Throw UserNotSignedUp, s) else
  let fromEpoch := latestTransitionedEpoch s in
  let transitionToEpoch := currentEpochNumber sync in
  match getNumGSTLeaves transitionToEpoch with
  | inl e => (Throw e, s)
  | inr n =>
      let transitionToGSTIndex := n - 1 in
      let newState := newUserState s in
      if negb (newLeaf =? newGSTLeaf newState) then (Normal, s) else
      let latestStateLeaves := newUSTLeaves newState in
      if negb (fromEpoch <? transitionToEpoch)
      then (Throw SameEpochTransition, s) else
      (Normal,
       set_latestUserStateLeaves latestStateLeaves
         (set_latestGSTLeafIndex transitionToGSTIndex
            (set_latestTransitionedEpoch transitionToEpoch s)))
  end.

(** [userStateTransition(fromEpoch, GSTLeaf)] *)
Definition userStateTransition (s : t) (fromEpoch GSTLeaf : Z)
  : Completion * t :=
  let clear s' :=
    set_newUserState {| newGSTLeaf := 0; newUSTLeaves := [] |} s' in
  if hasSignedUp s && (latestTransitionedEpoch s =? fromEpoch) then
    match _transition s GSTLeaf with
    | (Throw e, s1) => (Throw e, s1)
    | (Normal, s1) => (Normal, clear s1)
    end
  else (Normal, clear s).

(** [toJSON()] *)
Definition toJSON (s : t) : IUserState.t :=
  let userStateLeavesMapToString :=
    fold_left
      (fun o l =>
         JSObject.set (attesterId l) (Reputation.toJSON (reputation l)) o)
      (ledger s) [] in
  let epoch := latestTransitionedEpoch s in
  let transitionedFromAttestationsToString :=
    fold_left
      (fun o nonce =>
         let epk :=
           genEpochKey (identityNullifier (id s)) epoch nonce None in
         match transitionedFromAttestations s !! epk with
         | Some attestations =>
             JSObject.set epk (map Attestation.stringify attestations) o
         | None => o
         end)
      nonces [] in
  {| IUserState.idNullifier := identityNullifier (id s);
     IUserState.idCommitment := commitment s;
     IUserState.hasSignedUp := hasSignedUp s;
     IUserState.latestTransitionedEpoch := latestTransitionedEpoch s;
     IUserState.latestGSTLeafIndex := latestGSTLeafIndex s;
     IUserState.latestUserStateLeaves := userStateLeavesMapToString;
     IUserState.transitionedFromAttestations :=
       transitionedFromAttestationsToString |}.

(** [UserState.fromJSON(db, prover, unirepContract, identity, data)] *)
Definition fromJSON (identity : ZkIdentity) (data : IUserState.t)
  : Error + t :=
  let userStateLeaves :=
    map (fun '(key, parsedLeaf) =>
           mkLeaf key
             (Reputation.mk (Reputation.j_posRep parsedLeaf)
                (Reputation.j_negRep parsedLeaf)
                (Reputation.j_graffiti parsedLeaf)
                (Reputation.j_signUp parsedLeaf)))
      (JSObject.entries (IUserState.latestUserStateLeaves data)) in
  let transitionedFromAttestations_ :=
    fold_left
      (fun (m : gmap Z (list Attestation.t)) '(key, attests) =>
         <[key :=
             map (fun parsedAttest =>
                    Attestation.mk
                      (Attestation.j_attesterId parsedAttest)
                      (Attestation.j_posRep parsedAttest)
                      (Attestation.j_negRep parsedAttest)
                      (Attestation.j_graffiti parsedAttest)
                      (Attestation.j_signUp parsedAttest))
                 attests]> m)
      (JSObject.entries (IUserState.transitionedFromAttestations data))
      ∅ in
  new identity
    (Some (IUserState.hasSignedUp data))
    (Some (IUserState.latestTransitionedEpoch data))
    (Some (IUserState.latestGSTLeafIndex data))
    (Some userStateLeaves)
    (Some transitionedFromAttestations_).

(** [_genStartTransitionCircuitInputs(fromNonce, userStateTreeRoot,
    GSTreeProof, GSTreeRoot)] *)
Definition _genStartTransitionCircuitInputs (s : t) (fromNonce : Z)
    (userStateTreeRoot : Z) (GSTreeProof : MerkleProof) (GSTreeRoot : Z)
  : StartTransition.t :=
  {| StartTransition.circuitInputs :=
       {| StartTransition.epoch := latestTransitionedEpoch s;
          StartTransition.nonce := fromNonce;
          StartTransition.user_tree_root := userStateTreeRoot;
          StartTransition.identity_nullifier := identityNullifier (id s);
          StartTransition.identity_trapdoor := trapdoor (id s);
          StartTransition.GST_path := GSTreeProof;
          StartTransition.GST_root := GSTreeRoot |};
     StartTransition.blindedUserState :=
       hash5 [identityNullifier (id s); userStateTreeRoot;
              latestTransitionedEpoch s; fromNonce; 0];
     StartTransition.blindedHashChain :=
       hash5 [identityNullifier (id s); 0;
              latestTransitionedEpoch s; fromNonce; 0] |}.

(** The variables of the loops of [genUserStateTransitionProofs]. *)
Record Acc : Type := mkAcc {
  fromEpochUserStateTree : SparseMerkleTree;
  intermediateUserStateTreeRoots : list Z;
  rows : list ProcessAttestations.Row;
  epochKeyPathElements : list MerkleProof;
  fromNonces : list Z;
  toNonces : list Z;
  hashChainStarter : list Z;
  blindedUserState : list Z;
  blindedHashChain : list Z;
  reputationRecords : gmap Z Reputation.t;
  finalHashChain : list Z
}.

(** The test at the head of the attestation loop: a new batch starts. *)
Definition startsBatch (i : Z) : bool :=
  negb (i =? 0)
  && (i mod NUM_ATTESTATIONS_PER_PROOF =? 0)
  && negb (i =? NUM_ATTESTATIONS_PER_PROOF - 1).

(** The blinded user state pushed at a checkpoint. *)
Definition checkpoint (s : t) (root nonce : Z) : Z :=
  hash5 [identityNullifier (id s); root; latestTransitionedEpoch s; nonce].

(** "Include a blinded user state and blinded hash chain per proof" *)
Definition openBatch (s : t) (nonce currentHashChain : Z) (a : Acc) : Acc :=
  mkAcc (fromEpochUserStateTree a) (intermediateUserStateTreeRoots a)
    (rows a) (epochKeyPathElements a)
    (fromNonces a ++ [nonce])
    (toNonces a ++ [nonce])
    (hashChainStarter a ++ [currentHashChain])
    (blindedUserState a
       ++ [checkpoint s (smt_root (fromEpochUserStateTree a)) nonce])
    (blindedHashChain a) (reputationRecords a) (finalHashChain a).

(** The body of the attestation loop after the batch test: the row of
    one attestation, the updated record and tree, the new root. *)
Definition pushAttestation (s : t) (attestation : Attestation.t) (a : Acc)
  : Acc :=
  let attesterId_ := Attestation.attesterId attestation in
  let rep := getRepByAttester s attesterId_ in
  let records :=
    match reputationRecords a !! attesterId_ with
    | None =>
        <[attesterId_ :=
            Reputation.mk (Reputation.posRep rep) (Reputation.negRep rep)
              (Reputation.graffiti rep) (Reputation.signUp rep)]>
          (reputationRecords a)
    | Some _ => reputationRecords a
    end in
  let old := default Reputation.default (records !! attesterId_) in
  let USTLeafPathElements :=
    smt_createProof (fromEpochUserStateTree a) attesterId_ in
  (* reputationRecords[attesterId].update(...): the record is updated
     in place *)
  let updated :=
    Reputation.update old
      (Attestation.posRep attestation) (Attestation.negRep attestation)
      (Attestation.graffiti attestation) (Attestation.signUp attestation) in
  let tree :=
    smt_update (fromEpochUserStateTree a) attesterId_
      (reputation_hash updated) in
  let row :=
    {| ProcessAttestations.old_pos_rep := Reputation.posRep old;
       ProcessAttestations.old_neg_rep := Reputation.negRep old;
       ProcessAttestations.old_graffiti := Reputation.graffiti old;
       ProcessAttestations.old_sign_up := Reputation.signUp old;
       ProcessAttestations.path_elements := USTLeafPathElements;
       ProcessAttestations.selector := 1;
       ProcessAttestations.attester_id := attesterId_;
       ProcessAttestations.pos_rep := Attestation.posRep attestation;
       ProcessAttestations.neg_rep := Attestation.negRep attestation;
       ProcessAttestations.graffiti := Attestation.graffiti attestation;
       ProcessAttestations.overwrite_graffiti :=
         ProcessAttestations.OverwriteBool
           (negb (Attestation.graffiti attestation =? 0));
       ProcessAttestations.sign_up := Attestation.signUp attestation |} in
  mkAcc tree
    (intermediateUserStateTreeRoots a ++ [smt_root tree])
    (rows a ++ [row]) (epochKeyPathElements a)
    (fromNonces a) (toNonces a) (hashChainStarter a)
    (blindedUserState a) (blindedHashChain a)
    (<[attesterId_ := updated]> records) (finalHashChain a).

(** [for (let i = 0; i < attestations.length; i++)], from index [i] on,
    with the running [currentHashChain]. *)
Fixpoint attestationsLoop (s : t) (nonce : Z)
    (attestations : list Attestation.t) (i : Z) (a : Acc)
    (currentHashChain : Z) : Acc * Z :=
  match attestations with
  | [] => (a, currentHashChain)
  | attestation :: rest =>
      let a1 :=
        if startsBatch i then openBatch s nonce currentHashChain a else a in
      let a2 := pushAttestation s attestation a1 in
      attestationsLoop s nonce rest (i + 1) a2
        (hashLeftRight (attestation_hash attestation) currentHashChain)
  end.

(** "Fill in blank data for non-exist attestation": one padding entry. *)
Definition blankRow (a : Acc) : ProcessAttestations.Row :=
  {| ProcessAttestations.old_pos_rep := 0;
     ProcessAttestations.old_neg_rep := 0;
     ProcessAttestations.old_graffiti := 0;
     ProcessAttestations.old_sign_up := 0;
     ProcessAttestations.path_elements :=
       smt_createProof (fromEpochUserStateTree a) 0;
     ProcessAttestations.selector := 0;
     ProcessAttestations.attester_id := 0;
     ProcessAttestations.pos_rep := 0;
     ProcessAttestations.neg_rep := 0;
     ProcessAttestations.graffiti := 0;
     ProcessAttestations.overwrite_graffiti :=
       ProcessAttestations.OverwriteZero;
     ProcessAttestations.sign_up := 0 |}.

Definition pushBlank (a : Acc) : Acc :=
  mkAcc (fromEpochUserStateTree a)
    (intermediateUserStateTreeRoots a
       ++ [smt_root (fromEpochUserStateTree a)])
    (rows a ++ [blankRow a]) (epochKeyPathElements a)
    (fromNonces a) (toNonces a) (hashChainStarter a)
    (blindedUserState a) (blindedHashChain a)
    (reputationRecords a) (finalHashChain a).

(** [Math.ceil(n / NUM_ATTESTATIONS_PER_PROOF) * NUM_ATTESTATIONS_PER_PROOF],
    or one batch when there is no attestation. *)
Definition filledAttestationNum (n : Z) : Z :=
  if n =? 0 then NUM_ATTESTATIONS_PER_PROOF
  else ((n + NUM_ATTESTATIONS_PER_PROOF - 1) / NUM_ATTESTATIONS_PER_PROOF)
       * NUM_ATTESTATIONS_PER_PROOF.

(** One turn of the loop over the nonces. *)
Definition nonceStep (s : t) (fromEpochTree : SparseMerkleTree) (a : Acc)
    (nonce : Z) : Error + Acc :=
  let fromEpoch := latestTransitionedEpoch s in
  let epochKey := epochKeyOf s fromEpoch nonce in
  let a0 :=
    mkAcc (fromEpochUserStateTree a) (intermediateUserStateTreeRoots a)
      (rows a) (epochKeyPathElements a) (fromNonces a)
      (toNonces a ++ [nonce]) (hashChainStarter a ++ [0])
      (blindedUserState a) (blindedHashChain a) (reputationRecords a)
      (finalHashChain a) in
  attestations <-? getAttestations epochKey;
  (* [fromEpochUserStateTree.createProof(attesterId)] throws at the first
     attestation whose attester is not a leaf of the tree.  The arrays are
     locals of the call: nothing of what the loop has built by then
     outlives the exception, so the test is made before the loop. *)
  guard (forallb (fun attestation =>
                    isLeafKey (Attestation.attesterId attestation))
           attestations) else LeafKeyTooLarge;
  let '(a1, currentHashChain) :=
    attestationsLoop s nonce attestations 0 a0 0 in
  let n := Z.of_nat (length attestations) in
  let a2 := Nat.iter (Z.to_nat (filledAttestationNum n - n)) pushBlank a1 in
  inr (mkAcc (fromEpochUserStateTree a2)
         (intermediateUserStateTreeRoots a2) (rows a2)
         (epochKeyPathElements a2
            ++ [smt_createProof fromEpochTree epochKey])
         (fromNonces a2
            ++ (if negb (nonce =? numEpochKeyNoncePerEpoch (settings sync) - 1)
                then [nonce] else []))
         (toNonces a2) (hashChainStarter a2)
         (blindedUserState a2
            ++ [checkpoint s (smt_root (fromEpochUserStateTree a2)) nonce])
         (blindedHashChain a2
            ++ [hash5 [identityNullifier (id s); currentHashChain;
                       fromEpoch; nonce]])
         (reputationRecords a2)
         (finalHashChain a2 ++ [currentHashChain])).

Fixpoint noncesLoop (s : t) (fromEpochTree : SparseMerkleTree)
    (ns : list Z) (a : Acc) : Error + Acc :=
  match ns with
  | [] => inr a
  | nonce :: ns' =>
      a' <-? nonceStep s fromEpochTree a nonce;
      noncesLoop s fromEpochTree ns' a'
  end.

(** [array.slice(start, end)] for non-negative bounds. *)
Definition slice {A : Type} (l : list A) (start stop : Z) : list A :=
  take (Z.to_nat stop - Z.to_nat start) (drop (Z.to_nat start) l).

(** The object of batch [i], before [stringifyBigInts]. *)
Definition batchInputs (s : t) (a : Acc) (i : nat)
  : ProcessAttestations.Inputs :=
  let startIdx := NUM_ATTESTATIONS_PER_PROOF * Z.of_nat i in
  let endIdx := NUM_ATTESTATIONS_PER_PROOF * (Z.of_nat i + 1) in
  {| ProcessAttestations.epoch := latestTransitionedEpoch s;
     ProcessAttestations.from_nonce := fromNonces a !! i;
     ProcessAttestations.to_nonce := toNonces a !! i;
     ProcessAttestations.identity_nullifier := identityNullifier (id s);
     ProcessAttestations.intermediate_user_state_tree_roots :=
       slice (intermediateUserStateTreeRoots a) startIdx (endIdx + 1);
     ProcessAttestations.rows := slice (rows a) startIdx endIdx;
     ProcessAttestations.hash_chain_starter := hashChainStarter a !! i;
     ProcessAttestations.input_blinded_user_state :=
       blindedUserState a !! i |}.

(** [stringifyBigInts(o)] on the object of a batch.  The function of
    [@unirep/crypto] replaces every bigint by its decimal string, which
    stands for the same integer here, and reads a property of every other
    value: a [TypeError] on [undefined]. *)
Definition stringifyBigInts (b : ProcessAttestations.Inputs)
  : Error + ProcessAttestations.Inputs :=
  match ProcessAttestations.from_nonce b, ProcessAttestations.to_nonce b,
        ProcessAttestations.hash_chain_starter b,
        ProcessAttestations.input_blinded_user_state b with
  | Some _, Some _, Some _, Some _ => inr b
  | _, _, _, _ => inl UndefinedValue
  end.

(** [for (let i = 0; i < fromNonces.length; i++)], over the indices left. *)
Fixpoint batchesLoop (s : t) (a : Acc) (indices : list nat)
  : Error + list ProcessAttestations.Inputs :=
  match indices with
  | [] => inr []
  | i :: rest =>
      b <-? stringifyBigInts (batchInputs s a i);
      bs <-? batchesLoop s a rest;
      inr (b :: bs)
  end.

(** The inputs [genUserStateTransitionProofs] assembles for the three
    phases. *)
Record TransitionInputs : Type := {
  startTransitionCircuitInputs : StartTransition.t;
  processAttestationCircuitInputs : list ProcessAttestations.Inputs;
  finalTransitionCircuitInputs : FinalTransition.Inputs
}.

(** [genUserStateTransitionProofs()], up to the calls of the prover. *)
Definition genUserStateTransitionProofs_inputs (s : t)
  : Error + TransitionInputs :=
  guard (hasSignedUp s) else UserNotSignedUp;
  let fromEpoch := latestTransitionedEpoch s in
  let fromNonce := 0 in
  let tree0 := genUserStateTree s in
  let root0 := smt_root tree0 in
  fromEpochGSTree <-? genGSTree fromEpoch;
  let GSTreeProof := imt_createProof fromEpochGSTree (latestGSTLeafIndex s) in
  let GSTreeRoot := imt_root fromEpochGSTree in
  fromEpochTree <-? genEpochTree sync fromEpoch;
  let epochTreeRoot := smt_root fromEpochTree in
  let start :=
    _genStartTransitionCircuitInputs s fromNonce root0 GSTreeProof
      GSTreeRoot in
  let a0 :=
    mkAcc tree0 [root0] [] [] [fromNonce] [] []
      [StartTransition.blindedUserState start] [] ∅ [] in
  a <-? noncesLoop s fromEpochTree nonces a0;
  process <-? batchesLoop s a (seq 0 (length (fromNonces a)));
  let startEpochKeyNonce := 0 in
  let endEpochKeyNonce := numEpochKeyNoncePerEpoch (settings sync) - 1 in
  let finalUserState := [root0; smt_root (fromEpochUserStateTree a)] in
  let finalBlindedUserState :=
    [hash5 [identityNullifier (id s); root0; fromEpoch; startEpochKeyNonce];
     hash5 [identityNullifier (id s); smt_root (fromEpochUserStateTree a);
            fromEpoch; endEpochKeyNonce]] in
  inr {|
    startTransitionCircuitInputs := start;
    processAttestationCircuitInputs := process;
    finalTransitionCircuitInputs :=
      {| FinalTransition.epoch := fromEpoch;
         FinalTransition.blinded_user_state := finalBlindedUserState;
         FinalTransition.intermediate_user_state_tree_roots := finalUserState;
         FinalTransition.start_epoch_key_nonce := startEpochKeyNonce;
         FinalTransition.end_epoch_key_nonce := endEpochKeyNonce;
         FinalTransition.identity_nullifier := identityNullifier (id s);
         FinalTransition.identity_trapdoor := trapdoor (id s);
         FinalTransition.GST_path := GSTreeProof;
         FinalTransition.GST_root := GSTreeRoot;
         FinalTransition.epk_path_elements := epochKeyPathElements a;
         FinalTransition.hash_chain_results := finalHashChain a;
         FinalTransition.blinded_hash_chain_results := blindedHashChain a;
         FinalTransition.epoch_tree_root := epochTreeRoot |}
  |}.

(** The first loop of [genProveReputationProof]: one selector per
    entry of the nonce list, the number of requested nullifiers, and the
    assertion that no requested nonce occurs twice.  [nonceExist] is the
    set of the nonces seen so far. *)
Fixpoint selectNonces (nonceList : list Z) (nonceExist : gset Z)
    (repNullifiersAmount : Z) (selectors : list Z)
  : Error + (Z * list Z) :=
  match nonceList with
  | [] => inr (repNullifiersAmount, selectors)
  | x :: rest =>
      if negb (x =? -1) then
        guard (negb (bool_decide (x ∈ nonceExist))) else DuplicatedNonce;
        selectNonces rest ({[x]} ∪ nonceExist)
          (repNullifiersAmount + 1) (selectors ++ [1])
      else
        selectNonces rest nonceExist repNullifiersAmount (selectors ++ [0])
  end.

(** The search [for (let n = 0; n < Number(posRep) - Number(negRep); n++)]
    for the first nonce whose reputation nullifier is not spent, from the
    counter [n] on, for at most [k] turns: the value [nonceStarter] has
    when the loop ends ([-1] when no nonce was found), or [None] when the
    loop has not ended after [k] turns.  [bound] is the difference, a
    double; so is the counter. *)
Fixpoint findNonceStarter (s : t) (epoch attesterId_ : Z) (bound : Number.t)
    (k : nat) (n : Z) : option Z :=
  if Number.ltb (Number.Finite n) bound then
    match k with
    | O => None
    | S k' =>
        let reputationNullifier :=
          genReputationNullifier (identityNullifier (id s)) epoch n
            attesterId_ in
        if negb (nullifierExist sync reputationNullifier) then Some n
        else findNonceStarter s epoch attesterId_ bound k' (Number.succ n)
    end
  else Some (-1).

(** The turns after which the search has ended if it ends at all: the
    counter gets to [bound] after [bound] turns, and from [2 ^ 53] on it
    stays where it is, so that after [2 ^ 53 + 1] turns the loop is in a
    state it has been in before. *)
Definition searchTurns (bound : Number.t) : nat :=
  match bound with
  | Number.Finite b => Z.to_nat (Z.min b (2 ^ 53 + 1))
  | Number.Infinity => Z.to_nat (2 ^ 53 + 1)
  | _ => 0%nat
  end.

(** [genProveReputationProof], up to the call of the prover: the checks
    and the circuit inputs. *)
Definition genProveReputationProof_inputs (s : t) (attesterId_ epkNonce : Z)
    (minRep proveGraffiti graffitiPreImage : option Z)
    (nonceList : option (list Z))
  : Error + ProveReputation.Inputs :=
  guard (hasSignedUp s) else UserNotSignedUp;
  guard (epkNonce <? numEpochKeyNoncePerEpoch (settings sync))
    else EpkNonceTooLarge;
  let budget := maxReputationBudget (settings sync) in
  nonceList <-?
    match nonceList with
    | None => Array_fill budget (-1)
    | Some l => inr l
    end;
  guard (Z.of_nat (length nonceList) =? budget) else NonceListLength;
  let epoch := latestTransitionedEpoch s in
  let epochKey := genEpochKey (identityNullifier (id s)) epoch epkNonce None in
  let rep := getRepByAttester s attesterId_ in
  let posRep := Reputation.posRep rep in
  let negRep := Reputation.negRep rep in
  let userStateTree := genUserStateTree s in
  GSTree <-? genGSTree epoch;
  let GSTreeProof := imt_createProof GSTree (latestGSTLeafIndex s) in
  USTPathElements <-? createProof userStateTree attesterId_;
  sel <-? selectNonces nonceList ∅ 0 [];
  let '(repNullifiersAmount, selectors) := sel in
  (* check if the nullifiers are submitted before *)
  _ <-? (if repNullifiersAmount >? 0 then
           (* Number(posRep) - Number(negRep) *)
           let bound :=
             Number.sub (Number.ofInteger posRep) (Number.ofInteger negRep) in
           match
             findNonceStarter s epoch attesterId_ bound (searchTurns bound) 0
           with
           | None => inl NeverReturns
           | Some nonceStarter =>
               guard (negb (nonceStarter =? -1)) else AllNullifiersSpent;
               guard (Number.leb
                        (Number.add (Number.Finite nonceStarter)
                           (Number.Finite repNullifiersAmount))
                        bound)
                 else NotEnoughReputation;
               inr tt
           end
         else inr tt);
  inr {|
    ProveReputation.epoch := epoch;
    ProveReputation.epoch_key_nonce := epkNonce;
    ProveReputation.epoch_key := epochKey;
    ProveReputation.identity_nullifier := identityNullifier (id s);
    ProveReputation.identity_trapdoor := trapdoor (id s);
    ProveReputation.user_tree_root := smt_root userStateTree;
    ProveReputation.GST_path := GSTreeProof;
    ProveReputation.GST_root := imt_root GSTree;
    ProveReputation.attester_id := attesterId_;
    ProveReputation.pos_rep := posRep;
    ProveReputation.neg_rep := negRep;
    ProveReputation.graffiti := Reputation.graffiti rep;
    ProveReputation.sign_up := Reputation.signUp rep;
    ProveReputation.UST_path_elements := USTPathElements;
    ProveReputation.rep_nullifiers_amount := repNullifiersAmount;
    ProveReputation.selectors := selectors;
    ProveReputation.rep_nonce := nonceList;
    ProveReputation.min_rep := default 0 minRep;
    ProveReputation.prove_graffiti := default 0 proveGraffiti;
    ProveReputation.graffiti_pre_image := default 0 graffitiPreImage
  |}.

(** [genProofAndPublicSignals(Circuit.proveReputation, circuitInputs)],
    the external prover. *)
Variable proveReputation :
  ProveReputation.Inputs -> Error + (SnarkProof * list Z).

(** [genProveReputationProof(attesterId, epkNonce, minRep?,
    proveGraffiti?, graffitiPreImage?, nonceList?)] *)
Definition genProveReputationProof (s : t) (attesterId_ epkNonce : Z)
    (minRep proveGraffiti graffitiPreImage : option Z)
    (nonceList : option (list Z))
  : Error + ProveReputation.Result :=
  circuitInputs <-?
    genProveReputationProof_inputs s attesterId_ epkNonce minRep
      proveGraffiti graffitiPreImage nonceList;
  results <-? proveReputation circuitInputs;
  let '(proof, publicSignals) := results in
  let budget := Z.to_nat (maxReputationBudget (settings sync)) in
  inr {|
    ProveReputation.proof := proof;
    ProveReputation.publicSignals := publicSignals;
    ProveReputation.reputationNullifiers := take budget publicSignals;
    ProveReputation.r_epoch := publicSignals !! budget;
    ProveReputation.r_epochKey := publicSignals !! (budget + 1)%nat;
    ProveReputation.globalStatetreeRoot := publicSignals !! (budget + 2)%nat;
    ProveReputation.r_attesterId := publicSignals !! (budget + 3)%nat;
    ProveReputation.proveReputationAmount := publicSignals !! (budget + 4)%nat;
    ProveReputation.r_minRep := publicSignals !! (budget + 5)%nat;
    ProveReputation.proveGraffiti := publicSignals !! (budget + 6)%nat;
    ProveReputation.graffitiPreImage := publicSignals !! (budget + 7)%nat
  |}.

(** [genVerifyEpochKeyProof(epochKeyNonce)], up to the call of the prover:
    the checks and the circuit inputs. *)
Definition genVerifyEpochKeyProof_inputs (s : t) (epochKeyNonce : Z)
  : Error + VerifyEpochKey.Inputs :=
  guard (hasSignedUp s) else UserNotSignedUp;
  guard (epochKeyNonce <? numEpochKeyNoncePerEpoch (settings sync))
    else EpkNonceTooLarge;
  let epoch := latestTransitionedEpoch s in
  let epochKey :=
    genEpochKey (identityNullifier (id s)) epoch epochKeyNonce
      (Some (epochTreeDepth (settings sync))) in
  let userStateTree := genUserStateTree s in
  GSTree <-? genGSTree epoch;
  let GSTProof := imt_createProof GSTree (latestGSTLeafIndex s) in
  inr {|
    VerifyEpochKey.GST_path := GSTProof;
    VerifyEpochKey.GST_root := imt_root GSTree;
    VerifyEpochKey.identity_nullifier := identityNullifier (id s);
    VerifyEpochKey.identity_trapdoor := trapdoor (id s);
    VerifyEpochKey.user_tree_root := smt_root userStateTree;
    VerifyEpochKey.nonce := epochKeyNonce;
    VerifyEpochKey.epoch := epoch;
    VerifyEpochKey.epoch_key := epochKey
  |}.

(** [genProofAndPublicSignals(Circuit.verifyEpochKey, circuitInputs)] *)
Variable proveEpochKey :
  VerifyEpochKey.Inputs -> Error + (SnarkProof * list Z).

(** [genVerifyEpochKeyProof(epochKeyNonce)] *)
Definition genVerifyEpochKeyProof (s : t) (epochKeyNonce : Z)
  : Error + VerifyEpochKey.Result :=
  circuitInputs <-? genVerifyEpochKeyProof_inputs s epochKeyNonce;
  results <-? proveEpochKey circuitInputs;
  let '(proof, publicSignals) := results in
  inr {|
    VerifyEpochKey.proof := proof;
    VerifyEpochKey.publicSignals := publicSignals;
    VerifyEpochKey.globalStateTree := publicSignals !! 0%nat;
    VerifyEpochKey.r_epoch := publicSignals !! 1%nat;
    VerifyEpochKey.r_epochKey := publicSignals !! 2%nat
  |}.

(** [BigInt(2 ** d)] for an integer [d]: the power is a double, exact from
    0 to 1023, [Infinity] above, a fraction from -1074 to -1 and 0 below;
    [BigInt] throws on a fraction and on [Infinity]. *)
Definition bigIntPow2 (d : Z) : option Z :=
  if d <? -1074 then Some 0
  else if d <? 0 then None
  else if d <=? 1023 then Some (2 ^ d)
  else None.

(** [_checkAttesterId(attesterId)] *)
Definition _checkAttesterId (attesterId_ : Z)
  : ProveUserSignUp.Failure + unit :=
  guard (attesterId_ >? 0) else ProveUserSignUp.AttesterIdNotPositive;
  match bigIntPow2 (userStateTreeDepth (settings sync)) with
  | None => inl ProveUserSignUp.DepthOutOfRange
  | Some bound =>
      guard (attesterId_ <? bound) else ProveUserSignUp.AttesterIdTooLarge;
      inr tt
  end.

(** [genUserSignUpProof(attesterId)], up to the call of the prover. *)
Definition genUserSignUpProof_inputs (s : t) (attesterId_ : Z)
  : ProveUserSignUp.Failure + ProveUserSignUp.Inputs :=
  guard (hasSignedUp s) else (ProveUserSignUp.Failed UserNotSignedUp);
  _ <-? _checkAttesterId attesterId_;
  let epoch := latestTransitionedEpoch s in
  let nonce := 0 in (* fixed epk nonce *)
  let epochKey := genEpochKey (identityNullifier (id s)) epoch nonce None in
  let rep := getRepByAttester s attesterId_ in
  let userStateTree := genUserStateTree s in
  match genGSTree epoch with
  | inl e => inl (ProveUserSignUp.Failed e)
  | inr GSTree =>
      let GSTreeProof := imt_createProof GSTree (latestGSTLeafIndex s) in
      match createProof userStateTree attesterId_ with
      | inl e => inl (ProveUserSignUp.Failed e)
      | inr USTPathElements =>
          inr {|
            ProveUserSignUp.epoch := epoch;
            ProveUserSignUp.epoch_key := epochKey;
            ProveUserSignUp.identity_nullifier := identityNullifier (id s);
            ProveUserSignUp.identity_trapdoor := trapdoor (id s);
            ProveUserSignUp.user_tree_root := smt_root userStateTree;
            ProveUserSignUp.GST_path := GSTreeProof;
            ProveUserSignUp.GST_root := imt_root GSTree;
            ProveUserSignUp.attester_id := attesterId_;
            ProveUserSignUp.pos_rep := Reputation.posRep rep;
            ProveUserSignUp.neg_rep := Reputation.negRep rep;
            ProveUserSignUp.graffiti := Reputation.graffiti rep;
            ProveUserSignUp.sign_up := Reputation.signUp rep;
            ProveUserSignUp.UST_path_elements := USTPathElements
          |}
      end
  end.

(** [genProofAndPublicSignals(Circuit.proveUserSignUp, circuitInputs)] *)
Variable proveUserSignUp :
  ProveUserSignUp.Inputs -> Error + (SnarkProof * list Z).

(** [genUserSignUpProof(attesterId)] *)
Definition genUserSignUpProof (s : t) (attesterId_ : Z)
  : ProveUserSignUp.Failure + ProveUserSignUp.Result :=
  circuitInputs <-? genUserSignUpProof_inputs s attesterId_;
  match proveUserSignUp circuitInputs with
  | inl e => inl (ProveUserSignUp.Failed e)
  | inr (proof, publicSignals) =>
      inr {|
        ProveUserSignUp.proof := proof;
        ProveUserSignUp.publicSignals := publicSignals;
        ProveUserSignUp.r_epoch := publicSignals !! 0%nat;
        ProveUserSignUp.r_epochKey := publicSignals !! 1%nat;
        ProveUserSignUp.globalStateTreeRoot := publicSignals !! 2%nat;
        ProveUserSignUp.r_attesterId := publicSignals !! 3%nat;
        ProveUserSignUp.userHasSignedUp := publicSignals !! 4%nat
      |}
  end.

(** [_db.findMany('Attestation', {where: {epoch}})]: the [epochKey] of each
    record found, in the order of the datastore. *)
Variable dbEpochKeysOfAttestations : Z -> list Z.

(** [getEpochKeys(epoch)]: the keys of the object the [reduce] builds, as
    [Object.keys] lists them. *)
Definition getEpochKeys (epoch : Z) : Error + list Z :=
  guard (validEpoch sync epoch) else InvalidEpoch;
  let epks :=
    fold_left (fun acc epochKey => JSObject.set epochKey true acc)
      (dbEpochKeysOfAttestations epoch) [] in
  inr (map fst (JSObject.entries epks)).

(** [array.slice(start, end)]: a negative bound counts from the end, and
    both are clamped to the array. *)
Definition Array_slice {A : Type} (l : list A) (start stop : Z) : list A :=
  let len := Z.of_nat (length l) in
  let clamp i := if i <? 0 then Z.max (len + i) 0 else Z.min i len in
  take (Z.to_nat (clamp stop - clamp start)) (drop (Z.to_nat (clamp start)) l).

(** [publicSignals[i]] for a number [i]. *)
Definition signalAt (publicSignals : list Z) (i : Z) : option Z :=
  if i <? 0 then None else publicSignals !! Z.to_nat i.

(** The [finalTransitionProof] object: the public signals picked out by
    position. *)
Definition decodeFinalTransition (proof : SnarkProof) (publicSignals : list Z)
  : TransitionProofs.Final :=
  let n := numEpochKeyNoncePerEpoch (settings sync) in
  {| TransitionProofs.f_proof := proof;
     TransitionProofs.f_publicSignals := publicSignals;
     TransitionProofs.newGlobalStateTreeLeaf := signalAt publicSignals 0;
     TransitionProofs.epochKeyNullifiers := Array_slice publicSignals 1 (1 + n);
     TransitionProofs.transitionedFromEpoch := signalAt publicSignals (1 + n);
     TransitionProofs.blindedUserStates :=
       Array_slice publicSignals (2 + n) (4 + n);
     TransitionProofs.fromGSTRoot := signalAt publicSignals (4 + n);
     TransitionProofs.blindedHashChains :=
       Array_slice publicSignals (5 + n) (5 + 2 * n);
     TransitionProofs.fromEpochTree := signalAt publicSignals (5 + 2 * n) |}.

(** The three circuits of a transition, behind the external prover. *)
Variable proveStartTransition :
  StartTransition.Inputs -> Error + (SnarkProof * list Z).
Variable proveProcessAttestations :
  ProcessAttestations.Inputs -> Error + (SnarkProof * list Z).
Variable proveUserStateTransition :
  FinalTransition.Inputs -> Error + (SnarkProof * list Z).

(** The loop over [processAttestationCircuitInputs]: one call of the
    prover per batch, in order, until one fails. *)
Fixpoint proveBatches (inputs : list ProcessAttestations.Inputs)
  : Error + list TransitionProofs.Process :=
  match inputs with
  | [] => inr []
  | i :: rest =>
      results <-? proveProcessAttestations i;
      let '(proof, publicSignals) := results in
      proofs <-? proveBatches rest;
      inr ({| TransitionProofs.p_proof := proof;
              TransitionProofs.p_publicSignals := publicSignals;
              TransitionProofs.outputBlindedUserState :=
                publicSignals !! 0%nat;
              TransitionProofs.outputBlindedHashChain :=
                publicSignals !! 1%nat;
              TransitionProofs.inputBlindedUserState :=
                publicSignals !! 2%nat |} :: proofs)
  end.

(** [genUserStateTransitionProofs()] *)
Definition genUserStateTransitionProofs (s : t)
  : Error + TransitionProofs.t :=
  inputs <-? genUserStateTransitionProofs_inputs s;
  startResults <-?
    proveStartTransition
      (StartTransition.circuitInputs (startTransitionCircuitInputs inputs));
  let '(startProof, startSignals) := startResults in
  processProofs <-? proveBatches (processAttestationCircuitInputs inputs);
  finalResults <-?
    proveUserStateTransition (finalTransitionCircuitInputs inputs);
  let '(finalProof, finalSignals) := finalResults in
  inr {|
    TransitionProofs.startTransitionProof :=
      {| TransitionProofs.s_proof := startProof;
         TransitionProofs.s_publicSignals := startSignals;
         TransitionProofs.blindedUserState := startSignals !! 0%nat;
         TransitionProofs.blindedHashChain := startSignals !! 1%nat;
         TransitionProofs.globalStateTreeRoot := startSignals !! 2%nat |};
    TransitionProofs.processAttestationProofs := processProofs;
    TransitionProofs.finalTransitionProof :=
      decodeFinalTransition finalProof finalSignals
  |}.

(** The handlers [start] registers, after the event is decoded.  Each
    runs its call inside [try ... catch (err) { console.log(err) }]: a
    failure is logged and the state stays as the call left it. *)

(** [this.on(UserSignedUp, ...)] *)
Definition onUserSignedUp (s : t) (epoch commitment_ attesterId_ airdrop : Z)
  : t :=
  snd (signUp s epoch commitment_ (Some attesterId_) (Some airdrop)).

(** [this.on(EpochEnded, ...)] *)
Definition onEpochEnded (s : t) (epoch : Z) : t :=
  snd (epochTransition s epoch).

(** [this.on(UserStateTransitioned, ...)].  [proof] is the public signals
    of the record [loadUSTProof(proofIndex)] finds, decoded; when there is
    no record the handler fails on [proof.publicSignals] before it does
    anything.  [Number(publicSignals[4])] of a missing signal is [NaN],
    which no epoch equals. *)
Definition onUserStateTransitioned (s : t) (GSTLeaf : Z)
    (proof : option (list Z)) : t :=
  match proof with
  | None => s
  | Some publicSignals =>
      if GSTLeaf =? newGSTLeaf (newUserState s) then
        match publicSignals !! 4%nat with
        | Some fromEpoch => snd (userStateTransition s fromEpoch GSTLeaf)
        | None =>
            set_newUserState {| newGSTLeaf := 0; newUSTLeaves := [] |} s
        end
      else s
  end.

End WithCollaborators.

End UserState.


(** ** A small concrete instance

    Arithmetic stand-ins for the hashes and trees, a datastore with a
    handful of records: the instance at which the general statements below
    are exercised. *)

Module Sample.

Definition crypto : Crypto := {|
  genIdentityCommitment i := identityNullifier i + 2 * trapdoor i;
  hash5 l := fold_right (fun x acc => x + 31 * acc) 7 l;
  hashLeftRight a b := 3 * a + 5 * b + 1;
  genEpochKey idn e n _ := idn + 100 * e + n;
  genReputationNullifier idn e n a := idn + 10 * e + 1000 * a + 100000 * n;
  reputation_hash r :=
    Reputation.posRep r + 3 * Reputation.negRep r
    + 5 * Reputation.graffiti r + 7 * Reputation.signUp r;
  attestation_hash a :=
    Attestation.attesterId a + 3 * Attestation.posRep a
    + 5 * Attestation.negRep a + 7 * Attestation.graffiti a
    + 11 * Attestation.signUp a;
  defaultUserStateLeaf := 0;
  MerkleProof := Z;
  SparseMerkleTree := list (Z * Z);
  genNewSMT _ _ := [];
  smt_update t k v := JSObject.set k v t;
  smt_root t := fold_right (fun kv acc => fst kv + 13 * snd kv + 17 * acc) 1 t;
  smt_createProof t k := k;
  IncrementalMerkleTree := list Z;
  newIncrementalMerkleTree _ _ := [];
  imt_insert t x := t ++ [x];
  imt_root t := fold_right (fun x acc => x + 19 * acc) 2 t;
  imt_createProof t i := i;
  NUM_ATTESTATIONS_PER_PROOF := 2;
  SnarkProof := unit
|}.

Definition sampleSettings : Settings := {|
  numEpochKeyNoncePerEpoch := 2;
  maxReputationBudget := 3;
  epochTreeDepth := 4;
  userStateTreeDepth := 4;
  globalStateTreeDepth := 4
|}.

Definition identity : ZkIdentity := {| identityNullifier := 11; trapdoor := 5 |}.

(** Three attestations to the epoch key of (epoch 1, nonce 0), none to that
    of nonce 1. *)
Definition attestationsOf (epochKey : Z) : list Attestation.t :=
  if epochKey =? 111 then
    [Attestation.mk 1 3 0 0 0; Attestation.mk 2 4 1 9 1; Attestation.mk 1 0 2 0 0]
  else [].

(** The chain is in epoch [current]; the nullifiers in [spent] are spent. *)
Definition sync (current : Z) (spent : list Z) : @Synchronizer crypto := {|
  settings := sampleSettings;
  defaultGSTLeaf := 0;
  currentEpochNumber := current;
  validEpoch e := e <=? current;
  epochKeyInRange k := 0 <=? k;
  dbGSTLeaves e := [21];
  dbCountGSTLeaves e := 1;
  dbAttestations := attestationsOf;
  nullifierExist n := existsb (Z.eqb n) spent;
  genEpochTree e := inr (@genNewSMT crypto 4 0)
|}.

(** The user signed up in epoch 1, with reputation (5, 0) from attester 1
    and a staged transition to leaf 77. *)
Definition signedUp : UserState.t :=
  UserState.mk
    [mkLeaf 1 (Reputation.mk 5 0 0 1)] identity 21 true 1 0 [0%nat] ∅
    {| UserState.newGSTLeaf := 77; UserState.newUSTLeaves := [0%nat] |}.

(** The same user with another reputation from attester 1. *)
Definition withReputation (posRep negRep : Z) : UserState.t :=
  UserState.mk
    [mkLeaf 1 (Reputation.mk posRep negRep 0 1)] identity 21 true 1 0 [0%nat] ∅
    {| UserState.newGSTLeaf := 0; UserState.newUSTLeaves := [] |}.

(** A prover that accepts every input. *)
Definition prover (i : @ProveReputation.Inputs crypto)
  : Error + (@SnarkProof crypto * list Z) :=
  inr (tt, ProveReputation.rep_nonce i).

(** The reputation nullifier of the sample user for attester 1 and a
    nonce. *)
Definition nullifier (n : Z) : Z :=
  @genReputationNullifier crypto 11 1 n 1.

(** The state the constructor builds for the sample identity. *)
Definition fresh : UserState.t :=
  UserState.mk [] identity 21 false 0 0 [] ∅
    {| UserState.newGSTLeaf := 0; UserState.newUSTLeaves := [] |}.

(** The sample user after the sign-up event of epoch 1, with an airdrop of
    5 from attester 1. *)
Definition enrolled : UserState.t :=
  UserState.onUserSignedUp (sync 1 []) fresh 1 21 1 5.

(** The sample chain with settings that give no nonce per epoch. *)
Definition syncWithoutNonces : @Synchronizer crypto := {|
  settings := {|
    numEpochKeyNoncePerEpoch := 0;
    maxReputationBudget := 3;
    epochTreeDepth := 4;
    userStateTreeDepth := 4;
    globalStateTreeDepth := 4
  |};
  defaultGSTLeaf := 0;
  currentEpochNumber := 2;
  validEpoch e := e <=? 2;
  epochKeyInRange k := 0 <=? k;
  dbGSTLeaves e := [21];
  dbCountGSTLeaves e := 1;
  dbAttestations := attestationsOf;
  nullifierExist n := false;
  genEpochTree e := inr (@genNewSMT crypto 4 0)
|}.

(** A prover that accepts every input and answers with the given public
    signals. *)
Definition answering {I : Type} (signals : list Z) (i : I)
  : Error + (@SnarkProof crypto * list Z) :=
  inr (tt, signals).

End Sample.

(** ** What a call commits *)

(** The committed state of an identity: the three fields a transition
    commit assigns. *)
Definition committedState (s : UserState.t) : Z * Z * list nat :=
  (UserState.latestTransitionedEpoch s, UserState.latestGSTLeafIndex s,
   UserState.latestUserStateLeaves s).

(** The staged state after it is discarded. *)
Definition clearedStage : UserState.NewUserState :=
  {| UserState.newGSTLeaf := 0; UserState.newUSTLeaves := [] |}.

(** ** The states of an identity *)

(** The references of the committed and of the staged array point into the
    store, and each array holds at most one leaf per attester. *)
Definition wellFormed (s : UserState.t) : Prop :=
  Forall (fun l => (l < length (UserState.heap s))%nat)
    (UserState.latestUserStateLeaves s)
  /\ Forall (fun l => (l < length (UserState.heap s))%nat)
       (UserState.newUSTLeaves (UserState.newUserState s))
  /\ NoDup (map attesterId (UserState.ledger s))
  /\ NoDup (map attesterId (UserState.stagedLeaves s)).

(** What one update of the staged leaves keeps: the references stay in the
    store, the staged array keeps one leaf per attester, and the attesters
    of any other array of references ([other], the committed one) stay as
    they were. *)
Definition updateInvariant (other : list nat)
    (ids : list Z) (hs : list IUserStateLeaf * list nat) : Prop :=
  Forall (fun l => (l < length (fst hs))%nat) other
  /\ Forall (fun l => (l < length (fst hs))%nat) (snd hs)
  /\ map attesterId (UserState.deref (fst hs) other) = ids
  /\ NoDup (map attesterId (UserState.deref (fst hs) (snd hs))).

(** The states an identity goes through: built by the constructor without
    optional arguments, then driven by the three handlers of [start], over
    any state of the chain; a call that throws leaves the state it had
    reached. *)
Inductive reachable `{Crypto} (i : ZkIdentity) : UserState.t -> Prop :=
| reach_new (s : UserState.t) :
    UserState.new i None None None None None = inr s -> reachable i s
| reach_signUp (sync : Synchronizer) (s : UserState.t) (epoch c : Z)
    (a d : option Z) :
    reachable i s ->
    reachable i (snd (UserState.signUp sync s epoch c a d))
| reach_epochTransition (sync : Synchronizer) (s : UserState.t) (epoch : Z) :
    reachable i s ->
    reachable i (snd (UserState.epochTransition sync s epoch))
| reach_userStateTransition (sync : Synchronizer) (s : UserState.t)
    (fromEpoch leaf : Z) :
    reachable i s ->
    reachable i (snd (UserState.userStateTransition sync s fromEpoch leaf)).

(** ** What a reputation proof requests *)

(** The nonces a nonce list requests: its entries other than [-1]. *)
Definition requested (nonceList : list Z) : list Z :=
  List.filter (fun x => negb (x =? -1)) nonceList.

(** Whether the reputation nullifier of the user for attester [a] and nonce
    [n] is still unspent. *)
Definition unspent `{Crypto} (sync : Synchronizer) (s : UserState.t)
    (a n : Z) : Prop :=
  nullifierExist sync
    (genReputationNullifier (identityNullifier (UserState.id s))
       (UserState.latestTransitionedEpoch s) n a) = false.

(** The balance the search for a nonce runs over:
    [Number(posRep) - Number(negRep)] of the committed reputation from
    attester [a], a double. *)
Definition balance (s : UserState.t) (a : Z) : Number.t :=
  Number.sub
    (Number.ofInteger (Reputation.posRep (UserState.getRepByAttester s a)))
    (Number.ofInteger (Reputation.negRep (UserState.getRepByAttester s a))).

(** The first nonce whose reputation nullifier is unspent. *)
Definition firstUnspent `{Crypto} (sync : Synchronizer) (s : UserState.t)
    (a n : Z) : Prop :=
  0 <= n /\ unspent sync s a n /\ forall m, 0 <= m < n -> ~ unspent sync s a m.

(** A call fails: it ends with an exception. *)
Definition fails {A : Type} (r : Error + A) : Prop :=
  exists e, r = inl e /\ e <> NeverReturns.

(** The state refers to what the trees hold: the attesters of the committed
    ledger are keys of the user state tree, and [latestGSTLeafIndex] is the
    index of a leaf of the global state tree of the latest transitioned
    epoch.  The trees come from [@unirep/crypto]: what [update] does with a
    key and [createProof] of the incremental tree with an index that the
    tree does not hold is not in the sources, and the statements about
    when a proof generator passes are made for the states in which the
    trees are not asked to. *)
Definition inTrees `{Crypto} (sync : Synchronizer) (s : UserState.t) : Prop :=
  Forall
    (fun leaf => 0 <= attesterId leaf < 2 ^ userStateTreeDepth (settings sync))
    (UserState.ledger s)
  /\ 0 <= UserState.latestGSTLeafIndex s
       < Z.of_nat
           (length (dbGSTLeaves sync (UserState.latestTransitionedEpoch s))).

(** The values at which the operations on doubles are compared with the
    Standard Library's binary64: around the places where rounding sets in
    and where the doubles end. *)
Definition binary64Samples : list Z :=
  [0; 1; -1; 5; 2 ^ 53 - 1; 2 ^ 53; 2 ^ 53 + 1; 2 ^ 53 + 2; 2 ^ 53 + 3;
   - (2 ^ 53 + 1); 2 ^ 54 + 2; 2 ^ 54 + 6; 2 ^ 60 + 2 ^ 7 + 1; 10 ^ 30;
   2 ^ 256 - 1; 2 ^ 1024 - 2 ^ 970 - 1; 2 ^ 1024 - 2 ^ 970; - (2 ^ 1024)].

(** The same synchronizer over another set of spent nullifiers. *)
Definition withNullifiers `{Crypto} (f : Z -> bool) (sync : Synchronizer)
  : Synchronizer :=
  {| settings := settings sync;
     defaultGSTLeaf := defaultGSTLeaf sync;
     currentEpochNumber := currentEpochNumber sync;
     validEpoch := validEpoch sync;
     epochKeyInRange := epochKeyInRange sync;
     dbGSTLeaves := dbGSTLeaves sync;
     dbCountGSTLeaves := dbCountGSTLeaves sync;
     dbAttestations := dbAttestations sync;
     nullifierExist := f;
     genEpochTree := genEpochTree sync |}.

(** ** What the transition inputs declare *)

(** The leaf [fromJSON] builds from one property of the serialized
    ledger. *)
Definition parseLeaf (kv : Z * Reputation.JSON) : IUserStateLeaf :=
  mkLeaf (fst kv)
    (Reputation.mk (Reputation.j_posRep (snd kv)) (Reputation.j_negRep (snd kv))
       (Reputation.j_graffiti (snd kv)) (Reputation.j_signUp (snd kv))).

(** The blinded user state a batch ends in: the checkpoint of its last
    intermediate root under its [to_nonce], the value the program pushes to
    [blindedUserState] when it closes the batch.  [None] when the batch has
    no [to_nonce] or no root. *)
Definition outputBlindedUserState `{Crypto} (b : ProcessAttestations.Inputs)
  : option Z :=
  match last (ProcessAttestations.intermediate_user_state_tree_roots b),
        ProcessAttestations.to_nonce b with
  | Some root, Some n =>
      Some (hash5 [ProcessAttestations.identity_nullifier b; root;
                   ProcessAttestations.epoch b; n])
  | _, _ => None
  end.

(** A neutral entry: every value of the attestation and of the old
    reputation is zero. *)
Definition neutral `{Crypto} (row : ProcessAttestations.Row) : Prop :=
  ProcessAttestations.old_pos_rep row = 0
  /\ ProcessAttestations.old_neg_rep row = 0
  /\ ProcessAttestations.old_graffiti row = 0
  /\ ProcessAttestations.old_sign_up row = 0
  /\ ProcessAttestations.attester_id row = 0
  /\ ProcessAttestations.pos_rep row = 0
  /\ ProcessAttestations.neg_rep row = 0
  /\ ProcessAttestations.graffiti row = 0
  /\ ProcessAttestations.overwrite_graffiti row
     = ProcessAttestations.OverwriteZero
  /\ ProcessAttestations.sign_up row = 0.

(** Every entry with selector 0 is neutral and leaves the intermediate root
    as it was: [roots] holds the root before entry [k] at [k] and the root
    after it at [k + 1]. *)
Definition paddingIsNeutral `{Crypto} (roots : list Z)
    (rows : list ProcessAttestations.Row) : Prop :=
  forall (k : nat) (row : ProcessAttestations.Row),
    rows !! k = Some row ->
    ProcessAttestations.selector row = 0 ->
    neutral row /\ roots !! S k = roots !! k.

(** The hash chain of the attestations of one epoch key:
    [hashLeftRight(attestation.hash(), currentHashChain)] from 0, over the
    attestations in the order of the datastore. *)
Definition hashChainOf `{Crypto} (attestations : list Attestation.t) : Z :=
  fold_left (fun h a => hashLeftRight (attestation_hash a) h) attestations 0.

(** ** Invariants of the loops of genUserStateTransitionProofs *)

Section LoopInvariants.

Context `{Crypto}.
Variable s : UserState.t.
Variable start : Z.

(** What holds of the arrays at every point of the loops. *)
Definition shape (a : UserState.Acc) : Prop :=
  length (UserState.intermediateUserStateTreeRoots a)
  = S (length (UserState.rows a))
  /\ UserState.intermediateUserStateTreeRoots a !! length (UserState.rows a)
     = Some (smt_root (UserState.fromEpochUserStateTree a))
  /\ UserState.blindedUserState a !! 0%nat = Some start
  /\ paddingIsNeutral (UserState.intermediateUserStateTreeRoots a)
       (UserState.rows a).

(** The first [t] batches are closed: the blinded user state after batch
    [j] is the checkpoint of the root at the end of the batch under the
    batch's [to_nonce]. *)
Definition chained (a : UserState.Acc) (t : nat) : Prop :=
  forall (j : nat) (n : Z),
    (j < t)%nat ->
    UserState.toNonces a !! j = Some n ->
    exists root,
      UserState.intermediateUserStateTreeRoots a
        !! Z.to_nat (NUM_ATTESTATIONS_PER_PROOF * (Z.of_nat j + 1))
      = Some root
      /\ UserState.blindedUserState a !! S j
         = Some (UserState.checkpoint s root n).

(** At the head of the loop over the nonces: every batch is closed and
    full. *)
Definition betweenNonces (a : UserState.Acc) : Prop :=
  shape a
  /\ Z.of_nat (length (UserState.rows a))
     = NUM_ATTESTATIONS_PER_PROOF * Z.of_nat (length (UserState.toNonces a))
  /\ length (UserState.blindedUserState a)
     = S (length (UserState.toNonces a))
  /\ (length (UserState.fromNonces a) <= S (length (UserState.toNonces a)))%nat
  /\ chained a (length (UserState.toNonces a)).

(** Inside the turn of [nonce]: the last batch is open. *)
Definition withinNonce (nonce : Z) (a : UserState.Acc) : Prop :=
  shape a
  /\ last (UserState.toNonces a) = Some nonce
  /\ length (UserState.blindedUserState a) = length (UserState.toNonces a)
  /\ (length (UserState.fromNonces a) <= length (UserState.toNonces a))%nat
  /\ chained a (length (UserState.toNonces a) - 1).

(** The open batch after [i] attestations of the nonce: the entries pushed
    so far are [i] more than a multiple of the batch size, and lie in the
    open batch (strictly inside or at its end once [i > 0]). *)
Definition counted (a : UserState.Acc) (i : Z) : Prop :=
  let e := Z.of_nat (length (UserState.rows a)) in
  let t := Z.of_nat (length (UserState.toNonces a)) in
  0 <= i
  /\ (exists q, e = NUM_ATTESTATIONS_PER_PROOF * q + i)
  /\ (if i =? 0 then e = NUM_ATTESTATIONS_PER_PROOF * (t - 1)
      else NUM_ATTESTATIONS_PER_PROOF * (t - 1) < e
           <= NUM_ATTESTATIONS_PER_PROOF * t).

End LoopInvariants.

(** The state of the loops of [genUserStateTransitionProofs] before the
    first nonce. *)
Definition initialAcc `{Crypto} (sync : Synchronizer) (s : UserState.t)
  : UserState.Acc :=
  UserState.mkAcc (UserState.genUserStateTree sync s)
    [smt_root (UserState.genUserStateTree sync s)] [] [] [0] [] []
    [hash5 [identityNullifier (UserState.id s);
            smt_root (UserState.genUserStateTree sync s);
            UserState.latestTransitionedEpoch s; 0; 0]]
    [] ∅ [].

(** ** How attestations fold into a reputation *)

(** What one attestation does to the reputation from attester [a]: the
    update of [_updateUserStateLeaf] when it is addressed to [a], nothing
    otherwise. *)
Definition applyAttestation (a : Z) (r : Reputation.t) (att : Attestation.t)
  : Reputation.t :=
  if Attestation.attesterId att =? a
  then Reputation.update r (Attestation.posRep att) (Attestation.negRep att)
         (Attestation.graffiti att) (Attestation.signUp att)
  else r.

(** The attestations the datastore holds for the epoch keys of the latest
    transitioned epoch, nonce after nonce. *)
Definition receivedAttestations `{Crypto} (sync : Synchronizer)
    (s : UserState.t) : list Attestation.t :=
  concat
    (map (fun nonce =>
            dbAttestations sync
              (UserState.epochKeyOf sync s
                 (UserState.latestTransitionedEpoch s) nonce))
       (UserState.nonces sync)).

(** Every epoch key of the latest transitioned epoch passes the range
    check. *)
Definition epochKeysInRange `{Crypto} (sync : Synchronizer)
    (s : UserState.t) : Prop :=
  Forall
    (fun nonce =>
       epochKeyInRange sync
         (UserState.epochKeyOf sync s
            (UserState.latestTransitionedEpoch s) nonce) = true)
    (UserState.nonces sync).

(** The attester of every attestation received in the latest transitioned
    epoch is a leaf of the user state tree. *)
Definition attestersAreLeaves `{Crypto} (sync : Synchronizer)
    (s : UserState.t) : Prop :=
  Forall
    (fun attestation =>
       UserState.isLeafKey sync (Attestation.attesterId attestation) = true)
    (receivedAttestations sync s).

(** ** The nonces of the batches *)

(** A list of nonces that moves from each entry to the same or to the next
    one. *)
Definition steps (l : list Z) : Prop :=
  forall (i : nat) (x y : Z),
    l !! i = Some x -> l !! S i = Some y -> y = x \/ y = x + 1.

(** At the head of the loop over the nonces, before nonce [m]: each batch
    opened so far starts at the nonce the one before ends at. *)
Definition noncesBetween `{Crypto} (m : Z) (a : UserState.Acc) : Prop :=
  UserState.fromNonces a = 0 :: UserState.toNonces a
  /\ steps (0 :: UserState.toNonces a)
  /\ last (0 :: UserState.toNonces a) = Some (Z.max 0 (m - 1)).

(** Inside the turn of nonce [m], and after the last nonce: the open batch
    ends at [m]. *)
Definition noncesWithin `{Crypto} (m : Z) (a : UserState.Acc) : Prop :=
  UserState.fromNonces a ++ [m] = 0 :: UserState.toNonces a
  /\ steps (0 :: UserState.toNonces a)
  /\ last (UserState.toNonces a) = Some m.

(** ** The rows of the batches *)

(** The attestation a row carries. *)
Definition attestationOfRow `{Crypto} (row : ProcessAttestations.Row)
  : Attestation.t :=
  Attestation.mk (ProcessAttestations.attester_id row)
    (ProcessAttestations.pos_rep row) (ProcessAttestations.neg_rep row)
    (ProcessAttestations.graffiti row) (ProcessAttestations.sign_up row).

(** The reputation a row declares as the one before its attestation. *)
Definition oldReputationOfRow `{Crypto} (row : ProcessAttestations.Row)
  : Reputation.t :=
  Reputation.mk (ProcessAttestations.old_pos_rep row)
    (ProcessAttestations.old_neg_rep row)
    (ProcessAttestations.old_graffiti row)
    (ProcessAttestations.old_sign_up row).

(** A row of an attestation, as opposed to padding. *)
Definition isReal `{Crypto} (row : ProcessAttestations.Row) : bool :=
  ProcessAttestations.selector row =? 1.

(** For each attestation of [atts], the reputation of its attester once
    the attestations before it ([seen], then the earlier ones of [atts])
    are applied to the committed reputation. *)
Fixpoint oldReputations (s : UserState.t) (seen atts : list Attestation.t)
  : list Reputation.t :=
  match atts with
  | [] => []
  | att :: rest =>
      fold_left (applyAttestation (Attestation.attesterId att)) seen
        (UserState.getRepByAttester s (Attestation.attesterId att))
      :: oldReputations s (seen ++ [att]) rest
  end.

(** [reputationRecords] after the attestations [seen]: the record of an
    attester, or the committed reputation where there is no record yet, is
    the committed reputation with the attestations applied. *)
Definition recordsAfter (s : UserState.t) (seen : list Attestation.t)
    (records : gmap Z Reputation.t) : Prop :=
  forall b : Z,
    default (UserState.getRepByAttester s b) (records !! b)
    = fold_left (applyAttestation b) seen (UserState.getRepByAttester s b).

(** What one attestation does to the user state tree, given the reputation
    of its attester before it: the leaf of the attester becomes the hash of
    the updated reputation. *)
Definition applyToTree `{Crypto} (tree : SparseMerkleTree)
    (entry : Attestation.t * Reputation.t) : SparseMerkleTree :=
  smt_update tree (Attestation.attesterId (fst entry))
    (reputation_hash
       (Reputation.update (snd entry)
          (Attestation.posRep (fst entry)) (Attestation.negRep (fst entry))
          (Attestation.graffiti (fst entry))
          (Attestation.signUp (fst entry)))).

(** The rows [genUserStateTransitionProofs] needs for the attestations of
    the latest transitioned epoch: for each nonce, its attestations
    rounded up to whole batches, one batch when there is none. *)
Definition filledTotal `{Crypto} (sync : Synchronizer) (s : UserState.t) : Z :=
  foldr Z.add 0
    (map (fun nonce =>
            UserState.filledAttestationNum
              (Z.of_nat
                 (length
                    (dbAttestations sync
                       (UserState.epochKeyOf sync s
                          (UserState.latestTransitionedEpoch s) nonce)))))
       (UserState.nonces sync)).

(** ** The hash chain through the batches *)

(** The hash chain carried on from [h] over a list of attestations. *)
Definition chainOver `{Crypto} (atts : list Attestation.t) (h : Z) : Z :=
  fold_left (fun h a => hashLeftRight (attestation_hash a) h) atts h.

(** The attestations the rows of a batch carry, padding left out. *)
Definition attestationsOfRows `{Crypto} (rows : list ProcessAttestations.Row)
  : list Attestation.t :=
  map attestationOfRow (List.filter isReal rows).

Section StarterInvariants.

Context `{Crypto}.

(** The rows of batch [j]. *)
Definition rowsOfBatch (a : UserState.Acc) (j : nat)
  : list ProcessAttestations.Row :=
  take (Z.to_nat NUM_ATTESTATIONS_PER_PROOF)
    (drop (Z.to_nat NUM_ATTESTATIONS_PER_PROOF * j) (UserState.rows a)).

(** Batch [j + 1] starts its hash chain where batch [j] leaves it when
    both are of the same nonce, and from 0 otherwise. *)
Definition starterLinkedAt (a : UserState.Acc) (j : nat) : Prop :=
  forall t t' h h' : Z,
    UserState.toNonces a !! j = Some t ->
    UserState.toNonces a !! S j = Some t' ->
    UserState.hashChainStarter a !! j = Some h ->
    UserState.hashChainStarter a !! S j = Some h' ->
    h' = if bool_decide (t = t')
         then chainOver (attestationsOfRows (rowsOfBatch a j)) h
         else 0.

(** What holds of the starters at every point of the loops. *)
Definition starters (a : UserState.Acc) : Prop :=
  length (UserState.hashChainStarter a) = length (UserState.toNonces a)
  /\ (forall h, UserState.hashChainStarter a !! 0%nat = Some h -> h = 0)
  /\ (forall j, (S j < length (UserState.toNonces a))%nat ->
                starterLinkedAt a j).

(** At the head of the loop over the nonces, before nonce [m]. *)
Definition startersBetween (m : Z) (a : UserState.Acc) : Prop :=
  starters a
  /\ (forall x, last (UserState.toNonces a) = Some x -> x < m).

(** Inside the turn of nonce [m], with the running hash chain [h]: the
    chain is that of the open batch's starter over the rows the batch has
    so far. *)
Definition startersWithin (m h : Z) (a : UserState.Acc) : Prop :=
  starters a
  /\ last (UserState.toNonces a) = Some m
  /\ (Z.to_nat NUM_ATTESTATIONS_PER_PROOF * (length (UserState.toNonces a) - 1)
      <= length (UserState.rows a))%nat
  /\ exists h0,
       UserState.hashChainStarter a !! (length (UserState.toNonces a) - 1)%nat
       = Some h0
       /\ h = chainOver
                (attestationsOfRows
                   (drop (Z.to_nat NUM_ATTESTATIONS_PER_PROOF
                          * (length (UserState.toNonces a) - 1))
                      (UserState.rows a)))
                h0.

End StarterInvariants.

(** * Properties *)

(** Closes the cases of a statement once the tests of the program have been
    decided. *)
Ltac settle :=
  repeat split; intros;
  repeat match goal with
    | H : exists _, _ |- _ => destruct H
    | H : _ /\ _ |- _ => destruct H
    | H : _ \/ _ |- _ => destruct H
    | H : (_, _) = (_, _) |- _ => injection H as ?
    end;
  subst;
  try discriminate; try congruence; try lia; try tauto; eauto.

(** ** Sign-up, epoch transition and commit *)

Section StateMachine.

Context `{Crypto}.
Variable sync : Synchronizer.

Lemma deref_fresh (h : list IUserStateLeaf) (leaf : IUserStateLeaf) :
  UserState.deref (h ++ [leaf]) [length h] = [leaf].
Proof.
  unfold UserState.deref. cbn.
  rewrite lookup_app_r by lia. now rewrite Nat.sub_diag.
Qed.

(** C1 (as the program has it).  A call [userStateTransition(fromEpoch,
    GSTLeaf)] throws exactly when the user has signed up, [fromEpoch] is the
    latest transitioned epoch, and either the current epoch fails the epoch
    check or the leaf is the staged one while the current epoch is not later
    than [fromEpoch]; a call that throws leaves the whole state, the staged
    state included, as it was.  A call that returns has updated the
    committed state if and only if the user has signed up,
    [latestTransitionedEpoch = fromEpoch] and [GSTLeaf] is the staged leaf
    (the committed state is then the current epoch, its last leaf index and
    the staged leaves), has cleared the staged state, and has changed
    nothing else. *)
Theorem userStateTransition_commits_iff
    (s : UserState.t) (fromEpoch GSTLeaf : Z) :
  let r := UserState.userStateTransition sync s fromEpoch GSTLeaf in
  let attempted :=
    UserState.hasSignedUp s = true
    /\ UserState.latestTransitionedEpoch s = fromEpoch in
  let staged := GSTLeaf = UserState.newGSTLeaf (UserState.newUserState s) in
  ((exists e, fst r = Throw e) <->
     attempted
     /\ (validEpoch sync (currentEpochNumber sync) = false
         \/ (staged /\ ~ fromEpoch < currentEpochNumber sync)))
  /\ (forall e, fst r = Throw e -> snd r = s)
  /\ (fst r = Normal ->
        (committedState (snd r) <> committedState s <-> attempted /\ staged)
        /\ (attempted /\ staged ->
              committedState (snd r)
              = (currentEpochNumber sync,
                 dbCountGSTLeaves sync (currentEpochNumber sync) - 1,
                 UserState.newUSTLeaves (UserState.newUserState s)))
        /\ UserState.newUserState (snd r) = clearedStage
        /\ UserState.hasSignedUp (snd r) = UserState.hasSignedUp s
        /\ UserState.heap (snd r) = UserState.heap s
        /\ UserState.transitionedFromAttestations (snd r)
            = UserState.transitionedFromAttestations s).
Proof.
  destruct s as [h i c su lte lgi ls tfa [nl nls]].
  unfold UserState.userStateTransition, UserState._transition,
    UserState.getNumGSTLeaves, committedState, clearedStage.
  cbn -[Z.eqb Z.ltb].
  destruct su; cbn -[Z.eqb Z.ltb]; [|settle].
  destruct (Z.eqb_spec lte fromEpoch) as [->|Hne]; cbn -[Z.eqb Z.ltb]; [|settle].
  destruct (validEpoch sync (currentEpochNumber sync)) eqn:Hv;
    cbn -[Z.eqb Z.ltb]; [|settle].
  destruct (Z.eqb_spec GSTLeaf nl) as [->|Hl]; cbn -[Z.eqb Z.ltb]; [|settle].
  destruct (Z.ltb_spec fromEpoch (currentEpochNumber sync)) as [Hlt|Hge];
    cbn -[Z.eqb Z.ltb]; settle.
  intros [= E _ _]. lia.
Qed.

(** C1, as stated, at a concrete call.  The user of the sample has signed
    up in epoch 1 and staged leaf 77; the chain is still in epoch 1.  The
    three conditions of the commit hold, yet the call throws ('Can not
    transition to same epoch'): the committed state is not updated and the
    staged state is not cleared. *)
Lemma userStateTransition_same_epoch_throws :
  let s := Sample.signedUp in
  let r := UserState.userStateTransition (Sample.sync 1 []) s 1 77 in
  fst r = Throw SameEpochTransition
  /\ ~ ((committedState (snd r) <> committedState s <->
         UserState.hasSignedUp s = true
         /\ UserState.latestTransitionedEpoch s = 1
         /\ 77 = UserState.newGSTLeaf (UserState.newUserState s))
        /\ UserState.newUserState (snd r) = clearedStage).
Proof.
  cbn. split; [reflexivity|].
  intros [_ E]. discriminate E.
Qed.

(** C3 (as the program has it).  When [fromEpoch] differs from the latest
    transitioned epoch, [userStateTransition(fromEpoch, leaf)] returns
    normally, without reporting a failure; it leaves [hasSignedUp], the
    committed state, the attestation snapshot and the leaf objects as they
    were, and clears the staged state. *)
Theorem userStateTransition_epoch_mismatch
    (s : UserState.t) (fromEpoch leaf : Z) :
  fromEpoch <> UserState.latestTransitionedEpoch s ->
  UserState.userStateTransition sync s fromEpoch leaf
  = (Normal, UserState.set_newUserState clearedStage s).
Proof.
  intros Hne. unfold UserState.userStateTransition.
  destruct (Z.eqb_spec (UserState.latestTransitionedEpoch s) fromEpoch);
    [congruence|].
  now rewrite andb_false_r.
Qed.

(** C6 (as the program has it).  [signUp] with a commitment that is not the
    identity's own changes nothing; with the own commitment and a user that
    has already signed up it fails on the assertion, changing nothing; with
    the own commitment, a user that has not signed up and a valid epoch it
    signs the user up in that epoch, and the ledger becomes exactly one
    leaf, (airdrop, 0, 0, 1) for the attester, when [attesterId] and
    [airdropAmount] are both given and non-zero, and stays as it was
    otherwise. *)
Theorem signUp_cases
    (s : UserState.t) (epoch identityCommitment : Z)
    (attesterId_ airdropAmount : option Z) :
  let r :=
    UserState.signUp sync s epoch identityCommitment attesterId_
      airdropAmount in
  (identityCommitment <> UserState.commitment s -> r = (Normal, s))
  /\ (identityCommitment = UserState.commitment s ->
      UserState.hasSignedUp s = true ->
      r = (Throw UserAlreadySignedUp, s))
  /\ (identityCommitment = UserState.commitment s ->
      UserState.hasSignedUp s = false ->
      validEpoch sync epoch = true ->
      fst r = Normal
      /\ UserState.hasSignedUp (snd r) = true
      /\ UserState.latestTransitionedEpoch (snd r) = epoch
      /\ UserState.latestGSTLeafIndex (snd r)
         = dbCountGSTLeaves sync epoch - 1
      /\ UserState.newUserState (snd r) = UserState.newUserState s
      /\ UserState.ledger (snd r)
         = if UserState.truthy attesterId_ && UserState.truthy airdropAmount
           then [mkLeaf (default 0 attesterId_)
                   (Reputation.mk (default 0 airdropAmount) 0 0 1)]
           else UserState.ledger s).
Proof.
  unfold UserState.signUp, UserState.getNumGSTLeaves.
  destruct (Z.eqb_spec identityCommitment (UserState.commitment s)) as [E|E].
  2: { settle. }
  split; [congruence|]. split.
  - intros _ ->. reflexivity.
  - intros _ -> ->.
    destruct (UserState.truthy attesterId_ && UserState.truthy airdropAmount);
      cbn; repeat split.
    unfold UserState.ledger; cbn. apply deref_fresh.
Qed.

End StateMachine.

(** The commit of the sample user once the chain is in epoch 2, called with
    an epoch that is not the user's. *)
Lemma userStateTransition_epoch_mismatch_witness :
  UserState.userStateTransition (Sample.sync 2 []) Sample.signedUp 2 77
  = (Normal, UserState.set_newUserState clearedStage Sample.signedUp).
Proof.
  apply (userStateTransition_epoch_mismatch (Sample.sync 2 [])
           Sample.signedUp 2 77).
  cbn. lia.
Defined.

(** C3, as stated, at a concrete call: [fromEpoch] = 2 differs from the
    latest transitioned epoch 1 of the sample user.  The call reports no
    failure, and the staged state (leaf 77) is gone. *)
Lemma userStateTransition_mismatch_clears_stage :
  let s := Sample.signedUp in
  let r := UserState.userStateTransition (Sample.sync 2 []) s 2 77 in
  2 <> UserState.latestTransitionedEpoch s
  /\ ~ (snd r = s /\ exists e, fst r = Throw e).
Proof.
  cbn. split; [lia|]. intros [E _]. discriminate E.
Qed.

(** A user who has not signed up yet, as the constructor leaves it. *)
Lemma signUp_cases_witness :
  let s := UserState.mk [] Sample.identity 21 false 0 0 [] ∅ clearedStage in
  let r := UserState.signUp (Sample.sync 1 []) s 1 21 (Some 3) (Some 30) in
  fst r = Normal
  /\ UserState.hasSignedUp (snd r) = true
  /\ UserState.latestTransitionedEpoch (snd r) = 1
  /\ UserState.latestGSTLeafIndex (snd r) = 0
  /\ UserState.newUserState (snd r) = clearedStage
  /\ UserState.ledger (snd r) = [mkLeaf 3 (Reputation.mk 30 0 0 1)].
Proof.
  exact (proj2 (proj2
           (signUp_cases (Sample.sync 1 [])
              (UserState.mk [] Sample.identity 21 false 0 0 [] ∅ clearedStage)
              1 21 (Some 3) (Some 30)))
           eq_refl eq_refl eq_refl).
Defined.

(** C6, as stated, at two concrete calls.  The sign-up the handler of the
    UserSignedUp event issues for a user without airdrop passes the attester
    and the amount 0: the airdrop argument is provided, the user is signed
    up, and no leaf is seeded.  The same happens for an airdrop of 30 given
    without an attester. *)
Lemma signUp_zero_airdrop_seeds_nothing :
  let s := UserState.mk [] Sample.identity 21 false 0 0 [] ∅ clearedStage in
  let r := UserState.signUp (Sample.sync 1 []) s 1 21 (Some 3) (Some 0) in
  let r' := UserState.signUp (Sample.sync 1 []) s 1 21 None (Some 30) in
  (fst r = Normal
   /\ UserState.hasSignedUp (snd r) = true
   /\ ~ (exists leaf, UserState.ledger (snd r) = [leaf]))
  /\ (fst r' = Normal
      /\ UserState.hasSignedUp (snd r') = true
      /\ ~ (exists leaf, UserState.ledger (snd r') = [leaf])).
Proof.
  cbn. repeat split; intros [leaf E]; discriminate E.
Qed.

(** ** The epoch transition and the shared leaves *)

Section EpochTransition.

Context `{Crypto}.
Variable sync : Synchronizer.

Lemma saveAttestationsLoop_frame (fromEpoch : Z) (ns : list Z) (s : UserState.t) :
  let s' := snd (UserState.saveAttestationsLoop sync fromEpoch ns s) in
  UserState.heap s' = UserState.heap s
  /\ UserState.hasSignedUp s' = UserState.hasSignedUp s
  /\ committedState s' = committedState s
  /\ UserState.newUserState s' = UserState.newUserState s.
Proof.
  revert s. induction ns as [|nonce ns IH]; intros s; cbn; [easy|].
  destruct (UserState.getAttestations sync _) as [e|atts]; cbn; [easy|].
  match goal with
  | |- context [UserState.saveAttestationsLoop sync fromEpoch ns ?s1] =>
      destruct (IH s1) as (-> & -> & -> & ->)
  end.
  easy.
Qed.

(** The part of C7 that holds: a call for another epoch changes nothing,
    and no call assigns [hasSignedUp], [latestTransitionedEpoch],
    [latestGSTLeafIndex] or the array [latestUserStateLeaves] (the
    references it holds). *)
Lemma epochTransition_frame (s : UserState.t) (epoch : Z) :
  let r := UserState.epochTransition sync s epoch in
  (epoch <> UserState.latestTransitionedEpoch s -> r = (Normal, s))
  /\ UserState.hasSignedUp (snd r) = UserState.hasSignedUp s
  /\ committedState (snd r) = committedState s.
Proof.
  unfold UserState.epochTransition.
  destruct (Z.eqb_spec epoch (UserState.latestTransitionedEpoch s)) as [E|E];
    [|easy].
  split; [congruence|].
  unfold UserState._saveAttestations.
  destruct (UserState.hasSignedUp s) eqn:Hs; cbn; [|easy].
  pose proof (saveAttestationsLoop_frame
                (UserState.latestTransitionedEpoch s) (UserState.nonces sync) s)
    as (Hh & Hsu & Hc & Hn).
  destruct (UserState.saveAttestationsLoop sync _ _ s) as [[|e] s1];
    cbn in *; [|now rewrite Hsu].
  destruct (UserState._genNewUserStateAfterTransition sync s1) as [e|[h n]];
    cbn; [now rewrite Hsu|].
  now rewrite Hsu.
Qed.

End EpochTransition.

(** C7 at a concrete call.  The sample user holds reputation (5, 0) from
    attester 1 in the committed ledger; the epoch key of nonce 0 of epoch 1
    received (3, 0) and (0, 2) from attester 1 and (4, 1) from attester 2.
    [epochTransition(1)] returns normally and leaves the array
    [latestUserStateLeaves] as it was, but the leaf object it refers to has
    been updated through the staged array that shares it: the committed
    reputation from attester 1 now reads (8, 2). *)
Theorem epochTransition_updates_committed_leaf :
  let s := Sample.signedUp in
  let r := UserState.epochTransition (Sample.sync 2 []) s 1 in
  fst r = Normal
  /\ UserState.latestUserStateLeaves (snd r) = UserState.latestUserStateLeaves s
  /\ UserState.newUSTLeaves (UserState.newUserState (snd r)) = [0%nat; 1%nat]
  /\ UserState.stagedLeaves (snd r)
     = [mkLeaf 1 (Reputation.mk 8 2 0 1); mkLeaf 2 (Reputation.mk 4 1 9 1)]
  /\ UserState.getRepByAttester s 1 = Reputation.mk 5 0 0 1
  /\ UserState.getRepByAttester (snd r) 1 = Reputation.mk 8 2 0 1
  /\ UserState.ledger (snd r) <> UserState.ledger s.
Proof.
  vm_compute. repeat split. intros E. discriminate E.
Qed.

(** ** The sample state and the trees *)

(** The sample user refers to what the trees of the sample hold. *)
Lemma signedUp_inTrees (current : Z) (spent : list Z) :
  inTrees (Sample.sync current spent) Sample.signedUp.
Proof.
  split; [|cbn; lia]. repeat constructor; cbn; lia.
Qed.

Lemma signedUp_inTrees_withoutNonces :
  inTrees Sample.syncWithoutNonces Sample.signedUp.
Proof.
  split; [|cbn; lia]. repeat constructor; cbn; lia.
Qed.

(** ** Doubles *)

Section Doubles.

(** The operations on doubles give what the Standard Library's binary64
    gives, at the sample values and at every pair of them. *)
Example Number_agrees_with_binary64 :
  forallb
    (fun x =>
       Number.eqb (Number.round x)
         (Number.ofBinary64 (binary_normalize 53 1024 x 0 false))
       && forallb
            (fun y =>
               let a := Number.round x in
               let b := Number.round y in
               Number.eqb (Number.add a b)
                 (Number.ofBinary64
                    (SFadd 53 1024 (Number.toBinary64 a) (Number.toBinary64 b)))
               && Number.eqb (Number.sub a b)
                    (Number.ofBinary64
                       (SFsub 53 1024 (Number.toBinary64 a)
                          (Number.toBinary64 b)))
               && Bool.eqb (Number.ltb a b)
                    (SFltb (Number.toBinary64 a) (Number.toBinary64 b))
               && Bool.eqb (Number.leb a b)
                    (SFleb (Number.toBinary64 a) (Number.toBinary64 b)))
            binary64Samples)
    binary64Samples
  = true.
Proof. vm_compute. reflexivity. Qed.

(** An integer of at most 53 bits is a double. *)
Lemma round_exact (z : Z) :
  Z.abs z <= 2 ^ 53 -> Number.round z = Number.Finite z.
Proof.
  intros Hz.
  destruct (Z.eq_dec (Z.abs z) (2 ^ 53)) as [E|E].
  - destruct (Z.abs_eq_or_opp z) as [Ez|Ez]; rewrite Ez in E.
    + subst z. vm_compute. reflexivity.
    + assert (z = - 2 ^ 53) as -> by lia. vm_compute. reflexivity.
  - unfold Number.round.
    assert (Hlog : Z.log2 (Z.abs z) - 52 <= 0).
    { destruct (Z.eq_dec (Z.abs z) 0) as [E0|E0]; [rewrite E0; cbn; lia|].
      assert (Z.log2 (Z.abs z) < 53); [|lia].
      apply Z.log2_lt_pow2; lia. }
    rewrite Z.max_l by lia. change (2 ^ 0) with 1.
    rewrite Z.div_1_r, Z.mod_1_r. change (2 * 0) with 0.
    change (1 <? 0) with false. change (1 =? 0) with false. cbn [orb andb].
    rewrite Z.mul_1_r.
    destruct (Z.leb_spec (2 ^ 1024) (Z.abs z)) as [Hbig|_].
    + exfalso. assert (2 ^ 53 < 2 ^ 1024) by (apply Z.pow_lt_mono_r; lia). lia.
    + f_equal. rewrite Z.mul_comm. apply Z.abs_sgn.
Qed.

Lemma succ_below (n : Z) : 0 <= n < 2 ^ 53 -> Number.succ n = n + 1.
Proof.
  intros Hn. unfold Number.succ, Number.add.
  rewrite round_exact by lia. reflexivity.
Qed.

Lemma succ_stuck : Number.succ (2 ^ 53) = 2 ^ 53.
Proof. vm_compute. reflexivity. Qed.

(** A sum above [2 ^ 53] is not rounded below it. *)
Lemma round_large (z b : Z) :
  2 ^ 53 <= z -> b < 2 ^ 53 ->
  Number.leb (Number.round z) (Number.Finite b) = false.
Proof.
  intros Hz Hb. unfold Number.round.
  assert (Hpos : 0 < z) by lia.
  rewrite Z.abs_eq by lia.
  assert (Hlog : 53 <= Z.log2 z) by (apply Z.log2_le_pow2; lia).
  rewrite Z.max_r by lia.
  set (e := Z.log2 z - 52). set (ulp := 2 ^ e).
  assert (Hulp : 2 <= ulp).
  { change 2 with (2 ^ 1). apply Z.pow_le_mono_r; lia. }
  assert (Hq : 2 ^ 52 <= z / ulp).
  { apply Z.div_le_lower_bound; [lia|].
    destruct (Z.log2_spec z Hpos) as [Hlow _].
    replace (Z.log2 z) with (e + 52) in Hlow by lia.
    rewrite Z.pow_add_r in Hlow by lia. fold ulp in Hlow. lia. }
  set (q := z / ulp) in *.
  match goal with
  | |- context [if ?c then q + 1 else q] =>
      set (q' := if c then q + 1 else q)
  end.
  assert (Hq' : q <= q').
  { subst q'. destruct (_ || _); lia. }
  assert (Hv : 2 ^ 53 <= q' * ulp).
  { change (2 ^ 53) with (2 ^ 52 * 2). nia. }
  destruct (2 ^ 1024 <=? q' * ulp).
  - destruct (Z.ltb_spec z 0); [lia|reflexivity].
  - rewrite Z.sgn_pos by lia. cbn. apply Z.leb_gt. lia.
Qed.

(** The test of the loop holds of every counter below one of which it
    holds. *)
Lemma ltb_below (m m' : Z) (bound : Number.t) :
  m' <= m ->
  Number.ltb (Number.Finite m) bound = true ->
  Number.ltb (Number.Finite m') bound = true.
Proof.
  intros Hm. destruct bound as [b| | |]; cbn; try done.
  rewrite !Z.ltb_lt. lia.
Qed.

End Doubles.

(** ** Reputation proofs *)

Section ReputationProof.

Context `{Crypto}.
Variable sync : Synchronizer.

Lemma requested_twice (l : list Z) :
  NoDup (requested l) ->
  forall (i j : nat) (v : Z),
    l !! i = Some v -> l !! j = Some v -> v <> -1 -> i = j.
Proof.
  unfold requested.
  induction l as [|x l IH]; intros Hnd i j v Hi Hj Hv; [discriminate Hi|].
  cbn in Hnd.
  assert (Hin : forall k, l !! k = Some v ->
                  v ∈ List.filter (fun x => negb (x =? -1)) l).
  { intros k Hk. apply list_elem_of_In, filter_In. split.
    - apply list_elem_of_In. eapply list_elem_of_lookup_2; eauto.
    - destruct (Z.eqb_spec v (-1)); [contradiction|reflexivity]. }
  destruct (Z.eqb_spec x (-1)) as [->|Hx]; cbn in Hnd.
  - destruct i as [|i], j as [|j]; cbn in *; try congruence.
    f_equal. eapply IH; eauto.
  - apply NoDup_cons in Hnd as [Hnotin Hnd].
    destruct i as [|i], j as [|j]; cbn in *; try reflexivity.
    + injection Hi as ->. exfalso. eauto.
    + injection Hj as ->. exfalso. eauto.
    + f_equal. eapply IH; eauto.
Qed.

Lemma requested_repeated (l : list Z) :
  ~ NoDup (requested l) ->
  exists (i j : nat) (v : Z),
    i <> j /\ l !! i = Some v /\ l !! j = Some v /\ v <> -1.
Proof.
  unfold requested.
  induction l as [|x l IH]; cbn; intros Hd.
  - exfalso. apply Hd. constructor.
  - destruct (Z.eqb_spec x (-1)) as [->|Hx]; cbn in Hd.
    + destruct (IH Hd) as (i & j & v & Hij & Hi & Hj & Hv).
      exists (S i), (S j), v. cbn. repeat split; auto.
    + destruct (decide (x ∈ List.filter (fun x => negb (x =? -1)) l))
        as [Hin|Hnin].
      * apply list_elem_of_In, filter_In in Hin as [Hin _].
        apply list_elem_of_In, list_elem_of_lookup in Hin as [j Hj].
        exists 0%nat, (S j), x. cbn. repeat split; auto.
      * destruct IH as (i & j & v & Hij & Hi & Hj & Hv).
        { intros Hnd. apply Hd. apply NoDup_cons. now split. }
        exists (S i), (S j), v. cbn. repeat split; auto.
Qed.

Lemma selectNonces_ok (l : list Z) (seen : gset Z) (amt : Z) (sel : list Z) :
  NoDup (requested l) ->
  (forall x, x ∈ requested l -> x ∉ seen) ->
  UserState.selectNonces l seen amt sel
  = inr (amt + Z.of_nat (length (requested l)),
         sel ++ map (fun x => if x =? -1 then 0 else 1) l).
Proof.
  unfold requested.
  revert seen amt sel. induction l as [|x l IH]; intros seen amt sel Hnd Hfresh.
  - cbn. now rewrite Z.add_0_r, app_nil_r.
  - cbn in *. destruct (Z.eqb_spec x (-1)) as [->|Hx]; cbn in *.
    + rewrite IH by assumption. now rewrite <- app_assoc.
    + apply NoDup_cons in Hnd as [Hnotin Hnd].
      rewrite bool_decide_eq_false_2 by (apply Hfresh; left); cbn.
      rewrite IH; [| assumption |].
      * rewrite <- app_assoc. f_equal. f_equal. lia.
      * intros y Hy Hs.
        apply elem_of_union in Hs as [Hs|Hs].
        -- apply elem_of_singleton in Hs as ->. auto.
        -- apply (Hfresh y); [now right|done].
Qed.

Lemma selectNonces_err (l : list Z) (seen : gset Z) (amt : Z) (sel : list Z)
    (e : Error) :
  UserState.selectNonces l seen amt sel = inl e ->
  e = DuplicatedNonce
  /\ (~ NoDup (requested l) \/ exists x, x ∈ requested l /\ x ∈ seen).
Proof.
  unfold requested.
  revert seen amt sel. induction l as [|x l IH]; intros seen amt sel; cbn;
    [discriminate|].
  destruct (Z.eqb_spec x (-1)) as [->|Hx]; cbn.
  - apply IH.
  - destruct (bool_decide_reflect (x ∈ seen)) as [Hin|Hnin]; cbn.
    + intros [= <-]. split; [reflexivity|]. right. exists x. split; [left|done].
    + intros He. apply IH in He as [-> [Hd|(y & Hy & Hs)]]; (split; [reflexivity|]).
      * left. intros Hnd. apply NoDup_cons in Hnd as [_ Hnd]. auto.
      * apply elem_of_union in Hs as [Hs|Hs].
        -- apply elem_of_singleton in Hs as ->.
           left. intros Hnd. apply NoDup_cons in Hnd as [Hnotin _]. auto.
        -- right. exists y. split; [now right|done].
Qed.

Lemma selectNonces_inr (l : list Z) (seen : gset Z) (amt : Z) (sel : list Z)
    (r : Z * list Z) :
  UserState.selectNonces l seen amt sel = inr r ->
  NoDup (requested l) /\ forall x, x ∈ requested l -> x ∉ seen.
Proof.
  unfold requested.
  revert seen amt sel. induction l as [|x l IH]; intros seen amt sel; cbn.
  - intros _. split; [constructor|]. intros x Hx. inversion Hx.
  - destruct (Z.eqb_spec x (-1)) as [->|Hx]; cbn; [apply IH|].
    destruct (bool_decide_reflect (x ∈ seen)) as [Hin|Hnin]; cbn;
      [discriminate|].
    intros He. apply IH in He as [Hnd Hfresh]. split.
    + apply NoDup_cons. split; [|exact Hnd].
      intros Hx'. apply (Hfresh x Hx'). apply elem_of_union_l.
      now apply elem_of_singleton.
    + intros y Hy. apply elem_of_cons in Hy as [->|Hy]; [exact Hnin|].
      intros Hs. apply (Hfresh y Hy). now apply elem_of_union_r.
Qed.

Lemma selectNonces_empty (l : list Z) :
  UserState.selectNonces l ∅ 0 []
  = if decide (NoDup (requested l))
    then inr (Z.of_nat (length (requested l)),
              map (fun x => if x =? -1 then 0 else 1) l)
    else inl DuplicatedNonce.
Proof.
  destruct (decide (NoDup (requested l))) as [Hnd|Hd].
  - rewrite selectNonces_ok; [reflexivity|exact Hnd|].
    intros x _. apply not_elem_of_empty.
  - destruct (UserState.selectNonces l ∅ 0 []) as [e|r] eqn:E.
    + apply selectNonces_err in E as [-> _]. reflexivity.
    + apply selectNonces_inr in E as [Hnd _]. contradiction.
Qed.

(** What the search returns within its turns, from a counter [n0] that is
    still exact. *)
Lemma findNonceStarter_spec (s : UserState.t) (a : Z) (bound : Number.t)
    (k : nat) (n0 : Z) :
  0 <= n0 <= 2 ^ 53 ->
  n0 + Z.of_nat k <= 2 ^ 53 + 1 ->
  match
    UserState.findNonceStarter sync s (UserState.latestTransitionedEpoch s)
      a bound k n0
  with
  | Some r =>
      (r = -1
       /\ exists j, n0 <= j <= 2 ^ 53
                    /\ Number.ltb (Number.Finite j) bound = false
                    /\ forall m, n0 <= m < j -> ~ unspent sync s a m)
      \/ (n0 <= r <= 2 ^ 53
          /\ Number.ltb (Number.Finite r) bound = true
          /\ unspent sync s a r
          /\ forall m, n0 <= m < r -> ~ unspent sync s a m)
  | None =>
      Number.ltb (Number.Finite (Z.min (n0 + Z.of_nat k) (2 ^ 53))) bound = true
      /\ forall m, n0 <= m < n0 + Z.of_nat k -> ~ unspent sync s a m
  end.
Proof.
  unfold unspent. revert n0.
  induction k as [|k IH]; intros n0 Hn0 Hk; cbn [UserState.findNonceStarter].
  - destruct (Number.ltb (Number.Finite n0) bound) eqn:Et.
    + split.
      * replace (Z.min (n0 + Z.of_nat 0) (2 ^ 53)) with n0 by lia. exact Et.
      * intros m Hm. lia.
    + left. split; [reflexivity|]. exists n0. split; [lia|]. split; [exact Et|].
      intros m Hm. lia.
  - destruct (Number.ltb (Number.Finite n0) bound) eqn:Et.
    2:{ left. split; [reflexivity|]. exists n0. split; [lia|].
        split; [exact Et|]. intros m Hm. lia. }
    destruct (nullifierExist sync _) eqn:Hex; cbn [negb].
    2:{ right. split; [lia|]. split; [exact Et|]. split; [exact Hex|].
        intros m Hm. lia. }
    destruct (Z.eq_dec n0 (2 ^ 53)) as [->|Hne].
    + assert (k = 0%nat) as -> by lia.
      rewrite succ_stuck. cbn [UserState.findNonceStarter]. rewrite Et.
      split.
      * replace (Z.min (2 ^ 53 + Z.of_nat 1) (2 ^ 53)) with (2 ^ 53) by lia.
        exact Et.
      * intros m Hm. assert (m = 2 ^ 53) as -> by lia. congruence.
    + rewrite succ_below by lia.
      specialize (IH (n0 + 1) ltac:(lia) ltac:(lia)).
      destruct (UserState.findNonceStarter sync s _ a bound k (n0 + 1))
        as [r|].
      * destruct IH as [(Hr & j & Hj & Hjt & Hall)|(Hr & Hrt & Hu & Hall)].
        -- left. split; [exact Hr|]. exists j. split; [lia|].
           split; [exact Hjt|]. intros m Hm.
           destruct (Z.eq_dec m n0) as [->|Hm0]; [congruence|].
           apply Hall. lia.
        -- right. split; [lia|]. split; [exact Hrt|]. split; [exact Hu|].
           intros m Hm.
           destruct (Z.eq_dec m n0) as [->|Hm0]; [congruence|].
           apply Hall. lia.
      * destruct IH as [Ht Hall]. split.
        -- replace (n0 + Z.of_nat (S k)) with (n0 + 1 + Z.of_nat k) by lia.
           exact Ht.
        -- intros m Hm.
           destruct (Z.eq_dec m n0) as [->|Hm0]; [congruence|].
           apply Hall. lia.
Qed.

(** The three ways the search can go: it finds the first unspent nonce,
    below the balance; it ends without one; or it never ends, when the
    balance is above [2 ^ 53] and every nullifier up to there is spent. *)
Lemma starter_cases (s : UserState.t) (a : Z) (bound : Number.t) :
  let r :=
    UserState.findNonceStarter sync s (UserState.latestTransitionedEpoch s)
      a bound (UserState.searchTurns bound) 0 in
  (r = None
   /\ Number.ltb (Number.Finite (2 ^ 53)) bound = true
   /\ forall m, 0 <= m <= 2 ^ 53 -> ~ unspent sync s a m)
  \/ (r = Some (-1)
      /\ exists j, 0 <= j <= 2 ^ 53
                   /\ Number.ltb (Number.Finite j) bound = false
                   /\ forall m, 0 <= m < j -> ~ unspent sync s a m)
  \/ (exists n, r = Some n
                /\ n <= 2 ^ 53
                /\ Number.ltb (Number.Finite n) bound = true
                /\ firstUnspent sync s a n).
Proof.
  intros r.
  assert (Hturns : Z.of_nat (UserState.searchTurns bound) <= 2 ^ 53 + 1).
  { destruct bound as [b| | |]; cbn [UserState.searchTurns]; lia. }
  pose proof (findNonceStarter_spec s a bound (UserState.searchTurns bound) 0
                ltac:(lia) ltac:(lia)) as Hspec.
  fold r in Hspec. destruct r as [v|].
  - destruct Hspec as [(-> & j & Hj & Hjt & Hall)|(Hv & Hvt & Hu & Hall)].
    + right. left. split; [reflexivity|]. exists j. auto.
    + right. right. exists v. split; [reflexivity|]. split; [lia|].
      split; [exact Hvt|]. split; [lia|]. split; [exact Hu|exact Hall].
  - left. split; [reflexivity|]. destruct Hspec as [Ht Hall].
    assert (HK : Z.of_nat (UserState.searchTurns bound) = 2 ^ 53 + 1).
    { destruct (Z.eq_dec (Z.of_nat (UserState.searchTurns bound)) (2 ^ 53 + 1))
        as [E|E]; [exact E|exfalso].
      destruct bound as [b| | |]; cbn [UserState.searchTurns] in *;
        try (cbn in Ht; discriminate Ht); try lia.
      cbn in Ht. apply Z.ltb_lt in Ht. lia. }
    rewrite HK in Ht, Hall. split.
    + replace (Z.min (0 + (2 ^ 53 + 1)) (2 ^ 53)) with (2 ^ 53) in Ht by lia.
      exact Ht.
    + intros m Hm. apply Hall. lia.
Qed.

(** The first unspent nonce is below every unspent nonce. *)
Lemma firstUnspent_le (s : UserState.t) (a n n' : Z) :
  firstUnspent sync s a n -> 0 <= n' -> unspent sync s a n' -> n <= n'.
Proof.
  intros (_ & _ & Hall) Hn' Hu.
  destruct (Z_le_gt_dec n n') as [Hle|Hgt]; [exact Hle|].
  exfalso. apply (Hall n'); [lia|exact Hu].
Qed.

(** The search returns the first unspent nonce when it is one the loop
    gets to and is below the balance. *)
Lemma starter_found (s : UserState.t) (a : Z) (bound : Number.t) (n : Z) :
  firstUnspent sync s a n -> n <= 2 ^ 53 ->
  Number.ltb (Number.Finite n) bound = true ->
  UserState.findNonceStarter sync s (UserState.latestTransitionedEpoch s)
    a bound (UserState.searchTurns bound) 0
  = Some n.
Proof.
  intros Hfirst Hn Hnt.
  pose proof Hfirst as (Hn0 & Hu & Hspent).
  destruct (starter_cases s a bound)
    as [(_ & _ & Hall)|[(_ & j & Hj & Hjt & Hall)|(n' & Hf & _ & _ & Hfirst')]].
  - exfalso. apply (Hall n); [lia|exact Hu].
  - exfalso. destruct (Z_lt_le_dec n j) as [Hlt|Hge].
    + apply (Hall n); [lia|exact Hu].
    + rewrite (ltb_below n j bound Hge Hnt) in Hjt. discriminate Hjt.
  - rewrite Hf. f_equal.
    pose proof Hfirst' as (Hn0' & Hu' & _).
    pose proof (firstUnspent_le s a n n' Hfirst Hn0' Hu').
    pose proof (firstUnspent_le s a n' n Hfirst' Hn0 Hu). lia.
Qed.

(** The search has no end when the balance is above [2 ^ 53] and every
    nullifier up to there is spent. *)
Lemma starter_endless (s : UserState.t) (a : Z) (bound : Number.t) :
  Number.ltb (Number.Finite (2 ^ 53)) bound = true ->
  (forall n, 0 <= n <= 2 ^ 53 -> ~ unspent sync s a n) ->
  UserState.findNonceStarter sync s (UserState.latestTransitionedEpoch s)
    a bound (UserState.searchTurns bound) 0
  = None.
Proof.
  intros Ht Hall.
  destruct (starter_cases s a bound)
    as [(Hf & _)|[(_ & j & Hj & Hjt & _)|(n & _ & Hn & _ & Hfirst)]].
  - exact Hf.
  - rewrite (ltb_below (2 ^ 53) j bound ltac:(lia) Ht) in Hjt.
    discriminate Hjt.
  - destruct Hfirst as (Hn0 & Hu & _). exfalso. apply (Hall n); [lia|exact Hu].
Qed.

(** More turns do not change what the search returns. *)
Lemma findNonceStarter_more_turns (s : UserState.t) (a : Z)
    (bound : Number.t) (k : nat) :
  forall (n v : Z) (k' : nat),
    UserState.findNonceStarter sync s (UserState.latestTransitionedEpoch s)
      a bound k n = Some v ->
    (k <= k')%nat ->
    UserState.findNonceStarter sync s (UserState.latestTransitionedEpoch s)
      a bound k' n = Some v.
Proof.
  induction k as [|k IH]; intros n v k'; cbn [UserState.findNonceStarter].
  - destruct (Number.ltb (Number.Finite n) bound) eqn:Et; [discriminate|].
    intros Hv _. destruct k'; cbn [UserState.findNonceStarter];
      now rewrite Et.
  - destruct (Number.ltb (Number.Finite n) bound) eqn:Et.
    + intros Hv Hk. destruct k' as [|k']; [lia|].
      cbn [UserState.findNonceStarter]. rewrite Et.
      destruct (negb (nullifierExist sync _)); [exact Hv|].
      apply (IH _ _ k' Hv). lia.
    + intros Hv _. destruct k'; cbn [UserState.findNonceStarter];
        now rewrite Et.
Qed.

(** A search that has not ended within its turns never ends: whatever the
    number of turns, the loop is still running after them. *)
Lemma findNonceStarter_never_ends (s : UserState.t) (a : Z)
    (bound : Number.t) :
  UserState.findNonceStarter sync s (UserState.latestTransitionedEpoch s)
    a bound (UserState.searchTurns bound) 0 = None ->
  forall k : nat,
    UserState.findNonceStarter sync s (UserState.latestTransitionedEpoch s)
      a bound k 0 = None.
Proof.
  intros Hnone.
  destruct (starter_cases s a bound)
    as [(_ & Ht & Hall)|[(Hf & _)|(n & Hf & _)]]; [|congruence..].
  assert (Hfrom : forall (k : nat) (n : Z),
            0 <= n <= 2 ^ 53 ->
            UserState.findNonceStarter sync s
              (UserState.latestTransitionedEpoch s) a bound k n = None).
  { induction k as [|k IH]; intros n Hn; cbn [UserState.findNonceStarter];
      rewrite (ltb_below (2 ^ 53) n bound ltac:(lia) Ht); [reflexivity|].
    specialize (Hall n Hn). unfold unspent in Hall.
    destruct (nullifierExist sync _); [|contradiction]. cbn [negb].
    destruct (Z.eq_dec n (2 ^ 53)) as [->|Hne].
    - rewrite succ_stuck. apply IH. lia.
    - rewrite succ_below by lia. apply IH. lia. }
  intros k. apply Hfrom. lia.
Qed.

(** Whether the checks before the search hold is decided. *)
Lemma classic_ready (s : UserState.t) (a k : Z) (l : list Z) :
  let ready :=
    UserState.hasSignedUp s = true
    /\ k < numEpochKeyNoncePerEpoch (settings sync)
    /\ Z.of_nat (length l) = maxReputationBudget (settings sync)
    /\ validEpoch sync (UserState.latestTransitionedEpoch s) = true
    /\ a < 2 ^ userStateTreeDepth (settings sync)
    /\ NoDup (requested l) in
  ready \/ ~ ready.
Proof.
  cbn zeta.
  destruct (UserState.hasSignedUp s); [|right; intros (? & _); discriminate].
  destruct (Z_lt_le_dec k (numEpochKeyNoncePerEpoch (settings sync)));
    [|right; intros (_ & ? & _); lia].
  destruct (Z.eq_dec (Z.of_nat (length l))
              (maxReputationBudget (settings sync)));
    [|right; intros (_ & _ & ? & _); contradiction].
  destruct (validEpoch sync (UserState.latestTransitionedEpoch s));
    [|right; intros (_ & _ & _ & ? & _); discriminate].
  destruct (Z_lt_le_dec a (2 ^ userStateTreeDepth (settings sync)));
    [|right; intros (_ & _ & _ & _ & ? & _); lia].
  destruct (decide (NoDup (requested l)));
    [|right; intros (_ & _ & _ & _ & _ & ?); contradiction].
  left. done.
Qed.

(** Below [2 ^ 53] the search and its two assertions pass exactly when some
    nonce below the balance is unspent and leaves room for the requested
    amount; the search ends. *)
Lemma starter_check (s : UserState.t) (a b count : Z) :
  b < 2 ^ 53 -> 0 <= count ->
  exists nonceStarter,
    UserState.findNonceStarter sync s (UserState.latestTransitionedEpoch s)
      a (Number.Finite b) (UserState.searchTurns (Number.Finite b)) 0
    = Some nonceStarter
    /\ ((negb (nonceStarter =? -1)
         && Number.leb
              (Number.add (Number.Finite nonceStarter) (Number.Finite count))
              (Number.Finite b) = true)
        <-> exists n, 0 <= n < b /\ unspent sync s a n /\ n + count <= b).
Proof.
  intros Hb Hc.
  destruct (starter_cases s a (Number.Finite b))
    as [(_ & Ht & _)|[(Hr & j & Hj & Hjt & Hall)|(n & Hr & Hn & Hnt & Hf)]].
  - cbn in Ht. apply Z.ltb_lt in Ht. lia.
  - exists (-1). split; [exact Hr|]. cbn. split; [discriminate|].
    intros (n & Hn & Hu & _). exfalso. cbn in Hjt. apply Z.ltb_ge in Hjt.
    apply (Hall n); [lia|exact Hu].
  - exists n. split; [exact Hr|].
    cbn in Hnt. apply Z.ltb_lt in Hnt.
    pose proof Hf as (Hn0 & Hu & _).
    destruct (Z.eqb_spec n (-1)) as [E|_]; [lia|]. cbn [negb andb].
    assert (Hleb : Number.leb
                     (Number.add (Number.Finite n) (Number.Finite count))
                     (Number.Finite b)
                   = (n + count <=? b)).
    { cbn [Number.add].
      destruct (Z_le_gt_dec (n + count) (2 ^ 53)) as [Hs|Hs].
      - rewrite round_exact by lia. reflexivity.
      - rewrite round_large by lia. symmetry. apply Z.leb_gt. lia. }
    rewrite Hleb, Z.leb_le. split.
    + intros Hle. exists n. split; [lia|]. split; [exact Hu|exact Hle].
    + intros (n' & Hn' & Hu' & Hle).
      pose proof (firstUnspent_le s a n n' Hf ltac:(lia) Hu'). lia.
Qed.

(** The balance of a reputation of two safe integers is their
    difference. *)
Lemma balance_exact (s : UserState.t) (a : Z) :
  let rep := UserState.getRepByAttester s a in
  0 <= Reputation.posRep rep < 2 ^ 53 ->
  0 <= Reputation.negRep rep < 2 ^ 53 ->
  balance s a = Number.Finite (Reputation.posRep rep - Reputation.negRep rep).
Proof.
  intros rep Hp Hn. unfold balance, Number.ofInteger, Number.sub. fold rep.
  rewrite !round_exact by lia. cbn [Number.opp Number.add].
  rewrite round_exact by lia. reflexivity.
Qed.

Variable prove : ProveReputation.Inputs -> Error + (SnarkProof * list Z).

Lemma genProveReputationProof_inl (s : UserState.t) (a k : Z)
    (minRep pg gpi : option Z) (nonceList : option (list Z)) (e : Error) :
  UserState.genProveReputationProof_inputs sync s a k minRep pg gpi nonceList
  = inl e ->
  UserState.genProveReputationProof sync prove s a k minRep pg gpi nonceList
  = inl e.
Proof.
  unfold UserState.genProveReputationProof. now intros ->.
Qed.

(** The checks of [genProveReputationProof] for a signed-up user, a valid
    epoch-key nonce, a nonce list of the right length, a valid epoch and an
    attester that is a leaf of the tree: what is left is the duplicate test
    and the search. *)
Lemma genProveReputationProof_checks (s : UserState.t) (a k : Z)
    (minRep pg gpi : option Z) (l : list Z) :
  UserState.hasSignedUp s = true ->
  k < numEpochKeyNoncePerEpoch (settings sync) ->
  Z.of_nat (length l) = maxReputationBudget (settings sync) ->
  validEpoch sync (UserState.latestTransitionedEpoch s) = true ->
  UserState.isLeafKey sync a = true ->
  let r :=
    UserState.genProveReputationProof_inputs sync s a k minRep pg gpi (Some l) in
  let count := Z.of_nat (length (requested l)) in
  (~ NoDup (requested l) -> r = inl DuplicatedNonce)
  /\ (NoDup (requested l) ->
      (count = 0 ->
         exists i, r = inr i /\ ProveReputation.rep_nullifiers_amount i = 0)
      /\ (0 < count ->
          match
            UserState.findNonceStarter sync s
              (UserState.latestTransitionedEpoch s) a (balance s a)
              (UserState.searchTurns (balance s a)) 0
          with
          | None => r = inl NeverReturns
          | Some nonceStarter =>
              if negb (nonceStarter =? -1) then
                if Number.leb
                     (Number.add (Number.Finite nonceStarter)
                        (Number.Finite count))
                     (balance s a)
                then exists i,
                       r = inr i
                       /\ ProveReputation.rep_nullifiers_amount i = count
                else r = inl NotEnoughReputation
              else r = inl AllNullifiersSpent
          end)).
Proof.
  intros Hs Hk Hlen Hv Ha r count. subst r.
  unfold UserState.genProveReputationProof_inputs, UserState.genGSTree,
    UserState.createProof.
  rewrite Hs, Hv, Ha. rewrite (proj2 (Z.ltb_lt _ _) Hk).
  rewrite (proj2 (Z.eqb_eq _ _) Hlen).
  rewrite selectNonces_empty. fold count. fold (balance s a).
  destruct (decide (NoDup (requested l))) as [Hnd|Hd].
  2: { split; [reflexivity|contradiction]. }
  split; [contradiction|]. intros _.
  clearbody count.
  split.
  - intros ->. cbn. eauto.
  - intros Hc. replace (count >? 0) with true by (symmetry; apply Z.gtb_gt; lia).
    destruct (UserState.findNonceStarter sync s _ a _ _ 0) as [ns|];
      [|reflexivity].
    destruct (negb (ns =? -1)); [|reflexivity].
    destruct (Number.leb _ _); [|reflexivity].
    eauto.
Qed.

Lemma genProveReputationProof_early (s : UserState.t) (a k : Z)
    (minRep pg gpi : option Z) (l : list Z) :
  UserState.hasSignedUp s = true ->
  k < numEpochKeyNoncePerEpoch (settings sync) ->
  Z.of_nat (length l) <> maxReputationBudget (settings sync)
  \/ validEpoch sync (UserState.latestTransitionedEpoch s) = false
  \/ UserState.isLeafKey sync a = false ->
  exists e,
    UserState.genProveReputationProof_inputs sync s a k minRep pg gpi (Some l)
    = inl e
    /\ (e = NonceListLength \/ e = InvalidEpoch \/ e = LeafKeyTooLarge).
Proof.
  intros Hs Hk Hbad.
  unfold UserState.genProveReputationProof_inputs, UserState.genGSTree,
    UserState.createProof.
  rewrite Hs. rewrite (proj2 (Z.ltb_lt _ _) Hk).
  destruct (Z.eqb_spec (Z.of_nat (length l)) (maxReputationBudget (settings sync)))
    as [E|E]; [|eauto].
  destruct (validEpoch sync (UserState.latestTransitionedEpoch s)) eqn:Hv;
    [|eauto].
  destruct (UserState.isLeafKey sync a) eqn:Ha; [|eauto 6].
  destruct Hbad as [Hbad|[Hbad|Hbad]]; [contradiction|discriminate..].
Qed.

(** C4 (as the program has it).  For a signed-up user whose state refers to
    what the trees hold and a valid epoch-key nonce,
    [genProveReputationProof] fails if the nonce list holds the same
    requested nonce (a value other than -1) at two positions.  The balance
    the search runs over is the double [Number(posRep) - Number(negRep)],
    which is [posRep - negRep] for a reputation below [2 ^ 53]; when it is
    an integer [b] below [2 ^ 53] and at least one nonce is requested, the
    call fails if no nonce [n] in [0, b) has its own reputation nullifier
    unspent and [n + requestedCount <= b]; the nullifiers of the nonces
    after [n] are not looked at.  For a nonce list of the right length, a
    valid epoch and an attester that is a leaf of the user state tree, the
    failures are the duplicate-nonce assertion in the first case and one of
    the two assertions of the search in the second, and without a repeated
    nonce the checks pass exactly when such an [n] exists. *)
Theorem genProveReputationProof_fails_if (s : UserState.t) (a k : Z)
    (minRep pg gpi : option Z) (l : list Z) :
  UserState.hasSignedUp s = true ->
  k < numEpochKeyNoncePerEpoch (settings sync) ->
  inTrees sync s ->
  let r :=
    UserState.genProveReputationProof sync prove s a k minRep pg gpi (Some l) in
  let checks :=
    UserState.genProveReputationProof_inputs sync s a k minRep pg gpi (Some l) in
  let count := Z.of_nat (length (requested l)) in
  let rep := UserState.getRepByAttester s a in
  let repeated :=
    exists (i j : nat) (v : Z),
      i <> j /\ l !! i = Some v /\ l !! j = Some v /\ v <> -1 in
  let room (b : Z) :=
    exists n, 0 <= n < b /\ unspent sync s a n /\ n + count <= b in
  (repeated -> fails r)
  /\ (0 <= Reputation.posRep rep < 2 ^ 53 ->
      0 <= Reputation.negRep rep < 2 ^ 53 ->
      balance s a
      = Number.Finite (Reputation.posRep rep - Reputation.negRep rep))
  /\ (forall b : Z,
        balance s a = Number.Finite b -> b < 2 ^ 53 ->
        (0 < count -> ~ room b -> fails r)
        /\ (Z.of_nat (length l) = maxReputationBudget (settings sync) ->
            validEpoch sync (UserState.latestTransitionedEpoch s) = true ->
            a < 2 ^ userStateTreeDepth (settings sync) ->
            ~ repeated -> 0 < count ->
            (~ room b ->
             r = inl AllNullifiersSpent \/ r = inl NotEnoughReputation)
            /\ (room b -> exists i, checks = inr i)))
  /\ (Z.of_nat (length l) = maxReputationBudget (settings sync) ->
      validEpoch sync (UserState.latestTransitionedEpoch s) = true ->
      a < 2 ^ userStateTreeDepth (settings sync) ->
      repeated -> r = inl DuplicatedNonce).
Proof.
  intros Hs Hk _ r checks count rep repeated room.
  assert (Hrep : repeated <-> ~ NoDup (requested l)).
  { split.
    - intros (i & j & v & Hij & Hi & Hj & Hv) Hnd.
      apply Hij. eapply requested_twice; eauto.
    - apply requested_repeated. }
  assert (Hfail : forall e, checks = inl e -> e <> NeverReturns -> fails r).
  { intros e He Hne. exists e. split; [|exact Hne].
    now apply genProveReputationProof_inl. }
  assert (Hearly :
            Z.of_nat (length l) <> maxReputationBudget (settings sync)
            \/ validEpoch sync (UserState.latestTransitionedEpoch s) = false
            \/ UserState.isLeafKey sync a = false ->
            fails r).
  { intros Hbad.
    destruct (genProveReputationProof_early s a k minRep pg gpi l Hs Hk Hbad)
      as (e & He & Hkind).
    apply (Hfail e He). destruct Hkind as [->|[->| ->]]; discriminate. }
  assert (Hsearch : forall b,
            balance s a = Number.Finite b -> b < 2 ^ 53 ->
            Z.of_nat (length l) = maxReputationBudget (settings sync) ->
            validEpoch sync (UserState.latestTransitionedEpoch s) = true ->
            UserState.isLeafKey sync a = true ->
            NoDup (requested l) -> 0 < count ->
            (~ room b ->
             checks = inl AllNullifiersSpent
             \/ checks = inl NotEnoughReputation)
            /\ (room b -> exists i, checks = inr i)).
  { intros b Hbal Hb Hlen Hv Ha Hnd Hc.
    destruct (genProveReputationProof_checks s a k minRep pg gpi l Hs Hk Hlen
                Hv Ha) as [_ Hnodup].
    destruct (Hnodup Hnd) as [_ Hrun]. specialize (Hrun Hc).
    fold checks count in Hrun. rewrite Hbal in Hrun.
    destruct (starter_check s a b count Hb ltac:(lia)) as (ns & Hns & Hiff).
    fold (room b) in Hiff. rewrite Hns in Hrun.
    destruct (negb (ns =? -1)); cbn [andb] in Hiff.
    - destruct (Number.leb _ _).
      + split; [|intros _; destruct Hrun as (i & Hi & _); eauto].
        intros Hno. exfalso. apply Hno, Hiff. reflexivity.
      + split; [auto|]. intros Hroom. apply Hiff in Hroom. discriminate.
    - split; [auto|]. intros Hroom. apply Hiff in Hroom. discriminate. }
  split; [|split; [|split]].
  - intros Hr.
    destruct (Z.eqb_spec (Z.of_nat (length l))
                (maxReputationBudget (settings sync))) as [Hlen|Hlen];
      [|now apply Hearly; left].
    destruct (validEpoch sync (UserState.latestTransitionedEpoch s)) eqn:Hv;
      [|now apply Hearly; right; left].
    destruct (UserState.isLeafKey sync a) eqn:Ha;
      [|now apply Hearly; right; right].
    destruct (genProveReputationProof_checks s a k minRep pg gpi l Hs Hk Hlen
                Hv Ha) as [Hdup _].
    apply (Hfail DuplicatedNonce); [|discriminate]. apply Hdup, Hrep, Hr.
  - apply balance_exact.
  - intros b Hbal Hb. split.
    + intros Hc Hroom.
      destruct (Z.eqb_spec (Z.of_nat (length l))
                  (maxReputationBudget (settings sync))) as [Hlen|Hlen];
        [|now apply Hearly; left].
      destruct (validEpoch sync (UserState.latestTransitionedEpoch s)) eqn:Hv;
        [|now apply Hearly; right; left].
      destruct (UserState.isLeafKey sync a) eqn:Ha;
        [|now apply Hearly; right; right].
      destruct (decide (NoDup (requested l))) as [Hnd|Hd].
      * destruct (Hsearch b Hbal Hb Hlen eq_refl eq_refl Hnd Hc) as [Hno _].
        destruct (Hno Hroom) as [E|E]; apply (Hfail _ E); discriminate.
      * destruct (genProveReputationProof_checks s a k minRep pg gpi l Hs Hk
                    Hlen Hv Ha) as [Hdup _].
        apply (Hfail DuplicatedNonce); [|discriminate]. apply Hdup, Hd.
    + intros Hlen Hv Ha Hnr Hc.
      assert (Ha' : UserState.isLeafKey sync a = true)
        by (apply Z.ltb_lt; exact Ha).
      destruct (decide (NoDup (requested l))) as [Hnd|Hd];
        [|exfalso; apply Hnr, Hrep, Hd].
      destruct (Hsearch b Hbal Hb Hlen Hv Ha' Hnd Hc) as [Hno Hyes].
      split; [|exact Hyes].
      intros Hroom. destruct (Hno Hroom) as [E|E]; [left|right];
        apply genProveReputationProof_inl, E.
  - intros Hlen Hv Ha Hr.
    assert (Ha' : UserState.isLeafKey sync a = true)
      by (apply Z.ltb_lt; exact Ha).
    destruct (genProveReputationProof_checks s a k minRep pg gpi l Hs Hk Hlen
                Hv Ha') as [Hdup _].
    apply genProveReputationProof_inl, Hdup, Hrep, Hr.
Qed.

(** C5 (as the program has it).  The call keeps no record of the nonces of
    earlier calls and does not look up the nullifiers of the nonces it is
    given: in a state that refers to what the trees hold, it fails on the
    duplicate-nonce assertion exactly when the user has signed up, the epoch-key nonce is valid, the nonce list has the
    length of the budget, the epoch is valid, the attester is a leaf of the
    user state tree ([createProof] is called before the nonces are looked
    at), and the nonce list of this very call holds a requested nonce
    twice. *)
Theorem genProveReputationProof_duplicate_iff (s : UserState.t) (a k : Z)
    (minRep pg gpi : option Z) (l : list Z) :
  inTrees sync s ->
  UserState.genProveReputationProof_inputs sync s a k minRep pg gpi (Some l)
  = inl DuplicatedNonce
  <-> UserState.hasSignedUp s = true
      /\ k < numEpochKeyNoncePerEpoch (settings sync)
      /\ Z.of_nat (length l) = maxReputationBudget (settings sync)
      /\ validEpoch sync (UserState.latestTransitionedEpoch s) = true
      /\ a < 2 ^ userStateTreeDepth (settings sync)
      /\ exists (i j : nat) (v : Z),
           i <> j /\ l !! i = Some v /\ l !! j = Some v /\ v <> -1.
Proof.
  intros _. split.
  - intros E.
    destruct (UserState.hasSignedUp s) eqn:Hs.
    2: { unfold UserState.genProveReputationProof_inputs in E.
         rewrite Hs in E. discriminate E. }
    destruct (Z.ltb_spec k (numEpochKeyNoncePerEpoch (settings sync)))
      as [Hk|Hk].
    2: { unfold UserState.genProveReputationProof_inputs in E.
         rewrite Hs in E.
         rewrite (proj2 (Z.ltb_ge _ _) Hk) in E. discriminate E. }
    destruct (Z.eqb_spec (Z.of_nat (length l))
                (maxReputationBudget (settings sync))) as [Hlen|Hlen].
    2: { destruct (genProveReputationProof_early s a k minRep pg gpi l Hs Hk
                     (or_introl Hlen)) as (e & He & [->|[->| ->]]);
           congruence. }
    destruct (validEpoch sync (UserState.latestTransitionedEpoch s)) eqn:Hv.
    2: { destruct (genProveReputationProof_early s a k minRep pg gpi l Hs Hk
                     (or_intror (or_introl Hv))) as (e & He & [->|[->| ->]]);
           congruence. }
    destruct (UserState.isLeafKey sync a) eqn:Ha.
    2: { destruct (genProveReputationProof_early s a k minRep pg gpi l Hs Hk
                     (or_intror (or_intror Ha))) as (e & He & [->|[->| ->]]);
           congruence. }
    split; [reflexivity|]. split; [exact Hk|]. split; [exact Hlen|].
    split; [reflexivity|]. split; [apply Z.ltb_lt; exact Ha|].
    apply requested_repeated. intros Hnd.
    destruct (genProveReputationProof_checks s a k minRep pg gpi l Hs Hk Hlen
                Hv Ha) as [_ Hnodup].
    destruct (Hnodup Hnd) as (Hzero & Hsome).
    destruct (Z_lt_le_dec 0 (Z.of_nat (length (requested l)))) as [Hc|Hc].
    + specialize (Hsome Hc).
      destruct (UserState.findNonceStarter sync s _ a _ _ 0) as [ns|];
        [|congruence].
      destruct (negb (ns =? -1)); [|congruence].
      destruct (Number.leb _ _); [|congruence].
      destruct Hsome as (i & Hi & _). congruence.
    + destruct (Hzero ltac:(lia)) as (i & Hi & _). congruence.
  - intros (Hs & Hk & Hlen & Hv & Ha & i & j & v & Hij & Hi & Hj & Hvne).
    assert (Ha' : UserState.isLeafKey sync a = true)
      by (apply Z.ltb_lt; exact Ha).
    destruct (genProveReputationProof_checks s a k minRep pg gpi l Hs Hk Hlen
                Hv Ha') as [Hdup _].
    apply Hdup. intros Hnd. apply Hij. eapply requested_twice; eauto.
Qed.

Lemma requested_none (l : list Z) :
  Forall (fun x => x = -1) l -> requested l = [].
Proof.
  unfold requested. induction 1 as [|x l -> _ IH]; cbn; [reflexivity|exact IH].
Qed.

Lemma selectors_none (l : list Z) :
  Forall (fun x => x = -1) l ->
  Forall (fun x => x = 0) (map (fun x => if x =? -1 then 0 else 1) l).
Proof.
  induction 1 as [|x l -> _ IH]; cbn; constructor; [reflexivity|exact IH].
Qed.

(** A call that requests no nonce, by an explicit list. *)
Lemma genProveReputationProof_none_requested (s : UserState.t) (a k : Z)
    (minRep pg gpi : option Z) (l : list Z) :
  UserState.hasSignedUp s = true ->
  k < numEpochKeyNoncePerEpoch (settings sync) ->
  Forall (fun x => x = -1) l ->
  let r :=
    UserState.genProveReputationProof_inputs sync s a k minRep pg gpi
      (Some l) in
  (forall e, r = inl e ->
     e = NonceListLength \/ e = InvalidEpoch \/ e = LeafKeyTooLarge)
  /\ (Z.of_nat (length l) = maxReputationBudget (settings sync) ->
      validEpoch sync (UserState.latestTransitionedEpoch s) = true ->
      a < 2 ^ userStateTreeDepth (settings sync) ->
      exists i, r = inr i)
  /\ (forall i, r = inr i ->
       ProveReputation.rep_nullifiers_amount i = 0
       /\ Forall (fun x => x = 0) (ProveReputation.selectors i))
  /\ (forall f,
       UserState.genProveReputationProof_inputs (withNullifiers f sync) s a k
         minRep pg gpi (Some l) = r).
Proof.
  intros Hs Hk Hall r.
  pose proof (requested_none l Hall) as Hreq.
  assert (Hf : forall f,
             UserState.genProveReputationProof_inputs (withNullifiers f sync)
               s a k minRep pg gpi (Some l) = r).
  { intros f. subst r.
    unfold UserState.genProveReputationProof_inputs, UserState.genGSTree,
      UserState.createProof, UserState.isLeafKey,
      UserState.genUserStateTree, UserState._genUserStateTreeFromLeaves.
    rewrite !selectNonces_empty, Hreq. cbn. reflexivity. }
  assert (Hbad : Z.of_nat (length l) <> maxReputationBudget (settings sync)
                 \/ validEpoch sync (UserState.latestTransitionedEpoch s) = false
                 \/ UserState.isLeafKey sync a = false ->
                 exists e, r = inl e
                           /\ (e = NonceListLength \/ e = InvalidEpoch
                               \/ e = LeafKeyTooLarge)).
  { apply genProveReputationProof_early; assumption. }
  assert (Hgood : Z.of_nat (length l) = maxReputationBudget (settings sync) ->
                  validEpoch sync (UserState.latestTransitionedEpoch s) = true ->
                  UserState.isLeafKey sync a = true ->
                  exists i, r = inr i
                            /\ ProveReputation.rep_nullifiers_amount i = 0
                            /\ Forall (fun x => x = 0)
                                 (ProveReputation.selectors i)).
  { intros Hlen Hv Ha. subst r.
    unfold UserState.genProveReputationProof_inputs, UserState.genGSTree,
      UserState.createProof.
    rewrite Hs, Hv, Ha. rewrite (proj2 (Z.ltb_lt _ _) Hk).
    rewrite (proj2 (Z.eqb_eq _ _) Hlen).
    rewrite selectNonces_empty, Hreq. cbn.
    eexists. split; [reflexivity|]. cbn. split; [reflexivity|].
    now apply selectors_none. }
  clearbody r.
  destruct (Z.eqb_spec (Z.of_nat (length l))
              (maxReputationBudget (settings sync))) as [Hlen|Hlen].
  2:{ destruct (Hbad (or_introl Hlen)) as (e & -> & Hkind).
      split; [|split; [|split]]; [|contradiction| |exact Hf].
      - intros e' [= <-]. exact Hkind.
      - intros i [=]. }
  destruct (validEpoch sync (UserState.latestTransitionedEpoch s)) eqn:Hv.
  2:{ destruct (Hbad (or_intror (or_introl eq_refl))) as (e & -> & Hkind).
      split; [|split; [|split]]; [|discriminate| |exact Hf].
      - intros e' [= <-]. exact Hkind.
      - intros i [=]. }
  destruct (UserState.isLeafKey sync a) eqn:Ha.
  2:{ destruct (Hbad (or_intror (or_intror eq_refl))) as (e & -> & Hkind).
      split; [|split; [|split]]; [| | |exact Hf].
      - intros e' [= <-]. exact Hkind.
      - intros _ _ Hlt. apply Z.ltb_ge in Ha. lia.
      - intros i [=]. }
  destruct (Hgood Hlen eq_refl eq_refl) as (i0 & -> & Hamount & Hsel).
  split; [|split; [|split]]; [| | |exact Hf].
  - intros e [=].
  - intros _ _ _. now exists i0.
  - intros i [= <-]. now split.
Qed.

(** C10.  For a signed-up user whose state refers to what the trees hold
    and a valid epoch-key nonce, a call without
    nonce list, or with a nonce list of -1 only, never fails on the
    assertions of the search ('All nullifiers are spent', 'Not enough
    reputation to spend') nor on the duplicate-nonce one, and it ends;
    when the list has the length of the budget (for a call without list:
    when the budget is an array length), the epoch is valid and the
    attester is a leaf of the user state tree, the checks pass, whatever
    the reputation of the user; the inputs they produce request zero
    nullifiers, with every selector 0; and the outcome is the same over any
    other set of spent nullifiers: the search is not run. *)
Theorem genProveReputationProof_no_request (s : UserState.t) (a k : Z)
    (minRep pg gpi : option Z) (nonceList : option (list Z)) :
  UserState.hasSignedUp s = true ->
  k < numEpochKeyNoncePerEpoch (settings sync) ->
  inTrees sync s ->
  (nonceList = None
   \/ exists l, nonceList = Some l /\ Forall (fun x => x = -1) l) ->
  let r :=
    UserState.genProveReputationProof_inputs sync s a k minRep pg gpi
      nonceList in
  let budget := maxReputationBudget (settings sync) in
  (forall e, r = inl e ->
     e <> AllNullifiersSpent /\ e <> NotEnoughReputation
     /\ e <> DuplicatedNonce /\ e <> NeverReturns)
  /\ (match nonceList with
      | None => 0 <= budget < 2 ^ 32
      | Some l => Z.of_nat (length l) = budget
      end ->
      validEpoch sync (UserState.latestTransitionedEpoch s) = true ->
      a < 2 ^ userStateTreeDepth (settings sync) ->
      exists i, r = inr i)
  /\ (forall i, r = inr i ->
       ProveReputation.rep_nullifiers_amount i = 0
       /\ Forall (fun x => x = 0) (ProveReputation.selectors i))
  /\ (forall f,
       UserState.genProveReputationProof_inputs (withNullifiers f sync) s a k
         minRep pg gpi nonceList = r).
Proof.
  intros Hs Hk _ Hnone r budget.
  destruct Hnone as [->|(l & -> & Hall)].
  - (* without a list *)
    destruct ((0 <=? budget) && (budget <? 2 ^ 32)) eqn:Eb.
    + apply andb_true_iff in Eb as [E0 E1].
      apply Z.leb_le in E0. apply Z.ltb_lt in E1.
      set (l := replicate (Z.to_nat budget) (-1)).
      assert (Hall : Forall (fun x => x = -1) l)
        by (apply Forall_replicate; reflexivity).
      assert (Hlen : Z.of_nat (length l) = budget).
      { subst l. rewrite length_replicate. lia. }
      assert (Hr : forall sy : Synchronizer,
                settings sy = settings sync ->
                UserState.genProveReputationProof_inputs sy s a k minRep pg
                  gpi None
                = UserState.genProveReputationProof_inputs sy s a k minRep pg
                    gpi (Some l)).
      { intros sy Es.
        unfold UserState.genProveReputationProof_inputs, UserState.Array_fill.
        rewrite Es. fold budget.
        rewrite (proj2 (Z.leb_le _ _) E0), (proj2 (Z.ltb_lt _ _) E1).
        reflexivity. }
      destruct (genProveReputationProof_none_requested s a k minRep pg gpi l
                  Hs Hk Hall) as (Herr & Hpass & Hout & Hsame).
      subst r. rewrite (Hr sync eq_refl).
      split; [|split; [|split]].
      * intros e He.
        destruct (Herr e He) as [->|[->| ->]]; repeat split; discriminate.
      * intros _. apply Hpass. exact Hlen.
      * exact Hout.
      * intros f. rewrite (Hr (withNullifiers f sync) eq_refl). apply Hsame.
    + assert (Hr : forall sy : Synchronizer,
                settings sy = settings sync ->
                UserState.genProveReputationProof_inputs sy s a k minRep pg
                  gpi None = inl InvalidArrayLength).
      { intros sy Es.
        unfold UserState.genProveReputationProof_inputs, UserState.Array_fill.
        rewrite Es, Hs. rewrite (proj2 (Z.ltb_lt _ _) Hk).
        fold budget. rewrite Eb. reflexivity. }
      subst r. rewrite (Hr sync eq_refl).
      split; [|split; [|split]].
      * intros e [= <-]. repeat split; discriminate.
      * intros Hb. apply andb_false_iff in Eb as [E|E];
          [apply Z.leb_gt in E|apply Z.ltb_ge in E]; lia.
      * intros i [=].
      * intros f. apply (Hr (withNullifiers f sync) eq_refl).
  - (* with a list of -1 *)
    destruct (genProveReputationProof_none_requested s a k minRep pg gpi l
                Hs Hk Hall) as (Herr & Hpass & Hout & Hsame).
    fold r in Herr, Hpass, Hout, Hsame.
    split; [|split; [|split]]; [|exact Hpass|exact Hout|exact Hsame].
    intros e He.
    destruct (Herr e He) as [->|[->| ->]]; repeat split; discriminate.
Qed.

End ReputationProof.

(** The sample user (reputation (5, 0) from attester 1) asks for nonce 0
    twice in one call. *)
Lemma genProveReputationProof_fails_if_witness :
  fails
    (UserState.genProveReputationProof (Sample.sync 2 []) Sample.prover
       Sample.signedUp 1 0 None None None (Some [0; 0; -1])).
Proof.
  pose proof (genProveReputationProof_fails_if (Sample.sync 2 [])
                Sample.prover Sample.signedUp 1 0 None None None [0; 0; -1]
                eq_refl eq_refl (signedUp_inTrees 2 [])) as Hfails.
  cbv zeta in Hfails. destruct Hfails as [Hfails _]. apply Hfails.
  exists 0%nat, 1%nat, 0. repeat split; [lia|lia].
Defined.

(** C4, as stated, at a concrete call.  The sample user has a balance of 5
    with attester 1; the nullifiers of nonces 1 and 3 are spent; three
    nonces are requested.  No start [n] with [n + 3 <= 5] has the
    nullifiers of [n .. n + 2] all unspent, yet the call does not fail: the
    search stops at nonce 0, whose own nullifier is unspent, and
    [0 + 3 <= 5]. *)
Lemma genProveReputationProof_spent_inside_range :
  let sync := Sample.sync 2 [Sample.nullifier 1; Sample.nullifier 3] in
  let s := Sample.signedUp in
  UserState.hasSignedUp s = true
  /\ 0 < numEpochKeyNoncePerEpoch (settings sync)
  /\ balance s 1 = Number.Finite 5
  /\ ~ (exists n,
         0 <= n < 5
         /\ (forall m, n <= m < n + 3 -> unspent sync s 1 m)
         /\ n + 3 <= 5)
  /\ exists result,
       UserState.genProveReputationProof sync Sample.prover s 1 0 None None
         None (Some [0; 1; 2])
       = inr result.
Proof.
  cbn zeta. split; [reflexivity|]. split; [reflexivity|].
  split; [reflexivity|]. split.
  - intros (n & Hn & Hall & Hle).
    assert (Hcases : n = 0 \/ n = 1 \/ n = 2) by lia.
    destruct Hcases as [->|[->| ->]].
    + specialize (Hall 1 ltac:(lia)). vm_compute in Hall. discriminate Hall.
    + specialize (Hall 1 ltac:(lia)). vm_compute in Hall. discriminate Hall.
    + specialize (Hall 3 ltac:(lia)). vm_compute in Hall. discriminate Hall.
  - eexists. vm_compute. reflexivity.
Qed.

(** C5, as stated, at two concrete calls.  The sample user asks for nonce 0,
    the proof is submitted and the nullifier of nonce 0 is spent; the user
    then asks for nonces 0 and 1.  The second call overlaps the first in
    nonce 0 and does not fail, on the duplicate-nonce assertion or
    otherwise. *)
Lemma genProveReputationProof_second_call_passes :
  let s := Sample.signedUp in
  let first :=
    UserState.genProveReputationProof (Sample.sync 2 []) Sample.prover s 1 0
      None None None (Some [0; -1; -1]) in
  let second :=
    UserState.genProveReputationProof (Sample.sync 2 [Sample.nullifier 0])
      Sample.prover s 1 0 None None None (Some [0; 1; -1]) in
  (exists result, first = inr result)
  /\ (exists result, second = inr result)
  /\ second <> inl DuplicatedNonce.
Proof.
  cbn zeta.
  assert (H1 : succeeds
                 (UserState.genProveReputationProof (Sample.sync 2 [])
                    Sample.prover Sample.signedUp 1 0 None None None
                    (Some [0; -1; -1])) = true) by (vm_compute; reflexivity).
  assert (H2 : succeeds
                 (UserState.genProveReputationProof
                    (Sample.sync 2 [Sample.nullifier 0]) Sample.prover
                    Sample.signedUp 1 0 None None None (Some [0; 1; -1]))
               = true) by (vm_compute; reflexivity).
  destruct (UserState.genProveReputationProof (Sample.sync 2 []) _ _ _ _ _ _ _ _)
    as [e1|r1]; [discriminate H1|].
  destruct (UserState.genProveReputationProof _ _ _ _ _ _ _ _ _)
    as [e2|r2]; [discriminate H2|].
  split; [eauto|]. split; [eauto|discriminate].
Qed.

(** The sample user asks for a reputation proof without a nonce list. *)
Lemma genProveReputationProof_no_request_witness :
  exists i,
    UserState.genProveReputationProof_inputs (Sample.sync 2 [])
      Sample.signedUp 1 0 None None None None
    = inr i.
Proof.
  apply (proj1 (proj2
           (genProveReputationProof_no_request (Sample.sync 2 [])
              Sample.signedUp 1 0 None None None None eq_refl eq_refl
              (signedUp_inTrees 2 []) (or_introl eq_refl))));
    [cbn; lia|reflexivity|cbn; lia].
Defined.

(** The same user asks for nonce 0 twice: the duplicate-nonce assertion. *)
Lemma genProveReputationProof_duplicate_iff_witness :
  UserState.genProveReputationProof_inputs (Sample.sync 2 []) Sample.signedUp
    1 0 None None None (Some [0; 0; -1])
  = inl DuplicatedNonce.
Proof.
  pose proof (genProveReputationProof_duplicate_iff (Sample.sync 2 [])
                Sample.signedUp 1 0 None None None [0; 0; -1]
                (signedUp_inTrees 2 [])) as [_ Hdup].
  apply Hdup.
  split; [reflexivity|]. split; [reflexivity|]. split; [reflexivity|].
  split; [reflexivity|]. split; [reflexivity|].
  exists 0%nat, 1%nat, 0. repeat split; [lia|lia].
Defined.

(** The balance is a difference of doubles.  A user with reputation
    (2^53 + 1, 2^53) from attester 1 has a balance of 0, not 1: a call that
    requests a nonce fails with 'All nullifiers are spent'.  A user with
    reputation (2^53 + 3, 2^53 + 1) has a balance of 4, not 2: a call that
    requests three nonces passes. *)
Example genProveReputationProof_rounded_balance :
  balance (Sample.withReputation (2 ^ 53 + 1) (2 ^ 53)) 1 = Number.Finite 0
  /\ UserState.genProveReputationProof_inputs (Sample.sync 2 [])
       (Sample.withReputation (2 ^ 53 + 1) (2 ^ 53)) 1 0 None None None
       (Some [0; -1; -1])
     = inl AllNullifiersSpent
  /\ balance (Sample.withReputation (2 ^ 53 + 3) (2 ^ 53 + 1)) 1
     = Number.Finite 4
  /\ succeeds
       (UserState.genProveReputationProof_inputs (Sample.sync 2 [])
          (Sample.withReputation (2 ^ 53 + 3) (2 ^ 53 + 1)) 1 0 None None None
          (Some [0; 1; 2]))
     = true.
Proof. repeat split; vm_compute; reflexivity. Qed.

(** An attester that is not a leaf of the user state tree (16, for a tree
    of depth 4): [createProof] throws, with or without a repeated nonce. *)
Example genProveReputationProof_attester_not_a_leaf :
  UserState.genProveReputationProof_inputs (Sample.sync 2 []) Sample.signedUp
    16 0 None None None (Some [0; 0; -1])
  = inl LeafKeyTooLarge
  /\ UserState.genProveReputationProof_inputs (Sample.sync 2 [])
       Sample.signedUp 16 0 None None None None
     = inl LeafKeyTooLarge.
Proof. split; vm_compute; reflexivity. Qed.

(** ** The ledger holds one leaf per attester *)

Section WellFormed.

Context `{Crypto}.

Lemma deref_alter_ids (f : IUserStateLeaf -> IUserStateLeaf) (l : nat)
    (h : list IUserStateLeaf) (ls : list nat) :
  (forall x, attesterId (f x) = attesterId x) ->
  map attesterId (UserState.deref (alter f l h) ls)
  = map attesterId (UserState.deref h ls).
Proof.
  intros Hf. unfold UserState.deref.
  induction ls as [|k ls IH]; cbn; [reflexivity|].
  assert (E : attesterId <$> alter f l h !! k = attesterId <$> h !! k).
  { destruct (decide (k = l)) as [->|Hne].
    - rewrite list_lookup_alter_eq. destruct (h !! l) as [x|]; cbn; [|reflexivity].
      now rewrite Hf.
    - now rewrite list_lookup_alter_ne by congruence. }
  destruct (alter f l h !! k) as [x|], (h !! k) as [y|]; cbn in *;
    try discriminate; [|exact IH].
  injection E as ->. now rewrite IH.
Qed.

Lemma deref_app (h h' : list IUserStateLeaf) (ls : list nat) :
  Forall (fun l => (l < length h)%nat) ls ->
  UserState.deref (h ++ h') ls = UserState.deref h ls.
Proof.
  unfold UserState.deref.
  induction 1 as [|k ls Hk _ IH]; cbn; [reflexivity|].
  now rewrite lookup_app_l, IH by exact Hk.
Qed.

Lemma deref_snoc (h : list IUserStateLeaf) (ls : list nat) (l : nat) :
  UserState.deref h (ls ++ [l])
  = UserState.deref h ls ++ UserState.deref h [l].
Proof. unfold UserState.deref. apply omap_app. Qed.

Lemma findLeaf_None (h : list IUserStateLeaf) (ls : list nat) (a : Z) :
  UserState.findLeaf h ls a = None ->
  a ∉ map attesterId (UserState.deref h ls).
Proof.
  unfold UserState.deref.
  induction ls as [|k ls IH]; cbn; intros Hf; [apply not_elem_of_nil|].
  destruct (h !! k) as [x|]; cbn; [|now apply IH].
  destruct (Z.eqb_spec (attesterId x) a) as [E|E]; [discriminate|].
  apply not_elem_of_cons. split; [congruence|now apply IH].
Qed.

Lemma findLeaf_Some (h : list IUserStateLeaf) (ls : list nat) (a : Z) (l : nat) :
  UserState.findLeaf h ls a = Some l -> (l < length h)%nat.
Proof.
  induction ls as [|k ls IH]; cbn; [discriminate|].
  destruct (h !! k) as [x|] eqn:Hk; [|exact IH].
  destruct (attesterId x =? a); [|exact IH].
  intros [= <-]. eapply lookup_lt_Some, Hk.
Qed.

Lemma updateUserStateLeaf_invariant (other : list nat) (ids : list Z)
    (attestation : Attestation.t) (hs : list IUserStateLeaf * list nat) :
  updateInvariant other ids hs ->
  updateInvariant other ids (UserState._updateUserStateLeaf attestation hs).
Proof.
  destruct hs as [h ls]. intros (Ho & Hl & Hids & Hnd).
  unfold UserState._updateUserStateLeaf, updateInvariant in *.
  cbn [fst snd] in *.
  destruct (UserState.findLeaf h ls _) as [l|] eqn:Hfind; cbn [fst snd].
  - rewrite length_alter, !deref_alter_ids by reflexivity. auto.
  - rewrite length_app. cbn [length].
    refine (conj _ (conj _ (conj _ _))).
    + eapply Forall_impl; [exact Ho|]. cbn. lia.
    + apply Forall_app. split.
      * eapply Forall_impl; [exact Hl|]. cbn. lia.
      * constructor; [lia|constructor].
    + rewrite deref_app by exact Ho. exact Hids.
    + rewrite deref_snoc, !deref_app by exact Hl.
      rewrite (deref_fresh h), map_app. cbn.
      apply NoDup_app. split; [exact Hnd|]. split.
      * intros x Hx Hin. apply list_elem_of_singleton in Hin as ->.
        exact (findLeaf_None _ _ _ Hfind Hx).
      * apply NoDup_singleton.
Qed.

Lemma fold_update_invariant (other : list nat) (ids : list Z)
    (attestations : list Attestation.t) :
  forall hs,
    updateInvariant other ids hs ->
    updateInvariant other ids
      (fold_left (fun hs' a => UserState._updateUserStateLeaf a hs')
         attestations hs).
Proof.
  induction attestations as [|a rest IH]; intros hs Hi; cbn; [exact Hi|].
  apply IH. now apply updateUserStateLeaf_invariant.
Qed.

Lemma wellFormed_signUp (sync : Synchronizer) (s : UserState.t)
    (epoch c : Z) (a d : option Z) :
  wellFormed s -> wellFormed (snd (UserState.signUp sync s epoch c a d)).
Proof.
  intros (Hl & Hn & Hnd & Hsd). unfold UserState.signUp.
  destruct (c =? UserState.commitment s); [|now repeat split].
  destruct (UserState.hasSignedUp s); [now repeat split|].
  assert (Hgoal : forall s1, wellFormed s1 ->
            wellFormed
              (snd (match UserState.getNumGSTLeaves sync epoch with
                    | inl e =>
                        (Throw e, UserState.set_latestTransitionedEpoch epoch s1)
                    | inr n =>
                        (Normal,
                         UserState.set_hasSignedUp true
                           (UserState.set_latestGSTLeafIndex (n - 1)
                              (UserState.set_latestTransitionedEpoch epoch s1)))
                    end))).
  { intros s1 Hw. destruct (UserState.getNumGSTLeaves sync epoch); exact Hw. }
  apply Hgoal.
  destruct (UserState.truthy a && UserState.truthy d); [|now repeat split].
  unfold wellFormed, UserState.ledger, UserState.stagedLeaves. cbn -[UserState.deref].
  rewrite length_app. cbn -[UserState.deref].
  refine (conj _ (conj _ (conj _ _))).
  - constructor; [lia|constructor].
  - eapply Forall_impl; [exact Hn|]. cbn. lia.
  - rewrite deref_fresh. apply NoDup_singleton.
  - rewrite deref_app by exact Hn. exact Hsd.
Qed.

Lemma wellFormed_userStateTransition (sync : Synchronizer) (s : UserState.t)
    (fromEpoch leaf : Z) :
  wellFormed s ->
  wellFormed (snd (UserState.userStateTransition sync s fromEpoch leaf)).
Proof.
  intros (Hl & Hn & Hnd & Hsd).
  assert (Hclear : forall s1,
            Forall (fun l => (l < length (UserState.heap s1))%nat)
              (UserState.latestUserStateLeaves s1) ->
            NoDup (map attesterId (UserState.ledger s1)) ->
            wellFormed (UserState.set_newUserState clearedStage s1)).
  { intros s1 H1 H2. refine (conj H1 (conj _ (conj H2 _))); cbn.
    - constructor.
    - constructor. }
  unfold UserState.userStateTransition, UserState._transition.
  destruct (UserState.hasSignedUp s); cbn; [|now apply Hclear].
  destruct (UserState.latestTransitionedEpoch s =? fromEpoch); cbn;
    [|now apply Hclear].
  destruct (UserState.getNumGSTLeaves sync _); cbn; [now repeat split|].
  destruct (leaf =? _); cbn; [|now apply Hclear].
  destruct (_ <? _); cbn; [|now repeat split].
  apply Hclear; cbn; assumption.
Qed.

Lemma wellFormed_epochTransition (sync : Synchronizer) (s : UserState.t)
    (epoch : Z) :
  wellFormed s -> wellFormed (snd (UserState.epochTransition sync s epoch)).
Proof.
  intros Hw. unfold UserState.epochTransition.
  destruct (epoch =? UserState.latestTransitionedEpoch s); [|exact Hw].
  unfold UserState._saveAttestations.
  destruct (UserState.hasSignedUp s) eqn:Hs; cbn; [|exact Hw].
  pose proof (saveAttestationsLoop_frame sync
                (UserState.latestTransitionedEpoch s) (UserState.nonces sync) s)
    as (Hh & Hsu & Hc & Hn).
  destruct (UserState.saveAttestationsLoop sync _ _ s) as [c s1].
  cbn in Hh, Hsu, Hc, Hn.
  assert (Hw1 : wellFormed s1).
  { unfold wellFormed, UserState.ledger, UserState.stagedLeaves in *.
    injection Hc as _ _ Hls. now rewrite Hh, Hn, Hls. }
  destruct c as [|e]; [|exact Hw1].
  unfold UserState._genNewUserStateAfterTransition.
  rewrite Hsu, Hs.
  set (step := fun hs nonce => _).
  assert (Hfold : forall ns hs,
            updateInvariant (UserState.latestUserStateLeaves s1)
              (map attesterId (UserState.ledger s1)) hs ->
            updateInvariant (UserState.latestUserStateLeaves s1)
              (map attesterId (UserState.ledger s1)) (fold_left step ns hs)).
  { induction ns as [|nonce ns IH]; intros hs Hi; cbn; [exact Hi|].
    apply IH. subst step. cbn.
    destruct (UserState.transitionedFromAttestations s1 !! _); [|exact Hi].
    now apply fold_update_invariant. }
  destruct Hw1 as (Hl1 & Hn1 & Hnd1 & Hsd1).
  specialize (Hfold (UserState.nonces sync)
                (UserState.heap s1, UserState.latestUserStateLeaves s1)
                (conj Hl1 (conj Hl1 (conj eq_refl Hnd1)))).
  destruct (fold_left step _ _) as [h stateLeaves].
  destruct Hfold as (Ho & Hl' & Hids & Hnd'). cbn in Ho, Hl', Hids, Hnd'.
  unfold wellFormed, UserState.ledger, UserState.stagedLeaves. cbn -[UserState.deref].
  refine (conj Ho (conj Hl' (conj _ Hnd'))).
  rewrite Hids. exact Hnd1.
Qed.

(** Every state an identity goes through is well formed. *)
Lemma reachable_wellFormed (i : ZkIdentity) (s : UserState.t) :
  reachable i s -> wellFormed s.
Proof.
  induction 1 as [s Hnew| | |].
  - injection Hnew as <-. repeat split; cbn; constructor.
  - now apply wellFormed_signUp.
  - now apply wellFormed_epochTransition.
  - now apply wellFormed_userStateTransition.
Qed.

End WellFormed.

(** ** Serialization *)

Section ObjectLemmas.

Context {V : Type}.

Lemma set_fresh (k : Z) (v : V) (o : list (Z * V)) :
  k ∉ map fst o -> JSObject.set k v o = o ++ [(k, v)].
Proof.
  induction o as [|[k' v'] o IH]; cbn; intros Hk; [reflexivity|].
  apply not_elem_of_cons in Hk as [Hne Hk].
  destruct (Z.eqb_spec k' k) as [E|_]; [congruence|].
  now rewrite IH.
Qed.

Lemma insertByKey_perm (kv : Z * V) (l : list (Z * V)) :
  JSObject.insertByKey kv l ≡ₚ kv :: l.
Proof.
  induction l as [|x l IH]; cbn; [reflexivity|].
  destruct (fst kv <? fst x); [reflexivity|].
  rewrite IH. apply Permutation_swap.
Qed.

Lemma sortByKey_perm (l : list (Z * V)) : JSObject.sortByKey l ≡ₚ l.
Proof.
  induction l as [|x l IH]; cbn; [reflexivity|].
  now rewrite insertByKey_perm, IH.
Qed.

Lemma partition_perm (p : Z * V -> bool) (l : list (Z * V)) :
  List.filter p l ++ List.filter (fun x => negb (p x)) l ≡ₚ l.
Proof.
  induction l as [|x l IH]; cbn; [reflexivity|].
  destruct (p x); cbn.
  - now rewrite IH.
  - rewrite <- Permutation_middle. now rewrite IH.
Qed.

(** [for ... in] visits every property once. *)
Lemma entries_perm (o : list (Z * V)) : JSObject.entries o ≡ₚ o.
Proof.
  unfold JSObject.entries. rewrite sortByKey_perm. apply partition_perm.
Qed.

End ObjectLemmas.

Section Serialization.

Context `{Crypto}.
Variable sync : Synchronizer.

Lemma parseLeaf_toJSON (l : IUserStateLeaf) :
  parseLeaf (attesterId l, Reputation.toJSON (reputation l)) = l.
Proof. destruct l as [a [p n g u]]. reflexivity. Qed.

Lemma serialized_ledger (ls : list IUserStateLeaf) (o : list (Z * Reputation.JSON)) :
  NoDup (map fst o ++ map attesterId ls) ->
  fold_left
    (fun o l => JSObject.set (attesterId l) (Reputation.toJSON (reputation l)) o)
    ls o
  = o ++ map (fun l => (attesterId l, Reputation.toJSON (reputation l))) ls.
Proof.
  revert o. induction ls as [|l ls IH]; intros o Hnd; cbn.
  - now rewrite app_nil_r.
  - rewrite set_fresh.
    + rewrite IH.
      * now rewrite <- app_assoc.
      * rewrite map_app. cbn. rewrite <- app_assoc. exact Hnd.
    + cbn in Hnd. apply NoDup_app in Hnd as (_ & Hdis & _).
      intros Hin. apply (Hdis _ Hin). left.
Qed.

Lemma deref_all (pre h : list IUserStateLeaf) :
  UserState.deref (pre ++ h) (seq (length pre) (length h)) = h.
Proof.
  unfold UserState.deref.
  revert pre. induction h as [|x h IH]; intros pre; cbn; [reflexivity|].
  rewrite list_lookup_middle by reflexivity. cbn. f_equal.
  specialize (IH (pre ++ [x])).
  rewrite <- app_assoc, length_app in IH. cbn in IH.
  now rewrite Nat.add_1_r in IH.
Qed.

Lemma ledger_fresh (leaves : list IUserStateLeaf) (i : ZkIdentity) (c : Z)
    (b : bool) (e g : Z) (tfa : gmap Z (list Attestation.t))
    (n : UserState.NewUserState) :
  UserState.ledger
    (UserState.mk leaves i c b e g (seq 0 (length leaves)) tfa n)
  = leaves.
Proof. apply (deref_all [] leaves). Qed.

Lemma same_attester (ls : list IUserStateLeaf) (x y : IUserStateLeaf) :
  NoDup (map attesterId ls) ->
  x ∈ ls -> y ∈ ls -> attesterId x = attesterId y -> x = y.
Proof.
  induction ls as [|l ls IH]; cbn; intros Hnd Hx Hy E.
  - inversion Hx.
  - apply NoDup_cons in Hnd as [Hnotin Hnd].
    apply elem_of_cons in Hx as [->|Hx], Hy as [->|Hy]; auto.
    + exfalso. apply Hnotin. rewrite E. apply list_elem_of_fmap. eauto.
    + exfalso. apply Hnotin. rewrite <- E. apply list_elem_of_fmap. eauto.
Qed.

(** On a ledger with one leaf per attester the reputation of an attester
    does not depend on the order of the leaves. *)
Lemma getRepOf_perm (l l' : list IUserStateLeaf) (a : Z) :
  NoDup (map attesterId l) -> l ≡ₚ l' ->
  UserState.getRepOf l a = UserState.getRepOf l' a.
Proof.
  intros Hnd Hp. unfold UserState.getRepOf.
  destruct (List.find _ l) as [x|] eqn:Ex, (List.find _ l') as [y|] eqn:Ey.
  - apply find_some in Ex as [Hx Ea], Ey as [Hy Eb].
    apply Z.eqb_eq in Ea, Eb.
    f_equal. apply (same_attester l); auto.
    + now apply list_elem_of_In.
    + rewrite Hp. now apply list_elem_of_In.
    + congruence.
  - apply find_some in Ex as [Hx Ea].
    rewrite (find_none _ _ Ey x) in Ea; [discriminate|].
    apply list_elem_of_In. rewrite <- Hp. now apply list_elem_of_In.
  - apply find_some in Ey as [Hy Eb].
    rewrite (find_none _ _ Ex y) in Eb; [discriminate|].
    apply list_elem_of_In. rewrite Hp. now apply list_elem_of_In.
  - reflexivity.
Qed.

(** C9 (as the program has it).  For a state whose ledger holds at most one
    leaf per attester, [fromJSON] of [toJSON] succeeds and gives a state
    with the same [hasSignedUp], [latestTransitionedEpoch] and
    [latestGSTLeafIndex], whose ledger holds the same leaves (in the order
    in which the properties of the serialized object are visited) and
    answers [getRepByAttester] as the original does. *)
Theorem fromJSON_toJSON (s : UserState.t) :
  NoDup (map attesterId (UserState.ledger s)) ->
  exists s',
    UserState.fromJSON (UserState.id s) (UserState.toJSON sync s) = inr s'
    /\ UserState.hasSignedUp s' = UserState.hasSignedUp s
    /\ UserState.latestTransitionedEpoch s' = UserState.latestTransitionedEpoch s
    /\ UserState.latestGSTLeafIndex s' = UserState.latestGSTLeafIndex s
    /\ UserState.ledger s' ≡ₚ UserState.ledger s
    /\ forall a, UserState.getRepByAttester s' a = UserState.getRepByAttester s a.
Proof.
  intros Hnd.
  unfold UserState.fromJSON, UserState.new.
  eexists. split; [reflexivity|].
  unfold UserState.getRepByAttester. rewrite !ledger_fresh.
  assert (Hleaves :
    map (fun '(key, parsedLeaf) =>
           mkLeaf key
             (Reputation.mk (Reputation.j_posRep parsedLeaf)
                (Reputation.j_negRep parsedLeaf)
                (Reputation.j_graffiti parsedLeaf)
                (Reputation.j_signUp parsedLeaf)))
      (JSObject.entries
         (IUserState.latestUserStateLeaves (UserState.toJSON sync s)))
    ≡ₚ UserState.ledger s).
  { unfold UserState.toJSON. cbn [IUserState.latestUserStateLeaves].
    rewrite serialized_ledger by exact Hnd.
    rewrite entries_perm. cbn [app]. rewrite map_map.
    erewrite map_ext; [rewrite map_id; reflexivity|].
    intros l. apply (parseLeaf_toJSON l). }
  cbn [default].
  repeat split; try exact Hleaves.
  intros a. symmetry. apply getRepOf_perm; [exact Hnd|now symmetry].
Qed.

End Serialization.

(** The sample user, whose ledger has one leaf. *)
Lemma fromJSON_toJSON_witness :
  exists s',
    @UserState.fromJSON Sample.crypto (UserState.id Sample.signedUp)
      (UserState.toJSON (Sample.sync 2 []) Sample.signedUp) = inr s'
    /\ UserState.hasSignedUp s' = true
    /\ UserState.latestTransitionedEpoch s' = 1
    /\ UserState.latestGSTLeafIndex s' = 0
    /\ UserState.ledger s' ≡ₚ UserState.ledger Sample.signedUp
    /\ forall a,
         UserState.getRepByAttester s' a
         = UserState.getRepByAttester Sample.signedUp a.
Proof.
  apply (fromJSON_toJSON (Sample.sync 2 []) Sample.signedUp).
  apply NoDup_singleton.
Defined.

(** C9, as stated, at a concrete state.  The constructor is given two
    leaves for attester 1, (5, 0) and (7, 0).  The ledger of the state has
    two entries and [getRepByAttester(1)] reads the first; the serialized
    object has one property per attester, so the state read back has one
    entry and reads (7, 0). *)
Lemma fromJSON_toJSON_duplicate_attester :
  let leaves :=
    [mkLeaf 1 (Reputation.mk 5 0 0 1); mkLeaf 1 (Reputation.mk 7 0 0 1)] in
  exists s s',
    @UserState.new Sample.crypto Sample.identity (Some true) (Some 1) (Some 0)
      (Some leaves) None = inr s
    /\ @UserState.fromJSON Sample.crypto Sample.identity
         (UserState.toJSON (Sample.sync 2 []) s) = inr s'
    /\ UserState.ledger s = leaves
    /\ UserState.ledger s' = [mkLeaf 1 (Reputation.mk 7 0 0 1)]
    /\ UserState.getRepByAttester s 1 = Reputation.mk 5 0 0 1
    /\ UserState.getRepByAttester s' 1 = Reputation.mk 7 0 0 1.
Proof.
  cbn zeta. eexists. eexists.
  split; [reflexivity|]. split; [reflexivity|].
  repeat split.
Qed.

(** ** The inputs of the user state transition *)

Section BatchArithmetic.

Context `{Crypto}.
Hypothesis batchSize : 0 < NUM_ATTESTATIONS_PER_PROOF.

Lemma startsBatch_true (i : Z) :
  0 <= i -> UserState.startsBatch i = true ->
  i <> 0 /\ exists c, i = NUM_ATTESTATIONS_PER_PROOF * c.
Proof.
  unfold UserState.startsBatch. intros Hi Hb.
  apply andb_true_iff in Hb as [Hb _]. apply andb_true_iff in Hb as [H1 H2].
  split.
  - destruct (Z.eqb_spec i 0); [discriminate|assumption].
  - apply Z.eqb_eq in H2. exists (i / NUM_ATTESTATIONS_PER_PROOF).
    apply Z_div_exact_full_2; lia.
Qed.

Lemma startsBatch_false (i : Z) :
  0 <= i -> UserState.startsBatch i = false ->
  i = 0 \/ i mod NUM_ATTESTATIONS_PER_PROOF <> 0.
Proof.
  unfold UserState.startsBatch. intros Hi Hb.
  destruct (Z.eqb_spec i 0) as [->|Hne]; [now left|right]. cbn in Hb.
  intros Hm. rewrite Hm in Hb. cbn in Hb.
  apply negb_false_iff, Z.eqb_eq in Hb.
  rewrite Z.mod_small in Hm by lia. contradiction.
Qed.

Lemma open_at_boundary (e t i q : Z) :
  i <> 0 -> (exists c, i = NUM_ATTESTATIONS_PER_PROOF * c) ->
  e = NUM_ATTESTATIONS_PER_PROOF * q + i ->
  NUM_ATTESTATIONS_PER_PROOF * (t - 1) < e <= NUM_ATTESTATIONS_PER_PROOF * t ->
  e = NUM_ATTESTATIONS_PER_PROOF * t.
Proof.
  intros Hi [c ->] -> Hr.
  assert (q + c = t) by nia. subst t. lia.
Qed.

Lemma room_inside_batch (e t i q : Z) :
  i mod NUM_ATTESTATIONS_PER_PROOF <> 0 ->
  e = NUM_ATTESTATIONS_PER_PROOF * q + i ->
  e <= NUM_ATTESTATIONS_PER_PROOF * t ->
  e + 1 <= NUM_ATTESTATIONS_PER_PROOF * t.
Proof.
  intros Hm -> Hr.
  destruct (Z.eq_dec (NUM_ATTESTATIONS_PER_PROOF * q + i)
              (NUM_ATTESTATIONS_PER_PROOF * t)) as [E|E]; [|lia].
  exfalso. apply Hm.
  replace i with ((t - q) * NUM_ATTESTATIONS_PER_PROOF) by lia.
  apply Z_mod_mult.
Qed.

(** The padding of a nonce fills its last batch. *)
Lemma filled_total (e t n q : Z) :
  0 <= n ->
  e = NUM_ATTESTATIONS_PER_PROOF * q + n ->
  (if n =? 0 then e = NUM_ATTESTATIONS_PER_PROOF * (t - 1)
   else NUM_ATTESTATIONS_PER_PROOF * (t - 1) < e
        <= NUM_ATTESTATIONS_PER_PROOF * t) ->
  n <= UserState.filledAttestationNum n
  /\ e + (UserState.filledAttestationNum n - n)
     = NUM_ATTESTATIONS_PER_PROOF * t.
Proof.
  intros Hn He Hr. unfold UserState.filledAttestationNum.
  destruct (Z.eqb_spec n 0) as [->|Hne]; [lia|].
  set (c := (n + NUM_ATTESTATIONS_PER_PROOF - 1) / NUM_ATTESTATIONS_PER_PROOF).
  pose proof (Z.mul_div_le (n + NUM_ATTESTATIONS_PER_PROOF - 1)
                NUM_ATTESTATIONS_PER_PROOF batchSize) as Hlo.
  pose proof (Z.mul_succ_div_gt (n + NUM_ATTESTATIONS_PER_PROOF - 1)
                NUM_ATTESTATIONS_PER_PROOF batchSize) as Hhi.
  fold c in Hlo, Hhi.
  assert (q + c = t) by nia.
  subst t. nia.
Qed.

End BatchArithmetic.

Section TransitionLoops.

Context `{Crypto}.
Variable sync : Synchronizer.
Variable s : UserState.t.
Variable start : Z.
Hypothesis batchSize : 0 < NUM_ATTESTATIONS_PER_PROOF.

Lemma padding_snoc (roots : list Z) (rows : list ProcessAttestations.Row)
    (root : Z) (row : ProcessAttestations.Row) :
  length roots = S (length rows) ->
  paddingIsNeutral roots rows ->
  (ProcessAttestations.selector row = 0 ->
   neutral row /\ roots !! length rows = Some root) ->
  paddingIsNeutral (roots ++ [root]) (rows ++ [row]).
Proof.
  intros Hlen Hpad Hnew k r Hk Hsel.
  destruct (Nat.lt_ge_cases k (length rows)) as [Hlt|Hge].
  - rewrite lookup_app_l in Hk by assumption.
    destruct (Hpad k r Hk Hsel) as [Hn Hr]. split; [exact Hn|].
    rewrite !lookup_app_l by lia. exact Hr.
  - assert (k = length rows) as ->.
    { apply lookup_lt_Some in Hk. rewrite length_app in Hk. cbn in Hk. lia. }
    rewrite list_lookup_middle in Hk by reflexivity. injection Hk as <-.
    destruct (Hnew Hsel) as [Hn Hr]. split; [exact Hn|].
    rewrite list_lookup_middle by lia.
    rewrite lookup_app_l by lia. now rewrite Hr.
Qed.

Lemma shape_pushAttestation (attestation : Attestation.t) (a : UserState.Acc) :
  shape start a -> shape start (UserState.pushAttestation s attestation a).
Proof.
  intros (Hlen & Hroot & Hstart & Hpad).
  unfold shape, UserState.pushAttestation. cbn.
  rewrite !length_app. cbn. refine (conj _ (conj _ (conj _ _))).
  - lia.
  - apply list_lookup_middle. lia.
  - exact Hstart.
  - apply padding_snoc; [exact Hlen|exact Hpad|]. cbn. discriminate.
Qed.

Lemma shape_pushBlank (a : UserState.Acc) :
  shape start a -> shape start (UserState.pushBlank a).
Proof.
  intros (Hlen & Hroot & Hstart & Hpad).
  unfold shape, UserState.pushBlank. cbn.
  rewrite !length_app. cbn. refine (conj _ (conj _ (conj _ _))).
  - lia.
  - apply list_lookup_middle. lia.
  - exact Hstart.
  - apply padding_snoc; [exact Hlen|exact Hpad|]. intros _.
    split; [|exact Hroot]. unfold neutral. cbn. tauto.
Qed.

Lemma shape_openBatch (nonce h : Z) (a : UserState.Acc) :
  shape start a -> shape start (UserState.openBatch s nonce h a).
Proof.
  intros (Hlen & Hroot & Hstart & Hpad).
  unfold shape, UserState.openBatch. cbn.
  refine (conj _ (conj _ (conj _ _))); try assumption.
  now apply lookup_app_l_Some.
Qed.

Lemma chained_extend (a a' : UserState.Acc) (t : nat) :
  (t <= length (UserState.toNonces a))%nat ->
  UserState.toNonces a `prefix_of` UserState.toNonces a' ->
  UserState.intermediateUserStateTreeRoots a
    `prefix_of` UserState.intermediateUserStateTreeRoots a' ->
  UserState.blindedUserState a `prefix_of` UserState.blindedUserState a' ->
  chained s a t -> chained s a' t.
Proof.
  intros Ht [tn Htn] Hr Hb Hc j n Hj Hn.
  rewrite Htn, lookup_app_l in Hn by lia.
  destruct (Hc j n Hj Hn) as (root & Hroot & Hbl).
  exists root. split; eapply prefix_lookup_Some; eauto.
Qed.

(** Closing the open batch: the checkpoint pushed is that of the root at
    the end of the batch. *)
Lemma chained_close (a a' : UserState.Acc) (nonce : Z) :
  shape start a ->
  last (UserState.toNonces a) = Some nonce ->
  length (UserState.blindedUserState a) = length (UserState.toNonces a) ->
  Z.of_nat (length (UserState.rows a))
  = NUM_ATTESTATIONS_PER_PROOF * Z.of_nat (length (UserState.toNonces a)) ->
  chained s a (length (UserState.toNonces a) - 1) ->
  UserState.toNonces a `prefix_of` UserState.toNonces a' ->
  UserState.intermediateUserStateTreeRoots a
    `prefix_of` UserState.intermediateUserStateTreeRoots a' ->
  UserState.blindedUserState a'
  = UserState.blindedUserState a
    ++ [UserState.checkpoint s
          (smt_root (UserState.fromEpochUserStateTree a)) nonce] ->
  chained s a' (length (UserState.toNonces a)).
Proof.
  intros (Hlen & Hroot & _ & _) Hlast Hbl He Hc Htn Hr Hb j n Hj Hn.
  destruct (Nat.lt_ge_cases j (length (UserState.toNonces a) - 1)) as [Hlt|Hge].
  - assert (Hle : (length (UserState.toNonces a) - 1
                     <= length (UserState.toNonces a))%nat) by lia.
    apply (chained_extend a a' _ Hle Htn Hr) in Hc.
    + exact (Hc j n Hlt Hn).
    + rewrite Hb. now apply prefix_app_r.
  - assert (j = (length (UserState.toNonces a) - 1)%nat) as -> by lia.
    destruct Htn as [tn Htn]. rewrite Htn, lookup_app_l in Hn by lia.
    rewrite last_lookup in Hlast.
    replace (Init.Nat.pred (length (UserState.toNonces a)))
      with (length (UserState.toNonces a) - 1)%nat in Hlast by lia.
    assert (Hpos : (1 <= length (UserState.toNonces a))%nat).
    { apply lookup_lt_Some in Hlast. lia. }
    rewrite Hlast in Hn. injection Hn as <-.
    exists (smt_root (UserState.fromEpochUserStateTree a)). split.
    + eapply prefix_lookup_Some; [|exact Hr].
      replace (Z.of_nat (length (UserState.toNonces a) - 1) + 1)
        with (Z.of_nat (length (UserState.toNonces a))) by lia.
      rewrite <- He, Nat2Z.id. exact Hroot.
    + rewrite Hb. apply list_lookup_middle. lia.
Qed.

Lemma within_pushAttestation (nonce : Z) (attestation : Attestation.t)
    (a : UserState.Acc) :
  withinNonce s start nonce a ->
  withinNonce s start nonce (UserState.pushAttestation s attestation a).
Proof.
  intros (Hs & Hlast & Hbl & Hf & Hc).
  refine (conj (shape_pushAttestation _ _ Hs) (conj Hlast (conj Hbl (conj Hf _)))).
  eapply chained_extend; [| | | |exact Hc]; cbn; try reflexivity; try lia.
  now apply prefix_app_r.
Qed.

Lemma within_pushBlank (nonce : Z) (a : UserState.Acc) :
  withinNonce s start nonce a ->
  withinNonce s start nonce (UserState.pushBlank a).
Proof.
  intros (Hs & Hlast & Hbl & Hf & Hc).
  refine (conj (shape_pushBlank _ Hs) (conj Hlast (conj Hbl (conj Hf _)))).
  eapply chained_extend; [| | | |exact Hc]; cbn; try reflexivity; try lia.
  now apply prefix_app_r.
Qed.

Lemma within_openBatch (nonce h : Z) (a : UserState.Acc) :
  withinNonce s start nonce a ->
  Z.of_nat (length (UserState.rows a))
  = NUM_ATTESTATIONS_PER_PROOF * Z.of_nat (length (UserState.toNonces a)) ->
  withinNonce s start nonce (UserState.openBatch s nonce h a).
Proof.
  intros (Hs & Hlast & Hbl & Hf & Hc) He.
  refine (conj (shape_openBatch _ _ _ Hs) _). cbn.
  rewrite !length_app. cbn.
  refine (conj (last_snoc _ _) (conj _ (conj _ _))); try lia.
  replace (length (UserState.toNonces a) + 1 - 1)%nat
    with (length (UserState.toNonces a)) by lia.
  eapply (chained_close a); eauto; cbn; try reflexivity.
  now apply prefix_app_r.
Qed.

(** One turn of the loop over the attestations. *)
Lemma within_step (nonce h i : Z) (attestation : Attestation.t)
    (a : UserState.Acc) :
  withinNonce s start nonce a -> counted a i ->
  let a1 := if UserState.startsBatch i
            then UserState.openBatch s nonce h a else a in
  withinNonce s start nonce (UserState.pushAttestation s attestation a1)
  /\ counted (UserState.pushAttestation s attestation a1) (i + 1).
Proof.
  intros Hw (Hi & (q & Hq) & Hr). cbn zeta.
  destruct (UserState.startsBatch i) eqn:Hb.
  - destruct (startsBatch_true batchSize i Hi Hb) as [Hne Hc].
    destruct (Z.eqb_spec i 0) as [|_]; [contradiction|].
    pose proof (open_at_boundary batchSize _ _ i q Hne Hc Hq Hr) as He.
    split; [apply within_pushAttestation, within_openBatch; assumption|].
    unfold counted. cbn. rewrite !length_app. cbn.
    destruct (Z.eqb_spec (i + 1) 0) as [|_]; [lia|].
    split; [lia|]. split; [exists q; lia|]. lia.
  - split; [now apply within_pushAttestation|].
    unfold counted. cbn. rewrite !length_app. cbn.
    destruct (Z.eqb_spec (i + 1) 0) as [|_]; [lia|].
    split; [lia|]. split; [exists q; lia|].
    destruct (startsBatch_false i Hi Hb) as [->|Hm].
    + cbn in Hr. lia.
    + destruct (Z.eqb_spec i 0) as [->|_]; [now rewrite Zmod_0_l in Hm|].
      pose proof (room_inside_batch _
                    (Z.of_nat (length (UserState.toNonces a))) i q Hm Hq
                    (proj2 Hr)).
      lia.
Qed.

Lemma within_attestationsLoop (nonce : Z) (attestations : list Attestation.t) :
  forall (i : Z) (a : UserState.Acc) (h : Z),
    withinNonce s start nonce a -> counted a i ->
    let r := UserState.attestationsLoop s nonce attestations i a h in
    withinNonce s start nonce (fst r)
    /\ counted (fst r) (i + Z.of_nat (length attestations)).
Proof.
  induction attestations as [|attestation rest IH]; intros i a h Hw Hc.
  - cbn. rewrite Z.add_0_r. now split.
  - cbn [UserState.attestationsLoop].
    destruct (within_step nonce h i attestation a Hw Hc) as [Hw' Hc'].
    specialize (IH (i + 1) _
                  (hashLeftRight (attestation_hash attestation) h) Hw' Hc').
    cbn zeta in IH.
    replace (i + Z.of_nat (length (attestation :: rest)))
      with (i + 1 + Z.of_nat (length rest)) by (cbn [length]; lia).
    exact IH.
Qed.

Lemma within_padding (nonce : Z) (k : nat) (a : UserState.Acc) :
  withinNonce s start nonce a ->
  withinNonce s start nonce (Nat.iter k UserState.pushBlank a)
  /\ length (UserState.rows (Nat.iter k UserState.pushBlank a))
     = (length (UserState.rows a) + k)%nat
  /\ UserState.toNonces (Nat.iter k UserState.pushBlank a)
     = UserState.toNonces a.
Proof.
  intros Hw. induction k as [|k (IH1 & IH2 & IH3)].
  - cbn. split; [exact Hw|]. split; [lia|reflexivity].
  - change (Nat.iter (S k) UserState.pushBlank a)
      with (UserState.pushBlank (Nat.iter k UserState.pushBlank a)).
    split; [now apply within_pushBlank|].
    cbn. rewrite length_app, IH2. cbn. split; [lia|exact IH3].
Qed.

(** One turn of the loop over the nonces keeps every batch closed and
    full. *)
Lemma between_nonceStep (fromEpochTree : SparseMerkleTree)
    (a a' : UserState.Acc) (nonce : Z) :
  betweenNonces s start a ->
  UserState.nonceStep sync s fromEpochTree a nonce = inr a' ->
  betweenNonces s start a'.
Proof.
  intros (Hs & He & Hbl & Hf & Hc). unfold UserState.nonceStep.
  destruct (UserState.getAttestations sync _) as [e|attestations];
    [discriminate|].
  destruct (forallb _ _); [|discriminate].
  set (a0 := UserState.mkAcc _ _ _ _ _ (UserState.toNonces a ++ [nonce]) _ _ _ _ _).
  assert (Hw0 : withinNonce s start nonce a0).
  { refine (conj Hs _). subst a0. cbn. rewrite length_app. cbn.
    refine (conj (last_snoc _ _) (conj _ (conj _ _))); try lia.
    replace (length (UserState.toNonces a) + 1 - 1)%nat
      with (length (UserState.toNonces a)) by lia.
    eapply chained_extend; [| | | |exact Hc]; cbn; try reflexivity; try lia.
    now apply prefix_app_r. }
  assert (Hc0 : counted a0 0).
  { unfold counted. subst a0. cbn. rewrite length_app. cbn.
    split; [lia|]. split; [|lia].
    exists (Z.of_nat (length (UserState.toNonces a))). lia. }
  pose proof (within_attestationsLoop nonce attestations 0 a0 0 Hw0 Hc0)
    as [Hw1 Hc1].
  destruct (UserState.attestationsLoop s nonce attestations 0 a0 0)
    as [a1 h] eqn:Hloop.
  cbn [fst] in Hw1, Hc1. rewrite Z.add_0_l in Hc1.
  destruct Hc1 as (Hn & (q & Hq) & Hr).
  destruct (filled_total batchSize _ _ _ q Hn Hq Hr) as [Hle Htot].
  set (n := Z.of_nat (length attestations)) in *.
  set (k := Z.to_nat (UserState.filledAttestationNum n - n)).
  destruct (within_padding nonce k a1 Hw1) as (Hw2 & Hrows2 & Htn2).
  set (a2 := Nat.iter k UserState.pushBlank a1) in *.
  intros [= <-].
  destruct Hw2 as (Hs2 & Hlast2 & Hbl2 & Hf2 & Hc2).
  assert (He2 : Z.of_nat (length (UserState.rows a2))
                = NUM_ATTESTATIONS_PER_PROOF
                  * Z.of_nat (length (UserState.toNonces a2))).
  { rewrite Hrows2, Htn2. subst k. lia. }
  refine (conj _ (conj He2 (conj _ (conj _ _)))); cbn.
  - destruct Hs2 as (H1 & H2 & H3 & H4).
    refine (conj H1 (conj H2 (conj _ H4))). cbn.
    now apply lookup_app_l_Some.
  - rewrite length_app. cbn. lia.
  - rewrite length_app. destruct (negb _); cbn; lia.
  - eapply (chained_close a2); eauto; cbn; try reflexivity.
Qed.

Lemma between_noncesLoop (fromEpochTree : SparseMerkleTree) (ns : list Z) :
  forall a a' : UserState.Acc,
    betweenNonces s start a ->
    UserState.noncesLoop sync s fromEpochTree ns a = inr a' ->
    betweenNonces s start a'.
Proof.
  induction ns as [|nonce ns IH]; intros a a' Hb; cbn.
  - now intros [= <-].
  - destruct (UserState.nonceStep sync s fromEpochTree a nonce) as [e|a1] eqn:E;
      [discriminate|].
    apply IH. eapply between_nonceStep; eauto.
Qed.

(** The running hash chain only moves on an attestation. *)
Lemma attestationsLoop_hashChain (nonce : Z) (attestations : list Attestation.t) :
  forall (i : Z) (a : UserState.Acc) (h : Z),
    let r := UserState.attestationsLoop s nonce attestations i a h in
    snd r
    = fold_left (fun h a => hashLeftRight (attestation_hash a) h) attestations h
    /\ UserState.finalHashChain (fst r) = UserState.finalHashChain a.
Proof.
  induction attestations as [|attestation rest IH]; intros i a h; cbn;
    [now split|].
  match goal with
  | |- context [UserState.attestationsLoop s nonce rest ?i1 ?a1 ?h1] =>
      destruct (IH i1 a1 h1) as [-> ->]
  end.
  split; [reflexivity|]. now destruct (UserState.startsBatch i).
Qed.

Lemma padding_hashChain (k : nat) (a : UserState.Acc) :
  UserState.finalHashChain (Nat.iter k UserState.pushBlank a)
  = UserState.finalHashChain a.
Proof. induction k as [|k IH]; [reflexivity|exact IH]. Qed.

Lemma nonceStep_hashChain (fromEpochTree : SparseMerkleTree)
    (a a' : UserState.Acc) (nonce : Z) :
  UserState.nonceStep sync s fromEpochTree a nonce = inr a' ->
  UserState.finalHashChain a'
  = UserState.finalHashChain a
    ++ [hashChainOf
          (dbAttestations sync
             (UserState.epochKeyOf sync s
                (UserState.latestTransitionedEpoch s) nonce))].
Proof.
  unfold UserState.nonceStep, UserState.getAttestations.
  destruct (epochKeyInRange sync _); [|discriminate].
  destruct (forallb _ _); [|discriminate].
  match goal with
  | |- context [UserState.attestationsLoop s nonce ?l ?i ?a0 ?h] =>
      pose proof (attestationsLoop_hashChain nonce l i a0 h) as [Hh Hf];
      destruct (UserState.attestationsLoop s nonce l i a0 h) as [a1 h1]
  end.
  cbn [fst snd] in Hh, Hf. intros [= <-]. cbn.
  now rewrite padding_hashChain, Hf, Hh.
Qed.

Lemma noncesLoop_hashChain (fromEpochTree : SparseMerkleTree) (ns : list Z) :
  forall a a' : UserState.Acc,
    UserState.noncesLoop sync s fromEpochTree ns a = inr a' ->
    UserState.finalHashChain a'
    = UserState.finalHashChain a
      ++ map (fun nonce =>
                hashChainOf
                  (dbAttestations sync
                     (UserState.epochKeyOf sync s
                        (UserState.latestTransitionedEpoch s) nonce)))
           ns.
Proof.
  induction ns as [|nonce ns IH]; intros a a'; cbn.
  - intros [= <-]. now rewrite app_nil_r.
  - destruct (UserState.nonceStep sync s fromEpochTree a nonce) as [e|a1] eqn:E;
      [discriminate|].
    intros Hl. rewrite (IH _ _ Hl), (nonceStep_hashChain _ _ _ _ E).
    now rewrite <- app_assoc.
Qed.

(** The entries a nonce contributes: one per attestation, selector 1, then
    the padding, selector 0 and neutral. *)
Lemma attestationsLoop_rows (nonce : Z) (attestations : list Attestation.t) :
  forall (i : Z) (a : UserState.Acc) (h : Z),
    exists real : list ProcessAttestations.Row,
      UserState.rows (fst (UserState.attestationsLoop s nonce attestations i a h))
      = UserState.rows a ++ real
      /\ length real = length attestations
      /\ Forall (fun row => ProcessAttestations.selector row = 1) real.
Proof.
  induction attestations as [|attestation rest IH]; intros i a h; cbn.
  - exists []. now rewrite app_nil_r.
  - match goal with
    | |- context [UserState.attestationsLoop s nonce rest ?i1 ?a1 ?h1] =>
        destruct (IH i1 a1 h1) as (real & -> & Hlen & Hall)
    end.
    eexists (_ :: real). cbn. split; [|split].
    + rewrite <- app_assoc. cbn.
      destruct (UserState.startsBatch i); reflexivity.
    + now rewrite Hlen.
    + constructor; [reflexivity|exact Hall].
Qed.

Lemma padding_rows (k : nat) (a : UserState.Acc) :
  exists pads : list ProcessAttestations.Row,
    UserState.rows (Nat.iter k UserState.pushBlank a) = UserState.rows a ++ pads
    /\ length pads = k
    /\ Forall (fun row => ProcessAttestations.selector row = 0 /\ neutral row)
         pads.
Proof.
  induction k as [|k (pads & Hrows & Hlen & Hall)].
  - exists []. cbn. now rewrite app_nil_r.
  - change (Nat.iter (S k) UserState.pushBlank a)
      with (UserState.pushBlank (Nat.iter k UserState.pushBlank a)).
    eexists (pads ++ [_]). cbn. rewrite Hrows, <- app_assoc.
    split; [reflexivity|]. rewrite length_app. cbn. split; [lia|].
    apply Forall_app. split; [exact Hall|].
    constructor; [|constructor]. split; [reflexivity|].
    unfold neutral. cbn. tauto.
Qed.

Lemma nonceStep_rows (fromEpochTree : SparseMerkleTree)
    (a a' : UserState.Acc) (nonce : Z) :
  UserState.nonceStep sync s fromEpochTree a nonce = inr a' ->
  let n :=
    Z.of_nat
      (length (dbAttestations sync
                 (UserState.epochKeyOf sync s
                    (UserState.latestTransitionedEpoch s) nonce))) in
  exists real pads : list ProcessAttestations.Row,
    UserState.rows a' = UserState.rows a ++ real ++ pads
    /\ Z.of_nat (length real) = n
    /\ Forall (fun row => ProcessAttestations.selector row = 1) real
    /\ Z.of_nat (length pads) = UserState.filledAttestationNum n - n
    /\ Forall (fun row => ProcessAttestations.selector row = 0 /\ neutral row)
         pads.
Proof.
  unfold UserState.nonceStep, UserState.getAttestations.
  destruct (epochKeyInRange sync _); [|discriminate].
  destruct (forallb _ _); [|discriminate].
  match goal with
  | |- context [UserState.attestationsLoop s nonce ?l ?i ?a0 ?h] =>
      destruct (attestationsLoop_rows nonce l i a0 h)
        as (real & Hreal & Hlen & Hall);
      destruct (UserState.attestationsLoop s nonce l i a0 h) as [a1 h1]
  end.
  cbn [fst] in Hreal. intros Heq. injection Heq as <-. cbn.
  match goal with
  | |- context [Nat.iter ?k UserState.pushBlank a1] =>
      destruct (padding_rows k a1) as (pads & Hpads & Hk & Hneutral)
  end.
  exists real, pads. rewrite Hpads, Hreal. cbn. rewrite <- app_assoc.
  set (n := Z.of_nat (length (dbAttestations sync _))) in *.
  repeat split; try assumption.
  - subst n. now rewrite Hlen.
  - rewrite Hk.
    assert (Hn : 0 <= n) by (subst n; lia).
    unfold UserState.filledAttestationNum.
    destruct (Z.eqb_spec n 0) as [E|E]; [lia|].
    pose proof (Z.mul_succ_div_gt (n + NUM_ATTESTATIONS_PER_PROOF - 1)
                  NUM_ATTESTATIONS_PER_PROOF batchSize).
    nia.
Qed.

(** The slices of batch [i]. *)
Lemma slice_rows {A : Type} (l : list A) (i : nat) :
  UserState.slice l (NUM_ATTESTATIONS_PER_PROOF * Z.of_nat i)
    (NUM_ATTESTATIONS_PER_PROOF * (Z.of_nat i + 1))
  = take (Z.to_nat NUM_ATTESTATIONS_PER_PROOF)
      (drop (Z.to_nat NUM_ATTESTATIONS_PER_PROOF * i) l).
Proof.
  unfold UserState.slice.
  rewrite Z.mul_add_distr_l, Z.mul_1_r.
  rewrite Z2Nat.inj_add by nia.
  rewrite Z2Nat.inj_mul by lia. rewrite Nat2Z.id.
  f_equal. lia.
Qed.

Lemma slice_roots {A : Type} (l : list A) (i : nat) :
  UserState.slice l (NUM_ATTESTATIONS_PER_PROOF * Z.of_nat i)
    (NUM_ATTESTATIONS_PER_PROOF * (Z.of_nat i + 1) + 1)
  = take (S (Z.to_nat NUM_ATTESTATIONS_PER_PROOF))
      (drop (Z.to_nat NUM_ATTESTATIONS_PER_PROOF * i) l).
Proof.
  unfold UserState.slice.
  rewrite Z.mul_add_distr_l, Z.mul_1_r.
  rewrite !Z2Nat.inj_add by nia.
  rewrite Z2Nat.inj_mul by lia. rewrite Nat2Z.id.
  f_equal. cbn. lia.
Qed.

End TransitionLoops.

Section TransitionInputs.

Context `{Crypto}.
Variable sync : Synchronizer.
Variable s : UserState.t.
Hypothesis batchSize : 0 < NUM_ATTESTATIONS_PER_PROOF.

(** The batches of a run in which [stringifyBigInts] does not throw are
    the objects of the loop, as they are. *)
Lemma batchesLoop_inr (a : UserState.Acc) (indices : list nat)
    (bs : list ProcessAttestations.Inputs) :
  UserState.batchesLoop s a indices = inr bs ->
  bs = map (UserState.batchInputs s a) indices.
Proof.
  revert bs. induction indices as [|i rest IH]; intros bs; cbn.
  - now intros [= <-].
  - unfold UserState.stringifyBigInts.
    destruct (ProcessAttestations.from_nonce _); [|discriminate].
    destruct (ProcessAttestations.to_nonce _); [|discriminate].
    destruct (ProcessAttestations.hash_chain_starter _); [|discriminate].
    destruct (ProcessAttestations.input_blinded_user_state _); [|discriminate].
    destruct (UserState.batchesLoop s a rest) as [e|bs']; [discriminate|].
    intros [= <-]. now rewrite (IH bs' eq_refl).
Qed.

Lemma inputs_inv (r : UserState.TransitionInputs) :
  UserState.genUserStateTransitionProofs_inputs sync s = inr r ->
  exists (fromEpochTree : SparseMerkleTree) (a : UserState.Acc),
    UserState.noncesLoop sync s fromEpochTree (UserState.nonces sync)
      (initialAcc sync s) = inr a
    /\ StartTransition.blindedUserState
         (UserState.startTransitionCircuitInputs r)
       = hash5 [identityNullifier (UserState.id s);
                smt_root (UserState.genUserStateTree sync s);
                UserState.latestTransitionedEpoch s; 0; 0]
    /\ UserState.processAttestationCircuitInputs r
       = map (UserState.batchInputs s a)
           (seq 0 (length (UserState.fromNonces a)))
    /\ FinalTransition.hash_chain_results
         (UserState.finalTransitionCircuitInputs r)
       = UserState.finalHashChain a.
Proof.
  unfold UserState.genUserStateTransitionProofs_inputs.
  destruct (UserState.hasSignedUp s); [|discriminate].
  destruct (UserState.genGSTree sync _) as [e|gst]; [discriminate|].
  destruct (genEpochTree sync _) as [e|fromEpochTree]; [discriminate|].
  destruct (UserState.noncesLoop sync s fromEpochTree _ _) as [e|a] eqn:E;
    [discriminate|].
  destruct (UserState.batchesLoop s a _) as [e|bs] eqn:Eb; [discriminate|].
  apply batchesLoop_inr in Eb. subst bs.
  intros [= <-]. exists fromEpochTree, a. cbn. repeat split. exact E.
Qed.

Lemma initial_between :
  betweenNonces s
    (hash5 [identityNullifier (UserState.id s);
            smt_root (UserState.genUserStateTree sync s);
            UserState.latestTransitionedEpoch s; 0; 0])
    (initialAcc sync s).
Proof.
  unfold betweenNonces, shape, initialAcc. cbn.
  refine (conj (conj eq_refl (conj eq_refl (conj eq_refl _))) _).
  - intros k row Hk. discriminate Hk.
  - refine (conj _ (conj eq_refl (conj _ _))); try lia.
    intros j n Hj. lia.
Qed.

Lemma final_between (r : UserState.TransitionInputs) :
  UserState.genUserStateTransitionProofs_inputs sync s = inr r ->
  exists a : UserState.Acc,
    betweenNonces s
      (StartTransition.blindedUserState
         (UserState.startTransitionCircuitInputs r)) a
    /\ UserState.processAttestationCircuitInputs r
       = map (UserState.batchInputs s a)
           (seq 0 (length (UserState.fromNonces a)))
    /\ FinalTransition.hash_chain_results
         (UserState.finalTransitionCircuitInputs r)
       = map (fun nonce =>
                hashChainOf
                  (dbAttestations sync
                     (UserState.epochKeyOf sync s
                        (UserState.latestTransitionedEpoch s) nonce)))
           (UserState.nonces sync).
Proof.
  intros Hr. destruct (inputs_inv r Hr) as (tree & a & Hloop & Hstart & Hp & Hh).
  exists a. rewrite Hstart. split; [|split; [exact Hp|]].
  - eapply between_noncesLoop; [exact batchSize| |exact Hloop].
    apply initial_between.
  - rewrite Hh. apply (noncesLoop_hashChain sync s tree _ _ _ Hloop).
Qed.

Lemma last_take_drop {A : Type} (l : list A) (d m : nat) (x : A) :
  l !! (d + m)%nat = Some x -> last (take (S m) (drop d l)) = Some x.
Proof.
  intros Hx. pose proof (lookup_lt_Some _ _ _ Hx) as Hlt.
  rewrite last_lookup, length_take, length_drop.
  replace (Init.Nat.pred (S m `min` (length l - d))) with m by lia.
  rewrite lookup_take. destruct (decide (m < S m)%nat); [|lia].
  now rewrite lookup_drop.
Qed.

Lemma batch_end_index (j : nat) :
  Z.to_nat (NUM_ATTESTATIONS_PER_PROOF * (Z.of_nat j + 1))
  = (Z.to_nat NUM_ATTESTATIONS_PER_PROOF * j
     + Z.to_nat NUM_ATTESTATIONS_PER_PROOF)%nat.
Proof.
  rewrite Z2Nat.inj_mul, Z2Nat.inj_add, Nat2Z.id by lia.
  change (Z.to_nat 1) with 1%nat. lia.
Qed.

Lemma batch_lookup (a : UserState.Acc) (i : nat) (b : ProcessAttestations.Inputs) :
  map (UserState.batchInputs s a) (seq 0 (length (UserState.fromNonces a)))
    !! i = Some b ->
  b = UserState.batchInputs s a i /\ (i < length (UserState.fromNonces a))%nat.
Proof.
  intros Hb. apply list_lookup_fmap_Some in Hb as (j & -> & Hj).
  apply lookup_seq in Hj as [-> Hlt]. now split.
Qed.

(** C2.  In the inputs [genUserStateTransitionProofs] assembles, the input
    blinded user state of batch 0 is the blinded user state of the start
    phase, [hash5(identityNullifier, userStateTreeRoot, fromEpoch, 0, 0)],
    and the input blinded user state of every later batch is the output
    blinded user state of the batch before it: the checkpoint of the last
    intermediate root of that batch under its [to_nonce]. *)
Theorem transition_inputs_chain (r : UserState.TransitionInputs) :
  UserState.genUserStateTransitionProofs_inputs sync s = inr r ->
  StartTransition.blindedUserState (UserState.startTransitionCircuitInputs r)
  = hash5 [identityNullifier (UserState.id s);
           smt_root (UserState.genUserStateTree sync s);
           UserState.latestTransitionedEpoch s; 0; 0]
  /\ forall (i : nat) (b : ProcessAttestations.Inputs),
       UserState.processAttestationCircuitInputs r !! i = Some b ->
       match i with
       | O =>
           ProcessAttestations.input_blinded_user_state b
           = Some (StartTransition.blindedUserState
                     (UserState.startTransitionCircuitInputs r))
       | S j =>
           exists (b' : ProcessAttestations.Inputs) (out : Z),
             UserState.processAttestationCircuitInputs r !! j = Some b'
             /\ outputBlindedUserState b' = Some out
             /\ ProcessAttestations.input_blinded_user_state b = Some out
       end.
Proof.
  intros Hr. split.
  { destruct (inputs_inv r Hr) as (_ & _ & _ & Hstart & _). exact Hstart. }
  destruct (final_between r Hr)
    as (a & ((_ & _ & Hstart & _) & He & Hbl & Hf & Hc) & Hp & _).
  intros i b Hb. rewrite Hp in Hb |- *.
  apply batch_lookup in Hb as [-> Hi].
  destruct i as [|j]; [exact Hstart|].
  assert (Hj : (j < length (UserState.toNonces a))%nat) by lia.
  destruct (lookup_lt_is_Some_2 _ _ Hj) as [n Hn].
  destruct (Hc j n Hj Hn) as (root & Hroot & Hcp).
  exists (UserState.batchInputs s a j), (UserState.checkpoint s root n).
  split; [|split].
  - rewrite list_lookup_fmap, lookup_seq_lt by lia. reflexivity.
  - unfold outputBlindedUserState, UserState.batchInputs. cbn.
    rewrite Hn, slice_roots by exact batchSize.
    rewrite batch_end_index in Hroot.
    now rewrite (last_take_drop _ _ _ _ Hroot).
  - exact Hcp.
Qed.

(** C8.  Every turn of the loop over the nonces appends one entry with
    selector 1 per attestation of the nonce, then neutral entries (selector
    0, all values zero) up to [filledAttestationNum], a multiple of
    [NUM_ATTESTATIONS_PER_PROOF].  In the inputs
    [genUserStateTransitionProofs] assembles, every batch that has a
    [to_nonce] is therefore full: [NUM_ATTESTATIONS_PER_PROOF] entries and
    one more intermediate root; in every batch, every entry with selector 0
    is neutral and leaves the intermediate user-state-tree root as it was;
    and the hash chain result of every nonce is the chain over the
    attestations of its epoch key alone: a padding entry does not move
    it. *)
Theorem transition_inputs_padding (r : UserState.TransitionInputs) :
  UserState.genUserStateTransitionProofs_inputs sync s = inr r ->
  (forall (fromEpochTree : SparseMerkleTree) (a a' : UserState.Acc)
          (nonce : Z),
     UserState.nonceStep sync s fromEpochTree a nonce = inr a' ->
     let n :=
       Z.of_nat
         (length (dbAttestations sync
                    (UserState.epochKeyOf sync s
                       (UserState.latestTransitionedEpoch s) nonce))) in
     (exists c, UserState.filledAttestationNum n
                = c * NUM_ATTESTATIONS_PER_PROOF)
     /\ exists real pads : list ProcessAttestations.Row,
          UserState.rows a' = UserState.rows a ++ real ++ pads
          /\ Z.of_nat (length real) = n
          /\ Forall (fun row => ProcessAttestations.selector row = 1) real
          /\ Z.of_nat (length pads) = UserState.filledAttestationNum n - n
          /\ Forall (fun row => ProcessAttestations.selector row = 0
                                /\ neutral row) pads)
  /\ (forall (i : nat) (b : ProcessAttestations.Inputs),
     UserState.processAttestationCircuitInputs r !! i = Some b ->
     (is_Some (ProcessAttestations.to_nonce b) ->
      Z.of_nat (length (ProcessAttestations.rows b))
      = NUM_ATTESTATIONS_PER_PROOF
      /\ Z.of_nat
           (length (ProcessAttestations.intermediate_user_state_tree_roots b))
         = NUM_ATTESTATIONS_PER_PROOF + 1)
     /\ paddingIsNeutral
          (ProcessAttestations.intermediate_user_state_tree_roots b)
          (ProcessAttestations.rows b))
  /\ FinalTransition.hash_chain_results
       (UserState.finalTransitionCircuitInputs r)
     = map (fun nonce =>
              hashChainOf
                (dbAttestations sync
                   (UserState.epochKeyOf sync s
                      (UserState.latestTransitionedEpoch s) nonce)))
         (UserState.nonces sync).
Proof.
  intros Hr.
  destruct (final_between r Hr)
    as (a & ((Hlen & _ & _ & Hpad) & He & _ & _ & _) & Hp & Hh).
  split.
  { intros tree a0 a' nonce Hstep n. split.
    - unfold UserState.filledAttestationNum.
      destruct (n =? 0); [exists 1; lia|eauto].
    - exact (nonceStep_rows sync s batchSize tree a0 a' nonce Hstep). }
  split; [|exact Hh].
  intros i b Hb. rewrite Hp in Hb.
  apply batch_lookup in Hb as [-> Hi].
  unfold UserState.batchInputs. cbn.
  rewrite slice_rows, slice_roots by exact batchSize.
  set (n := Z.to_nat NUM_ATTESTATIONS_PER_PROOF).
  split.
  - intros Hto. apply lookup_lt_is_Some_1 in Hto.
    rewrite !length_take, !length_drop. nia.
  - intros k row Hk Hsel.
    rewrite lookup_take in Hk.
    destruct (decide (k < n)%nat) as [Hlt|]; [|discriminate].
    rewrite lookup_drop in Hk.
    destruct (Hpad _ _ Hk Hsel) as [Hn Hroots]. split; [exact Hn|].
    rewrite !lookup_take.
    destruct (decide (S k < S n)%nat); [|lia].
    destruct (decide (k < S n)%nat); [|lia].
    rewrite !lookup_drop.
    replace (n * i + S k)%nat with (S (n * i + k)) by lia.
    exact Hroots.
Qed.

End TransitionInputs.


(** The transition of the sample user: batches of 2, three attestations to
    the epoch key of nonce 0 and none to that of nonce 1.  The inputs are
    assembled, and their batches are chained. *)
Lemma transition_inputs_chain_witness :
  match
    UserState.genUserStateTransitionProofs_inputs (Sample.sync 2 [])
      Sample.signedUp
  with
  | inl _ => False
  | inr r =>
      StartTransition.blindedUserState
        (UserState.startTransitionCircuitInputs r)
      = @hash5 Sample.crypto
          [11; smt_root (UserState.genUserStateTree (Sample.sync 2 [])
                           Sample.signedUp); 1; 0; 0]
      /\ forall (i : nat) (b : ProcessAttestations.Inputs),
           UserState.processAttestationCircuitInputs r !! i = Some b ->
           match i with
           | O =>
               ProcessAttestations.input_blinded_user_state b
               = Some (StartTransition.blindedUserState
                         (UserState.startTransitionCircuitInputs r))
           | S j =>
               exists (b' : ProcessAttestations.Inputs) (out : Z),
                 UserState.processAttestationCircuitInputs r !! j = Some b'
                 /\ outputBlindedUserState b' = Some out
                 /\ ProcessAttestations.input_blinded_user_state b = Some out
           end
  end.
Proof.
  assert (Hok : succeeds
                  (UserState.genUserStateTransitionProofs_inputs
                     (Sample.sync 2 []) Sample.signedUp) = true)
    by (vm_compute; reflexivity).
  destruct (UserState.genUserStateTransitionProofs_inputs (Sample.sync 2 [])
              Sample.signedUp) as [e|r] eqn:E.
  - discriminate Hok.
  - exact (transition_inputs_chain (Sample.sync 2 []) Sample.signedUp
             eq_refl r E).
Defined.

(** The same transition: its batches are padded. *)
Lemma transition_inputs_padding_witness :
  match
    UserState.genUserStateTransitionProofs_inputs (Sample.sync 2 [])
      Sample.signedUp
  with
  | inl _ => False
  | inr r =>
      (forall (i : nat) (b : ProcessAttestations.Inputs),
         UserState.processAttestationCircuitInputs r !! i = Some b ->
         paddingIsNeutral
           (ProcessAttestations.intermediate_user_state_tree_roots b)
           (ProcessAttestations.rows b))
      /\ FinalTransition.hash_chain_results
           (UserState.finalTransitionCircuitInputs r)
         = [@hashChainOf Sample.crypto (Sample.attestationsOf 111);
            @hashChainOf Sample.crypto []]
  end.
Proof.
  assert (Hok : succeeds
                  (UserState.genUserStateTransitionProofs_inputs
                     (Sample.sync 2 []) Sample.signedUp) = true)
    by (vm_compute; reflexivity).
  destruct (UserState.genUserStateTransitionProofs_inputs (Sample.sync 2 [])
              Sample.signedUp) as [e|r] eqn:E.
  - discriminate Hok.
  - destruct (transition_inputs_padding (Sample.sync 2 []) Sample.signedUp
                eq_refl r E) as (_ & Hbatches & Hchain).
    split.
    + intros i b Hb. exact (proj2 (Hbatches i b Hb)).
    + exact Hchain.
Defined.

(** The selectors of the three batches of the sample transition, and the
    nonces they run from and to. *)
Example sample_batches :
  match
    UserState.genUserStateTransitionProofs_inputs (Sample.sync 2 [])
      Sample.signedUp
  with
  | inl _ => None
  | inr r =>
      Some (map (fun b =>
                   (ProcessAttestations.from_nonce b,
                    ProcessAttestations.to_nonce b,
                    map ProcessAttestations.selector
                      (ProcessAttestations.rows b)))
              (UserState.processAttestationCircuitInputs r))
  end
  = Some [(Some 0, Some 0, [1; 1]); (Some 0, Some 0, [1; 0]);
          (Some 0, Some 1, [0; 0])].
Proof. vm_compute. reflexivity. Qed.

(** * Further properties *)

(** ** The life of an identity *)

Section Folding.

Context `{Crypto}.

Lemma findLeaf_lookup (h : list IUserStateLeaf) (ls : list nat) (a : Z)
    (l : nat) :
  UserState.findLeaf h ls a = Some l ->
  exists leaf, h !! l = Some leaf /\ attesterId leaf = a.
Proof.
  induction ls as [|k ls IH]; cbn; [discriminate|].
  destruct (h !! k) as [x|] eqn:E; [|exact IH].
  destruct (attesterId x =? a) eqn:Ea; [|exact IH].
  intros [= <-]. exists x. split; [exact E|lia].
Qed.

Lemma deref_cons (h : list IUserStateLeaf) (k : nat) (ls : list nat) :
  UserState.deref h (k :: ls)
  = match h !! k with
    | Some x => x :: UserState.deref h ls
    | None => UserState.deref h ls
    end.
Proof. reflexivity. Qed.

Lemma getRepOf_cons (x : IUserStateLeaf) (l : list IUserStateLeaf) (b : Z) :
  UserState.getRepOf (x :: l) b
  = if attesterId x =? b then reputation x else UserState.getRepOf l b.
Proof.
  unfold UserState.getRepOf. cbn. now destruct (attesterId x =? b).
Qed.

(** An in-place update of a leaf of attester [a] is invisible to the
    other attesters. *)
Lemma getRepOf_alter_other (f : IUserStateLeaf -> IUserStateLeaf)
    (h : list IUserStateLeaf) (l : nat) (leaf : IUserStateLeaf) (b : Z) :
  h !! l = Some leaf -> attesterId leaf <> b ->
  (forall x, attesterId (f x) = attesterId x) ->
  forall ls,
    UserState.getRepOf (UserState.deref (alter f l h) ls) b
    = UserState.getRepOf (UserState.deref h ls) b.
Proof.
  intros Hl Hb Hf ls. induction ls as [|k ls IH]; [reflexivity|].
  rewrite !deref_cons. destruct (decide (k = l)) as [->|Hk].
  - rewrite list_lookup_alter_eq, Hl. cbn. rewrite !getRepOf_cons, Hf.
    destruct (attesterId leaf =? b) eqn:E; [lia|exact IH].
  - rewrite list_lookup_alter_ne by congruence.
    destruct (h !! k) as [x|]; [|exact IH].
    rewrite !getRepOf_cons, IH. reflexivity.
Qed.

(** An in-place update of the leaf [findLeaf] returns is what a reader of
    the array sees for that attester. *)
Lemma getRepOf_alter_same (g : Reputation.t -> Reputation.t)
    (h : list IUserStateLeaf) (a : Z) :
  forall (ls : list nat) (l : nat),
    UserState.findLeaf h ls a = Some l ->
    UserState.getRepOf
      (UserState.deref
         (alter (fun x => mkLeaf (attesterId x) (g (reputation x))) l h) ls) a
    = g (UserState.getRepOf (UserState.deref h ls) a).
Proof.
  induction ls as [|k ls IH]; intros l Hfind; [discriminate|].
  destruct (findLeaf_lookup _ _ _ _ Hfind) as (leaf & Hl & Hid).
  cbn [UserState.findLeaf] in Hfind. rewrite !deref_cons.
  destruct (decide (k = l)) as [->|Hk].
  - rewrite list_lookup_alter_eq, Hl. cbn. rewrite !getRepOf_cons. cbn.
    destruct (attesterId leaf =? a) eqn:E; [reflexivity|lia].
  - rewrite list_lookup_alter_ne by congruence.
    destruct (h !! k) as [x|] eqn:Ex; [|exact (IH l Hfind)].
    destruct (attesterId x =? a) eqn:E.
    + congruence.
    + rewrite !getRepOf_cons, E. exact (IH l Hfind).
Qed.

Lemma getRepOf_snoc (l : list IUserStateLeaf) (x : IUserStateLeaf) (b : Z) :
  UserState.getRepOf (l ++ [x]) b
  = if bool_decide (b ∈ map attesterId l) then UserState.getRepOf l b
    else if attesterId x =? b then reputation x else Reputation.default.
Proof.
  induction l as [|y l IH].
  - cbn. rewrite getRepOf_cons. reflexivity.
  - cbn [app map]. rewrite !getRepOf_cons, IH.
    destruct (attesterId y =? b) eqn:E.
    + rewrite bool_decide_eq_true_2; [reflexivity|].
      apply elem_of_cons. left. lia.
    + destruct (bool_decide (b ∈ map attesterId l)) eqn:Eb.
      * rewrite bool_decide_eq_true_2; [reflexivity|].
        apply elem_of_cons. right. now apply bool_decide_eq_true in Eb.
      * rewrite bool_decide_eq_false_2; [reflexivity|].
        apply bool_decide_eq_false in Eb. rewrite elem_of_cons. intros [?|?].
        -- lia.
        -- contradiction.
Qed.

Lemma getRepOf_absent (l : list IUserStateLeaf) (b : Z) :
  b ∉ map attesterId l -> UserState.getRepOf l b = Reputation.default.
Proof.
  induction l as [|y l IH]; [reflexivity|].
  cbn [map]. rewrite elem_of_cons, getRepOf_cons. intros Hn.
  destruct (attesterId y =? b) eqn:E.
  - exfalso. apply Hn. left. lia.
  - apply IH. tauto.
Qed.

(** One attestation through [_updateUserStateLeaf]: the reputation a
    reader of the array finds for each attester afterwards. *)
Lemma updateUserStateLeaf_getRepOf (att : Attestation.t)
    (hs : list IUserStateLeaf * list nat) :
  Forall (fun l => (l < length (fst hs))%nat) (snd hs) ->
  let hs' := UserState._updateUserStateLeaf att hs in
  Forall (fun l => (l < length (fst hs'))%nat) (snd hs')
  /\ forall a,
       UserState.getRepOf (UserState.deref (fst hs') (snd hs')) a
       = applyAttestation a
           (UserState.getRepOf (UserState.deref (fst hs) (snd hs)) a) att.
Proof.
  destruct hs as [h ls]. cbn [fst snd]. intros Hb.
  unfold UserState._updateUserStateLeaf.
  destruct (UserState.findLeaf h ls (Attestation.attesterId att))
    as [l|] eqn:Hfind; cbn [fst snd].
  - split.
    + now rewrite length_alter.
    + intros a. unfold applyAttestation.
      destruct (Attestation.attesterId att =? a) eqn:E.
      * assert (a = Attestation.attesterId att) as -> by lia.
        exact (getRepOf_alter_same
                 (fun r => Reputation.update r (Attestation.posRep att)
                             (Attestation.negRep att)
                             (Attestation.graffiti att)
                             (Attestation.signUp att))
                 h _ ls l Hfind).
      * destruct (findLeaf_lookup _ _ _ _ Hfind) as (leaf & Hl & Hid).
        apply (getRepOf_alter_other _ h l leaf a Hl); [lia|reflexivity].
  - split.
    + rewrite length_app. cbn. apply Forall_app. split.
      * eapply Forall_impl; [exact Hb|]. cbn. intros. lia.
      * repeat constructor. lia.
    + intros a. rewrite deref_snoc, deref_fresh, (deref_app _ _ _ Hb).
      rewrite getRepOf_snoc. unfold applyAttestation. cbn.
      apply findLeaf_None in Hfind.
      destruct (Attestation.attesterId att =? a) eqn:E.
      * assert (a = Attestation.attesterId att) as -> by lia.
        rewrite bool_decide_eq_false_2 by exact Hfind.
        now rewrite (getRepOf_absent _ _ Hfind).
      * destruct (bool_decide (a ∈ map attesterId (UserState.deref h ls)))
          eqn:Ea; [reflexivity|].
        apply bool_decide_eq_false in Ea.
        now rewrite (getRepOf_absent _ _ Ea).
Qed.

Lemma fold_update_getRepOf (atts : list Attestation.t) :
  forall hs : list IUserStateLeaf * list nat,
    Forall (fun l => (l < length (fst hs))%nat) (snd hs) ->
    let hs' :=
      fold_left (fun hs' a => UserState._updateUserStateLeaf a hs') atts hs in
    Forall (fun l => (l < length (fst hs'))%nat) (snd hs')
    /\ forall a,
         UserState.getRepOf (UserState.deref (fst hs') (snd hs')) a
         = fold_left (applyAttestation a) atts
             (UserState.getRepOf (UserState.deref (fst hs) (snd hs)) a).
Proof.
  induction atts as [|att atts IH]; intros hs Hb; cbn [fold_left].
  - split; [exact Hb|reflexivity].
  - destruct (updateUserStateLeaf_getRepOf att hs Hb) as [Hb1 H1].
    destruct (IH _ Hb1) as [Hb2 H2]. split; [exact Hb2|].
    intros a. rewrite H2, H1. reflexivity.
Qed.

Lemma copy_attestations (l : list Attestation.t) :
  map (fun attest =>
         Attestation.mk (Attestation.attesterId attest)
           (Attestation.posRep attest) (Attestation.negRep attest)
           (Attestation.graffiti attest) (Attestation.signUp attest)) l
  = l.
Proof.
  induction l as [|[] l IH]; cbn; [reflexivity|]. now rewrite IH.
Qed.

Variable sync : Synchronizer.

(** The loop of [_saveAttestations] when every key passes the range
    check: the snapshot holds the attestations of the datastore under the
    key of each nonce. *)
Lemma saveAttestationsLoop_snapshot (fromEpoch : Z) (ns : list Z) :
  forall s : UserState.t,
    Forall
      (fun nonce =>
         epochKeyInRange sync (UserState.epochKeyOf sync s fromEpoch nonce)
         = true) ns ->
    let r := UserState.saveAttestationsLoop sync fromEpoch ns s in
    fst r = Normal
    /\ UserState.id (snd r) = UserState.id s
    /\ forall k,
         UserState.transitionedFromAttestations (snd r) !! k
         = if bool_decide
                (k ∈ map (UserState.epochKeyOf sync s fromEpoch) ns)
           then Some (dbAttestations sync k)
           else UserState.transitionedFromAttestations s !! k.
Proof.
  induction ns as [|nonce ns IH]; intros s Hall; cbn.
  - repeat split.
  - inversion Hall as [|? ? Hin Hrest]; subst.
    unfold UserState.getAttestations. rewrite Hin.
    rewrite copy_attestations.
    set (s1 := UserState.set_transitionedFromAttestations _ s).
    destruct (IH s1 Hrest) as (Hn & Hid & Hk).
    split; [exact Hn|]. split; [exact Hid|].
    intros k. rewrite Hk.
    change (UserState.epochKeyOf sync s1 fromEpoch)
      with (UserState.epochKeyOf sync s fromEpoch).
    destruct (decide (k = UserState.epochKeyOf sync s fromEpoch nonce))
      as [->|Hne].
    + rewrite (bool_decide_eq_true_2 (_ ∈ _ :: _)) by (apply elem_of_cons; now left).
      destruct (bool_decide _); [reflexivity|].
      subst s1. cbn. now rewrite lookup_insert_eq.
    + destruct (bool_decide (k ∈ map _ ns)) eqn:Ek.
      * apply bool_decide_eq_true in Ek.
        rewrite bool_decide_eq_true_2; [reflexivity|].
        apply elem_of_cons. now right.
      * apply bool_decide_eq_false in Ek.
        rewrite bool_decide_eq_false_2.
        -- subst s1. cbn. now rewrite lookup_insert_ne by congruence.
        -- rewrite elem_of_cons. tauto.
Qed.

Lemma saveAttestationsLoop_identity (fromEpoch : Z) (ns : list Z) :
  forall s : UserState.t,
    let s' := snd (UserState.saveAttestationsLoop sync fromEpoch ns s) in
    UserState.id s' = UserState.id s
    /\ UserState.commitment s' = UserState.commitment s.
Proof.
  induction ns as [|nonce ns IH]; intros s; cbn; [done|].
  destruct (UserState.getAttestations sync _); [done|].
  exact (IH _).
Qed.

Lemma saveAttestationsLoop_completion (fromEpoch : Z) (ns : list Z) :
  forall s : UserState.t,
    let inRange :=
      Forall
        (fun nonce =>
           epochKeyInRange sync (UserState.epochKeyOf sync s fromEpoch nonce)
           = true) ns in
    let r := UserState.saveAttestationsLoop sync fromEpoch ns s in
    (inRange -> fst r = Normal)
    /\ (~ inRange -> fst r = Throw InvalidEpochKey).
Proof.
  induction ns as [|nonce ns IH]; intros s; cbn zeta.
  - split; [reflexivity|]. intros Hn. exfalso. apply Hn. constructor.
  - cbn [UserState.saveAttestationsLoop]. unfold UserState.getAttestations.
    destruct (epochKeyInRange sync (UserState.epochKeyOf sync s fromEpoch nonce))
      eqn:E.
    + set (s1 := UserState.set_transitionedFromAttestations _ s).
      destruct (IH s1) as [Hok Hbad].
      change (UserState.epochKeyOf sync s1 fromEpoch)
        with (UserState.epochKeyOf sync s fromEpoch) in Hok, Hbad.
      split.
      * intros Hall. apply Hok. now inversion Hall.
      * intros Hn. apply Hbad. intros Hall. apply Hn. now constructor.
    + split; [|reflexivity].
      intros Hall. inversion Hall; congruence.
Qed.

Lemma fold_left_concat {A B : Type} (f : A -> B -> A) (ls : list (list B)) :
  forall a : A,
    fold_left f (concat ls) a
    = fold_left (fun acc l => fold_left f l acc) ls a.
Proof.
  induction ls as [|l ls IH]; intros a; cbn; [reflexivity|].
  now rewrite fold_left_app, IH.
Qed.

End Folding.

Section Staging.

Context `{Crypto}.
Variable sync : Synchronizer.

Lemma stage_fold (s1 : UserState.t) (e : Z) (ns : list Z) :
  (forall nonce, nonce ∈ ns ->
     UserState.transitionedFromAttestations s1
       !! UserState.epochKeyOf sync s1 e nonce
     = Some (dbAttestations sync (UserState.epochKeyOf sync s1 e nonce))) ->
  forall hs : list IUserStateLeaf * list nat,
    fold_left
      (fun hs nonce =>
         match UserState.transitionedFromAttestations s1
                 !! UserState.epochKeyOf sync s1 e nonce with
         | Some attestations =>
             fold_left (fun hs' a => UserState._updateUserStateLeaf a hs')
               attestations hs
         | None => hs
         end) ns hs
    = fold_left (fun hs' a => UserState._updateUserStateLeaf a hs')
        (concat
           (map (fun nonce =>
                   dbAttestations sync (UserState.epochKeyOf sync s1 e nonce))
              ns)) hs.
Proof.
  induction ns as [|nonce ns IH]; intros Hk hs; cbn; [reflexivity|].
  rewrite Hk by (apply elem_of_cons; now left).
  rewrite fold_left_app. apply IH.
  intros n Hn. apply Hk. apply elem_of_cons. now right.
Qed.

(** [epochTransition] for the latest transitioned epoch, when the user has
    signed up and every epoch key is in range. *)
Lemma epochTransition_staged (s : UserState.t) :
  UserState.hasSignedUp s = true ->
  Forall (fun l => (l < length (UserState.heap s))%nat)
    (UserState.latestUserStateLeaves s) ->
  epochKeysInRange sync s ->
  let r := UserState.epochTransition sync s (UserState.latestTransitionedEpoch s) in
  fst r = Normal
  /\ UserState.hasSignedUp (snd r) = true
  /\ UserState.latestTransitionedEpoch (snd r)
     = UserState.latestTransitionedEpoch s
  /\ forall a,
       UserState.getRepOf (UserState.stagedLeaves (snd r)) a
       = fold_left (applyAttestation a) (receivedAttestations sync s)
           (UserState.getRepByAttester s a).
Proof.
  intros Hsigned Hbounds Hkeys.
  unfold UserState.epochTransition, UserState._saveAttestations.
  rewrite Z.eqb_refl, Hsigned. cbn [negb].
  destruct (saveAttestationsLoop_snapshot sync
              (UserState.latestTransitionedEpoch s) (UserState.nonces sync) s
              Hkeys) as (Hn & Hid & Hsnap).
  destruct (saveAttestationsLoop_frame sync
              (UserState.latestTransitionedEpoch s) (UserState.nonces sync) s)
    as (Hheap & Hsu & Hcommitted & _).
  destruct (UserState.saveAttestationsLoop sync
              (UserState.latestTransitionedEpoch s) (UserState.nonces sync) s)
    as [c s1]. cbn [fst snd] in *. subst c.
  unfold committedState in Hcommitted.
  injection Hcommitted as Hlte _ Hleaves.
  assert (Hkey : forall e n,
             UserState.epochKeyOf sync s1 e n = UserState.epochKeyOf sync s e n).
  { intros e n. unfold UserState.epochKeyOf. now rewrite Hid. }
  unfold UserState._genNewUserStateAfterTransition.
  rewrite Hsu, Hsigned, Hlte, Hheap, Hleaves.
  rewrite stage_fold.
  2:{ intros nonce Hin. rewrite Hsnap, Hkey.
      rewrite bool_decide_eq_true_2; [reflexivity|].
      apply list_elem_of_fmap. now exists nonce. }
  destruct (fold_update_getRepOf
              (concat
                 (map (fun nonce =>
                         dbAttestations sync
                           (UserState.epochKeyOf sync s1
                              (UserState.latestTransitionedEpoch s) nonce))
                    (UserState.nonces sync)))
              (UserState.heap s, UserState.latestUserStateLeaves s) Hbounds)
    as [_ Hfold].
  destruct (fold_left _ _ (UserState.heap s, UserState.latestUserStateLeaves s))
    as [h stateLeaves]. cbn [fst snd] in *.
  cbn [fst snd]. refine (conj eq_refl (conj _ (conj _ _))).
  - cbn. congruence.
  - cbn. exact Hlte.
  - intros a. unfold UserState.stagedLeaves. cbn. rewrite Hfold.
  unfold receivedAttestations, UserState.getRepByAttester, UserState.ledger.
  f_equal. f_equal. apply map_ext. intros n. now rewrite Hkey.
Qed.

End Staging.

Section Lifecycle.

Context `{Crypto}.

(** X1.  Staging folds the attestations.  In a state the handlers can
    reach, once the user has signed up and every epoch key of the latest
    transitioned epoch is in range, [epochTransition] for that epoch
    returns, and the staged leaves give every attester the committed
    reputation updated with each attestation addressed to that attester, in
    the order of the nonces and, within a nonce, of the datastore. *)
Theorem epochTransition_stages_fold (i : ZkIdentity) (sync : Synchronizer)
    (s : UserState.t) :
  reachable i s ->
  UserState.hasSignedUp s = true ->
  epochKeysInRange sync s ->
  let r :=
    UserState.epochTransition sync s (UserState.latestTransitionedEpoch s) in
  fst r = Normal
  /\ forall a,
       UserState.getRepOf (UserState.stagedLeaves (snd r)) a
       = fold_left (applyAttestation a) (receivedAttestations sync s)
           (UserState.getRepByAttester s a).
Proof.
  intros Hreach Hsigned Hkeys.
  destruct (reachable_wellFormed i s Hreach) as (Hbounds & _).
  destruct (epochTransition_staged sync s Hsigned Hbounds Hkeys)
    as (Hn & _ & _ & Hfold).
  split; assumption.
Qed.

(** X2.  A staged transition, once committed, is the fold.  After
    [epochTransition] for the latest transitioned epoch, a
    [userStateTransition] from that epoch with the staged leaf, received
    when the chain is in a later, valid epoch, returns, moves the user to
    the current epoch and makes the committed reputation from every
    attester the former one updated with the attestations addressed to that
    attester. *)
Theorem staged_transition_commits_fold (i : ZkIdentity)
    (sync sync' : Synchronizer) (s : UserState.t) :
  reachable i s ->
  UserState.hasSignedUp s = true ->
  epochKeysInRange sync s ->
  validEpoch sync' (currentEpochNumber sync') = true ->
  UserState.latestTransitionedEpoch s < currentEpochNumber sync' ->
  let staged :=
    snd (UserState.epochTransition sync s
           (UserState.latestTransitionedEpoch s)) in
  let r :=
    UserState.userStateTransition sync' staged
      (UserState.latestTransitionedEpoch s)
      (UserState.newGSTLeaf (UserState.newUserState staged)) in
  fst r = Normal
  /\ UserState.latestTransitionedEpoch (snd r) = currentEpochNumber sync'
  /\ UserState.latestGSTLeafIndex (snd r)
     = dbCountGSTLeaves sync' (currentEpochNumber sync') - 1
  /\ forall a,
       UserState.getRepByAttester (snd r) a
       = fold_left (applyAttestation a) (receivedAttestations sync s)
           (UserState.getRepByAttester s a).
Proof.
  intros Hreach Hsigned Hkeys Hvalid Hlater.
  destruct (reachable_wellFormed i s Hreach) as (Hbounds & _).
  destruct (epochTransition_staged sync s Hsigned Hbounds Hkeys)
    as (_ & Hsu & Hlte & Hfold).
  cbn zeta.
  set (staged := snd (UserState.epochTransition sync s
                        (UserState.latestTransitionedEpoch s))) in *.
  unfold UserState.userStateTransition, UserState._transition,
    UserState.getNumGSTLeaves.
  rewrite Hsu, Hlte, Z.eqb_refl, Hvalid. cbn [andb negb].
  rewrite Z.eqb_refl. cbn [negb].
  destruct (UserState.latestTransitionedEpoch s <? currentEpochNumber sync')
    eqn:E; [|lia].
  cbn. repeat split. exact Hfold.
Qed.

(** X3.  What no handler touches.  [signUp], [epochTransition] and
    [userStateTransition] never change the identity or its commitment, and
    never take the sign-up back, whether they return or throw. *)
Theorem handlers_keep_identity (sync : Synchronizer) (s : UserState.t)
    (epoch c fromEpoch leaf : Z) (a d : option Z) :
  let keeps (s' : UserState.t) :=
    UserState.id s' = UserState.id s
    /\ UserState.commitment s' = UserState.commitment s
    /\ (UserState.hasSignedUp s = true -> UserState.hasSignedUp s' = true) in
  keeps (snd (UserState.signUp sync s epoch c a d))
  /\ keeps (snd (UserState.epochTransition sync s epoch))
  /\ keeps (snd (UserState.userStateTransition sync s fromEpoch leaf)).
Proof.
  cbn zeta. refine (conj _ (conj _ _)).
  - unfold UserState.signUp.
    destruct (c =? UserState.commitment s); [|done].
    destruct (UserState.hasSignedUp s) eqn:E; [done|].
    destruct (UserState.getNumGSTLeaves sync epoch);
      destruct (UserState.truthy a && UserState.truthy d); done.
  - unfold UserState.epochTransition, UserState._saveAttestations.
    destruct (epoch =? UserState.latestTransitionedEpoch s); [|done].
    destruct (UserState.hasSignedUp s) eqn:E; cbn [negb]; [|done].
    destruct (saveAttestationsLoop_identity sync
                (UserState.latestTransitionedEpoch s) (UserState.nonces sync) s)
      as (Hid & Hc).
    destruct (saveAttestationsLoop_frame sync
                (UserState.latestTransitionedEpoch s) (UserState.nonces sync) s)
      as (_ & Hsu & _).
    destruct (UserState.saveAttestationsLoop sync
                (UserState.latestTransitionedEpoch s) (UserState.nonces sync) s)
      as [[|e] s1]; cbn [fst snd] in *.
    + unfold UserState._genNewUserStateAfterTransition.
      rewrite Hsu, E.
      destruct (fold_left _ _ _) as [h ls]. cbn. rewrite Hsu, E. done.
    + rewrite Hsu, E. done.
  - unfold UserState.userStateTransition, UserState._transition.
    destruct (UserState.hasSignedUp s) eqn:E; cbn [andb negb]; [|done].
    destruct (UserState.latestTransitionedEpoch s =? fromEpoch);
      [|cbn; rewrite E; done].
    destruct (UserState.getNumGSTLeaves sync (currentEpochNumber sync));
      [cbn; rewrite E; done|].
    destruct (negb (leaf =? _)); [cbn; rewrite E; done|].
    destruct (negb (_ <? _)); cbn; rewrite ?E; done.
Qed.

(** X4.  Events about somebody else.  A sign-up of another commitment,
    the end of an epoch other than the latest transitioned one, and a
    transition whose leaf is not the staged one leave the state exactly
    as it was. *)
Theorem foreign_events_ignored (sync : Synchronizer) (s : UserState.t)
    (epoch c a d leaf : Z) (signals : list Z) :
  (c <> UserState.commitment s ->
   UserState.onUserSignedUp sync s epoch c a d = s)
  /\ (epoch <> UserState.latestTransitionedEpoch s ->
      UserState.onEpochEnded sync s epoch = s)
  /\ (leaf <> UserState.newGSTLeaf (UserState.newUserState s) ->
      UserState.onUserStateTransitioned sync s leaf (Some signals) = s).
Proof.
  refine (conj _ (conj _ _)); intros Hne.
  - unfold UserState.onUserSignedUp, UserState.signUp.
    destruct (c =? UserState.commitment s) eqn:E; [lia|reflexivity].
  - unfold UserState.onEpochEnded, UserState.epochTransition.
    destruct (epoch =? UserState.latestTransitionedEpoch s) eqn:E;
      [lia|reflexivity].
  - unfold UserState.onUserStateTransitioned.
    destruct (leaf =? _) eqn:E; [lia|reflexivity].
Qed.

(** X5.  Signing up happens once.  After a [signUp] of the user's own
    commitment has returned, every further [signUp] of that commitment
    throws and changes nothing, whatever the epoch, the airdrop and the state
    of the chain. *)
Theorem signUp_once (sync sync' : Synchronizer) (s : UserState.t)
    (epoch epoch' : Z) (a d a' d' : option Z) :
  let first := UserState.signUp sync s epoch (UserState.commitment s) a d in
  fst first = Normal ->
  UserState.signUp sync' (snd first) epoch' (UserState.commitment s) a' d'
  = (Throw UserAlreadySignedUp, snd first).
Proof.
  intros first Hn.
  assert (Hs : UserState.hasSignedUp (snd first) = true
               /\ UserState.commitment (snd first) = UserState.commitment s).
  { subst first. revert Hn. unfold UserState.signUp. rewrite Z.eqb_refl.
    destruct (UserState.hasSignedUp s); [discriminate|].
    destruct (UserState.getNumGSTLeaves sync epoch); [discriminate|].
    destruct (UserState.truthy a && UserState.truthy d); done. }
  destruct Hs as [H1 H2]. clearbody first.
  unfold UserState.signUp. now rewrite H2, Z.eqb_refl, H1.
Qed.

(** X6.  A sign-up that fails is not undone.  When the epoch of the
    event fails the epoch check, [signUp] of the user's own commitment
    throws after it has already written the airdrop leaf and the epoch: the
    user is still not signed up, but the committed ledger and the latest
    transitioned epoch are those of the failed call. *)
Theorem signUp_failure_keeps_writes (sync : Synchronizer) (s : UserState.t)
    (epoch : Z) (a d : option Z) :
  UserState.hasSignedUp s = false ->
  validEpoch sync epoch = false ->
  let r := UserState.signUp sync s epoch (UserState.commitment s) a d in
  fst r = Throw InvalidEpoch
  /\ UserState.hasSignedUp (snd r) = false
  /\ UserState.latestTransitionedEpoch (snd r) = epoch
  /\ UserState.latestGSTLeafIndex (snd r) = UserState.latestGSTLeafIndex s
  /\ UserState.ledger (snd r)
     = if UserState.truthy a && UserState.truthy d
       then [mkLeaf (default 0 a) (Reputation.mk (default 0 d) 0 0 1)]
       else UserState.ledger s.
Proof.
  intros Hno Hinvalid. cbn zeta.
  unfold UserState.signUp, UserState.getNumGSTLeaves.
  rewrite Z.eqb_refl, Hno, Hinvalid. cbn [fst snd].
  destruct (UserState.truthy a && UserState.truthy d); cbn.
  - repeat split; try assumption.
    unfold UserState.ledger; cbn. apply deref_fresh.
  - repeat split; assumption.
Qed.

(** X7.  When [epochTransition] throws.  It throws exactly for the
    latest transitioned epoch, either because the user has not signed up or
    because an epoch key of that epoch fails the range check; the store of
    leaves, the staged state, the committed state and the sign-up are then
    as they were. *)
Theorem epochTransition_throws_iff (sync : Synchronizer) (s : UserState.t)
    (epoch : Z) (e : Error) :
  let r := UserState.epochTransition sync s epoch in
  (fst r = Throw e <->
     epoch = UserState.latestTransitionedEpoch s
     /\ ((UserState.hasSignedUp s = false /\ e = UserNotSignedUp)
         \/ (UserState.hasSignedUp s = true /\ e = InvalidEpochKey
             /\ ~ epochKeysInRange sync s)))
  /\ (fst r = Throw e ->
      UserState.heap (snd r) = UserState.heap s
      /\ UserState.newUserState (snd r) = UserState.newUserState s
      /\ committedState (snd r) = committedState s
      /\ UserState.hasSignedUp (snd r) = UserState.hasSignedUp s).
Proof.
  cbn zeta. unfold UserState.epochTransition, UserState._saveAttestations.
  destruct (epoch =? UserState.latestTransitionedEpoch s) eqn:Ee.
  2:{ split; [split|]; [discriminate| |discriminate]. intros []. lia. }
  assert (epoch = UserState.latestTransitionedEpoch s) as -> by lia.
  destruct (UserState.hasSignedUp s) eqn:Es; cbn [negb fst snd].
  2:{ split; [split|done].
      - intros [= <-]. split; [reflexivity|]. now left.
      - intros (_ & [[_ ->]|[? _]]); [reflexivity|discriminate]. }
  pose proof (saveAttestationsLoop_completion sync
                (UserState.latestTransitionedEpoch s) (UserState.nonces sync) s)
    as [Hok Hbad].
  destruct (saveAttestationsLoop_frame sync
              (UserState.latestTransitionedEpoch s) (UserState.nonces sync) s)
    as (Hheap & Hsu & Hcommitted & Hstage).
  fold (epochKeysInRange sync s) in Hok, Hbad.
  destruct (UserState.saveAttestationsLoop sync
              (UserState.latestTransitionedEpoch s) (UserState.nonces sync) s)
    as [c s1]. cbn [fst snd] in *.
  destruct (decide (epochKeysInRange sync s)) as [Hin|Hout].
  - rewrite (Hok Hin).
    unfold UserState._genNewUserStateAfterTransition. rewrite Hsu, Es.
    destruct (fold_left _ _ _) as [h ls]. cbn [fst snd].
    split; [split|discriminate]; [discriminate|].
    intros (_ & [[? _]|(_ & _ & Hn)]); [discriminate|contradiction].
  - rewrite (Hbad Hout). cbn [fst snd]. split; [split|].
    + intros [= <-]. split; [reflexivity|]. right. done.
    + intros (_ & [[? _]|(_ & -> & _)]); [discriminate|reflexivity].
    + intros _. rewrite Es in Hsu. done.
Qed.

(** X8.  One leaf per attester.  In every state the handlers can reach
    from a new instance, the committed ledger and the staged leaves each
    hold at most one leaf per attester. *)
Theorem reachable_one_leaf_per_attester (i : ZkIdentity) (s : UserState.t) :
  reachable i s ->
  NoDup (map attesterId (UserState.ledger s))
  /\ NoDup (map attesterId (UserState.stagedLeaves s)).
Proof.
  intros Hreach.
  destruct (reachable_wellFormed i s Hreach) as (_ & _ & Hl & Hs).
  split; assumption.
Qed.

End Lifecycle.

(** The sample user after the sign-up event is a state the handlers
    reach. *)
Lemma enrolled_reachable :
  @reachable Sample.crypto Sample.identity Sample.enrolled.
Proof.
  assert (Hnew : @UserState.new Sample.crypto Sample.identity None None None
                   None None = inr Sample.fresh) by reflexivity.
  exact (@reach_signUp Sample.crypto Sample.identity (Sample.sync 1 [])
           Sample.fresh 1 21 (Some 1) (Some 5)
           (@reach_new Sample.crypto Sample.identity Sample.fresh Hnew)).
Qed.

(** The epoch keys of the sample user are in range. *)
Lemma enrolled_keys (current : Z) :
  epochKeysInRange (Sample.sync current []) Sample.enrolled.
Proof. unfold epochKeysInRange. vm_compute. repeat constructor. Qed.

(** The end of epoch 1 for the sample user after the sign-up event: the
    staged leaves fold the three attestations of the datastore. *)
Lemma epochTransition_stages_fold_witness :
  let r := UserState.epochTransition (Sample.sync 2 []) Sample.enrolled 1 in
  fst r = Normal
  /\ forall a,
       UserState.getRepOf (UserState.stagedLeaves (snd r)) a
       = fold_left (applyAttestation a)
           (receivedAttestations (Sample.sync 2 []) Sample.enrolled)
           (UserState.getRepByAttester Sample.enrolled a).
Proof.
  exact (epochTransition_stages_fold Sample.identity (Sample.sync 2 [])
           Sample.enrolled enrolled_reachable eq_refl (enrolled_keys 2)).
Defined.

(** The same user, once the transition event with the staged leaf arrives
    in epoch 2. *)
Lemma staged_transition_commits_fold_witness :
  let staged :=
    snd (UserState.epochTransition (Sample.sync 2 []) Sample.enrolled 1) in
  let r :=
    UserState.userStateTransition (Sample.sync 2 []) staged 1
      (UserState.newGSTLeaf (UserState.newUserState staged)) in
  fst r = Normal
  /\ UserState.latestTransitionedEpoch (snd r) = 2
  /\ UserState.latestGSTLeafIndex (snd r) = 0
  /\ forall a,
       UserState.getRepByAttester (snd r) a
       = fold_left (applyAttestation a)
           (receivedAttestations (Sample.sync 2 []) Sample.enrolled)
           (UserState.getRepByAttester Sample.enrolled a).
Proof.
  exact (staged_transition_commits_fold Sample.identity (Sample.sync 2 [])
           (Sample.sync 2 []) Sample.enrolled enrolled_reachable eq_refl
           (enrolled_keys 2) eq_refl eq_refl).
Defined.

(** A second sign-up event for the sample user, in epoch 3. *)
Lemma signUp_once_witness :
  UserState.signUp (Sample.sync 3 []) Sample.enrolled 3 21 (Some 2) (Some 9)
  = (Throw UserAlreadySignedUp, Sample.enrolled).
Proof.
  exact (signUp_once (Sample.sync 1 []) (Sample.sync 3 []) Sample.fresh 1 3
           (Some 1) (Some 5) (Some 2) (Some 9) eq_refl).
Defined.

(** A sign-up event for epoch 4 while the chain is in epoch 1. *)
Lemma signUp_failure_keeps_writes_witness :
  let r :=
    UserState.signUp (Sample.sync 1 []) Sample.fresh 4 21 (Some 1) (Some 5) in
  fst r = Throw InvalidEpoch
  /\ UserState.hasSignedUp (snd r) = false
  /\ UserState.latestTransitionedEpoch (snd r) = 4
  /\ UserState.latestGSTLeafIndex (snd r) = 0
  /\ UserState.ledger (snd r) = [mkLeaf 1 (Reputation.mk 5 0 0 1)].
Proof.
  exact (signUp_failure_keeps_writes (Sample.sync 1 []) Sample.fresh 4
           (Some 1) (Some 5) eq_refl eq_refl).
Defined.

(** The sample user after the sign-up event. *)
Lemma reachable_one_leaf_per_attester_witness :
  NoDup (map attesterId (UserState.ledger Sample.enrolled))
  /\ NoDup (map attesterId (UserState.stagedLeaves Sample.enrolled)).
Proof.
  exact (reachable_one_leaf_per_attester Sample.identity Sample.enrolled
           enrolled_reachable).
Defined.

(** ** The checks of the proof generators *)

Section ProofInputs.

Context `{Crypto}.
Variable sync : Synchronizer.

(** What the inputs of a reputation proof carry. *)
Lemma genProveReputationProof_contents (s : UserState.t) (a k : Z)
    (minRep pg gpi : option Z) (l : list Z) (i : ProveReputation.Inputs) :
  UserState.genProveReputationProof_inputs sync s a k minRep pg gpi (Some l)
  = inr i ->
  ProveReputation.rep_nonce i = l
  /\ ProveReputation.selectors i = map (fun x => if x =? -1 then 0 else 1) l
  /\ ProveReputation.rep_nullifiers_amount i
     = Z.of_nat (length (requested l))
  /\ ProveReputation.epoch_key i
     = genEpochKey (identityNullifier (UserState.id s))
         (UserState.latestTransitionedEpoch s) k None
  /\ Reputation.mk (ProveReputation.pos_rep i) (ProveReputation.neg_rep i)
       (ProveReputation.graffiti i) (ProveReputation.sign_up i)
     = UserState.getRepByAttester s a.
Proof.
  unfold UserState.genProveReputationProof_inputs.
  destruct (UserState.hasSignedUp s); [|discriminate].
  destruct (k <? _); [|discriminate].
  destruct (_ =? _); [|discriminate].
  destruct (UserState.genGSTree sync _) as [e|gst]; [discriminate|].
  destruct (UserState.createProof sync _ a) as [e|path]; [discriminate|].
  rewrite selectNonces_empty.
  destruct (decide (NoDup (requested l))); [|discriminate].
  destruct (_ >? 0).
  - destruct (UserState.findNonceStarter sync s _ a _ _ 0) as [ns|];
      [|discriminate].
    destruct (negb (ns =? -1)); [|discriminate].
    destruct (Number.leb _ _); [|discriminate].
    intros [= <-]. cbn. destruct (UserState.getRepByAttester s a). done.
  - intros [= <-]. cbn. destruct (UserState.getRepByAttester s a). done.
Qed.

(** X9.  When the checks of a reputation proof pass.  In a state that
    refers to what the trees hold and with an explicit nonce list, the
    inputs are produced exactly when the user has signed
    up, the epoch key nonce is below [numEpochKeyNoncePerEpoch], the list
    has [maxReputationBudget] entries, the epoch is valid, the attester is
    a leaf of the user state tree, no nonce other than -1 occurs twice and,
    when a nonce is requested, the first nonce [n] whose nullifier is
    unspent is one the loop gets to ([n <= 2 ^ 53]), is below the balance
    and leaves room for the number requested, all three in doubles: the
    balance is [Number(posRep) - Number(negRep)] and the room is tested on
    the rounded sum.  The call never returns exactly when the same checks
    hold, a nonce is requested, the balance is above [2 ^ 53] and every
    nullifier up to there is spent: the counter of the search stays at
    [2 ^ 53].  The inputs carry the list itself, selector 1 where it
    requests a nonce and 0 where it holds -1, the number requested, the
    epoch key of the nonce and the committed reputation from the
    attester. *)
Theorem genProveReputationProof_inputs_iff (s : UserState.t) (a k : Z)
    (minRep pg gpi : option Z) (l : list Z) :
  inTrees sync s ->
  let r :=
    UserState.genProveReputationProof_inputs sync s a k minRep pg gpi (Some l) in
  let count := Z.of_nat (length (requested l)) in
  let ready :=
    UserState.hasSignedUp s = true
    /\ k < numEpochKeyNoncePerEpoch (settings sync)
    /\ Z.of_nat (length l) = maxReputationBudget (settings sync)
    /\ validEpoch sync (UserState.latestTransitionedEpoch s) = true
    /\ a < 2 ^ userStateTreeDepth (settings sync)
    /\ NoDup (requested l) in
  ((exists i, r = inr i) <->
     ready
     /\ (count = 0
         \/ exists n,
              firstUnspent sync s a n
              /\ n <= 2 ^ 53
              /\ Number.ltb (Number.Finite n) (balance s a) = true
              /\ Number.leb
                   (Number.add (Number.Finite n) (Number.Finite count))
                   (balance s a) = true))
  /\ (r = inl NeverReturns <->
        ready
        /\ 0 < count
        /\ Number.ltb (Number.Finite (2 ^ 53)) (balance s a) = true
        /\ forall n, 0 <= n <= 2 ^ 53 -> ~ unspent sync s a n)
  /\ (forall i, r = inr i ->
        ProveReputation.rep_nonce i = l
        /\ ProveReputation.selectors i
           = map (fun x => if x =? -1 then 0 else 1) l
        /\ ProveReputation.rep_nullifiers_amount i = count
        /\ ProveReputation.epoch_key i
           = genEpochKey (identityNullifier (UserState.id s))
               (UserState.latestTransitionedEpoch s) k None
        /\ Reputation.mk (ProveReputation.pos_rep i)
             (ProveReputation.neg_rep i) (ProveReputation.graffiti i)
             (ProveReputation.sign_up i)
           = UserState.getRepByAttester s a).
Proof.
  intros _ r count ready.
  split; [|split; [|apply genProveReputationProof_contents]].
  all: assert (Hnot : ~ ready ->
                 exists e, r = inl e /\ e <> NeverReturns).
  1,3: intros Hn; subst r ready;
       unfold UserState.genProveReputationProof_inputs, UserState.genGSTree,
         UserState.createProof, UserState.isLeafKey;
       destruct (UserState.hasSignedUp s);
         [|eexists; split; [reflexivity|discriminate]];
       destruct (Z.ltb_spec k (numEpochKeyNoncePerEpoch (settings sync)));
         [|eexists; split; [reflexivity|discriminate]];
       destruct (Z.eqb_spec (Z.of_nat (length l))
                   (maxReputationBudget (settings sync)));
         [|eexists; split; [reflexivity|discriminate]];
       destruct (validEpoch sync (UserState.latestTransitionedEpoch s));
         [|eexists; split; [reflexivity|discriminate]];
       destruct (Z.ltb_spec a (2 ^ userStateTreeDepth (settings sync)));
         [|eexists; split; [reflexivity|discriminate]];
       rewrite selectNonces_empty;
       destruct (decide (NoDup (requested l)));
         [|eexists; split; [reflexivity|discriminate]];
       exfalso; apply Hn; done.
  all: assert (Hready : ready ->
                 (count = 0 -> exists i, r = inr i)
                 /\ (0 < count ->
                     match
                       UserState.findNonceStarter sync s
                         (UserState.latestTransitionedEpoch s) a (balance s a)
                         (UserState.searchTurns (balance s a)) 0
                     with
                     | None => r = inl NeverReturns
                     | Some nonceStarter =>
                         if negb (nonceStarter =? -1) then
                           if Number.leb
                                (Number.add (Number.Finite nonceStarter)
                                   (Number.Finite count))
                                (balance s a)
                           then exists i, r = inr i
                           else r = inl NotEnoughReputation
                         else r = inl AllNullifiersSpent
                     end)).
  1,3: intros (Hs & Hk & Hlen & Hv & Ha & Hnd);
       destruct (genProveReputationProof_checks sync s a k minRep pg gpi l Hs
                   Hk Hlen Hv (proj2 (Z.ltb_lt _ _) Ha)) as [_ Hrun];
       destruct (Hrun Hnd) as [Hzero Hsome]; fold r count in Hzero, Hsome;
       split;
       [intros Hc; destruct (Hzero Hc) as (i & Hi & _); eauto|];
       intros Hc; specialize (Hsome Hc);
       destruct (UserState.findNonceStarter sync s _ a _ _ 0) as [ns|];
         [|exact Hsome];
       destruct (negb (ns =? -1)); [|exact Hsome];
       destruct (Number.leb _ _); [|exact Hsome];
       destruct Hsome as (i & Hi & _); eauto.
  all: assert (Hcount : 0 <= count) by (subst count; lia).
  - (* the inputs are produced *)
    split.
    + intros (i & Hi).
      assert (Hr : ready).
      { destruct (classic_ready sync s a k l) as [Hr|Hr]; [exact Hr|].
        destruct (Hnot Hr) as (e & He & _). congruence. }
      split; [exact Hr|].
      destruct (Z.eq_dec count 0) as [Hc|Hc]; [now left|right].
      destruct (Hready Hr) as [_ Hsome]. specialize (Hsome ltac:(lia)).
      destruct (starter_cases sync s a (balance s a))
        as [(Hf & _)|[(Hf & _)|(n & Hf & Hn & Hnt & Hfirst)]];
        rewrite Hf in Hsome; cbn [negb Z.eqb] in Hsome; try congruence.
      exists n. split; [exact Hfirst|]. split; [exact Hn|]. split; [exact Hnt|].
      destruct (negb (n =? -1)); [|congruence].
      destruct (Number.leb _ _); [reflexivity|congruence].
    + intros (Hr & Hroom). destruct (Hready Hr) as [Hzero Hsome].
      destruct (Z.eq_dec count 0) as [Hc|Hc]; [exact (Hzero Hc)|].
      destruct Hroom as [Hc0|(n & Hfirst & Hn & Hnt & Hroom)];
        [contradiction|].
      * specialize (Hsome ltac:(lia)).
        rewrite (starter_found sync s a (balance s a) n Hfirst Hn Hnt)
          in Hsome.
        destruct Hfirst as (Hn0 & _).
        destruct (Z.eqb_spec n (-1)) as [E|_]; [lia|]. cbn [negb] in Hsome.
        now rewrite Hroom in Hsome.
  - (* the call never returns *)
    split.
    + intros Hi.
      assert (Hr : ready).
      { destruct (classic_ready sync s a k l) as [Hr|Hr]; [exact Hr|].
        destruct (Hnot Hr) as (e & He & Hne). congruence. }
      split; [exact Hr|].
      destruct (Hready Hr) as [Hzero Hsome].
      destruct (Z.eq_dec count 0) as [Hc|Hc].
      { destruct (Hzero Hc) as (i & Hi'). congruence. }
      split; [lia|]. specialize (Hsome ltac:(lia)).
      destruct (starter_cases sync s a (balance s a))
        as [(Hf & Ht & Hall)|[(Hf & _)|(n & Hf & Hn & Hnt & Hfirst)]];
        rewrite Hf in Hsome; cbn [negb Z.eqb] in Hsome; try congruence.
      * now split.
      * destruct (negb (n =? -1)); [|congruence].
        destruct (Number.leb _ _); [|congruence].
        destruct Hsome as (i & Hi'). congruence.
    + intros (Hr & Hc & Ht & Hall).
      destruct (Hready Hr) as [_ Hsome]. specialize (Hsome Hc).
      now rewrite (starter_endless sync s a (balance s a) Ht Hall) in Hsome.
Qed.

(** X10.  When the checks of an epoch key proof pass.  The inputs are
    produced exactly when the user has signed up, the nonce is below
    [numEpochKeyNoncePerEpoch] (it is only bounded from above) and the
    epoch is valid; a failure is that of the first check that does not
    hold; the inputs carry the epoch, the nonce, the epoch key of the nonce
    and the root of the committed user state tree. *)
Theorem genVerifyEpochKeyProof_inputs_iff (s : UserState.t) (k : Z) :
  let r := UserState.genVerifyEpochKeyProof_inputs sync s k in
  ((exists i, r = inr i) <->
     UserState.hasSignedUp s = true
     /\ k < numEpochKeyNoncePerEpoch (settings sync)
     /\ validEpoch sync (UserState.latestTransitionedEpoch s) = true)
  /\ (forall e, r = inl e ->
        (e = UserNotSignedUp /\ UserState.hasSignedUp s = false)
        \/ (e = EpkNonceTooLarge
            /\ numEpochKeyNoncePerEpoch (settings sync) <= k)
        \/ (e = InvalidEpoch
            /\ validEpoch sync (UserState.latestTransitionedEpoch s) = false))
  /\ (forall i, r = inr i ->
        VerifyEpochKey.epoch i = UserState.latestTransitionedEpoch s
        /\ VerifyEpochKey.nonce i = k
        /\ VerifyEpochKey.epoch_key i
           = UserState.epochKeyOf sync s (UserState.latestTransitionedEpoch s) k
        /\ VerifyEpochKey.user_tree_root i
           = smt_root (UserState.genUserStateTree sync s)).
Proof.
  cbn zeta. unfold UserState.genVerifyEpochKeyProof_inputs, UserState.genGSTree.
  destruct (UserState.hasSignedUp s) eqn:Es.
  2:{ refine (conj (conj _ _) (conj _ _)).
      - intros [? [=]].
      - intros (? & _); discriminate.
      - intros e [= <-]. now left.
      - intros ? [=]. }
  destruct (Z.ltb_spec k (numEpochKeyNoncePerEpoch (settings sync))) as [Hk|Hk].
  2:{ refine (conj (conj _ _) (conj _ _)).
      - intros [? [=]].
      - intros (_ & ? & _); lia.
      - intros e [= <-]. right. now left.
      - intros ? [=]. }
  destruct (validEpoch sync (UserState.latestTransitionedEpoch s)) eqn:Ev.
  2:{ refine (conj (conj _ _) (conj _ _)).
      - intros [? [=]].
      - intros (_ & _ & ?); discriminate.
      - intros e [= <-]. right. now right.
      - intros ? [=]. }
  refine (conj (conj _ _) (conj _ _)).
  - intros _. done.
  - intros _. eexists. reflexivity.
  - intros ? [=].
  - intros i [= <-]. done.
Qed.

(** X11.  When the checks of a sign-up proof pass: the user has signed
    up, the attester is one of the [2 ^ userStateTreeDepth - 1] attesters
    from 1 on, and the epoch is valid.  The epoch key of the inputs is that
    of nonce 0 and the reputation is the committed one, the default
    reputation for an attester without a leaf. *)
Theorem genUserSignUpProof_inputs_iff (s : UserState.t) (a : Z) :
  0 <= userStateTreeDepth (settings sync) <= 1023 ->
  let r := UserState.genUserSignUpProof_inputs sync s a in
  ((exists i, r = inr i) <->
     UserState.hasSignedUp s = true
     /\ 0 < a < 2 ^ userStateTreeDepth (settings sync)
     /\ validEpoch sync (UserState.latestTransitionedEpoch s) = true)
  /\ (forall f, r = inl f ->
        (f = ProveUserSignUp.Failed UserNotSignedUp
         /\ UserState.hasSignedUp s = false)
        \/ (f = ProveUserSignUp.AttesterIdNotPositive /\ a <= 0)
        \/ (f = ProveUserSignUp.AttesterIdTooLarge
            /\ 2 ^ userStateTreeDepth (settings sync) <= a)
        \/ (f = ProveUserSignUp.Failed InvalidEpoch
            /\ validEpoch sync (UserState.latestTransitionedEpoch s) = false))
  /\ (forall i, r = inr i ->
        ProveUserSignUp.attester_id i = a
        /\ ProveUserSignUp.epoch_key i
           = genEpochKey (identityNullifier (UserState.id s))
               (UserState.latestTransitionedEpoch s) 0 None
        /\ Reputation.mk (ProveUserSignUp.pos_rep i)
             (ProveUserSignUp.neg_rep i) (ProveUserSignUp.graffiti i)
             (ProveUserSignUp.sign_up i)
           = UserState.getRepByAttester s a).
Proof.
  intros Hdepth. cbn zeta.
  unfold UserState.genUserSignUpProof_inputs, UserState._checkAttesterId,
    UserState.bigIntPow2, UserState.genGSTree, UserState.createProof,
    UserState.isLeafKey.
  destruct (Z.ltb_spec (userStateTreeDepth (settings sync)) (-1074)); [lia|].
  destruct (Z.ltb_spec (userStateTreeDepth (settings sync)) 0); [lia|].
  destruct (Z.leb_spec (userStateTreeDepth (settings sync)) 1023); [|lia].
  destruct (UserState.hasSignedUp s) eqn:Es.
  2:{ refine (conj (conj _ _) (conj _ _)).
      - intros [? [=]].
      - intros (? & _); discriminate.
      - intros e [= <-]. now left.
      - intros ? [=]. }
  destruct (Z.gtb_spec a 0) as [Ha|Ha].
  2:{ refine (conj (conj _ _) (conj _ _)).
      - intros [? [=]].
      - intros (_ & ? & _); lia.
      - intros e [= <-]. right. now left.
      - intros ? [=]. }
  destruct (Z.ltb_spec a (2 ^ userStateTreeDepth (settings sync))) as [Hb|Hb].
  2:{ refine (conj (conj _ _) (conj _ _)).
      - intros [? [=]].
      - intros (_ & ? & _); lia.
      - intros e [= <-]. right. right. now left.
      - intros ? [=]. }
  destruct (validEpoch sync (UserState.latestTransitionedEpoch s)) eqn:Ev.
  2:{ refine (conj (conj _ _) (conj _ _)).
      - intros [? [=]].
      - intros (_ & _ & ?); discriminate.
      - intros e [= <-]. right. right. now right.
      - intros ? [=]. }
  refine (conj (conj _ _) (conj _ _)).
  - intros _. repeat split; (assumption || lia).
  - intros _. eexists. reflexivity.
  - intros ? [=].
  - intros i [= <-]. cbn. unfold UserState.getRepByAttester.
    destruct (UserState.getRepOf _ a). done.
Qed.

End ProofInputs.

(** The sample user asks for nonces 0 and 1: nonce 0 is the first unspent
    one, below the balance of 5, and leaves room for two. *)
Lemma genProveReputationProof_inputs_iff_witness :
  exists i,
    UserState.genProveReputationProof_inputs (Sample.sync 2 []) Sample.signedUp
      1 0 None None None (Some [0; 1; -1])
    = inr i.
Proof.
  pose proof (genProveReputationProof_inputs_iff (Sample.sync 2 [])
                Sample.signedUp 1 0 None None None [0; 1; -1]
                (signedUp_inTrees 2 [])) as Hiff.
  cbv zeta in Hiff. destruct Hiff as [[_ Hpass] _]. apply Hpass. split.
  - split; [reflexivity|]. split; [reflexivity|]. split; [reflexivity|].
    split; [reflexivity|]. split; [reflexivity|].
    apply NoDup_cons. split; [|apply NoDup_singleton].
    intros Hin. apply elem_of_cons in Hin as [Hin|Hin];
      [discriminate Hin|inversion Hin].
  - right. exists 0. split; [|split; [|split]].
    + split; [lia|]. split; [reflexivity|]. intros m Hm. lia.
    + apply Z.pow_nonneg. lia.
    + vm_compute. reflexivity.
    + vm_compute. reflexivity.
Defined.

(** A sign-up proof of the sample user for attester 7, from whom the user
    has no reputation. *)
Lemma genUserSignUpProof_inputs_iff_witness :
  let r :=
    UserState.genUserSignUpProof_inputs (Sample.sync 2 []) Sample.signedUp 7 in
  (exists i, r = inr i)
  /\ (forall i, r = inr i ->
        ProveUserSignUp.attester_id i = 7
        /\ Reputation.mk (ProveUserSignUp.pos_rep i)
             (ProveUserSignUp.neg_rep i) (ProveUserSignUp.graffiti i)
             (ProveUserSignUp.sign_up i)
           = Reputation.default).
Proof.
  destruct (genUserSignUpProof_inputs_iff (Sample.sync 2 []) Sample.signedUp 7
              ltac:(cbn; lia)) as (Hiff & _ & Hcontent).
  split.
  - apply Hiff. cbn. repeat split; lia.
  - intros i Hi. destruct (Hcontent i Hi) as (Ha & _ & Hrep).
    split; [exact Ha|]. rewrite Hrep. reflexivity.
Defined.

(** ** The batches of a transition *)

Section NonceArrays.

Context `{Crypto}.
Variable sync : Synchronizer.
Variable s : UserState.t.

Lemma steps_snoc (l : list Z) (x y : Z) :
  steps l -> last l = Some x -> y = x \/ y = x + 1 -> steps (l ++ [y]).
Proof.
  intros Hs Hl Hy i u v Hu Hv.
  rewrite last_lookup in Hl.
  destruct (decide (S i < length l)%nat) as [Hi|Hi].
  - rewrite lookup_app_l in Hu by lia. rewrite lookup_app_l in Hv by lia.
    exact (Hs i u v Hu Hv).
  - destruct (decide (S i = length l)) as [Hi'|Hi'].
    + rewrite lookup_app_l in Hu by lia.
      rewrite lookup_app_r in Hv by lia.
      replace (S i - length l)%nat with 0%nat in Hv by lia.
      replace (pred (length l)) with i in Hl by lia.
      cbn in Hv. congruence.
    + apply lookup_lt_Some in Hv. rewrite length_app in Hv. cbn in Hv. lia.
Qed.

Lemma within_nonces_pushAttestation (m : Z) (att : Attestation.t)
    (a : UserState.Acc) :
  noncesWithin m a -> noncesWithin m (UserState.pushAttestation s att a).
Proof. exact (fun H => H). Qed.

Lemma within_nonces_openBatch (m h : Z) (a : UserState.Acc) :
  noncesWithin m a -> noncesWithin m (UserState.openBatch s m h a).
Proof.
  intros (Hl & Hs & Hlast). unfold noncesWithin. cbn.
  refine (conj _ (conj _ _)).
  - rewrite Hl. reflexivity.
  - change (0 :: UserState.toNonces a ++ [m])
      with ((0 :: UserState.toNonces a) ++ [m]).
    apply (steps_snoc _ m m Hs); [|now left].
    destruct (UserState.toNonces a); [discriminate|exact Hlast].
  - now rewrite last_snoc.
Qed.

Lemma within_nonces_attestationsLoop (m : Z) (atts : list Attestation.t) :
  forall (i : Z) (a : UserState.Acc) (h : Z),
    noncesWithin m a ->
    noncesWithin m (fst (UserState.attestationsLoop s m atts i a h)).
Proof.
  induction atts as [|att rest IH]; intros i a h Hw; cbn; [exact Hw|].
  apply IH. apply within_nonces_pushAttestation.
  destruct (UserState.startsBatch i); [|exact Hw].
  now apply within_nonces_openBatch.
Qed.

Lemma padding_nonces (k : nat) (a : UserState.Acc) :
  UserState.fromNonces (Nat.iter k UserState.pushBlank a) = UserState.fromNonces a
  /\ UserState.toNonces (Nat.iter k UserState.pushBlank a) = UserState.toNonces a.
Proof.
  induction k as [|k IH]; [done|].
  change (Nat.iter (S k) UserState.pushBlank a)
    with (UserState.pushBlank (Nat.iter k UserState.pushBlank a)).
  exact IH.
Qed.

Lemma nonces_nonceStep (fromEpochTree : SparseMerkleTree)
    (a a' : UserState.Acc) (m : Z) :
  0 <= m ->
  noncesBetween m a ->
  UserState.nonceStep sync s fromEpochTree a m = inr a' ->
  if m =? numEpochKeyNoncePerEpoch (settings sync) - 1
  then noncesWithin m a'
  else noncesBetween (m + 1) a'.
Proof.
  intros Hm (Hl & Hs & Hlast).
  unfold UserState.nonceStep.
  destruct (UserState.getAttestations sync _) as [e|atts]; [discriminate|].
  destruct (forallb _ _); [|discriminate].
  match goal with
  | |- context [UserState.attestationsLoop s m atts 0 ?a0 0] =>
      assert (Hw : noncesWithin m a0);
      [|pose proof (within_nonces_attestationsLoop m atts 0 a0 0 Hw) as Hw1;
        destruct (UserState.attestationsLoop s m atts 0 a0 0) as [a1 h1]]
  end.
  { unfold noncesWithin. cbn. refine (conj _ (conj _ _)).
    - now rewrite Hl.
    - change (0 :: UserState.toNonces a ++ [m])
        with ((0 :: UserState.toNonces a) ++ [m]).
      apply (steps_snoc _ _ m Hs Hlast). lia.
    - now rewrite last_snoc. }
  cbn [fst] in Hw1. intros [= <-]. cbn.
  match goal with
  | |- context [Nat.iter ?k UserState.pushBlank a1] =>
      destruct (padding_nonces k a1) as [HF HT]
  end.
  destruct Hw1 as (Hl1 & Hs1 & Hlast1).
  destruct (m =? numEpochKeyNoncePerEpoch (settings sync) - 1); cbn [negb].
  - unfold noncesWithin. cbn. rewrite HF, HT, app_nil_r. done.
  - unfold noncesBetween. cbn. rewrite HF, HT. refine (conj Hl1 (conj Hs1 _)).
    destruct (UserState.toNonces a1) as [|t ts]; [discriminate|].
    change (last (0 :: t :: ts)) with (last (t :: ts)). rewrite Hlast1.
    f_equal. lia.
Qed.

Lemma nonces_noncesLoop (fromEpochTree : SparseMerkleTree) (k : nat) :
  forall (m : Z) (a a' : UserState.Acc),
    0 <= m ->
    m + Z.of_nat k <= numEpochKeyNoncePerEpoch (settings sync) ->
    noncesBetween m a ->
    UserState.noncesLoop sync s fromEpochTree (seqZ m (Z.of_nat k)) a = inr a' ->
    if (0 <? Z.of_nat k)
       && (m + Z.of_nat k =? numEpochKeyNoncePerEpoch (settings sync))
    then noncesWithin (numEpochKeyNoncePerEpoch (settings sync) - 1) a'
    else noncesBetween (m + Z.of_nat k) a'.
Proof.
  induction k as [|k IH]; intros m a a' Hm Hle Hb.
  - cbn. intros [= <-]. now rewrite Z.add_0_r.
  - rewrite seqZ_cons by lia.
    replace (Z.pred (Z.of_nat (S k))) with (Z.of_nat k) by lia.
    cbn [UserState.noncesLoop].
    destruct (UserState.nonceStep sync s fromEpochTree a m) as [e|a1] eqn:E;
      [discriminate|].
    pose proof (nonces_nonceStep fromEpochTree a a1 m Hm Hb E) as H1.
    intros Hloop.
    destruct (Z.eqb_spec m (numEpochKeyNoncePerEpoch (settings sync) - 1))
      as [Hlast|Hnot].
    + assert (k = 0%nat) as -> by lia.
      cbn in Hloop. injection Hloop as <-.
      replace (0 <? Z.of_nat 1) with true by reflexivity.
      destruct (Z.eqb_spec (m + Z.of_nat 1)
                  (numEpochKeyNoncePerEpoch (settings sync))); [|lia].
      cbn. now rewrite <- Hlast.
    + specialize (IH (Z.succ m) a1 a' ltac:(lia) ltac:(lia)).
      replace (Z.succ m) with (m + 1) in IH by lia.
      specialize (IH H1 Hloop).
      replace (0 <? Z.of_nat (S k)) with true by (symmetry; apply Z.ltb_lt; lia).
      replace (m + Z.of_nat (S k)) with (m + 1 + Z.of_nat k) by lia.
      destruct (Z.ltb_spec 0 (Z.of_nat k)) as [Hk|Hk]; cbn [andb] in *.
      * exact IH.
      * assert (k = 0%nat) as -> by lia.
        destruct (Z.eqb_spec (m + 1 + Z.of_nat 0)
                    (numEpochKeyNoncePerEpoch (settings sync))); [lia|].
        exact IH.
Qed.

End NonceArrays.

Section RowContents.

Context `{Crypto}.
Variable sync : Synchronizer.
Variable s : UserState.t.

Lemma fold_applyAttestation_snoc (b : Z) (seen : list Attestation.t)
    (att : Attestation.t) (r : Reputation.t) :
  fold_left (applyAttestation b) (seen ++ [att]) r
  = applyAttestation b (fold_left (applyAttestation b) seen r) att.
Proof. now rewrite fold_left_app. Qed.

Lemma oldReputations_app (l1 l2 seen : list Attestation.t) :
  oldReputations s seen (l1 ++ l2)
  = oldReputations s seen l1 ++ oldReputations s (seen ++ l1) l2.
Proof.
  revert seen. induction l1 as [|att l1 IH]; intros seen; cbn.
  - now rewrite app_nil_r.
  - rewrite IH, <- app_assoc. reflexivity.
Qed.

(** The row of one attestation, and the records after it. *)
Lemma pushAttestation_row (seen : list Attestation.t) (att : Attestation.t)
    (a : UserState.Acc) :
  recordsAfter s seen (UserState.reputationRecords a) ->
  exists row,
    UserState.rows (UserState.pushAttestation s att a) = UserState.rows a ++ [row]
    /\ attestationOfRow row = att
    /\ oldReputationOfRow row
       = fold_left (applyAttestation (Attestation.attesterId att)) seen
           (UserState.getRepByAttester s (Attestation.attesterId att))
    /\ isReal row = true
    /\ recordsAfter s (seen ++ [att])
         (UserState.reputationRecords (UserState.pushAttestation s att a)).
Proof.
  intros Hrec. unfold UserState.pushAttestation. cbv zeta.
  set (id_ := Attestation.attesterId att).
  set (records := match UserState.reputationRecords a !! id_ with
                  | None => _ | Some _ => _ end).
  set (old := default Reputation.default (records !! id_)).
  assert (Hold : old = default (UserState.getRepByAttester s id_)
                         (UserState.reputationRecords a !! id_)).
  { subst old records.
    destruct (UserState.reputationRecords a !! id_) as [r|] eqn:E.
    - now rewrite E.
    - rewrite lookup_insert_eq. cbn.
      now destruct (UserState.getRepByAttester s id_). }
  assert (Hother : forall b, b <> id_ ->
             records !! b = UserState.reputationRecords a !! b).
  { intros b Hb. subst records.
    destruct (UserState.reputationRecords a !! id_); [reflexivity|].
    now rewrite lookup_insert_ne by congruence. }
  clearbody old records.
  eexists. cbn. split; [reflexivity|]. refine (conj _ (conj _ (conj _ _))).
  - unfold attestationOfRow. cbn. subst id_. now destruct att.
  - unfold oldReputationOfRow. cbn. rewrite <- (Hrec id_), <- Hold.
    now destruct old.
  - reflexivity.
  - intros b. rewrite fold_applyAttestation_snoc, <- (Hrec b).
    unfold applyAttestation. fold id_.
    destruct (Z.eqb_spec id_ b) as [Hb|Hb].
    + subst b. rewrite lookup_insert_eq, <- Hold. reflexivity.
    + rewrite lookup_insert_ne by congruence. rewrite Hother by congruence.
      reflexivity.
Qed.

Lemma attestationsLoop_contents (nonce : Z) (atts : list Attestation.t) :
  forall (seen : list Attestation.t) (i : Z) (a : UserState.Acc) (h : Z),
    recordsAfter s seen (UserState.reputationRecords a) ->
    let a' := fst (UserState.attestationsLoop s nonce atts i a h) in
    exists real : list ProcessAttestations.Row,
      UserState.rows a' = UserState.rows a ++ real
      /\ map attestationOfRow real = atts
      /\ map oldReputationOfRow real = oldReputations s seen atts
      /\ forallb isReal real = true
      /\ recordsAfter s (seen ++ atts) (UserState.reputationRecords a').
Proof.
  induction atts as [|att rest IH]; intros seen i a h Hrec; cbn zeta.
  - exists []. cbn. rewrite !app_nil_r. done.
  - cbn [UserState.attestationsLoop].
    set (a1 := if UserState.startsBatch i
               then UserState.openBatch s nonce h a else a).
    assert (Hrec1 : recordsAfter s seen (UserState.reputationRecords a1))
      by (subst a1; now destruct (UserState.startsBatch i)).
    assert (Hrows1 : UserState.rows a1 = UserState.rows a)
      by (subst a1; now destruct (UserState.startsBatch i)).
    destruct (pushAttestation_row seen att a1 Hrec1)
      as (row & Hrow & Hatt & Hold & Hreal & Hrec2).
    destruct (IH (seen ++ [att]) (i + 1) (UserState.pushAttestation s att a1)
                (hashLeftRight (attestation_hash att) h) Hrec2)
      as (real & Hrows & Hatts & Holds & Hreals & Hrec3).
    exists (row :: real). cbn [map forallb oldReputations].
    rewrite Hrows, Hrow, Hrows1, <- app_assoc, Hatt, Hatts, Hold, Holds,
      Hreal, Hreals.
    rewrite <- app_assoc in Hrec3. done.
Qed.

Lemma padding_contents (k : nat) (a : UserState.Acc) :
  exists pads : list ProcessAttestations.Row,
    UserState.rows (Nat.iter k UserState.pushBlank a) = UserState.rows a ++ pads
    /\ List.filter isReal pads = []
    /\ UserState.reputationRecords (Nat.iter k UserState.pushBlank a)
       = UserState.reputationRecords a.
Proof.
  induction k as [|k (pads & Hrows & Hreal & Hrec)].
  - exists []. cbn. now rewrite app_nil_r.
  - change (Nat.iter (S k) UserState.pushBlank a)
      with (UserState.pushBlank (Nat.iter k UserState.pushBlank a)).
    eexists (pads ++ [_]). cbn. rewrite Hrows, <- app_assoc.
    split; [reflexivity|]. rewrite List.filter_app, Hreal. done.
Qed.

Lemma filter_all {A : Type} (p : A -> bool) (l : list A) :
  forallb p l = true -> List.filter p l = l.
Proof.
  induction l as [|x l IH]; cbn; [reflexivity|].
  destruct (p x); [|discriminate]. cbn. intros Hl. now rewrite IH.
Qed.

(** One turn of the loop over the nonces: the rows it adds. *)
Lemma nonceStep_contents (fromEpochTree : SparseMerkleTree)
    (seen : list Attestation.t) (a a' : UserState.Acc) (nonce : Z) :
  recordsAfter s seen (UserState.reputationRecords a) ->
  UserState.nonceStep sync s fromEpochTree a nonce = inr a' ->
  let atts :=
    dbAttestations sync
      (UserState.epochKeyOf sync s (UserState.latestTransitionedEpoch s) nonce) in
  exists real : list ProcessAttestations.Row,
    List.filter isReal (UserState.rows a')
    = List.filter isReal (UserState.rows a) ++ real
    /\ map attestationOfRow real = atts
    /\ map oldReputationOfRow real = oldReputations s seen atts
    /\ recordsAfter s (seen ++ atts) (UserState.reputationRecords a').
Proof.
  intros Hrec. unfold UserState.nonceStep, UserState.getAttestations.
  destruct (epochKeyInRange sync _); [|discriminate].
  destruct (forallb _ _); [|discriminate].
  match goal with
  | |- context [UserState.attestationsLoop s nonce ?l ?i ?a0 ?h] =>
      destruct (attestationsLoop_contents nonce l seen i a0 h Hrec)
        as (real & Hrows & Hatts & Holds & Hreals & Hrec1);
      destruct (UserState.attestationsLoop s nonce l i a0 h) as [a1 h1]
  end.
  cbn [fst] in *. intros [= <-]. cbn.
  match goal with
  | |- context [Nat.iter ?k UserState.pushBlank a1] =>
      destruct (padding_contents k a1) as (pads & Hpads & Hnone & Hrecs)
  end.
  exists real. rewrite Hpads, Hrows, Hrecs. cbn in Hrows |- *.
  rewrite !List.filter_app, Hnone, app_nil_r, (filter_all _ _ Hreals).
  done.
Qed.

Lemma noncesLoop_contents (fromEpochTree : SparseMerkleTree) (ns : list Z) :
  forall (seen : list Attestation.t) (a a' : UserState.Acc),
    recordsAfter s seen (UserState.reputationRecords a) ->
    UserState.noncesLoop sync s fromEpochTree ns a = inr a' ->
    let atts :=
      concat
        (map (fun nonce =>
                dbAttestations sync
                  (UserState.epochKeyOf sync s
                     (UserState.latestTransitionedEpoch s) nonce)) ns) in
    exists real : list ProcessAttestations.Row,
      List.filter isReal (UserState.rows a')
      = List.filter isReal (UserState.rows a) ++ real
      /\ map attestationOfRow real = atts
      /\ map oldReputationOfRow real = oldReputations s seen atts.
Proof.
  induction ns as [|nonce ns IH]; intros seen a a' Hrec; cbn.
  - intros [= <-]. exists []. now rewrite app_nil_r.
  - destruct (UserState.nonceStep sync s fromEpochTree a nonce) as [e|a1] eqn:E;
      [discriminate|].
    intros Hloop.
    destruct (nonceStep_contents fromEpochTree seen a a1 nonce Hrec E)
      as (real1 & Hrows1 & Hatts1 & Holds1 & Hrec1).
    destruct (IH _ a1 a' Hrec1 Hloop) as (real2 & Hrows2 & Hatts2 & Holds2).
    exists (real1 ++ real2).
    rewrite Hrows2, Hrows1, <- app_assoc, !map_app, Hatts1, Hatts2, Holds1,
      Holds2, oldReputations_app.
    done.
Qed.

Lemma combine_append {A B : Type} (l1 l2 : list A) (m1 m2 : list B) :
  length l1 = length m1 ->
  combine (l1 ++ l2) (m1 ++ m2) = combine l1 m1 ++ combine l2 m2.
Proof.
  revert m1. induction l1 as [|x l1 IH]; intros [|y m1] Hlen;
    try discriminate; cbn; [reflexivity|].
  rewrite IH; [reflexivity|]. cbn in Hlen. lia.
Qed.

Lemma oldReputations_length (seen atts : list Attestation.t) :
  length (oldReputations s seen atts) = length atts.
Proof.
  revert seen. induction atts as [|att atts IH]; intros seen; cbn;
    [reflexivity|].
  now rewrite IH.
Qed.

Lemma pushAttestation_tree (seen : list Attestation.t) (att : Attestation.t)
    (a : UserState.Acc) :
  recordsAfter s seen (UserState.reputationRecords a) ->
  UserState.fromEpochUserStateTree (UserState.pushAttestation s att a)
  = applyToTree (UserState.fromEpochUserStateTree a)
      (att,
       fold_left (applyAttestation (Attestation.attesterId att)) seen
         (UserState.getRepByAttester s (Attestation.attesterId att))).
Proof.
  intros Hrec. unfold UserState.pushAttestation, applyToTree. cbv zeta.
  cbn [UserState.fromEpochUserStateTree fst snd].
  rewrite <- (Hrec (Attestation.attesterId att)).
  do 3 f_equal.
  destruct (UserState.reputationRecords a !! Attestation.attesterId att)
    as [r|] eqn:E.
  - now rewrite E.
  - rewrite lookup_insert_eq. cbn.
    now destruct (UserState.getRepByAttester s (Attestation.attesterId att)).
Qed.

Lemma attestationsLoop_tree (nonce : Z) (atts : list Attestation.t) :
  forall (seen : list Attestation.t) (i : Z) (a : UserState.Acc) (h : Z),
    recordsAfter s seen (UserState.reputationRecords a) ->
    UserState.fromEpochUserStateTree
      (fst (UserState.attestationsLoop s nonce atts i a h))
    = fold_left applyToTree (combine atts (oldReputations s seen atts))
        (UserState.fromEpochUserStateTree a).
Proof.
  induction atts as [|att rest IH]; intros seen i a h Hrec; [reflexivity|].
  cbn [UserState.attestationsLoop oldReputations combine fold_left].
  set (a1 := if UserState.startsBatch i
             then UserState.openBatch s nonce h a else a).
  assert (Hrec1 : recordsAfter s seen (UserState.reputationRecords a1))
    by (subst a1; now destruct (UserState.startsBatch i)).
  assert (Htree1 : UserState.fromEpochUserStateTree a1
                   = UserState.fromEpochUserStateTree a)
    by (subst a1; now destruct (UserState.startsBatch i)).
  destruct (pushAttestation_row seen att a1 Hrec1) as (_ & _ & _ & _ & _ & Hrec2).
  rewrite (IH (seen ++ [att]) _ _ _ Hrec2).
  now rewrite (pushAttestation_tree seen att a1 Hrec1), Htree1.
Qed.

Lemma padding_tree (k : nat) (a : UserState.Acc) :
  UserState.fromEpochUserStateTree (Nat.iter k UserState.pushBlank a)
  = UserState.fromEpochUserStateTree a.
Proof.
  induction k as [|k IH]; [reflexivity|].
  change (Nat.iter (S k) UserState.pushBlank a)
    with (UserState.pushBlank (Nat.iter k UserState.pushBlank a)).
  exact IH.
Qed.

Lemma nonceStep_tree (fromEpochTree : SparseMerkleTree)
    (seen : list Attestation.t) (a a' : UserState.Acc) (nonce : Z) :
  recordsAfter s seen (UserState.reputationRecords a) ->
  UserState.nonceStep sync s fromEpochTree a nonce = inr a' ->
  let atts :=
    dbAttestations sync
      (UserState.epochKeyOf sync s (UserState.latestTransitionedEpoch s) nonce) in
  UserState.fromEpochUserStateTree a'
  = fold_left applyToTree (combine atts (oldReputations s seen atts))
      (UserState.fromEpochUserStateTree a).
Proof.
  intros Hrec. unfold UserState.nonceStep, UserState.getAttestations.
  destruct (epochKeyInRange sync _); [|discriminate].
  destruct (forallb _ _); [|discriminate].
  match goal with
  | |- context [UserState.attestationsLoop s nonce ?l ?i ?a0 ?h] =>
      pose proof (attestationsLoop_tree nonce l seen i a0 h Hrec) as Htree;
      destruct (UserState.attestationsLoop s nonce l i a0 h) as [a1 h1]
  end.
  cbn [fst] in Htree. intros [= <-]. cbn.
  now rewrite padding_tree, Htree.
Qed.

Lemma noncesLoop_tree (fromEpochTree : SparseMerkleTree) (ns : list Z) :
  forall (seen : list Attestation.t) (a a' : UserState.Acc),
    recordsAfter s seen (UserState.reputationRecords a) ->
    UserState.noncesLoop sync s fromEpochTree ns a = inr a' ->
    let atts :=
      concat
        (map (fun nonce =>
                dbAttestations sync
                  (UserState.epochKeyOf sync s
                     (UserState.latestTransitionedEpoch s) nonce)) ns) in
    UserState.fromEpochUserStateTree a'
    = fold_left applyToTree (combine atts (oldReputations s seen atts))
        (UserState.fromEpochUserStateTree a).
Proof.
  induction ns as [|nonce ns IH]; intros seen a a' Hrec; cbn.
  - now intros [= <-].
  - destruct (UserState.nonceStep sync s fromEpochTree a nonce) as [e|a1] eqn:E;
      [discriminate|].
    intros Hloop.
    destruct (nonceStep_contents fromEpochTree seen a a1 nonce Hrec E)
      as (_ & _ & _ & _ & Hrec1).
    rewrite (IH _ a1 a' Hrec1 Hloop).
    rewrite (nonceStep_tree fromEpochTree seen a a1 nonce Hrec E).
    rewrite oldReputations_app, combine_append, fold_left_app;
      [reflexivity|].
    now rewrite oldReputations_length.
Qed.

(** The batches cut the rows in consecutive slices. *)
Lemma concat_slices {A : Type} (n t : nat) :
  forall l : list A,
    length l = (n * t)%nat ->
    concat (map (fun i => take n (drop (n * i) l)) (seq 0 t)) = l.
Proof.
  induction t as [|t IH]; intros l Hlen.
  - cbn. destruct l; [reflexivity|]. cbn in Hlen. lia.
  - cbn [seq map concat]. rewrite Nat.mul_0_r, drop_0.
    transitivity (take n l ++ drop n l); [|apply take_drop].
    f_equal. rewrite <- seq_shift, map_map.
    assert (Hlen' : length (drop n l) = (n * t)%nat)
      by (rewrite length_drop; lia).
    etransitivity; [|exact (IH (drop n l) Hlen')].
    f_equal. apply map_ext. intros i. rewrite drop_drop. do 2 f_equal. lia.
Qed.

End RowContents.

Section FinalArrays.

Context `{Crypto}.
Variable sync : Synchronizer.
Variable s : UserState.t.

Lemma attestationsLoop_grow (nonce : Z) (atts : list Attestation.t) :
  forall (i : Z) (a : UserState.Acc) (h : Z),
    let a' := fst (UserState.attestationsLoop s nonce atts i a h) in
    UserState.intermediateUserStateTreeRoots a
      `prefix_of` UserState.intermediateUserStateTreeRoots a'
    /\ UserState.epochKeyPathElements a' = UserState.epochKeyPathElements a
    /\ UserState.blindedHashChain a' = UserState.blindedHashChain a.
Proof.
  induction atts as [|att rest IH]; intros i a h; cbn zeta.
  - done.
  - cbn [UserState.attestationsLoop].
    match goal with
    | |- context [UserState.attestationsLoop s nonce rest ?i1 ?a1 ?h1] =>
        destruct (IH i1 a1 h1) as (Hp & He & Hb)
    end.
    rewrite He, Hb. refine (conj _ (conj _ _)).
    + etransitivity; [|exact Hp]. cbn.
      destruct (UserState.startsBatch i); now apply prefix_app_r.
    + now destruct (UserState.startsBatch i).
    + now destruct (UserState.startsBatch i).
Qed.

Lemma padding_grow (k : nat) (a : UserState.Acc) :
  let a' := Nat.iter k UserState.pushBlank a in
  UserState.intermediateUserStateTreeRoots a
    `prefix_of` UserState.intermediateUserStateTreeRoots a'
  /\ UserState.epochKeyPathElements a' = UserState.epochKeyPathElements a
  /\ UserState.blindedHashChain a' = UserState.blindedHashChain a.
Proof.
  induction k as [|k (Hp & He & Hb)]; [done|].
  change (Nat.iter (S k) UserState.pushBlank a)
    with (UserState.pushBlank (Nat.iter k UserState.pushBlank a)).
  cbn. refine (conj _ (conj He Hb)).
  etransitivity; [exact Hp|]. now apply prefix_app_r.
Qed.

(** One turn of the loop over the nonces: what it appends to the arrays of
    the final circuit. *)
Lemma nonceStep_final (fromEpochTree : SparseMerkleTree)
    (a a' : UserState.Acc) (nonce : Z) :
  UserState.nonceStep sync s fromEpochTree a nonce = inr a' ->
  let key :=
    UserState.epochKeyOf sync s (UserState.latestTransitionedEpoch s) nonce in
  UserState.intermediateUserStateTreeRoots a
    `prefix_of` UserState.intermediateUserStateTreeRoots a'
  /\ UserState.epochKeyPathElements a'
     = UserState.epochKeyPathElements a ++ [smt_createProof fromEpochTree key]
  /\ UserState.blindedHashChain a'
     = UserState.blindedHashChain a
       ++ [hash5 [identityNullifier (UserState.id s);
                  hashChainOf (dbAttestations sync key);
                  UserState.latestTransitionedEpoch s; nonce]].
Proof.
  unfold UserState.nonceStep, UserState.getAttestations.
  destruct (epochKeyInRange sync _); [|discriminate].
  destruct (forallb _ _); [|discriminate].
  match goal with
  | |- context [UserState.attestationsLoop s nonce ?l ?i ?a0 ?h] =>
      destruct (attestationsLoop_grow nonce l i a0 h) as (Hp & He & Hb);
      destruct (attestationsLoop_hashChain s nonce l i a0 h) as (Hh & _);
      destruct (UserState.attestationsLoop s nonce l i a0 h) as [a1 h1]
  end.
  cbn [fst snd] in *. intros [= <-]. cbn.
  match goal with
  | |- context [Nat.iter ?k UserState.pushBlank a1] =>
      destruct (padding_grow k a1) as (Hp' & He' & Hb')
  end.
  rewrite He', Hb', He, Hb, Hh. cbn. refine (conj _ (conj eq_refl eq_refl)).
  etransitivity; [exact Hp|exact Hp'].
Qed.

Lemma noncesLoop_final (fromEpochTree : SparseMerkleTree) (ns : list Z) :
  forall a a' : UserState.Acc,
    UserState.noncesLoop sync s fromEpochTree ns a = inr a' ->
    UserState.intermediateUserStateTreeRoots a
      `prefix_of` UserState.intermediateUserStateTreeRoots a'
    /\ UserState.epochKeyPathElements a'
       = UserState.epochKeyPathElements a
         ++ map (fun nonce =>
                   smt_createProof fromEpochTree
                     (UserState.epochKeyOf sync s
                        (UserState.latestTransitionedEpoch s) nonce)) ns
    /\ UserState.blindedHashChain a'
       = UserState.blindedHashChain a
         ++ map (fun nonce =>
                   hash5 [identityNullifier (UserState.id s);
                          hashChainOf
                            (dbAttestations sync
                               (UserState.epochKeyOf sync s
                                  (UserState.latestTransitionedEpoch s) nonce));
                          UserState.latestTransitionedEpoch s; nonce]) ns.
Proof.
  induction ns as [|nonce ns IH]; intros a a'; cbn.
  - intros [= <-]. now rewrite !app_nil_r.
  - destruct (UserState.nonceStep sync s fromEpochTree a nonce) as [e|a1] eqn:E;
      [discriminate|].
    intros Hloop.
    destruct (nonceStep_final fromEpochTree a a1 nonce E) as (Hp1 & He1 & Hb1).
    destruct (IH a1 a' Hloop) as (Hp2 & He2 & Hb2).
    rewrite He2, He1, Hb2, Hb1, <- !app_assoc.
    refine (conj _ (conj eq_refl eq_refl)).
    etransitivity; [exact Hp1|exact Hp2].
Qed.

(** A turn of the loop over the nonces fails on an epoch key that is out
    of range, then on an attestation whose attester is not a leaf of the
    user state tree, and on nothing else. *)
Lemma nonceStep_completes (fromEpochTree : SparseMerkleTree)
    (a : UserState.Acc) (nonce : Z) :
  let key :=
    UserState.epochKeyOf sync s (UserState.latestTransitionedEpoch s) nonce in
  let leaves :=
    Forall
      (fun attestation =>
         UserState.isLeafKey sync (Attestation.attesterId attestation) = true)
      (dbAttestations sync key) in
  match UserState.nonceStep sync s fromEpochTree a nonce with
  | inr _ => epochKeyInRange sync key = true /\ leaves
  | inl e =>
      (e = InvalidEpochKey /\ epochKeyInRange sync key = false)
      \/ (e = LeafKeyTooLarge /\ epochKeyInRange sync key = true /\ ~ leaves)
  end.
Proof.
  cbn zeta. unfold UserState.nonceStep, UserState.getAttestations.
  destruct (epochKeyInRange sync _) eqn:Ek; [|left; done].
  destruct (forallb _ _) eqn:El.
  - destruct (UserState.attestationsLoop _ _ _ _ _ _).
    split; [reflexivity|]. apply Forall_forall. intros att Hin.
    rewrite forallb_forall in El. apply El. now apply list_elem_of_In.
  - right. split; [reflexivity|]. split; [reflexivity|]. intros Hall.
    assert (forallb
              (fun attestation =>
                 UserState.isLeafKey sync (Attestation.attesterId attestation))
              (dbAttestations sync
                 (UserState.epochKeyOf sync s
                    (UserState.latestTransitionedEpoch s) nonce)) = true);
      [|congruence].
    apply forallb_forall. intros att Hin.
    rewrite Forall_forall in Hall. apply Hall. now apply list_elem_of_In.
Qed.

(** The loop over the nonces fails exactly on an epoch key that is out of
    range or on an attestation whose attester is not a leaf of the user
    state tree. *)
Lemma noncesLoop_completes (fromEpochTree : SparseMerkleTree) (ns : list Z) :
  forall a : UserState.Acc,
    let inRange :=
      Forall
        (fun nonce =>
           epochKeyInRange sync
             (UserState.epochKeyOf sync s
                (UserState.latestTransitionedEpoch s) nonce) = true) ns in
    let leaves :=
      Forall
        (fun attestation =>
           UserState.isLeafKey sync (Attestation.attesterId attestation)
           = true)
        (concat
           (map (fun nonce =>
                   dbAttestations sync
                     (UserState.epochKeyOf sync s
                        (UserState.latestTransitionedEpoch s) nonce))
              ns)) in
    match UserState.noncesLoop sync s fromEpochTree ns a with
    | inr _ => inRange /\ leaves
    | inl e =>
        (e = InvalidEpochKey /\ ~ inRange)
        \/ (e = LeafKeyTooLarge /\ ~ leaves)
    end.
Proof.
  induction ns as [|nonce ns IH]; intros a; cbn zeta.
  - cbn. split; constructor.
  - cbn [UserState.noncesLoop map concat].
    pose proof (nonceStep_completes fromEpochTree a nonce) as Hstep.
    cbn zeta in Hstep.
    destruct (UserState.nonceStep sync s fromEpochTree a nonce) as [e|a1].
    + destruct Hstep as [(-> & Hk)|(-> & Hk & Hl)].
      * left. split; [reflexivity|].
        intros Hall. inversion Hall; congruence.
      * right. split; [reflexivity|].
        intros Hall. apply Hl. now apply Forall_app in Hall as [? _].
    + destruct Hstep as [Hk Hl]. specialize (IH a1).
      destruct (UserState.noncesLoop sync s fromEpochTree ns a1) as [e|a'].
      * destruct IH as [(-> & Hn)|(-> & Hn)].
        -- left. split; [reflexivity|].
           intros Hall. apply Hn. now inversion Hall.
        -- right. split; [reflexivity|].
           intros Hall. apply Hn. now apply Forall_app in Hall as [_ ?].
      * destruct IH as [Hr Hls]. split; [now constructor|].
        apply Forall_app. now split.
Qed.

(** [toNonces], [hashChainStarter] and [blindedUserState] grow together:
    inside the turn of a nonce they have the same length ([d] = 0), and
    between two turns [blindedUserState] is one ahead ([d] = 1). *)
Lemma aligned_attestationsLoop (d : nat) (nonce : Z)
    (atts : list Attestation.t) :
  forall (i : Z) (a : UserState.Acc) (h : Z),
    length (UserState.hashChainStarter a) = length (UserState.toNonces a) ->
    length (UserState.blindedUserState a)
    = (length (UserState.toNonces a) + d)%nat ->
    let a' := fst (UserState.attestationsLoop s nonce atts i a h) in
    length (UserState.hashChainStarter a') = length (UserState.toNonces a')
    /\ length (UserState.blindedUserState a')
       = (length (UserState.toNonces a') + d)%nat.
Proof.
  induction atts as [|att rest IH]; intros i a h Hh Hb; cbn zeta;
    cbn [UserState.attestationsLoop fst]; [now split|].
  apply IH.
  - destruct (UserState.startsBatch i); cbn; [|exact Hh].
    rewrite !length_app. cbn. lia.
  - destruct (UserState.startsBatch i); cbn; [|exact Hb].
    rewrite !length_app. cbn. lia.
Qed.

Lemma aligned_padding (k : nat) (a : UserState.Acc) :
  UserState.hashChainStarter (Nat.iter k UserState.pushBlank a)
  = UserState.hashChainStarter a
  /\ UserState.toNonces (Nat.iter k UserState.pushBlank a)
     = UserState.toNonces a
  /\ UserState.blindedUserState (Nat.iter k UserState.pushBlank a)
     = UserState.blindedUserState a.
Proof.
  induction k as [|k IH]; [done|].
  change (Nat.iter (S k) UserState.pushBlank a)
    with (UserState.pushBlank (Nat.iter k UserState.pushBlank a)).
  exact IH.
Qed.

Lemma aligned_nonceStep (fromEpochTree : SparseMerkleTree)
    (a a' : UserState.Acc) (nonce : Z) :
  UserState.nonceStep sync s fromEpochTree a nonce = inr a' ->
  length (UserState.hashChainStarter a) = length (UserState.toNonces a) ->
  length (UserState.blindedUserState a) = S (length (UserState.toNonces a)) ->
  length (UserState.hashChainStarter a') = length (UserState.toNonces a')
  /\ length (UserState.blindedUserState a')
     = S (length (UserState.toNonces a')).
Proof.
  unfold UserState.nonceStep, UserState.getAttestations.
  destruct (epochKeyInRange sync _); [|discriminate].
  destruct (forallb _ _); [|discriminate].
  intros Hstep Hh Hb. revert Hstep.
  match goal with
  | |- context [UserState.attestationsLoop s nonce ?l ?i ?a0 ?h] =>
      destruct (aligned_attestationsLoop 0 nonce l i a0 h) as [Hh1 Hb1];
      [cbn; rewrite !length_app; cbn; lia
      |cbn; rewrite !length_app; cbn; lia|];
      destruct (UserState.attestationsLoop s nonce l i a0 h) as [a1 h1]
  end.
  cbn [fst] in Hh1, Hb1. intros [= <-]. cbn.
  match goal with
  | |- context [Nat.iter ?k UserState.pushBlank a1] =>
      destruct (aligned_padding k a1) as (-> & -> & ->)
  end.
  rewrite length_app. cbn. lia.
Qed.

Lemma aligned_noncesLoop (fromEpochTree : SparseMerkleTree) (ns : list Z) :
  forall a a' : UserState.Acc,
    UserState.noncesLoop sync s fromEpochTree ns a = inr a' ->
    length (UserState.hashChainStarter a) = length (UserState.toNonces a) ->
    length (UserState.blindedUserState a)
    = S (length (UserState.toNonces a)) ->
    length (UserState.hashChainStarter a') = length (UserState.toNonces a')
    /\ length (UserState.blindedUserState a')
       = S (length (UserState.toNonces a')).
Proof.
  induction ns as [|nonce ns IH]; intros a a'; cbn.
  - intros [= <-]. now split.
  - destruct (UserState.nonceStep sync s fromEpochTree a nonce) as [e|a1] eqn:E;
      [discriminate|].
    intros Hloop Hh Hb.
    destruct (aligned_nonceStep fromEpochTree a a1 nonce E Hh Hb).
    now apply (IH a1 a').
Qed.

(** [stringifyBigInts] passes on every batch whose index is within the four
    arrays the batch reads by index. *)
Lemma batchesLoop_defined (a : UserState.Acc) (indices : list nat) :
  Forall
    (fun i =>
       (i < length (UserState.fromNonces a))%nat
       /\ (i < length (UserState.toNonces a))%nat
       /\ (i < length (UserState.hashChainStarter a))%nat
       /\ (i < length (UserState.blindedUserState a))%nat)
    indices ->
  UserState.batchesLoop s a indices
  = inr (map (UserState.batchInputs s a) indices).
Proof.
  induction 1 as [|i rest (Hf & Ht & Hh & Hb) _ IH]; cbn; [reflexivity|].
  unfold UserState.stringifyBigInts. cbn.
  destruct (lookup_lt_is_Some_2 _ _ Hf) as [? ->].
  destruct (lookup_lt_is_Some_2 _ _ Ht) as [? ->].
  destruct (lookup_lt_is_Some_2 _ _ Hh) as [? ->].
  destruct (lookup_lt_is_Some_2 _ _ Hb) as [? ->].
  now rewrite IH.
Qed.

Hypothesis batchSize : 0 < NUM_ATTESTATIONS_PER_PROOF.

Lemma noncesLoop_rows_length (fromEpochTree : SparseMerkleTree) (ns : list Z) :
  forall a a' : UserState.Acc,
    UserState.noncesLoop sync s fromEpochTree ns a = inr a' ->
    Z.of_nat (length (UserState.rows a'))
    = Z.of_nat (length (UserState.rows a))
      + foldr Z.add 0
          (map (fun nonce =>
                  UserState.filledAttestationNum
                    (Z.of_nat
                       (length
                          (dbAttestations sync
                             (UserState.epochKeyOf sync s
                                (UserState.latestTransitionedEpoch s) nonce)))))
             ns).
Proof.
  induction ns as [|nonce ns IH]; intros a a'; cbn.
  - intros [= <-]. lia.
  - destruct (UserState.nonceStep sync s fromEpochTree a nonce) as [e|a1] eqn:E;
      [discriminate|].
    intros Hloop. rewrite (IH a1 a' Hloop).
    destruct (nonceStep_rows sync s batchSize fromEpochTree a a1 nonce E)
      as (real & pads & Hrows & Hreal & _ & Hpads & _).
    rewrite Hrows, !length_app. lia.
Qed.

End FinalArrays.

Section TransitionBatches.

Context `{Crypto}.
Variable sync : Synchronizer.
Variable s : UserState.t.

(** What a successful run went through. *)
Lemma inputs_run (r : UserState.TransitionInputs) :
  UserState.genUserStateTransitionProofs_inputs sync s = inr r ->
  exists (fromEpochTree : SparseMerkleTree) (a : UserState.Acc),
    UserState.hasSignedUp s = true
    /\ validEpoch sync (UserState.latestTransitionedEpoch s) = true
    /\ genEpochTree sync (UserState.latestTransitionedEpoch s)
       = inr fromEpochTree
    /\ UserState.noncesLoop sync s fromEpochTree (UserState.nonces sync)
         (initialAcc sync s) = inr a
    /\ UserState.processAttestationCircuitInputs r
       = map (UserState.batchInputs s a)
           (seq 0 (length (UserState.fromNonces a)))
    /\ FinalTransition.blinded_user_state
         (UserState.finalTransitionCircuitInputs r)
       = [hash5 [identityNullifier (UserState.id s);
                 smt_root (UserState.genUserStateTree sync s);
                 UserState.latestTransitionedEpoch s; 0];
          hash5 [identityNullifier (UserState.id s);
                 smt_root (UserState.fromEpochUserStateTree a);
                 UserState.latestTransitionedEpoch s;
                 numEpochKeyNoncePerEpoch (settings sync) - 1]]
    /\ FinalTransition.intermediate_user_state_tree_roots
         (UserState.finalTransitionCircuitInputs r)
       = [smt_root (UserState.genUserStateTree sync s);
          smt_root (UserState.fromEpochUserStateTree a)]
    /\ FinalTransition.epk_path_elements
         (UserState.finalTransitionCircuitInputs r)
       = UserState.epochKeyPathElements a
    /\ FinalTransition.blinded_hash_chain_results
         (UserState.finalTransitionCircuitInputs r)
       = UserState.blindedHashChain a
    /\ FinalTransition.epoch_tree_root
         (UserState.finalTransitionCircuitInputs r)
       = smt_root fromEpochTree
    /\ FinalTransition.hash_chain_results
         (UserState.finalTransitionCircuitInputs r)
       = UserState.finalHashChain a.
Proof.
  unfold UserState.genUserStateTransitionProofs_inputs, UserState.genGSTree.
  destruct (UserState.hasSignedUp s); [|discriminate].
  destruct (validEpoch sync _); [|discriminate].
  destruct (genEpochTree sync _) as [e|fromEpochTree]; [discriminate|].
  destruct (UserState.noncesLoop sync s fromEpochTree _ _) as [e|a] eqn:E;
    [discriminate|].
  destruct (UserState.batchesLoop s a _) as [e|bs] eqn:Eb; [discriminate|].
  apply (batchesLoop_inr s) in Eb. subst bs.
  intros [= <-]. exists fromEpochTree, a. cbn. repeat split. exact E.
Qed.

Lemma initial_nonces : noncesBetween 0 (initialAcc sync s).
Proof.
  unfold noncesBetween, initialAcc. cbn. repeat split.
  intros i x y Hx Hy. destruct i; discriminate.
Qed.

(** The nonce arrays when the loops are over. *)
Lemma final_nonces (fromEpochTree : SparseMerkleTree) (a : UserState.Acc) :
  UserState.noncesLoop sync s fromEpochTree (UserState.nonces sync)
    (initialAcc sync s) = inr a ->
  if 0 <? numEpochKeyNoncePerEpoch (settings sync)
  then noncesWithin (numEpochKeyNoncePerEpoch (settings sync) - 1) a
  else a = initialAcc sync s.
Proof.
  unfold UserState.nonces. intros Hloop.
  destruct (Z.ltb_spec 0 (numEpochKeyNoncePerEpoch (settings sync))) as [Hn|Hn].
  - rewrite <- (Z2Nat.id (numEpochKeyNoncePerEpoch (settings sync))) in Hloop
      by lia.
    assert (Hle : 0 + Z.of_nat (Z.to_nat (numEpochKeyNoncePerEpoch (settings sync)))
                  <= numEpochKeyNoncePerEpoch (settings sync)) by lia.
    pose proof (nonces_noncesLoop sync s fromEpochTree _ 0 _ a
                  (Z.le_refl 0) Hle initial_nonces Hloop) as Hfin.
    rewrite Z2Nat.id in Hfin by lia. cbn [Z.add] in Hfin.
    rewrite Z.eqb_refl in Hfin.
    destruct (Z.ltb_spec 0 (numEpochKeyNoncePerEpoch (settings sync)));
      [exact Hfin|lia].
  - unfold seqZ in Hloop.
    replace (Z.to_nat (numEpochKeyNoncePerEpoch (settings sync))) with 0%nat
      in Hloop by lia.
    cbn in Hloop. congruence.
Qed.

(** X12.  The nonces of the batches.  With at least one nonce per epoch,
    every batch of a successful run has a [from_nonce] and a [to_nonce]; it
    ends at the nonce it starts from or at the next one; the first batch
    starts at nonce 0, every other batch starts where the batch before it
    ends, and the last batch ends at the last nonce. *)
Theorem transition_batches_follow_nonces (r : UserState.TransitionInputs) :
  0 < numEpochKeyNoncePerEpoch (settings sync) ->
  UserState.genUserStateTransitionProofs_inputs sync s = inr r ->
  let batches := UserState.processAttestationCircuitInputs r in
  (forall (i : nat) (b : ProcessAttestations.Inputs),
     batches !! i = Some b ->
     exists f t : Z,
       ProcessAttestations.from_nonce b = Some f
       /\ ProcessAttestations.to_nonce b = Some t
       /\ (t = f \/ t = f + 1)
       /\ match i with
          | O => f = 0
          | S j =>
              exists b' : ProcessAttestations.Inputs,
                batches !! j = Some b'
                /\ ProcessAttestations.to_nonce b' = Some f
          end)
  /\ exists b : ProcessAttestations.Inputs,
       last batches = Some b
       /\ ProcessAttestations.to_nonce b
          = Some (numEpochKeyNoncePerEpoch (settings sync) - 1).
Proof.
  intros Hn Hr. cbn zeta.
  destruct (inputs_run r Hr) as (tree & a & _ & _ & _ & Hloop & Hp & _).
  pose proof (final_nonces tree a Hloop) as Hfin.
  destruct (Z.ltb_spec 0 (numEpochKeyNoncePerEpoch (settings sync))); [|lia].
  destruct Hfin as (Hlink & Hsteps & Hlast).
  assert (Hlen : length (UserState.fromNonces a) = length (UserState.toNonces a)).
  { apply (f_equal length) in Hlink. rewrite length_app in Hlink.
    cbn in Hlink. lia. }
  assert (Hfrom : forall i, (i < length (UserState.fromNonces a))%nat ->
             UserState.fromNonces a !! i = (0 :: UserState.toNonces a) !! i).
  { intros i Hi. rewrite <- Hlink. now rewrite lookup_app_l. }
  rewrite Hp. split.
  - intros i b Hb. apply (batch_lookup s) in Hb as [-> Hi].
    destruct (lookup_lt_is_Some_2 (UserState.toNonces a) i ltac:(lia))
      as [t Ht].
    destruct (lookup_lt_is_Some_2 (UserState.fromNonces a) i Hi) as [f Hf].
    exists f, t. cbn. refine (conj Hf (conj Ht (conj _ _))).
    + rewrite Hfrom in Hf by exact Hi. exact (Hsteps i f t Hf Ht).
    + rewrite Hfrom in Hf by exact Hi. destruct i as [|j].
      * cbn in Hf. congruence.
      * exists (UserState.batchInputs s a j). split; [|exact Hf].
        rewrite list_lookup_fmap, lookup_seq_lt by lia. reflexivity.
  - destruct (UserState.toNonces a) as [|t0 ts] eqn:ET using rev_ind;
      [discriminate|].
    clear IHts. rewrite length_app in Hlen. cbn in Hlen.
    rewrite last_snoc in Hlast.
    exists (UserState.batchInputs s a (length ts)). split.
    + rewrite Hlen. replace (length ts + 1)%nat with (S (length ts)) by lia.
      rewrite seq_S, map_app. cbn. now rewrite last_snoc.
    + cbn. rewrite ET, lookup_app_r by lia. rewrite Nat.sub_diag. exact Hlast.
Qed.

(** The arrays of the batches when the loops are over: with at least one
    nonce per epoch every batch finds its entry in each of them. *)
Lemma final_lengths (fromEpochTree : SparseMerkleTree) (a : UserState.Acc) :
  0 < numEpochKeyNoncePerEpoch (settings sync) ->
  UserState.noncesLoop sync s fromEpochTree (UserState.nonces sync)
    (initialAcc sync s) = inr a ->
  Forall
    (fun i =>
       (i < length (UserState.fromNonces a))%nat
       /\ (i < length (UserState.toNonces a))%nat
       /\ (i < length (UserState.hashChainStarter a))%nat
       /\ (i < length (UserState.blindedUserState a))%nat)
    (seq 0 (length (UserState.fromNonces a))).
Proof.
  intros Hn Hloop.
  pose proof (final_nonces fromEpochTree a Hloop) as Hfin.
  destruct (Z.ltb_spec 0 (numEpochKeyNoncePerEpoch (settings sync))); [|lia].
  destruct Hfin as (Hlink & _ & _).
  apply (f_equal length) in Hlink. rewrite length_app in Hlink. cbn in Hlink.
  destruct (aligned_noncesLoop sync s fromEpochTree _ _ a Hloop)
    as [Hh Hb]; [reflexivity|reflexivity|].
  apply Forall_forall. intros i Hi. apply elem_of_seq in Hi. lia.
Qed.

(** X13.  Who can generate the transition inputs.  In a state that refers
    to what the trees hold, the inputs are
    assembled exactly when the user has signed up, the latest transitioned
    epoch is valid, its epoch tree can be built, every epoch key of the
    epoch is in range, the attester of every attestation received is a leaf
    of the user state tree, and the settings give at least one nonce per
    epoch; each failure is that of one of these checks that does not hold:
    [createProof] throws on an attester that is not a leaf, and without a
    nonce [stringifyBigInts] throws on the one batch, which has no
    [to_nonce]. *)
Theorem genUserStateTransitionProofs_inputs_iff :
  inTrees sync s ->
  let r := UserState.genUserStateTransitionProofs_inputs sync s in
  let epoch := UserState.latestTransitionedEpoch s in
  ((exists i, r = inr i) <->
     UserState.hasSignedUp s = true
     /\ validEpoch sync epoch = true
     /\ (exists tree, genEpochTree sync epoch = inr tree)
     /\ epochKeysInRange sync s
     /\ attestersAreLeaves sync s
     /\ 0 < numEpochKeyNoncePerEpoch (settings sync))
  /\ (forall e, r = inl e ->
        (e = UserNotSignedUp /\ UserState.hasSignedUp s = false)
        \/ (e = InvalidEpoch /\ validEpoch sync epoch = false)
        \/ genEpochTree sync epoch = inl e
        \/ (e = InvalidEpochKey /\ ~ epochKeysInRange sync s)
        \/ (e = LeafKeyTooLarge /\ ~ attestersAreLeaves sync s)
        \/ (e = UndefinedValue
            /\ numEpochKeyNoncePerEpoch (settings sync) <= 0)).
Proof.
  intros _. cbn zeta.
  unfold UserState.genUserStateTransitionProofs_inputs, UserState.genGSTree,
    epochKeysInRange, attestersAreLeaves, receivedAttestations.
  destruct (UserState.hasSignedUp s) eqn:Es.
  2:{ refine (conj (conj _ _) _).
      - intros [? [=]].
      - intros (? & _); discriminate.
      - intros e [= <-]. now left. }
  destruct (validEpoch sync (UserState.latestTransitionedEpoch s)) eqn:Ev.
  2:{ refine (conj (conj _ _) _).
      - intros [? [=]].
      - intros (_ & ? & _); discriminate.
      - intros e [= <-]. right. now left. }
  destruct (genEpochTree sync (UserState.latestTransitionedEpoch s))
    as [e0|tree] eqn:Et.
  { refine (conj (conj _ _) _).
    - intros [? [=]].
    - intros (_ & _ & [? [=]] & _).
    - intros e [= <-]. right. right. now left. }
  pose proof (noncesLoop_completes sync s tree (UserState.nonces sync)
                (initialAcc sync s)) as Hc.
  pose proof (final_lengths tree) as Hlen.
  pose proof (final_nonces tree) as Hfin.
  cbn zeta in Hc. unfold initialAcc in Hc, Hlen, Hfin.
  destruct (UserState.noncesLoop sync s tree (UserState.nonces sync) _)
    as [e|a].
  - refine (conj (conj _ _) _).
    + intros [? [=]].
    + intros (_ & _ & _ & Hr & Hl & _).
      destruct Hc as [(_ & Hn)|(_ & Hn)]; contradiction.
    + intros e' [= <-].
      destruct Hc as [(-> & Hn)|(-> & Hn)].
      * right. right. right. left. done.
      * right. right. right. right. left. done.
  - destruct Hc as [Hr Hl].
    destruct (Z_lt_le_dec 0 (numEpochKeyNoncePerEpoch (settings sync)))
      as [Hn|Hn].
    + rewrite (batchesLoop_defined s a _ (Hlen a Hn eq_refl)).
      refine (conj (conj _ _) _).
      * intros _. repeat split; try done. now exists tree.
      * intros _. eexists. reflexivity.
      * intros ? [=].
    + specialize (Hfin a eq_refl).
      destruct (Z.ltb_spec 0 (numEpochKeyNoncePerEpoch (settings sync)));
        [lia|].
      subst a. cbn.
      refine (conj (conj _ _) _).
      * intros [? [=]].
      * intros (_ & _ & _ & _ & _ & ?). lia.
      * intros e [= <-]. do 5 right. done.
Qed.

(** X14.  One entry per nonce in the final inputs.  The hash chain
    results, the blinded hash chains and the epoch tree paths of a
    successful run have one entry per nonce; the entry of nonce [k] blinds
    the hash chain result of [k] under the identity nullifier, the epoch and
    [k], and proves the epoch key of [k] in the epoch tree of the epoch. *)
Theorem transition_final_per_nonce (r : UserState.TransitionInputs) :
  UserState.genUserStateTransitionProofs_inputs sync s = inr r ->
  let final := UserState.finalTransitionCircuitInputs r in
  let epoch := UserState.latestTransitionedEpoch s in
  exists tree : SparseMerkleTree,
    genEpochTree sync epoch = inr tree
    /\ FinalTransition.epoch_tree_root final = smt_root tree
    /\ length (FinalTransition.hash_chain_results final)
       = Z.to_nat (numEpochKeyNoncePerEpoch (settings sync))
    /\ length (FinalTransition.blinded_hash_chain_results final)
       = Z.to_nat (numEpochKeyNoncePerEpoch (settings sync))
    /\ length (FinalTransition.epk_path_elements final)
       = Z.to_nat (numEpochKeyNoncePerEpoch (settings sync))
    /\ forall (k : nat) (h : Z),
         FinalTransition.hash_chain_results final !! k = Some h ->
         h = hashChainOf
               (dbAttestations sync
                  (UserState.epochKeyOf sync s epoch (Z.of_nat k)))
         /\ FinalTransition.blinded_hash_chain_results final !! k
            = Some (hash5 [identityNullifier (UserState.id s); h; epoch;
                           Z.of_nat k])
         /\ FinalTransition.epk_path_elements final !! k
            = Some (smt_createProof tree
                      (UserState.epochKeyOf sync s epoch (Z.of_nat k))).
Proof.
  intros Hr. cbn zeta.
  destruct (inputs_run r Hr)
    as (tree & a & _ & _ & Ht & Hloop & _ & _ & _ & He & Hb & Hroot & Hh).
  destruct (noncesLoop_final sync s tree _ _ _ Hloop) as (_ & Hepk & Hbhc).
  pose proof (noncesLoop_hashChain sync s tree _ _ _ Hloop) as Hfhc.
  cbn in Hepk, Hbhc, Hfhc.
  exists tree. rewrite Hroot, Hh, He, Hb, Hepk, Hbhc, Hfhc.
  rewrite !length_map. unfold UserState.nonces. rewrite length_seqZ.
  refine (conj Ht (conj eq_refl (conj eq_refl (conj eq_refl (conj eq_refl _))))).
  intros k h Hk. rewrite list_lookup_fmap in Hk |- *.
  rewrite list_lookup_fmap.
  destruct (seqZ 0 (numEpochKeyNoncePerEpoch (settings sync)) !! k)
    as [nonce|] eqn:Ek; [|discriminate].
  apply lookup_seqZ in Ek as [-> _]. cbn in Hk |- *.
  injection Hk as <-. done.
Qed.

(** X15.  The root the transition arrives at.  The second root of the
    final inputs is the root of the committed user state tree after one
    update per attestation, in the order of the rows: the leaf of the
    attester becomes the hash of its reputation, the committed one updated
    with the attestations up to and including this one. *)
Theorem transition_final_root (r : UserState.TransitionInputs) :
  UserState.genUserStateTransitionProofs_inputs sync s = inr r ->
  let received := receivedAttestations sync s in
  FinalTransition.intermediate_user_state_tree_roots
    (UserState.finalTransitionCircuitInputs r)
  = [smt_root (UserState.genUserStateTree sync s);
     smt_root
       (fold_left applyToTree
          (combine received (oldReputations s [] received))
          (UserState.genUserStateTree sync s))].
Proof.
  intros Hr. cbn zeta.
  destruct (inputs_run r Hr)
    as (tree & a & _ & _ & _ & Hloop & _ & _ & Hroots & _).
  assert (Hrec : recordsAfter s []
                   (UserState.reputationRecords (initialAcc sync s))).
  { intros b. cbn. now rewrite lookup_empty. }
  rewrite Hroots.
  now rewrite (noncesLoop_tree sync s tree _ [] _ a Hrec Hloop).
Qed.

Hypothesis batchSize : 0 < NUM_ATTESTATIONS_PER_PROOF.

Lemma final_arrays (r : UserState.TransitionInputs) :
  UserState.genUserStateTransitionProofs_inputs sync s = inr r ->
  exists a : UserState.Acc,
    UserState.processAttestationCircuitInputs r
    = map (UserState.batchInputs s a) (seq 0 (length (UserState.fromNonces a)))
    /\ betweenNonces s
         (hash5 [identityNullifier (UserState.id s);
                 smt_root (UserState.genUserStateTree sync s);
                 UserState.latestTransitionedEpoch s; 0; 0]) a
    /\ (if 0 <? numEpochKeyNoncePerEpoch (settings sync)
        then noncesWithin (numEpochKeyNoncePerEpoch (settings sync) - 1) a
        else a = initialAcc sync s)
    /\ UserState.intermediateUserStateTreeRoots a !! 0%nat
       = Some (smt_root (UserState.genUserStateTree sync s))
    /\ Z.of_nat (length (UserState.rows a)) = filledTotal sync s
    /\ (exists real : list ProcessAttestations.Row,
          List.filter isReal (UserState.rows a) = real
          /\ map attestationOfRow real = receivedAttestations sync s
          /\ map oldReputationOfRow real
             = oldReputations s [] (receivedAttestations sync s))
    /\ FinalTransition.blinded_user_state
         (UserState.finalTransitionCircuitInputs r)
       = [hash5 [identityNullifier (UserState.id s);
                 smt_root (UserState.genUserStateTree sync s);
                 UserState.latestTransitionedEpoch s; 0];
          hash5 [identityNullifier (UserState.id s);
                 smt_root (UserState.fromEpochUserStateTree a);
                 UserState.latestTransitionedEpoch s;
                 numEpochKeyNoncePerEpoch (settings sync) - 1]]
    /\ FinalTransition.intermediate_user_state_tree_roots
         (UserState.finalTransitionCircuitInputs r)
       = [smt_root (UserState.genUserStateTree sync s);
          smt_root (UserState.fromEpochUserStateTree a)].
Proof.
  intros Hr.
  destruct (inputs_run r Hr)
    as (tree & a & _ & _ & _ & Hloop & Hp & Hbus & Hroots & _).
  exists a. refine (conj Hp (conj _ (conj _ (conj _ (conj _ (conj _ _)))))).
  - eapply between_noncesLoop; [exact batchSize| |exact Hloop].
    apply initial_between.
  - exact (final_nonces tree a Hloop).
  - destruct (noncesLoop_final sync s tree _ _ _ Hloop) as ([more Hmore] & _).
    rewrite Hmore. reflexivity.
  - rewrite (noncesLoop_rows_length sync s batchSize tree _ _ _ Hloop).
    reflexivity.
  - assert (Hrec : recordsAfter s []
                     (UserState.reputationRecords (initialAcc sync s))).
    { intros b. cbn. now rewrite lookup_empty. }
    destruct (noncesLoop_contents sync s tree _ [] _ a Hrec Hloop)
      as (real & Hreal & Hatts & Holds).
    exists real. cbn in Hreal. done.
  - split; [exact Hbus|exact Hroots].
Qed.

Lemma batches_cover_rows (a : UserState.Acc) :
  betweenNonces s
    (hash5 [identityNullifier (UserState.id s);
            smt_root (UserState.genUserStateTree sync s);
            UserState.latestTransitionedEpoch s; 0; 0]) a ->
  (if 0 <? numEpochKeyNoncePerEpoch (settings sync)
   then noncesWithin (numEpochKeyNoncePerEpoch (settings sync) - 1) a
   else a = initialAcc sync s) ->
  concat
    (map ProcessAttestations.rows
       (map (UserState.batchInputs s a)
          (seq 0 (length (UserState.fromNonces a)))))
  = UserState.rows a.
Proof.
  intros (_ & Hrows & _) Hfin. rewrite map_map. cbn.
  erewrite map_ext; [|intros i; apply (slice_rows batchSize)].
  destruct (0 <? numEpochKeyNoncePerEpoch (settings sync)).
  - destruct Hfin as (Hlink & _).
    apply (f_equal length) in Hlink. rewrite length_app in Hlink.
    cbn in Hlink.
    replace (length (UserState.fromNonces a))
      with (length (UserState.toNonces a)) by lia.
    apply concat_slices. apply Nat2Z.inj.
    rewrite Nat2Z.inj_mul, Z2Nat.id by lia. exact Hrows.
  - subst a. cbn. now rewrite drop_nil, take_nil.
Qed.

(** X16.  The rows are the attestations, in order.  The rows of a
    successful run that carry an attestation (selector 1), read through the
    batches in order, are the attestations of the epoch keys of the latest
    transitioned epoch, nonce after nonce and in the order of the datastore;
    and the old reputation of each row is the committed reputation of its
    attester updated with the attestations before it. *)
Theorem transition_rows_in_order (r : UserState.TransitionInputs) :
  UserState.genUserStateTransitionProofs_inputs sync s = inr r ->
  let real :=
    List.filter isReal
      (concat
         (map ProcessAttestations.rows
            (UserState.processAttestationCircuitInputs r))) in
  map attestationOfRow real = receivedAttestations sync s
  /\ map oldReputationOfRow real
     = oldReputations s [] (receivedAttestations sync s).
Proof.
  intros Hr. cbn zeta.
  destruct (final_arrays r Hr)
    as (a & Hp & Hb & Hfin & _ & _ & (real & Hreal & Hatts & Holds) & _).
  rewrite Hp, (batches_cover_rows a Hb Hfin), Hreal. done.
Qed.

Lemma batch_sizes (a : UserState.Acc) (i : nat) :
  Z.of_nat (length (UserState.rows a))
  = NUM_ATTESTATIONS_PER_PROOF * Z.of_nat (length (UserState.toNonces a)) ->
  length (UserState.intermediateUserStateTreeRoots a)
  = S (length (UserState.rows a)) ->
  (i < length (UserState.toNonces a))%nat ->
  Z.of_nat (length (ProcessAttestations.rows (UserState.batchInputs s a i)))
  = NUM_ATTESTATIONS_PER_PROOF
  /\ Z.of_nat
       (length
          (ProcessAttestations.intermediate_user_state_tree_roots
             (UserState.batchInputs s a i)))
     = NUM_ATTESTATIONS_PER_PROOF + 1.
Proof.
  intros Hrows Hroots Hi. cbn.
  rewrite (slice_rows batchSize), (slice_roots batchSize).
  rewrite !length_take, !length_drop, Hroots. nia.
Qed.

(** X17.  Every batch is full.  With at least one nonce per epoch, every
    batch of a successful run holds exactly [NUM_ATTESTATIONS_PER_PROOF]
    rows and one more intermediate root, and the batches are as many as the
    attestations of each nonce, rounded up to whole batches (one batch for
    a nonce without attestation), need. *)
Theorem transition_batches_are_full (r : UserState.TransitionInputs) :
  0 < numEpochKeyNoncePerEpoch (settings sync) ->
  UserState.genUserStateTransitionProofs_inputs sync s = inr r ->
  let batches := UserState.processAttestationCircuitInputs r in
  (forall (i : nat) (b : ProcessAttestations.Inputs),
     batches !! i = Some b ->
     Z.of_nat (length (ProcessAttestations.rows b))
     = NUM_ATTESTATIONS_PER_PROOF
     /\ Z.of_nat
          (length (ProcessAttestations.intermediate_user_state_tree_roots b))
        = NUM_ATTESTATIONS_PER_PROOF + 1)
  /\ NUM_ATTESTATIONS_PER_PROOF * Z.of_nat (length batches)
     = filledTotal sync s.
Proof.
  intros Hn Hr. cbn zeta.
  destruct (final_arrays r Hr)
    as (a & Hp & ((Hroots & _) & Hrows & _) & Hfin & _ & Htotal & _).
  destruct (Z.ltb_spec 0 (numEpochKeyNoncePerEpoch (settings sync))); [|lia].
  destruct Hfin as (Hlink & _).
  apply (f_equal length) in Hlink. rewrite length_app in Hlink. cbn in Hlink.
  rewrite Hp. split.
  - intros i b Hb. apply (batch_lookup s) in Hb as [-> Hi].
    apply batch_sizes; [exact Hrows|exact Hroots|lia].
  - rewrite length_map, length_seq, <- Htotal, Hrows. f_equal. lia.
Qed.

(** X18.  The roots run through the batches.  The first intermediate
    root of the first batch is the root of the committed user state tree,
    and every other batch starts from the root the batch before it ends
    in. *)
Theorem transition_roots_chain (r : UserState.TransitionInputs) :
  UserState.genUserStateTransitionProofs_inputs sync s = inr r ->
  let batches := UserState.processAttestationCircuitInputs r in
  let roots := ProcessAttestations.intermediate_user_state_tree_roots in
  (exists b, batches !! 0%nat = Some b
             /\ head (roots b)
                = Some (smt_root (UserState.genUserStateTree sync s)))
  /\ forall (j : nat) (b b' : ProcessAttestations.Inputs),
       batches !! j = Some b -> batches !! S j = Some b' ->
       exists root, last (roots b) = Some root /\ head (roots b') = Some root.
Proof.
  intros Hr. cbn zeta.
  destruct (final_arrays r Hr)
    as (a & Hp & ((Hroots & _) & Hrows & _ & Hle & _) & Hfin & Hhead & _).
  rewrite Hp. split.
  - exists (UserState.batchInputs s a 0). split.
    + rewrite list_lookup_fmap, lookup_seq_lt; [reflexivity|].
      destruct (0 <? numEpochKeyNoncePerEpoch (settings sync)).
      * destruct Hfin as (Hlink & _ & Hlast).
        apply (f_equal length) in Hlink. rewrite length_app in Hlink.
        cbn in Hlink. destruct (UserState.toNonces a); [discriminate|].
        cbn in Hlink. lia.
      * subst a. cbn. lia.
    + cbn. rewrite (slice_roots batchSize), head_lookup, lookup_take_lt by lia.
      rewrite lookup_drop, Nat.mul_0_r. exact Hhead.
  - intros j b b' Hb Hb'.
    apply (batch_lookup s) in Hb as [-> _].
    apply (batch_lookup s) in Hb' as [-> Hj].
    assert (Hin : (Z.to_nat NUM_ATTESTATIONS_PER_PROOF * j
                   + Z.to_nat NUM_ATTESTATIONS_PER_PROOF
                   < length (UserState.intermediateUserStateTreeRoots a))%nat).
    { rewrite Hroots. nia. }
    destruct (lookup_lt_is_Some_2 _ _ Hin) as [root Hroot].
    exists root. cbn. rewrite !(slice_roots batchSize). split.
    + exact (last_take_drop _ _ _ _ Hroot).
    + rewrite head_lookup, lookup_take_lt by lia. rewrite lookup_drop.
      rewrite <- Hroot. f_equal. lia.
Qed.

(** X19.  The final circuit closes the chain.  With at least one nonce
    per epoch, the two roots of the final inputs are the first root of the
    first batch and the last root of the last batch, and the second blinded
    user state is the one the last batch ends in. *)
Theorem transition_final_closes_chain (r : UserState.TransitionInputs) :
  0 < numEpochKeyNoncePerEpoch (settings sync) ->
  UserState.genUserStateTransitionProofs_inputs sync s = inr r ->
  let batches := UserState.processAttestationCircuitInputs r in
  let final := UserState.finalTransitionCircuitInputs r in
  exists (first final_batch : ProcessAttestations.Inputs) (root0 root1 : Z),
    batches !! 0%nat = Some first
    /\ last batches = Some final_batch
    /\ head (ProcessAttestations.intermediate_user_state_tree_roots first)
       = Some root0
    /\ last (ProcessAttestations.intermediate_user_state_tree_roots final_batch)
       = Some root1
    /\ FinalTransition.intermediate_user_state_tree_roots final
       = [root0; root1]
    /\ FinalTransition.blinded_user_state final !! 1%nat
       = outputBlindedUserState final_batch
    /\ outputBlindedUserState final_batch
       = Some (hash5 [identityNullifier (UserState.id s); root1;
                      UserState.latestTransitionedEpoch s;
                      FinalTransition.end_epoch_key_nonce final]).
Proof.
  intros Hn Hr. cbn zeta.
  assert (Hend : FinalTransition.end_epoch_key_nonce
                   (UserState.finalTransitionCircuitInputs r)
                 = numEpochKeyNoncePerEpoch (settings sync) - 1).
  { revert Hr. unfold UserState.genUserStateTransitionProofs_inputs.
    destruct (UserState.hasSignedUp s); [|discriminate].
    destruct (UserState.genGSTree sync _); [discriminate|].
    destruct (genEpochTree sync _); [discriminate|].
    destruct (UserState.noncesLoop _ _ _ _ _); [discriminate|].
    destruct (UserState.batchesLoop _ _ _); [discriminate|].
    now intros [= <-]. }
  destruct (final_arrays r Hr)
    as (a & Hp & ((Hroots & Hlastroot & _) & Hrows & _) & Hfin & Hhead & _
        & _ & Hbus & Hfr).
  destruct (Z.ltb_spec 0 (numEpochKeyNoncePerEpoch (settings sync))); [|lia].
  destruct Hfin as (Hlink & _ & Hlast).
  apply (f_equal length) in Hlink. rewrite length_app in Hlink. cbn in Hlink.
  destruct (UserState.toNonces a) as [|t0 ts] eqn:ET using rev_ind;
    [discriminate|].
  clear IHts. rewrite length_app in Hlink, Hrows. cbn in Hlink, Hrows.
  rewrite last_snoc in Hlast. injection Hlast as ->.
  assert (Hidx : (Z.to_nat NUM_ATTESTATIONS_PER_PROOF * length ts
                  + Z.to_nat NUM_ATTESTATIONS_PER_PROOF)%nat
                 = length (UserState.rows a)) by nia.
  assert (Hout : outputBlindedUserState (UserState.batchInputs s a (length ts))
                 = Some (hash5 [identityNullifier (UserState.id s);
                                smt_root (UserState.fromEpochUserStateTree a);
                                UserState.latestTransitionedEpoch s;
                                numEpochKeyNoncePerEpoch (settings sync) - 1])).
  { unfold outputBlindedUserState. cbn.
    rewrite (slice_roots batchSize), ET, lookup_app_r by lia.
    rewrite Nat.sub_diag. cbn.
    rewrite (last_take_drop _ _ _ (smt_root (UserState.fromEpochUserStateTree a)));
      [reflexivity|].
    rewrite Hidx. exact Hlastroot. }
  exists (UserState.batchInputs s a 0),
    (UserState.batchInputs s a (length ts)),
    (smt_root (UserState.genUserStateTree sync s)),
    (smt_root (UserState.fromEpochUserStateTree a)).
  rewrite Hp, Hfr, Hbus, Hend.
  refine (conj _ (conj _ (conj _ (conj _ (conj eq_refl (conj _ Hout)))))).
  - rewrite list_lookup_fmap, lookup_seq_lt by lia. reflexivity.
  - replace (length (UserState.fromNonces a)) with (S (length ts)) by lia.
    rewrite seq_S, map_app. cbn [map]. now rewrite last_snoc.
  - cbn. rewrite (slice_roots batchSize), head_lookup, lookup_take_lt by lia.
    rewrite lookup_drop, Nat.mul_0_r. exact Hhead.
  - cbn. rewrite (slice_roots batchSize).
    apply last_take_drop. rewrite Hidx. exact Hlastroot.
  - rewrite Hout. reflexivity.
Qed.

(** X20.  No nonce, no transition.  When the settings give no nonce per
    epoch, the loop over the nonces does nothing and the one batch the call
    then assembles starts at nonce 0 and has no [to_nonce] and no
    [hash_chain_starter]: [stringifyBigInts] throws on it.  The call never
    produces inputs, and for a signed-up user whose state refers to what
    the trees hold, in a valid epoch whose epoch tree can be built, its
    failure is that [TypeError]. *)
Theorem transition_without_nonces :
  numEpochKeyNoncePerEpoch (settings sync) <= 0 ->
  inTrees sync s ->
  let r := UserState.genUserStateTransitionProofs_inputs sync s in
  let epoch := UserState.latestTransitionedEpoch s in
  let b := UserState.batchInputs s (initialAcc sync s) 0 in
  (forall i, r <> inr i)
  /\ (UserState.hasSignedUp s = true ->
      validEpoch sync epoch = true ->
      (exists tree, genEpochTree sync epoch = inr tree) ->
      r = inl UndefinedValue)
  /\ ProcessAttestations.from_nonce b = Some 0
  /\ ProcessAttestations.to_nonce b = None
  /\ ProcessAttestations.hash_chain_starter b = None
  /\ UserState.stringifyBigInts b = inl UndefinedValue.
Proof.
  intros Hn _ r epoch b.
  assert (Hrun : forall tree,
            UserState.hasSignedUp s = true ->
            validEpoch sync epoch = true ->
            genEpochTree sync epoch = inr tree ->
            r = inl UndefinedValue).
  { intros tree Hs Hv Ht. subst r epoch.
    unfold UserState.genUserStateTransitionProofs_inputs, UserState.genGSTree.
    rewrite Hs, Hv, Ht.
    pose proof (final_nonces tree) as Hfin. unfold initialAcc in Hfin.
    destruct (UserState.noncesLoop sync s tree (UserState.nonces sync) _)
      as [e|a] eqn:Hloop.
    - exfalso. revert Hloop. unfold UserState.nonces, seqZ.
      replace (Z.to_nat (numEpochKeyNoncePerEpoch (settings sync)))
        with 0%nat by lia.
      discriminate.
    - specialize (Hfin a eq_refl).
      destruct (Z.ltb_spec 0 (numEpochKeyNoncePerEpoch (settings sync)));
        [lia|].
      subst a. reflexivity. }
  split; [|split; [|done]].
  - intros i Hi. subst r epoch.
    destruct (UserState.hasSignedUp s) eqn:Hs.
    2:{ unfold UserState.genUserStateTransitionProofs_inputs in Hi.
        rewrite Hs in Hi. discriminate Hi. }
    destruct (validEpoch sync (UserState.latestTransitionedEpoch s)) eqn:Hv.
    2:{ unfold UserState.genUserStateTransitionProofs_inputs,
          UserState.genGSTree in Hi.
        rewrite Hs, Hv in Hi. discriminate Hi. }
    destruct (genEpochTree sync (UserState.latestTransitionedEpoch s))
      as [e|tree] eqn:Ht.
    2:{ rewrite (Hrun tree eq_refl eq_refl eq_refl) in Hi. discriminate Hi. }
    unfold UserState.genUserStateTransitionProofs_inputs,
      UserState.genGSTree in Hi.
    rewrite Hs, Hv, Ht in Hi. discriminate Hi.
  - intros Hs Hv (tree & Ht). exact (Hrun tree Hs Hv Ht).
Qed.

End TransitionBatches.

(** ** The datastore and the persisted state *)

Section ObjectKeys.

Context {V : Type}.

Lemma get_set (k k' : Z) (v : V) (o : list (Z * V)) :
  JSObject.get k' (JSObject.set k v o)
  = if k =? k' then Some v else JSObject.get k' o.
Proof.
  induction o as [|[k1 v1] o IH]; cbn.
  - reflexivity.
  - destruct (Z.eqb_spec k1 k) as [->|Hk1]; cbn.
    + destruct (k =? k'); reflexivity.
    + rewrite IH. destruct (Z.eqb_spec k1 k') as [->|Hk']; [|reflexivity].
      destruct (Z.eqb_spec k k'); [congruence|reflexivity].
Qed.

Lemma set_keys (k : Z) (v : V) (o : list (Z * V)) :
  map fst (JSObject.set k v o)
  = if bool_decide (k ∈ map fst o) then map fst o else map fst o ++ [k].
Proof.
  induction o as [|[k1 v1] o IH]; cbn.
  - rewrite bool_decide_eq_false_2; [reflexivity|]. apply not_elem_of_nil.
  - destruct (Z.eqb_spec k1 k) as [->|Hk1]; cbn.
    + rewrite bool_decide_eq_true_2; [reflexivity|]. apply elem_of_cons. now left.
    + rewrite IH. destruct (bool_decide (k ∈ map fst o)) eqn:E.
      * apply bool_decide_eq_true in E.
        rewrite bool_decide_eq_true_2; [reflexivity|].
        apply elem_of_cons. now right.
      * apply bool_decide_eq_false in E.
        rewrite bool_decide_eq_false_2; [reflexivity|].
        rewrite elem_of_cons. intros [?|?]; [congruence|contradiction].
Qed.

Lemma set_keys_NoDup (k : Z) (v : V) (o : list (Z * V)) :
  NoDup (map fst o) -> NoDup (map fst (JSObject.set k v o)).
Proof.
  intros Hnd. rewrite set_keys.
  destruct (bool_decide (k ∈ map fst o)) eqn:E; [exact Hnd|].
  apply bool_decide_eq_false in E. apply NoDup_app. split; [exact Hnd|].
  split; [|apply NoDup_singleton].
  intros x Hx Hk. apply list_elem_of_singleton in Hk. congruence.
Qed.

Lemma set_keys_elem (k x : Z) (v : V) (o : list (Z * V)) :
  x ∈ map fst (JSObject.set k v o) <-> x = k \/ x ∈ map fst o.
Proof.
  rewrite set_keys. destruct (bool_decide (k ∈ map fst o)) eqn:E.
  - apply bool_decide_eq_true in E. split; [tauto|]. intros [->|?]; assumption.
  - rewrite elem_of_app, list_elem_of_singleton. tauto.
Qed.

Lemma get_None (k : Z) (o : list (Z * V)) :
  JSObject.get k o = None <-> k ∉ map fst o.
Proof.
  induction o as [|[k1 v1] o IH]; cbn.
  - split; [intros _; apply not_elem_of_nil|reflexivity].
  - rewrite elem_of_cons. destruct (Z.eqb_spec k1 k) as [->|Hk].
    + split; [discriminate|]. intros Hn. exfalso. apply Hn. now left.
    + rewrite IH. split; [|tauto]. intros Hn [?|?]; [congruence|contradiction].
Qed.

Lemma get_Some (k : Z) (v : V) (o : list (Z * V)) :
  NoDup (map fst o) ->
  JSObject.get k o = Some v <-> (k, v) ∈ o.
Proof.
  induction o as [|[k1 v1] o IH]; cbn; intros Hnd.
  - split; [discriminate|]. intros Hin. now apply elem_of_nil in Hin.
  - apply NoDup_cons in Hnd as [Hk1 Hnd]. rewrite elem_of_cons.
    destruct (Z.eqb_spec k1 k) as [->|Hk].
    + split.
      * intros [= ->]. now left.
      * intros [[= ->]|Hin]; [reflexivity|].
        exfalso. apply Hk1. apply list_elem_of_fmap. now exists (k, v).
    + rewrite (IH Hnd). split; [tauto|]. intros [[= ? ?]|?]; [congruence|assumption].
Qed.

Lemma get_perm (k : Z) (o o' : list (Z * V)) :
  NoDup (map fst o) -> o ≡ₚ o' -> JSObject.get k o = JSObject.get k o'.
Proof.
  intros Hnd Hp.
  assert (Hnd' : NoDup (map fst o')).
  { now rewrite <- (Permutation_map fst Hp). }
  destruct (JSObject.get k o) as [v|] eqn:E.
  - symmetry. apply (get_Some _ _ _ Hnd'). rewrite <- Hp.
    now apply (get_Some _ _ _ Hnd).
  - symmetry. apply get_None. apply get_None in E.
    intros Hin. apply E. now rewrite (Permutation_map fst Hp).
Qed.

Lemma entries_keys_NoDup (o : list (Z * V)) :
  NoDup (map fst o) -> NoDup (map fst (JSObject.entries o)).
Proof.
  intros Hnd. now rewrite (Permutation_map fst (entries_perm o)).
Qed.

End ObjectKeys.

Section ObjectOrder.

Context {V : Type}.

Lemma insertByKey_Sorted (kv : Z * V) (l : list (Z * V)) :
  Sorted (fun x y => fst x <= fst y) l ->
  Sorted (fun x y => fst x <= fst y) (JSObject.insertByKey kv l).
Proof.
  induction l as [|x l IH]; cbn; intros Hs.
  - repeat constructor.
  - destruct (Z.ltb_spec (fst kv) (fst x)) as [Hlt|Hge].
    + constructor; [exact Hs|]. constructor. lia.
    + apply Sorted_inv in Hs as [Hs Hhd]. constructor; [exact (IH Hs)|].
      destruct l as [|y l]; cbn.
      * constructor. exact Hge.
      * destruct (fst kv <? fst y); constructor; [exact Hge|].
        now apply HdRel_inv in Hhd.
Qed.

Lemma sortByKey_Sorted (l : list (Z * V)) :
  Sorted Z.le (map fst (JSObject.sortByKey l)).
Proof.
  assert (Hs : Sorted (fun x y : Z * V => fst x <= fst y) (JSObject.sortByKey l)).
  { induction l as [|x l IH]; cbn; [constructor|].
    now apply insertByKey_Sorted. }
  induction Hs as [|x l' Hs IH Hhd]; cbn; constructor; [exact IH|].
  destruct Hhd; cbn; constructor. assumption.
Qed.

Lemma entries_indices (o : list (Z * V)) :
  Forall (fun k => 0 <= k < 2 ^ 32 - 1) (map fst o) ->
  JSObject.entries o = JSObject.sortByKey o.
Proof.
  intros Hall. unfold JSObject.entries.
  assert (Hin : List.filter JSObject.isArrayIndex o = o
                /\ List.filter (fun kv => negb (JSObject.isArrayIndex kv)) o = []).
  { induction o as [|[k v] o IH]; [done|].
    cbn in Hall. apply Forall_cons in Hall as [Hk Hall].
    destruct (IH Hall) as [IH1 IH2].
    assert (Hidx : JSObject.isArrayIndex (k, v) = true).
    { unfold JSObject.isArrayIndex. cbn [fst].
      apply andb_true_intro. split; [apply Z.leb_le|apply Z.ltb_lt]; lia. }
    cbn [List.filter]. rewrite Hidx. cbn [negb]. now rewrite IH1, IH2. }
  destruct Hin as [-> ->]. apply app_nil_r.
Qed.

End ObjectOrder.

Section Datastore.

Context `{Crypto}.
Variable sync : Synchronizer.

Lemma fold_set_keys {V : Type} (v : V) (ks : list Z) :
  forall o : list (Z * V),
    NoDup (map fst o) ->
    let o' := fold_left (fun acc k => JSObject.set k v acc) ks o in
    NoDup (map fst o')
    /\ forall x, x ∈ map fst o' <-> x ∈ map fst o \/ x ∈ ks.
Proof.
  induction ks as [|k ks IH]; intros o Hnd; cbn.
  - split; [exact Hnd|]. intros x. rewrite elem_of_nil. tauto.
  - destruct (IH (JSObject.set k v o) (set_keys_NoDup k v o Hnd)) as [Hnd' Hin].
    split; [exact Hnd'|]. intros x. cbn in Hin. rewrite Hin, set_keys_elem, elem_of_cons.
    tauto.
Qed.

(** X21.  The epoch keys of an epoch, without repetition.
    [getEpochKeys] fails exactly on an invalid epoch; otherwise it returns
    each epoch key that has an attestation record in the epoch once,
    whatever the number of its records, and in ascending order when the
    keys are array indices (below [2 ^ 32 - 1]). *)
Theorem getEpochKeys_distinct (db : Z -> list Z) (epoch : Z) :
  match UserState.getEpochKeys sync db epoch with
  | inl e => e = InvalidEpoch /\ validEpoch sync epoch = false
  | inr keys =>
      validEpoch sync epoch = true
      /\ NoDup keys
      /\ (forall k, k ∈ keys <-> k ∈ db epoch)
      /\ (Forall (fun k => 0 <= k < 2 ^ 32 - 1) (db epoch) ->
          Sorted Z.le keys)
  end.
Proof.
  unfold UserState.getEpochKeys.
  destruct (validEpoch sync epoch); [|done].
  destruct (fold_set_keys true (db epoch) [] (NoDup_nil_2 (A:=Z)))
    as [Hnd Hin].
  cbn zeta in Hnd, Hin.
  set (o := fold_left _ (db epoch) []) in *.
  refine (conj eq_refl (conj _ (conj _ _))).
  - now apply entries_keys_NoDup.
  - intros k. rewrite (Permutation_map fst (entries_perm o)), Hin.
    cbn. rewrite elem_of_nil. tauto.
  - intros Hall. rewrite entries_indices; [apply sortByKey_Sorted|].
    apply Forall_forall. intros k Hk. apply Hin in Hk as [Hk|Hk].
    + now apply elem_of_nil in Hk.
    + rewrite Forall_forall in Hall. now apply Hall.
Qed.

Lemma parse_stringify (atts : list Attestation.t) :
  map (fun parsedAttest =>
         Attestation.mk (Attestation.j_attesterId parsedAttest)
           (Attestation.j_posRep parsedAttest)
           (Attestation.j_negRep parsedAttest)
           (Attestation.j_graffiti parsedAttest)
           (Attestation.j_signUp parsedAttest))
    (map Attestation.stringify atts)
  = atts.
Proof.
  induction atts as [|[] atts IH]; cbn; [reflexivity|]. now rewrite IH.
Qed.

(** The object [toJSON] builds for the snapshot. *)
Lemma snapshot_object (tfa : gmap Z (list Attestation.t)) (epk : Z -> Z)
    (ns : list Z) :
  forall o : list (Z * list Attestation.JSON),
    NoDup (map fst o) ->
    let o' :=
      fold_left
        (fun o nonce =>
           match tfa !! epk nonce with
           | Some attestations =>
               JSObject.set (epk nonce)
                 (map Attestation.stringify attestations) o
           | None => o
           end) ns o in
    NoDup (map fst o')
    /\ forall k,
         JSObject.get k o'
         = match (if bool_decide (k ∈ map epk ns) then tfa !! k else None) with
           | Some atts => Some (map Attestation.stringify atts)
           | None => JSObject.get k o
           end.
Proof.
  induction ns as [|nonce ns IH]; intros o Hnd; cbn zeta.
  - split; [exact Hnd|]. intros k. cbn.
    rewrite bool_decide_eq_false_2; [reflexivity|]. apply not_elem_of_nil.
  - cbn [fold_left map].
    set (o1 := match tfa !! epk nonce with Some _ => _ | None => o end).
    assert (Hnd1 : NoDup (map fst o1)).
    { subst o1. destruct (tfa !! epk nonce); [|exact Hnd].
      now apply set_keys_NoDup. }
    destruct (IH o1 Hnd1) as [Hnd' Hget]. split; [exact Hnd'|].
    intros k. rewrite Hget.
    assert (Ho1 : JSObject.get k o1
                  = if epk nonce =? k
                    then match tfa !! k with
                         | Some atts => Some (map Attestation.stringify atts)
                         | None => JSObject.get k o
                         end
                    else JSObject.get k o).
    { subst o1. destruct (Z.eqb_spec (epk nonce) k) as [<-|Hne].
      - destruct (tfa !! epk nonce); [|reflexivity].
        now rewrite get_set, Z.eqb_refl.
      - destruct (tfa !! epk nonce); [|reflexivity].
        rewrite get_set. now destruct (Z.eqb_spec (epk nonce) k). }
    rewrite Ho1. clear Ho1.
    destruct (Z.eqb_spec (epk nonce) k) as [Heq|Hne].
    + rewrite (bool_decide_eq_true_2 (k ∈ epk nonce :: map epk ns))
        by (apply elem_of_cons; now left).
      destruct (bool_decide _); destruct (tfa !! k); reflexivity.
    + destruct (bool_decide (k ∈ map epk ns)) eqn:E.
      * apply bool_decide_eq_true in E.
        rewrite bool_decide_eq_true_2; [reflexivity|].
        apply elem_of_cons. now right.
      * apply bool_decide_eq_false in E.
        rewrite bool_decide_eq_false_2; [reflexivity|].
        rewrite elem_of_cons. intros [?|?]; [congruence|contradiction].
Qed.

(** The map [fromJSON] builds from an object. *)
Lemma fold_insert_lookup {A B : Type} (f : A -> B) (l : list (Z * A)) :
  forall (m : gmap Z B) (k : Z),
    NoDup (map fst l) ->
    fold_left (fun (m : gmap Z B) '(key, x) => <[key := f x]> m) l m !! k
    = match JSObject.get k l with
      | Some x => Some (f x)
      | None => m !! k
      end.
Proof.
  induction l as [|[k1 x1] l IH]; intros m k Hnd; cbn; [reflexivity|].
  apply NoDup_cons in Hnd as [Hk1 Hnd]. rewrite (IH _ _ Hnd).
  destruct (Z.eqb_spec k1 k) as [->|Hne].
  - cbn [fst] in Hk1. apply get_None in Hk1. rewrite Hk1.
    apply lookup_insert_eq.
  - destruct (JSObject.get k l); [reflexivity|].
    now apply lookup_insert_ne.
Qed.

(** X22.  The persisted snapshot.  Reading back what [toJSON] wrote
    gives a state whose staged state is empty and whose snapshot of
    attestations holds exactly the entries of the original snapshot under
    the epoch keys [toJSON] computes for the latest transitioned epoch:
    every other entry is dropped. *)
Theorem fromJSON_toJSON_snapshot (s : UserState.t) :
  exists s' : UserState.t,
    UserState.fromJSON (UserState.id s) (UserState.toJSON sync s) = inr s'
    /\ UserState.newUserState s' = clearedStage
    /\ UserState.id s' = UserState.id s
    /\ UserState.commitment s' = genIdentityCommitment (UserState.id s)
    /\ forall k : Z,
         UserState.transitionedFromAttestations s' !! k
         = if bool_decide
                (k ∈ map (fun nonce =>
                            genEpochKey (identityNullifier (UserState.id s))
                              (UserState.latestTransitionedEpoch s) nonce None)
                       (UserState.nonces sync))
           then UserState.transitionedFromAttestations s !! k
           else None.
Proof.
  unfold UserState.fromJSON, UserState.new. eexists. split; [reflexivity|].
  refine (conj eq_refl (conj eq_refl (conj eq_refl _))).
  intros k. cbn [UserState.transitionedFromAttestations default].
  unfold id.
  set (obj := IUserState.transitionedFromAttestations (UserState.toJSON sync s)).
  set (epk := fun nonce =>
                genEpochKey (identityNullifier (UserState.id s))
                  (UserState.latestTransitionedEpoch s) nonce None).
  assert (Hobj : NoDup (map fst obj)
                 /\ forall k,
                      JSObject.get k obj
                      = match (if bool_decide (k ∈ map epk (UserState.nonces sync))
                               then UserState.transitionedFromAttestations s !! k
                               else None) with
                        | Some atts => Some (map Attestation.stringify atts)
                        | None => None
                        end).
  { exact (snapshot_object (UserState.transitionedFromAttestations s) epk
             (UserState.nonces sync) [] (NoDup_nil_2 (A:=Z))). }
  destruct Hobj as [Hnd Hget].
  rewrite (fold_insert_lookup
             (map (fun parsedAttest =>
                     Attestation.mk (Attestation.j_attesterId parsedAttest)
                       (Attestation.j_posRep parsedAttest)
                       (Attestation.j_negRep parsedAttest)
                       (Attestation.j_graffiti parsedAttest)
                       (Attestation.j_signUp parsedAttest))))
    by (now apply entries_keys_NoDup).
  rewrite (get_perm k _ _ (entries_keys_NoDup _ Hnd) (entries_perm _)), Hget.
  destruct (bool_decide _); [|now rewrite lookup_empty].
  destruct (UserState.transitionedFromAttestations s !! k) as [atts|];
    [|now rewrite lookup_empty].
  now rewrite parse_stringify.
Qed.

End Datastore.

(** ** The answers of the prover *)

Section Decoding.

Context `{Crypto}.
Variable sync : Synchronizer.

Lemma Array_slice_inside {A : Type} (l : list A) (start stop : Z) :
  0 <= start <= stop -> stop <= Z.of_nat (length l) ->
  UserState.Array_slice l start stop
  = take (Z.to_nat stop - Z.to_nat start) (drop (Z.to_nat start) l).
Proof.
  intros Hs Hl. unfold UserState.Array_slice.
  destruct (Z.ltb_spec stop 0); [lia|].
  destruct (Z.ltb_spec start 0); [lia|].
  rewrite !Z.min_l by lia. f_equal. lia.
Qed.

Lemma signalAt_inside (l : list Z) (i : Z) :
  0 <= i < Z.of_nat (length l) ->
  exists x, UserState.signalAt l i = Some x
            /\ drop (Z.to_nat i) l = x :: drop (S (Z.to_nat i)) l.
Proof.
  intros Hi. unfold UserState.signalAt.
  destruct (Z.ltb_spec i 0); [lia|].
  destruct (lookup_lt_is_Some_2 l (Z.to_nat i) ltac:(lia)) as [x Hx].
  exists x. split; [exact Hx|]. now apply drop_S.
Qed.

Lemma take_then_drop {A : Type} (l : list A) (i j : nat) :
  (i <= j)%nat -> drop i l = take (j - i) (drop i l) ++ drop j l.
Proof.
  intros Hij. rewrite <- (take_drop (j - i) (drop i l)) at 1.
  rewrite drop_drop. do 2 f_equal. lia.
Qed.

(** X23.  The signals of the final proof, field by field.  When the
    prover returns the [6 + 2 n] public signals of the final circuit, for
    [n] nonces per epoch, the fields of [finalTransitionProof] are the
    signals in order, each signal in exactly one field: the new leaf, [n]
    epoch key nullifiers, the epoch, two blinded user states, the root of
    the global state tree, [n] blinded hash chains and the root of the
    epoch tree. *)
Theorem decodeFinalTransition_partitions (proof : SnarkProof)
    (publicSignals : list Z) :
  let n := numEpochKeyNoncePerEpoch (settings sync) in
  0 <= n ->
  Z.of_nat (length publicSignals) = 6 + 2 * n ->
  let f := UserState.decodeFinalTransition sync proof publicSignals in
  exists leaf epoch gstRoot epochTree : Z,
    TransitionProofs.newGlobalStateTreeLeaf f = Some leaf
    /\ TransitionProofs.transitionedFromEpoch f = Some epoch
    /\ TransitionProofs.fromGSTRoot f = Some gstRoot
    /\ TransitionProofs.fromEpochTree f = Some epochTree
    /\ length (TransitionProofs.epochKeyNullifiers f) = Z.to_nat n
    /\ length (TransitionProofs.blindedUserStates f) = 2%nat
    /\ length (TransitionProofs.blindedHashChains f) = Z.to_nat n
    /\ publicSignals
       = [leaf] ++ TransitionProofs.epochKeyNullifiers f ++ [epoch]
         ++ TransitionProofs.blindedUserStates f ++ [gstRoot]
         ++ TransitionProofs.blindedHashChains f ++ [epochTree].
Proof.
  intros n Hn Hlen. cbn zeta. unfold UserState.decodeFinalTransition.
  fold n.
  cbn [TransitionProofs.newGlobalStateTreeLeaf
         TransitionProofs.transitionedFromEpoch TransitionProofs.fromGSTRoot
         TransitionProofs.fromEpochTree TransitionProofs.epochKeyNullifiers
         TransitionProofs.blindedUserStates TransitionProofs.blindedHashChains].
  destruct (signalAt_inside publicSignals 0 ltac:(lia)) as (leaf & -> & H0).
  destruct (signalAt_inside publicSignals (1 + n) ltac:(lia))
    as (epoch & -> & H1).
  destruct (signalAt_inside publicSignals (4 + n) ltac:(lia))
    as (gst & -> & H4).
  destruct (signalAt_inside publicSignals (5 + 2 * n) ltac:(lia))
    as (tree & -> & H5).
  rewrite !Array_slice_inside by lia.
  exists leaf, epoch, gst, tree.
  refine (conj eq_refl (conj eq_refl (conj eq_refl (conj eq_refl _)))).
  rewrite !length_take, !length_drop.
  refine (conj _ (conj _ (conj _ _))); try lia.
  rewrite drop_0 in H0.
  change (S (Z.to_nat 0)) with (Z.to_nat 1) in H0.
  replace (S (Z.to_nat (1 + n))) with (Z.to_nat (2 + n)) in H1 by lia.
  replace (S (Z.to_nat (4 + n))) with (Z.to_nat (5 + n)) in H4 by lia.
  rewrite (drop_ge publicSignals (S (Z.to_nat (5 + 2 * n)))) in H5 by lia.
  cbn [app].
  etransitivity; [exact H0|]. f_equal.
  etransitivity;
    [exact (take_then_drop publicSignals (Z.to_nat 1) (Z.to_nat (1 + n))
              ltac:(lia))|].
  f_equal. etransitivity; [exact H1|]. f_equal.
  etransitivity;
    [exact (take_then_drop publicSignals (Z.to_nat (2 + n))
              (Z.to_nat (4 + n)) ltac:(lia))|].
  f_equal. etransitivity; [exact H4|]. f_equal.
  etransitivity;
    [exact (take_then_drop publicSignals (Z.to_nat (5 + n))
              (Z.to_nat (5 + 2 * n)) ltac:(lia))|].
  f_equal. exact H5.
Qed.

Variable prove : ProveReputation.Inputs -> Error + (SnarkProof * list Z).

(** X24.  The signals of a reputation proof, field by field.  A call
    that returns has passed the checks and holds the prover's answer to the
    inputs they produce; when that answer has the
    [maxReputationBudget + 8] public signals of the circuit, the fields of
    the result are the signals in order, each signal in exactly one
    field: the reputation nullifiers, then the epoch, the epoch key, the
    root of the global state tree, the attester, the amount, the minimum
    reputation, the graffiti flag and the graffiti pre-image. *)
Theorem genProveReputationProof_result_partitions (s : UserState.t) (a k : Z)
    (minRep pg gpi : option Z) (nonceList : option (list Z))
    (res : ProveReputation.Result) :
  UserState.genProveReputationProof sync prove s a k minRep pg gpi nonceList
  = inr res ->
  length (ProveReputation.publicSignals res)
  = (Z.to_nat (maxReputationBudget (settings sync)) + 8)%nat ->
  (exists i,
     UserState.genProveReputationProof_inputs sync s a k minRep pg gpi
       nonceList = inr i
     /\ prove i
        = inr (ProveReputation.proof res, ProveReputation.publicSignals res))
  /\ length (ProveReputation.reputationNullifiers res)
     = Z.to_nat (maxReputationBudget (settings sync))
  /\ exists epoch epochKey root attester amount least flag preImage : Z,
       ProveReputation.r_epoch res = Some epoch
       /\ ProveReputation.r_epochKey res = Some epochKey
       /\ ProveReputation.globalStatetreeRoot res = Some root
       /\ ProveReputation.r_attesterId res = Some attester
       /\ ProveReputation.proveReputationAmount res = Some amount
       /\ ProveReputation.r_minRep res = Some least
       /\ ProveReputation.proveGraffiti res = Some flag
       /\ ProveReputation.graffitiPreImage res = Some preImage
       /\ ProveReputation.publicSignals res
          = ProveReputation.reputationNullifiers res
            ++ [epoch; epochKey; root; attester; amount; least; flag;
                preImage].
Proof.
  unfold UserState.genProveReputationProof.
  destruct (UserState.genProveReputationProof_inputs sync s a k minRep pg gpi
              nonceList) as [e|i]; [discriminate|].
  destruct (prove i) as [e|[proof signals]] eqn:Ep; [discriminate|].
  intros [= <-]. cbn. intros Hlen.
  set (b := Z.to_nat (maxReputationBudget (settings sync))) in *.
  split; [now exists i|]. split; [rewrite length_take; lia|].
  assert (Hdrop : length (drop b signals) = 8%nat)
    by (rewrite length_drop; lia).
  assert (Hat : forall j, signals !! (b + j)%nat = drop b signals !! j)
    by (intros j; now rewrite lookup_drop).
  assert (Hat0 : signals !! b = drop b signals !! 0%nat)
    by (rewrite lookup_drop; f_equal; lia).
  assert (Hsplit : signals = take b signals ++ drop b signals)
    by (symmetry; apply take_drop).
  rewrite Hat0, !Hat. clearbody b.
  destruct (drop b signals) as [|x0 [|x1 [|x2 [|x3 [|x4 [|x5 [|x6 [|x7 [|]]]]]]]]];
    try discriminate.
  exists x0, x1, x2, x3, x4, x5, x6, x7. repeat split. exact Hsplit.
Qed.

Variable proveStart : StartTransition.Inputs -> Error + (SnarkProof * list Z).
Variable proveProcess :
  ProcessAttestations.Inputs -> Error + (SnarkProof * list Z).
Variable proveFinal : FinalTransition.Inputs -> Error + (SnarkProof * list Z).

Lemma proveBatches_spec (inputs : list ProcessAttestations.Inputs) :
  match UserState.proveBatches proveProcess inputs with
  | inr proofs =>
      length proofs = length inputs
      /\ forall (i : nat) (p : TransitionProofs.Process),
           proofs !! i = Some p ->
           exists b, inputs !! i = Some b
                     /\ proveProcess b
                        = inr (TransitionProofs.p_proof p,
                               TransitionProofs.p_publicSignals p)
  | inl e =>
      exists (i : nat) (b : ProcessAttestations.Inputs),
        inputs !! i = Some b /\ proveProcess b = inl e
        /\ forall (j : nat) (b' : ProcessAttestations.Inputs),
             (j < i)%nat -> inputs !! j = Some b' ->
             succeeds (proveProcess b') = true
  end.
Proof.
  induction inputs as [|b rest IH]; cbn.
  - split; [reflexivity|]. intros i p Hp. discriminate.
  - destruct (proveProcess b) as [e|[proof signals]] eqn:E.
    + exists 0%nat, b. repeat split; [exact E|]. intros j b' Hj. lia.
    + destruct (UserState.proveBatches proveProcess rest) as [e|proofs].
      * destruct IH as (i & b0 & Hi & He & Hbefore).
        exists (S i), b0. repeat split; try assumption.
        intros [|j] b' Hj Hb'; cbn in Hb'.
        -- injection Hb' as <-. now rewrite E.
        -- apply (Hbefore j b'); [lia|exact Hb'].
      * destruct IH as [Hlen Hall]. cbn. split; [now rewrite Hlen|].
        intros [|i] p Hp; cbn in Hp.
        -- injection Hp as <-. exists b. cbn. split; [reflexivity|exact E].
        -- exact (Hall i p Hp).
Qed.

(** X25.  One proof per batch.  [genUserStateTransitionProofs] returns
    when its inputs can be assembled and the prover accepts the start
    inputs, every batch and the final inputs; it then holds one
    process-attestations proof per batch, in the order of the batches, each
    the prover's answer to its batch. *)
Theorem genUserStateTransitionProofs_per_batch (s : UserState.t)
    (result : TransitionProofs.t) :
  UserState.genUserStateTransitionProofs sync proveStart proveProcess
    proveFinal s = inr result ->
  exists inputs : UserState.TransitionInputs,
    UserState.genUserStateTransitionProofs_inputs sync s = inr inputs
    /\ length (TransitionProofs.processAttestationProofs result)
       = length (UserState.processAttestationCircuitInputs inputs)
    /\ (forall (i : nat) (p : TransitionProofs.Process),
          TransitionProofs.processAttestationProofs result !! i = Some p ->
          exists b,
            UserState.processAttestationCircuitInputs inputs !! i = Some b
            /\ proveProcess b
               = inr (TransitionProofs.p_proof p,
                      TransitionProofs.p_publicSignals p))
    /\ proveFinal (UserState.finalTransitionCircuitInputs inputs)
       = inr (TransitionProofs.f_proof
                (TransitionProofs.finalTransitionProof result),
              TransitionProofs.f_publicSignals
                (TransitionProofs.finalTransitionProof result)).
Proof.
  unfold UserState.genUserStateTransitionProofs.
  destruct (UserState.genUserStateTransitionProofs_inputs sync s)
    as [e|inputs]; [discriminate|].
  destruct (proveStart _) as [e|[startProof startSignals]]; [discriminate|].
  pose proof (proveBatches_spec
                (UserState.processAttestationCircuitInputs inputs)) as Hb.
  destruct (UserState.proveBatches proveProcess _) as [e|proofs];
    [discriminate|].
  destruct (proveFinal _) as [e|[finalProof finalSignals]] eqn:Ef;
    [discriminate|].
  intros [= <-]. exists inputs. cbn. destruct Hb as [Hlen Hall].
  repeat split; assumption.
Qed.

End Decoding.

(** ** The sample transition *)

(** The transition of the sample user, once the chain is in epoch 2: three
    attestations under the key of nonce 0, none under that of nonce 1. *)
Lemma sample_transition_runs :
  succeeds
    (UserState.genUserStateTransitionProofs_inputs (Sample.sync 2 [])
       Sample.signedUp) = true.
Proof. vm_compute. reflexivity. Qed.

(** Every check of the transition holds of the sample user: the inputs
    are assembled. *)
Lemma genUserStateTransitionProofs_inputs_iff_witness :
  exists i,
    UserState.genUserStateTransitionProofs_inputs (Sample.sync 2 [])
      Sample.signedUp
    = inr i.
Proof.
  pose proof (genUserStateTransitionProofs_inputs_iff (Sample.sync 2 [])
                Sample.signedUp (signedUp_inTrees 2 [])) as Hiff.
  cbv zeta in Hiff. destruct Hiff as [[_ Hpass] _]. apply Hpass.
  split; [reflexivity|]. split; [reflexivity|].
  split; [eexists; reflexivity|].
  split; [repeat constructor|]. split; [repeat constructor|]. reflexivity.
Defined.

(** Its last batch ends at nonce 1. *)
Lemma transition_batches_follow_nonces_witness :
  match
    UserState.genUserStateTransitionProofs_inputs (Sample.sync 2 [])
      Sample.signedUp
  with
  | inl _ => False
  | inr r =>
      exists b : ProcessAttestations.Inputs,
        last (UserState.processAttestationCircuitInputs r) = Some b
        /\ ProcessAttestations.to_nonce b = Some 1
  end.
Proof.
  pose proof sample_transition_runs as Hok.
  destruct (UserState.genUserStateTransitionProofs_inputs (Sample.sync 2 [])
              Sample.signedUp) as [e|r] eqn:E.
  - discriminate Hok.
  - exact (proj2 (transition_batches_follow_nonces (Sample.sync 2 [])
                    Sample.signedUp r eq_refl E)).
Defined.

(** Its rows carry the three attestations, each with the reputation
    before it. *)
Lemma transition_rows_in_order_witness :
  match
    UserState.genUserStateTransitionProofs_inputs (Sample.sync 2 [])
      Sample.signedUp
  with
  | inl _ => False
  | inr r =>
      let real :=
        List.filter isReal
          (concat
             (map ProcessAttestations.rows
                (UserState.processAttestationCircuitInputs r))) in
      map attestationOfRow real = Sample.attestationsOf 111
      /\ map oldReputationOfRow real
         = [Reputation.mk 5 0 0 1; Reputation.default; Reputation.mk 8 0 0 1]
  end.
Proof.
  pose proof sample_transition_runs as Hok.
  destruct (UserState.genUserStateTransitionProofs_inputs (Sample.sync 2 [])
              Sample.signedUp) as [e|r] eqn:E.
  - discriminate Hok.
  - exact (transition_rows_in_order (Sample.sync 2 []) Sample.signedUp
             eq_refl r E).
Defined.

(** It takes three batches of two rows. *)
Lemma transition_batches_are_full_witness :
  match
    UserState.genUserStateTransitionProofs_inputs (Sample.sync 2 [])
      Sample.signedUp
  with
  | inl _ => False
  | inr r =>
      2 * Z.of_nat (length (UserState.processAttestationCircuitInputs r)) = 6
  end.
Proof.
  pose proof sample_transition_runs as Hok.
  destruct (UserState.genUserStateTransitionProofs_inputs (Sample.sync 2 [])
              Sample.signedUp) as [e|r] eqn:E.
  - discriminate Hok.
  - exact (proj2 (transition_batches_are_full (Sample.sync 2 [])
                    Sample.signedUp eq_refl r eq_refl E)).
Defined.

(** Its first batch starts from the committed root. *)
Lemma transition_roots_chain_witness :
  match
    UserState.genUserStateTransitionProofs_inputs (Sample.sync 2 [])
      Sample.signedUp
  with
  | inl _ => False
  | inr r =>
      exists b,
        UserState.processAttestationCircuitInputs r !! 0%nat = Some b
        /\ head (ProcessAttestations.intermediate_user_state_tree_roots b)
           = Some (@smt_root Sample.crypto
                     (UserState.genUserStateTree (Sample.sync 2 [])
                        Sample.signedUp))
  end.
Proof.
  pose proof sample_transition_runs as Hok.
  destruct (UserState.genUserStateTransitionProofs_inputs (Sample.sync 2 [])
              Sample.signedUp) as [e|r] eqn:E.
  - discriminate Hok.
  - exact (proj1 (transition_roots_chain (Sample.sync 2 []) Sample.signedUp
                    eq_refl r E)).
Defined.

(** Its final inputs take the blinded user state of the last batch. *)
Lemma transition_final_closes_chain_witness :
  match
    UserState.genUserStateTransitionProofs_inputs (Sample.sync 2 [])
      Sample.signedUp
  with
  | inl _ => False
  | inr r =>
      exists final_batch : ProcessAttestations.Inputs,
        last (UserState.processAttestationCircuitInputs r) = Some final_batch
        /\ FinalTransition.blinded_user_state
             (UserState.finalTransitionCircuitInputs r) !! 1%nat
           = outputBlindedUserState final_batch
  end.
Proof.
  pose proof sample_transition_runs as Hok.
  destruct (UserState.genUserStateTransitionProofs_inputs (Sample.sync 2 [])
              Sample.signedUp) as [e|r] eqn:E.
  - discriminate Hok.
  - destruct (transition_final_closes_chain (Sample.sync 2 []) Sample.signedUp
                eq_refl r eq_refl E)
      as (first & final_batch & root0 & root1 & _ & Hlast & _ & _ & _ & Hb & _).
    exists final_batch. split; [exact Hlast|exact Hb].
Defined.

(** Its final inputs hold one blinded hash chain per nonce. *)
Lemma transition_final_per_nonce_witness :
  match
    UserState.genUserStateTransitionProofs_inputs (Sample.sync 2 [])
      Sample.signedUp
  with
  | inl _ => False
  | inr r =>
      length
        (FinalTransition.blinded_hash_chain_results
           (UserState.finalTransitionCircuitInputs r)) = 2%nat
  end.
Proof.
  pose proof sample_transition_runs as Hok.
  destruct (UserState.genUserStateTransitionProofs_inputs (Sample.sync 2 [])
              Sample.signedUp) as [e|r] eqn:E.
  - discriminate Hok.
  - destruct (transition_final_per_nonce (Sample.sync 2 []) Sample.signedUp
                r E) as (tree & _ & _ & _ & Hlen & _).
    exact Hlen.
Defined.

(** The roots it goes from and to. *)
Lemma transition_final_root_witness :
  match
    UserState.genUserStateTransitionProofs_inputs (Sample.sync 2 [])
      Sample.signedUp
  with
  | inl _ => False
  | inr r =>
      FinalTransition.intermediate_user_state_tree_roots
        (UserState.finalTransitionCircuitInputs r)
      = [@smt_root Sample.crypto [(1, 12)];
         @smt_root Sample.crypto [(1, 21); (2, 59)]]
  end.
Proof.
  pose proof sample_transition_runs as Hok.
  destruct (UserState.genUserStateTransitionProofs_inputs (Sample.sync 2 [])
              Sample.signedUp) as [e|r] eqn:E.
  - discriminate Hok.
  - exact (transition_final_root (Sample.sync 2 []) Sample.signedUp r E).
Defined.

(** The same user under settings without nonces. *)
Lemma transition_without_nonces_witness :
  UserState.genUserStateTransitionProofs_inputs Sample.syncWithoutNonces
    Sample.signedUp
  = inl UndefinedValue.
Proof.
  pose proof (transition_without_nonces Sample.syncWithoutNonces
                Sample.signedUp ltac:(cbn; lia)
                signedUp_inTrees_withoutNonces) as Hthrows.
  cbv zeta in Hthrows. destruct Hthrows as (_ & Hthrows & _).
  apply Hthrows; [reflexivity|reflexivity|].
  eexists. reflexivity.
Defined.

(** Ten signals, for two nonces per epoch. *)
Lemma decodeFinalTransition_partitions_witness :
  let f :=
    UserState.decodeFinalTransition (Sample.sync 2 []) tt
      [10; 11; 12; 13; 14; 15; 16; 17; 18; 19] in
  TransitionProofs.epochKeyNullifiers f = [11; 12]
  /\ TransitionProofs.blindedUserStates f = [14; 15]
  /\ TransitionProofs.blindedHashChains f = [17; 18]
  /\ exists leaf epoch gstRoot epochTree : Z,
       [10; 11; 12; 13; 14; 15; 16; 17; 18; 19]
       = [leaf] ++ TransitionProofs.epochKeyNullifiers f ++ [epoch]
         ++ TransitionProofs.blindedUserStates f ++ [gstRoot]
         ++ TransitionProofs.blindedHashChains f ++ [epochTree].
Proof.
  cbv zeta. split; [reflexivity|]. split; [reflexivity|].
  split; [reflexivity|].
  destruct (@decodeFinalTransition_partitions Sample.crypto (Sample.sync 2 [])
              tt [10; 11; 12; 13; 14; 15; 16; 17; 18; 19]
              ltac:(cbn; lia) eq_refl)
    as (leaf & epoch & gst & tree & _ & _ & _ & _ & _ & _ & _ & Hall).
  exists leaf, epoch, gst, tree. exact Hall.
Defined.

(** A reputation proof of the sample user answered with eleven signals,
    for a budget of three. *)
Lemma genProveReputationProof_result_partitions_witness :
  match
    UserState.genProveReputationProof (Sample.sync 2 [])
      (Sample.answering [1; 2; 3; 4; 5; 6; 7; 8; 9; 10; 11])
      Sample.signedUp 1 0 None None None (Some [0; 1; -1])
  with
  | inl _ => False
  | inr res =>
      length (ProveReputation.reputationNullifiers res) = 3%nat
      /\ exists epoch epochKey root attester amount least flag preImage : Z,
           ProveReputation.publicSignals res
           = ProveReputation.reputationNullifiers res
             ++ [epoch; epochKey; root; attester; amount; least; flag;
                 preImage]
  end.
Proof.
  assert (Hok : succeeds
                  (UserState.genProveReputationProof (Sample.sync 2 [])
                     (Sample.answering [1; 2; 3; 4; 5; 6; 7; 8; 9; 10; 11])
                     Sample.signedUp 1 0 None None None (Some [0; 1; -1]))
                = true /\
                match UserState.genProveReputationProof (Sample.sync 2 [])
                     (Sample.answering [1; 2; 3; 4; 5; 6; 7; 8; 9; 10; 11])
                     Sample.signedUp 1 0 None None None (Some [0; 1; -1])
                with
                | inl _ => True
                | inr res => length (ProveReputation.publicSignals res) = 11%nat
                end)
    by (vm_compute; split; reflexivity).
  destruct Hok as [Hok Hlen].
  destruct (UserState.genProveReputationProof (Sample.sync 2 [])
              (Sample.answering [1; 2; 3; 4; 5; 6; 7; 8; 9; 10; 11])
              Sample.signedUp 1 0 None None None (Some [0; 1; -1]))
    as [e|res] eqn:E.
  - discriminate Hok.
  - destruct (genProveReputationProof_result_partitions (Sample.sync 2 [])
                (Sample.answering [1; 2; 3; 4; 5; 6; 7; 8; 9; 10; 11])
                Sample.signedUp 1 0 None None None (Some [0; 1; -1]) res E Hlen)
      as (_ & Hn & e & ek & root & att & amount & least & flag & pre
          & _ & _ & _ & _ & _ & _ & _ & _ & Hall).
    split; [exact Hn|].
    exists e, ek, root, att, amount, least, flag, pre. exact Hall.
Defined.

(** The sample transition with a prover that accepts every input. *)
Lemma genUserStateTransitionProofs_per_batch_witness :
  match
    UserState.genUserStateTransitionProofs (Sample.sync 2 [])
      (Sample.answering [1; 2; 3]) (Sample.answering [4; 5; 6])
      (Sample.answering [10; 11; 12; 13; 14; 15; 16; 17; 18; 19])
      Sample.signedUp
  with
  | inl _ => False
  | inr result =>
      exists inputs : UserState.TransitionInputs,
        UserState.genUserStateTransitionProofs_inputs (Sample.sync 2 [])
          Sample.signedUp = inr inputs
        /\ length (TransitionProofs.processAttestationProofs result)
           = length (UserState.processAttestationCircuitInputs inputs)
  end.
Proof.
  assert (Hok : succeeds
                  (UserState.genUserStateTransitionProofs (Sample.sync 2 [])
                     (Sample.answering [1; 2; 3])
                     (Sample.answering [4; 5; 6])
                     (Sample.answering
                        [10; 11; 12; 13; 14; 15; 16; 17; 18; 19])
                     Sample.signedUp) = true)
    by (vm_compute; reflexivity).
  destruct (UserState.genUserStateTransitionProofs (Sample.sync 2 [])
              (Sample.answering [1; 2; 3]) (Sample.answering [4; 5; 6])
              (Sample.answering [10; 11; 12; 13; 14; 15; 16; 17; 18; 19])
              Sample.signedUp) as [e|result] eqn:E.
  - discriminate Hok.
  - destruct (genUserStateTransitionProofs_per_batch (Sample.sync 2 [])
                (Sample.answering [1; 2; 3]) (Sample.answering [4; 5; 6])
                (Sample.answering [10; 11; 12; 13; 14; 15; 16; 17; 18; 19])
                Sample.signedUp result E)
      as (inputs & Hi & Hlen & _).
    exists inputs. split; [exact Hi|exact Hlen].
Defined.

(** ** The hash chain through the batches *)

Section Starters.

Context `{Crypto}.
Variable sync : Synchronizer.
Variable s : UserState.t.
Variable start : Z.
Hypothesis batchSize : 0 < NUM_ATTESTATIONS_PER_PROOF.

(** A link between two closed batches stays when the arrays grow. *)
Lemma starterLinkedAt_extend (a a' : UserState.Acc) (j : nat) :
  UserState.toNonces a `prefix_of` UserState.toNonces a' ->
  UserState.hashChainStarter a `prefix_of` UserState.hashChainStarter a' ->
  UserState.rows a `prefix_of` UserState.rows a' ->
  (S j < length (UserState.toNonces a))%nat ->
  length (UserState.hashChainStarter a) = length (UserState.toNonces a) ->
  (Z.to_nat NUM_ATTESTATIONS_PER_PROOF * S j <= length (UserState.rows a))%nat ->
  starterLinkedAt a j -> starterLinkedAt a' j.
Proof.
  intros [t1 Ht] [s1 Hs] [r1 Hr] Hj Hlen Hrows Hlink t t' h h'.
  unfold rowsOfBatch. rewrite Ht, Hs, Hr.
  rewrite !lookup_app_l by lia.
  rewrite drop_app_le by lia. rewrite take_app_le.
  2:{ rewrite length_drop. lia. }
  apply Hlink.
Qed.

Lemma starters_extend (a a' : UserState.Acc) :
  UserState.toNonces a' = UserState.toNonces a ->
  UserState.hashChainStarter a' = UserState.hashChainStarter a ->
  UserState.rows a `prefix_of` UserState.rows a' ->
  (Z.to_nat NUM_ATTESTATIONS_PER_PROOF * (length (UserState.toNonces a) - 1)
   <= length (UserState.rows a))%nat ->
  starters a -> starters a'.
Proof.
  intros Ht Hs Hr Hrows (Hlen & Hhead & Hlinks).
  refine (conj _ (conj _ _)).
  - now rewrite Ht, Hs.
  - now rewrite Hs.
  - rewrite Ht. intros j Hj.
    apply (starterLinkedAt_extend a a' j); rewrite ?Ht, ?Hs; try done.
    + etransitivity; [|exact Hrows]. nia.
    + now apply Hlinks.
Qed.

Lemma chainOver_snoc (atts : list Attestation.t) (att : Attestation.t)
    (h : Z) :
  chainOver (atts ++ [att]) h
  = hashLeftRight (attestation_hash att) (chainOver atts h).
Proof. unfold chainOver. now rewrite fold_left_app. Qed.

Lemma attestationsOfRows_snoc (rows : list ProcessAttestations.Row)
    (row : ProcessAttestations.Row) :
  attestationsOfRows (rows ++ [row])
  = attestationsOfRows rows
    ++ (if isReal row then [attestationOfRow row] else []).
Proof.
  unfold attestationsOfRows. rewrite List.filter_app, map_app. cbn.
  now destruct (isReal row).
Qed.

Lemma pushAttestation_real (att : Attestation.t) (a : UserState.Acc) :
  exists row,
    UserState.rows (UserState.pushAttestation s att a) = UserState.rows a ++ [row]
    /\ attestationOfRow row = att
    /\ isReal row = true.
Proof.
  eexists. split; [reflexivity|]. split; [|reflexivity].
  unfold attestationOfRow. cbn. now destruct att.
Qed.

Lemma starters_pushAttestation (m h : Z) (att : Attestation.t)
    (a : UserState.Acc) :
  startersWithin m h a ->
  startersWithin m (hashLeftRight (attestation_hash att) h)
    (UserState.pushAttestation s att a).
Proof.
  intros (Hst & Hlast & Hbound & h0 & Hh0 & Hh).
  destruct (pushAttestation_real att a) as (row & Hrows & Hatt & Hreal).
  unfold startersWithin. rewrite Hrows.
  change (UserState.toNonces (UserState.pushAttestation s att a))
    with (UserState.toNonces a).
  change (UserState.hashChainStarter (UserState.pushAttestation s att a))
    with (UserState.hashChainStarter a).
  refine (conj _ (conj Hlast (conj _ _))).
  - apply (starters_extend a); try done.
    rewrite Hrows. now apply prefix_app_r.
  - rewrite length_app. lia.
  - exists h0. split; [exact Hh0|].
    rewrite drop_app_le by exact Hbound.
    rewrite attestationsOfRows_snoc, Hreal, Hatt, chainOver_snoc.
    now rewrite <- Hh.
Qed.

Lemma starters_pushBlank (m h : Z) (a : UserState.Acc) :
  startersWithin m h a -> startersWithin m h (UserState.pushBlank a).
Proof.
  intros (Hst & Hlast & Hbound & h0 & Hh0 & Hh).
  unfold startersWithin.
  change (UserState.toNonces (UserState.pushBlank a))
    with (UserState.toNonces a).
  change (UserState.hashChainStarter (UserState.pushBlank a))
    with (UserState.hashChainStarter a).
  change (UserState.rows (UserState.pushBlank a))
    with (UserState.rows a ++ [UserState.blankRow a]).
  refine (conj _ (conj Hlast (conj _ _))).
  - apply (starters_extend a); try done. now apply prefix_app_r.
  - rewrite length_app. lia.
  - exists h0. split; [exact Hh0|].
    rewrite drop_app_le by exact Hbound.
    rewrite attestationsOfRows_snoc. cbn. now rewrite app_nil_r.
Qed.

Lemma starters_padding (m h : Z) (k : nat) (a : UserState.Acc) :
  startersWithin m h a ->
  startersWithin m h (Nat.iter k UserState.pushBlank a).
Proof.
  intros Hw. induction k as [|k IH]; [exact Hw|].
  change (Nat.iter (S k) UserState.pushBlank a)
    with (UserState.pushBlank (Nat.iter k UserState.pushBlank a)).
  now apply starters_pushBlank.
Qed.

(** A new batch of the same nonce starts from the running hash chain. *)
Lemma starters_openBatch (m h : Z) (a : UserState.Acc) :
  startersWithin m h a ->
  length (UserState.rows a)
  = (Z.to_nat NUM_ATTESTATIONS_PER_PROOF * length (UserState.toNonces a))%nat ->
  startersWithin m h (UserState.openBatch s m h a).
Proof.
  intros ((Hlen & Hhead & Hlinks) & Hlast & Hbound & h0 & Hh0 & Hh) Hfull.
  assert (Hpos : (0 < length (UserState.toNonces a))%nat).
  { destruct (UserState.toNonces a); [discriminate|cbn; lia]. }
  unfold startersWithin, starters. cbn. rewrite !length_app. cbn.
  replace (length (UserState.toNonces a) + 1 - 1)%nat
    with (length (UserState.toNonces a)) by lia.
  refine (conj (conj _ (conj _ _)) (conj _ (conj _ _))).
  - lia.
  - intros x Hx. apply Hhead. rewrite lookup_app_l in Hx by lia. exact Hx.
  - intros j Hj.
    destruct (decide (S j < length (UserState.toNonces a))%nat) as [Hin|Hout].
    + apply (starterLinkedAt_extend a); cbn; try done.
      * now apply prefix_app_r.
      * now apply prefix_app_r.
      * nia.
      * now apply Hlinks.
    + assert (Hj' : j = (length (UserState.toNonces a) - 1)%nat) by lia.
      subst j. intros t0 t' x x'. unfold rowsOfBatch. cbn.
      replace (S (length (UserState.toNonces a) - 1))
        with (length (UserState.toNonces a)) by lia.
      rewrite (lookup_app_l (UserState.toNonces a)) by lia.
      rewrite (lookup_app_l (UserState.hashChainStarter a)) by lia.
      rewrite (lookup_app_r (UserState.toNonces a)) by lia.
      rewrite (lookup_app_r (UserState.hashChainStarter a)) by lia.
      rewrite Hlen, Nat.sub_diag. cbn.
      rewrite last_lookup in Hlast.
      replace (pred (length (UserState.toNonces a)))
        with (length (UserState.toNonces a) - 1)%nat in Hlast by lia.
      rewrite Hlast, Hh0. intros [= <-] [= <-] [= <-] [= <-].
      rewrite bool_decide_eq_true_2 by reflexivity.
      rewrite take_ge; [exact Hh|]. rewrite length_drop. nia.
  - now rewrite last_snoc.
  - lia.
  - exists h. split.
    + rewrite lookup_app_r by lia. now rewrite Hlen, Nat.sub_diag.
    + rewrite drop_ge by lia. reflexivity.
Qed.

(** One turn of the loop over the attestations. *)
Lemma starters_step (m h i : Z) (att : Attestation.t) (a : UserState.Acc) :
  counted a i ->
  startersWithin m h a ->
  let a1 := if UserState.startsBatch i
            then UserState.openBatch s m h a else a in
  startersWithin m (hashLeftRight (attestation_hash att) h)
    (UserState.pushAttestation s att a1).
Proof.
  intros (Hi & (q & Hq) & Hr) Hw. cbn zeta.
  apply starters_pushAttestation.
  destruct (UserState.startsBatch i) eqn:Hb; [|exact Hw].
  destruct (startsBatch_true batchSize i Hi Hb) as [Hne Hc].
  destruct (Z.eqb_spec i 0) as [|_]; [contradiction|].
  pose proof (open_at_boundary batchSize _ _ i q Hne Hc Hq Hr) as He.
  apply starters_openBatch; [exact Hw|].
  apply Nat2Z.inj. rewrite Nat2Z.inj_mul, Z2Nat.id by lia. exact He.
Qed.

Lemma starters_attestationsLoop (m : Z) (atts : list Attestation.t) :
  forall (i : Z) (a : UserState.Acc) (h : Z),
    withinNonce s start m a -> counted a i ->
    startersWithin m h a ->
    let r := UserState.attestationsLoop s m atts i a h in
    startersWithin m (snd r) (fst r).
Proof.
  induction atts as [|att rest IH]; intros i a h Hw Hc Hs; cbn zeta.
  - exact Hs.
  - cbn [UserState.attestationsLoop].
    destruct (within_step s start batchSize m h i att a Hw Hc)
      as [Hw1 Hc1].
    pose proof (starters_step m h i att a Hc Hs) as Hs1.
    exact (IH _ _ _ Hw1 Hc1 Hs1).
Qed.

(** One turn of the loop over the nonces. *)
Lemma starters_nonceStep (fromEpochTree : SparseMerkleTree)
    (a a' : UserState.Acc) (m : Z) :
  betweenNonces s start a ->
  startersBetween m a ->
  UserState.nonceStep sync s fromEpochTree a m = inr a' ->
  startersBetween (m + 1) a'.
Proof.
  intros (Hs & He & Hbl & Hf & Hc) ((Hlen & Hhead & Hlinks) & Hbelow).
  unfold UserState.nonceStep.
  destruct (UserState.getAttestations sync _) as [e|attestations];
    [discriminate|].
  destruct (forallb _ _); [|discriminate].
  set (a0 := UserState.mkAcc _ _ _ _ _ (UserState.toNonces a ++ [m]) _ _ _ _ _).
  assert (Hrows : length (UserState.rows a)
                  = (Z.to_nat NUM_ATTESTATIONS_PER_PROOF
                     * length (UserState.toNonces a))%nat).
  { apply Nat2Z.inj. rewrite Nat2Z.inj_mul, Z2Nat.id by lia. exact He. }
  assert (Hw0 : withinNonce s start m a0).
  { refine (conj Hs _). subst a0. cbn. rewrite length_app. cbn.
    refine (conj (last_snoc _ _) (conj _ (conj _ _))); try lia.
    replace (length (UserState.toNonces a) + 1 - 1)%nat
      with (length (UserState.toNonces a)) by lia.
    eapply chained_extend; [| | | |exact Hc]; cbn; try reflexivity; try lia.
    now apply prefix_app_r. }
  assert (Hc0 : counted a0 0).
  { unfold counted. subst a0. cbn. rewrite length_app. cbn.
    split; [lia|]. split; [|lia].
    exists (Z.of_nat (length (UserState.toNonces a))). lia. }
  assert (Hs0 : startersWithin m 0 a0).
  { unfold startersWithin, starters. subst a0. cbn. rewrite !length_app. cbn.
    replace (length (UserState.toNonces a) + 1 - 1)%nat
      with (length (UserState.toNonces a)) by lia.
    refine (conj (conj _ (conj _ _)) (conj _ (conj _ _))).
    - lia.
    - intros x Hx.
      destruct (UserState.hashChainStarter a) as [|x0 st] eqn:Est.
      + cbn in Hx. congruence.
      + apply Hhead. cbn in Hx |- *. exact Hx.
    - intros j Hj.
      destruct (decide (S j < length (UserState.toNonces a))%nat) as [Hin|Hout].
      + apply (starterLinkedAt_extend a); cbn; try done.
        * now apply prefix_app_r.
        * now apply prefix_app_r.
        * nia.
        * now apply Hlinks.
      + assert (Hj' : j = (length (UserState.toNonces a) - 1)%nat) by lia.
        subst j. intros t0 t' x x'. cbn.
        replace (S (length (UserState.toNonces a) - 1))
          with (length (UserState.toNonces a)) by lia.
        rewrite (lookup_app_l (UserState.toNonces a)) by lia.
        rewrite (lookup_app_l (UserState.hashChainStarter a)) by lia.
        rewrite (lookup_app_r (UserState.toNonces a)) by lia.
        rewrite (lookup_app_r (UserState.hashChainStarter a)) by lia.
        rewrite Hlen, Nat.sub_diag. cbn.
        intros Ht0 [= <-] _ [= <-].
        rewrite bool_decide_eq_false_2; [reflexivity|].
        intros ->. apply (Z.lt_irrefl m). apply Hbelow.
        rewrite last_lookup.
        replace (pred (length (UserState.toNonces a)))
          with (length (UserState.toNonces a) - 1)%nat by lia.
        exact Ht0.
    - now rewrite last_snoc.
    - lia.
    - exists 0. split.
      + rewrite lookup_app_r by lia. now rewrite Hlen, Nat.sub_diag.
      + rewrite drop_ge by lia. reflexivity. }
  pose proof (within_attestationsLoop s start batchSize m attestations 0
                a0 0 Hw0 Hc0) as [Hw1 Hc1].
  pose proof (starters_attestationsLoop m attestations 0 a0 0 Hw0 Hc0 Hs0)
    as Hs1.
  destruct (UserState.attestationsLoop s m attestations 0 a0 0) as [a1 h].
  cbn [fst snd] in *.
  set (k := Z.to_nat _).
  pose proof (starters_padding m h k a1 Hs1) as (Hst2 & Hlast2 & _).
  intros [= <-]. split.
  - destruct Hst2 as (H1 & H2 & H3). refine (conj H1 (conj H2 _)).
    intros j Hj. cbn in Hj. specialize (H3 j Hj).
    intros t0 t' x x'. cbn. apply H3.
  - cbn. rewrite Hlast2. intros x [= <-]. lia.
Qed.

Lemma starters_noncesLoop (fromEpochTree : SparseMerkleTree) (k : nat) :
  forall (m : Z) (a a' : UserState.Acc),
    betweenNonces s start a ->
    startersBetween m a ->
    UserState.noncesLoop sync s fromEpochTree (seqZ m (Z.of_nat k)) a = inr a' ->
    startersBetween (m + Z.of_nat k) a'.
Proof.
  induction k as [|k IH]; intros m a a' Hb Hs.
  - cbn. intros [= <-]. now rewrite Z.add_0_r.
  - rewrite seqZ_cons by lia.
    replace (Z.pred (Z.of_nat (S k))) with (Z.of_nat k) by lia.
    cbn [UserState.noncesLoop].
    destruct (UserState.nonceStep sync s fromEpochTree a m) as [e|a1] eqn:E;
      [discriminate|].
    intros Hloop.
    pose proof (between_nonceStep sync s start batchSize fromEpochTree a a1 m
                  Hb E) as Hb1.
    pose proof (starters_nonceStep fromEpochTree a a1 m Hb Hs E) as Hs1.
    replace (m + Z.of_nat (S k)) with (Z.succ m + Z.of_nat k) by lia.
    apply (IH (Z.succ m) a1 a' Hb1); [|exact Hloop].
    now replace (Z.succ m) with (m + 1) by lia.
Qed.

End Starters.

Section StarterChain.

Context `{Crypto}.
Variable sync : Synchronizer.
Variable s : UserState.t.
Hypothesis batchSize : 0 < NUM_ATTESTATIONS_PER_PROOF.

Lemma initial_starters : startersBetween 0 (initialAcc sync s).
Proof.
  unfold startersBetween, starters, initialAcc. cbn.
  refine (conj (conj eq_refl (conj _ _)) _).
  - intros h Hh. discriminate.
  - intros j Hj. lia.
  - intros x Hx. discriminate.
Qed.

(** X26.  The hash chain runs through the batches of a nonce.  With at
    least one nonce per epoch, every batch of a successful run has a
    [hash_chain_starter]: 0 for the first batch and for every batch that
    ends at another nonce than the batch before it, and otherwise the hash
    chain of the batch before it, its starter carried on over the
    attestations of its rows. *)
Theorem transition_hash_chain_starters (r : UserState.TransitionInputs) :
  0 < numEpochKeyNoncePerEpoch (settings sync) ->
  UserState.genUserStateTransitionProofs_inputs sync s = inr r ->
  let batches := UserState.processAttestationCircuitInputs r in
  forall (j : nat) (b : ProcessAttestations.Inputs),
    batches !! j = Some b ->
    exists h : Z,
      ProcessAttestations.hash_chain_starter b = Some h
      /\ match j with
         | O => h = 0
         | S j' =>
             exists (b' : ProcessAttestations.Inputs) (h' : Z),
               batches !! j' = Some b'
               /\ ProcessAttestations.hash_chain_starter b' = Some h'
               /\ h = if bool_decide
                           (ProcessAttestations.to_nonce b'
                            = ProcessAttestations.to_nonce b)
                      then chainOver
                             (attestationsOfRows (ProcessAttestations.rows b'))
                             h'
                      else 0
         end.
Proof.
  intros Hn Hr. cbn zeta.
  destruct (inputs_run sync s r Hr) as (tree & a & _ & _ & _ & Hloop & Hp & _).
  pose proof (final_nonces sync s tree a Hloop) as Hfin.
  destruct (Z.ltb_spec 0 (numEpochKeyNoncePerEpoch (settings sync))); [|lia].
  destruct Hfin as (Hlink & _).
  apply (f_equal length) in Hlink. rewrite length_app in Hlink. cbn in Hlink.
  assert (Hst : startersBetween
                  (0 + Z.of_nat
                         (Z.to_nat (numEpochKeyNoncePerEpoch (settings sync))))
                  a).
  { apply (starters_noncesLoop sync s
             (hash5 [identityNullifier (UserState.id s);
                     smt_root (UserState.genUserStateTree sync s);
                     UserState.latestTransitionedEpoch s; 0; 0])
             batchSize tree _ 0 (initialAcc sync s)).
    - apply (initial_between sync s).
    - exact initial_starters.
    - rewrite Z2Nat.id by lia. exact Hloop. }
  destruct Hst as ((Hlen & Hhead & Hlinks) & _).
  rewrite Hp. intros j b Hb. apply (batch_lookup s) in Hb as [-> Hj].
  destruct (lookup_lt_is_Some_2 (UserState.hashChainStarter a) j ltac:(lia))
    as [h Hh].
  exists h. split; [exact Hh|].
  destruct j as [|j']; [now apply Hhead|].
  destruct (lookup_lt_is_Some_2 (UserState.hashChainStarter a) j' ltac:(lia))
    as [h' Hh'].
  destruct (lookup_lt_is_Some_2 (UserState.toNonces a) j' ltac:(lia))
    as [t Ht].
  destruct (lookup_lt_is_Some_2 (UserState.toNonces a) (S j') ltac:(lia))
    as [t' Ht'].
  exists (UserState.batchInputs s a j'), h'.
  split; [rewrite list_lookup_fmap, lookup_seq_lt by lia; reflexivity|].
  split; [exact Hh'|].
  rewrite (Hlinks j' ltac:(lia) t t' h' h Ht Ht' Hh' Hh).
  cbn. rewrite Ht, Ht', (slice_rows batchSize).
  destruct (decide (t = t')) as [->|Hne].
  - now rewrite !bool_decide_eq_true_2.
  - rewrite !bool_decide_eq_false_2; [reflexivity|congruence|congruence].
Qed.

End StarterChain.

(** Every batch of the sample transition has a starter. *)
Lemma transition_hash_chain_starters_witness :
  match
    UserState.genUserStateTransitionProofs_inputs (Sample.sync 2 [])
      Sample.signedUp
  with
  | inl _ => False
  | inr r =>
      forallb
        (fun b =>
           match ProcessAttestations.hash_chain_starter b with
           | Some _ => true
           | None => false
           end)
        (UserState.processAttestationCircuitInputs r) = true
  end.
Proof.
  pose proof sample_transition_runs as Hok.
  destruct (UserState.genUserStateTransitionProofs_inputs (Sample.sync 2 [])
              Sample.signedUp) as [e|r] eqn:E.
  - discriminate Hok.
  - apply forallb_forall. intros b Hb.
    apply list_elem_of_In, list_elem_of_lookup in Hb as [j Hj].
    destruct (transition_hash_chain_starters (Sample.sync 2 []) Sample.signedUp
                eq_refl r eq_refl E j b Hj) as (h & -> & _).
    reflexivity.
Defined.
